(* ===== verification/_CoqProject ===== *)
-Q . S2P
Prelude.v
Machine.v
Lwmqtt.v
Backoff.v
Effects.v
State.v
Diagnostics.v
Controller.v
World.v
Fixtures.v
Connect.v
Report.v
Variants.v
Tick.v
MacroAbs.v
Typing.v
Termination.v
Api.v
Lifecycle.v
Conformance.v
Wrap.v
Outage.v
Async.v
Mint.v
Inbox.v
Outbox.v
Scenarios.v
