(* ===== verification/Prelude.v ===== *)
(** * Verification of the Cloud IoT Core MQTT connection controller

    Program: [src/src/CloudIoTCoreMqtt.cpp], the class [CloudIoTCoreMqtt] of
    the google-cloud-iot-arduino library (this fork adds a retry gate with
    exponential back-off to [loop]).  The class keeps an MQTT session to the
    broker alive: it re-mints the JWT used as password before it expires,
    reconnects after a break, backs off after failures and reports why a
    connect failed.  Everything else (the MQTT client, the TLS socket, the
    device object that signs the JWT, the sketch's [getJwt] callback, the
    Arduino clock, random generator and serial port) is outside the file and
    is reached through calls.

    ** Parts of the program and where they are modelled

    - Arduino/C arithmetic ([Machine.v]): [int] and [unsigned long] as [Z]
      with the wrap-around written out ([wrap_int], [wrap_ulong]); the
      answers of [random]; the test
      [abs(__last_retry_at - millis()) >= __backoff__] of [loop] under the
      readings the C++ arithmetic conversions allow for the
      (header-declared) type of [__last_retry_at] and the [abs] in scope,
      as the class [RetryArith] with the instances [wide_arith],
      [int_arith] and [ulong_arith], and the laws [RetryArithLaws] a reading
      has to meet for the gate to wait; [elapsed] is the time between two
      readings of the wrapping clock.
    - lwmqtt enumerations ([Lwmqtt.v]): [lwmqtt_err_t] and
      [lwmqtt_return_code_t] with their numeric codes, which
      [Serial.println(lastError())] prints.
    - Back-off policy ([Backoff.v]): the arithmetic of
      [CloudIoTCoreMqtt::increaseBackoff] as [backoff_step], over a
      [BackoffConfig] holding the header's constants ([__minbackoff__],
      [__factor__], [__max_backoff__], [__jitter__]); [backoff_iter] is the
      delay after consecutive failures, [backoff_spec] the closed form of the
      specification.
    - Calls and programs ([Effects.v]): every call that leaves the file is a
      constructor of [Call]; a member function is a [Prog], a finite tree of
      calls, threaded through the object's fields by the state monad [M].
      [runs p t a] says that [p] can issue the calls and receive the answers
      listed in the trace [t] and return [a]; [run] executes a program
      against an environment given as a handler over a world; [script_env]
      is the environment that replays a trace, and [replays E t w w'] says
      that the trace [t] is what the environment [E] answers from the world
      [w].  [mruns_star] chains the calls of one member function.  The observations of a trace
      ([minted], [passwords], [clock], [subscriptions], ...) are what the
      theorems are stated with.
    - Object state ([State.v]): the fields of [CloudIoTCoreMqtt] (with the
      [iat] and [jwt] variables the file assigns), the immutable identity of
      [CloudIoTCoreDevice], the constants of [CloudIoTCore.h], the
      constructor and the three setters; [state_inv] is the invariant of the
      fields.
    - Diagnostics ([Diagnostics.v]): [logError], [logReturnCode],
      [logConfiguration]; the classification is the pure functions
      [error_name], [return_code_name], [invalidates_token].
    - Controller ([Controller.v]): [loop], [increaseBackoff], [mqttConnect],
      [mqttConnectAsync], [startMQTT], the eight publish overloads and
      [onConnect], each the whole member function, every call included, in
      the order of the source.  Beside each stands its reference result: the
      trace and the fields it leaves as functions of the answers it receives
      ([loop_trace], [loop_state], [mqttConnect_trace], ...), and the lemma
      that the runs of the member function are exactly those
      ([loop_runs], [mqttConnect_runs], ...).
    - Collaborators ([World.v]): a reference environment written from
      section 6 of the specification, in which the controller is executed:
      a clock, a credential provider that mints numbered tokens in force for
      an hour, a transport session whose connect is decided by the network
      (a list of outcomes) and by the broker's verdict on the token.  The
      class [Transport] is the contract of the session that clients of the
      controller rely on; the reference environment is an instance.
    - Session machine ([Lifecycle.v]): the states Disconnected, Connecting,
      Connected of the specification with the transitions [due], [connecting]
      and [settle] computed as [loop] and [mqttConnect] compute them, the
      gate of [due] being the one of the build ([RetryArith]);
      [System] closes the machine with the clock, the expiry, the network
      and the random numbers; [abstraction] and [system_of] read the machine
      off the fields and the world; [world_run] and [world_ticks] are the
      periodic driver calling [loop] in the reference environment, with
      the states after each call and the last of them.
    - The class as a sketch uses it ([Api.v]): [Op] names the public member
      functions with their arguments and [invoke] calls them; [reachable] is
      the transition system of an object called in any order, with any
      arguments and any answers of the collaborators, its [History] the
      calls made and the trace of each; [play] executes a list of calls in
      an environment.
    - The end of an outage ([Outage.v]): [outage_budget], the time within
      which the session is up when the network still has failures in store
      and [loop] is called at most [gap] milliseconds apart.
    - Reconnecting with [mqttConnectAsync] ([Async.v]): [world_calls] is a
      sketch that calls one member function after each interval of a
      schedule, in the reference environment; [stale] says that the
      controller holds a stamped token that the broker does not accept.
    - A credential provider that fails ([Mint.v]): [faulty_env] is the
      reference environment with a provider that mints or fails as a list of
      [MintOutcome]s says, a failure returning the empty token and leaving
      the expiry where it was; [faulty_ticks] is the periodic driver in it.
    - Machine of the specification ([Conformance.v]): the transitions as
      section 4.1 words them ([spec_due], [spec_settle], [spec_tick],
      [spec_system_tick]) and the condition [agreeable] under which the
      machine of the code makes the same tick.
    - The wrap of the clock ([Wrap.v]): the two tests of [loop] when
      [millis()] is within an hour of [2^32]; [in_storm] is the window in
      which the expiry of the token lies beyond the wrap.
    - Inbound channel ([Inbox.v]): the handler that [startMQTT] registers,
      the subscriptions made after a connect and the queue of messages
      that the pump of [loop] hands to the handler, from sections 6 and 9
      of the specification.  [Mailbox] is a fold over the trace of the
      controller ([mail_event], [mail_after]); [channel_tick] is the effect
      of one call of [loop]; [mail_ticks] is the periodic driver with
      messages arriving between the calls.
    - Outbound channel ([Outbox.v]): [received_of] reads off a trace the
      publishes that the session accepted, what the broker receives;
      [world_traces] are the traces of the calls of [loop] over a schedule
      and [connects_made] the ticks at which the machine connects.
    - [abs] as a macro ([MacroAbs.v]): [loop_macro] is [loop] with
      [abs] expanded as [((x)>0?(x):-(x))], which reads [millis()] twice;
      [macro_gate] is its test and [macro_arith] the arithmetic of the gate
      for a given second reading.
    - Properties of the runs ([Connect.v], [Tick.v]): what every run of
      [mqttConnect], [mqttConnectAsync] and [loop] does, stated on the
      observations of its trace.
    - The serial log read back ([Report.v]): [read_error],
      [read_return_code] and [read_endpoint] find in the lines printed the
      error, the return code and the endpoint they name.
    - The two connect functions compared ([Variants.v]): [same_actions],
      equality of traces up to the diagnostics, an equivalence under which
      concatenation is a morphism, and [variants_agree], the answers on which
      the tests of [mqttConnect] and [mqttConnectAsync] come to the same.
    - C types of the fields and number of calls ([Typing.v],
      [Termination.v]): [typed] says that the numeric fields are within
      their C types, [typed_answers] that the answers are within the types
      of the calls.
    - Concrete runs ([Fixtures.v], [Scenarios.v]): a device, the fields at the
      moments of interest and runs obtained by executing the member
      functions against scripts and in the reference environment.

    ** What the theorems show

    - [Machine]: ranges and fixpoints of the wraps; the wide reading of the
      retry gate and the one through [int] are open exactly when the delay
      has elapsed, the unsigned one is open one millisecond after an
      attempt; the gate through [int] at every pair of readings, across the
      wrap of the clock ([int_gate_wraps]).
    - [Backoff]: the delay stays in [[min, max]] over any sequence of
      failures; the sum formed by the step fits an [int] and the step is the
      closed form of the specification; growth by the factor; saturation at
      the ceiling; the restart from the minimum after a reset; the overflow
      outside the valid configurations.
    - [Diagnostics]: [logReturnCode] clears [iat] on the two rejections and
      changes nothing otherwise; [logConfiguration] prints the same endpoint
      whatever the flags.
    - [Controller]: the publish overloads pass through; [startMQTT] selects
      host and port from the flags; [increaseBackoff] is [backoff_step].
    - [World]: against every environment that meets [Transport], a publish
      made while the session is down returns false and changes nothing.
    - [Lifecycle]: the controller implements the session machine
      ([ticks_refine]: the calls of [loop] in the reference environment, at
      any intervals and with the session breaking at any of them, are the
      ticks of the machine, state by state, in every arithmetic of the
      gate and at every reading of the clock), and the session comes back
      once the delay has passed when the network allows it
      ([reconnects_eventually], for a lawful gate).
    - [Api]: whatever the sketch calls and in whatever order, the delay
      stays within the bounds of the policy, [__last_retry_at] within
      [unsigned long] and the device is the one given to the constructor
      ([api_inv]); as long as [logConfiguration(true)] is not called, every
      connect presents the token minted last ([connects_present_latest]);
      after [logConfiguration(true)] the token printed is not the one
      presented ([shown_token_is_not_stored]).
    - [Outage]: with [k] failures in store, of whatever kind, the calls of
      [loop] made at most [gap] milliseconds apart bring the session up
      within the current delay, a gap and [k] times the largest delay and a
      gap; the delay is then back at its minimum ([outage_ends]).
    - [Async]: from a stale token [mqttConnect] is refused once, clears the
      token and is connected by the second call; [mqttConnectAsync], which
      reads the return code only when [connect] returned true, presents the
      same token at every call and stays down, whatever the network does
      ([stale_token_paths]).
    - [Mint]: on a device whose token has lapsed, every call of [loop] made
      while the provider fails presents the empty token to the broker,
      whatever the delay of the back-off ([mint_outage_storm]); with no
      failure in store the environment is the reference environment
      ([mrun_healthy]), and the call after the outage connects
      ([mint_outage_ends]).
    - [Conformance]: while every tick is [agreeable] the calls of [loop]
      make the ticks of the machine of the specification
      ([run_conforms]); at the instant of the expiry, on a connect that
      fails without an error and on a retry with a token in force the two
      machines part (three examples).
    - [Wrap]: the gate of [int abs(int)] measures the time since the last
      attempt across the wrap of the clock; a token minted within an hour
      of the wrap counts as expired at every call of [loop] until the
      clock has wrapped ([expiry_wrap_storm]).
    - [Inbox]: messages reach the handler in the order of their arrival
      and none is lost over failed connects, breaks and reconnects
      ([delivery_in_order]); whenever the session is up both topics are
      subscribed, the config topic at QoS 1 and the commands topic at QoS 0
      ([subscribed_while_up]); a session that stays up hands over one
      queued message per call ([inbox_drains]).
    - [Outbox]: over any schedule the broker receives the notifications of
      [onConnect] at the ticks at which a connect is made and succeeds, and
      nothing else ([notifications_follow_connects]).
    - [Connect]: for every run of [mqttConnect], the token presented and
      when it is minted, the back-off raised on failure and reset otherwise,
      [iat] cleared on rejection so that the next attempt mints, the
      subscriptions and notifications, the invariant over consecutive
      attempts; the divergent test of [mqttConnectAsync].
    - [Report]: the log of a failed attempt names the error and the return
      code that the client last reported ([diagnosis_roundtrip]); the
      endpoint that [logConfiguration] prints is the one [startMQTT] set the
      client up for exactly when [useLts] is set and [use443Port] is not
      ([endpoint_report]).
    - [Variants]: on the same answers the two connect functions leave the
      same fields and make the same calls, diagnostics aside, exactly when
      [variants_agree] holds of the answers ([connect_variants_equiv]); a
      rejected token separates them.
    - [Typing]: every member function keeps the fields within their C
      types, for every configuration of [int] constants, overflow included
      ([member_functions_typed]).
    - [Termination]: a call of [loop] makes at most 33 calls to the
      collaborators, and the bound is attained ([calls_bounded]).
    - [Tick]: for every run of [loop], no connect while connected and
      unexpired, no retry before the delay has elapsed (for a lawful gate),
      a retry when it is due, the refresh of an expired token, one attempt
      at most per call, the message pump at the end of every call, the
      invariant after any number of calls.
    - [MacroAbs]: every run of [loop_macro] is a run of [loop] in the
      arithmetic of its second reading, with that reading added to the
      trace ([loop_macro_as_loop]); the gate of the macro is open a
      millisecond after an attempt ([macro_gate_open_early]).
    - [Scenarios]: the clean reconnect cycle and the repeated rejection of
      the specification, and the runs that exhibit the divergences found.

    ** Bounds

    Integers are 32 bits ([int], [long], [unsigned long] on ESP8266/ESP32,
    the targets of the library).  Programs are finite trees, so no fuel is
    needed: [run] is structurally recursive and total, and every member
    function has a run in every environment ([runs_total], [mrun_refines]).
    The refinement of [Lifecycle] holds at every reading of the clock; its
    theorems of recovery ([reconnects_eventually], [outage_ends]) hold while the clock of the reference environment
    is below [2^31] milliseconds (24.8 days): below it the clock has not
    wrapped and the difference [__last_retry_at - millis()] fits an [int],
    so that the gate computed through [int abs(int)] and the one computed
    without wrap-around agree ([RetryArithLaws]); beyond it the behaviour
    depends on the reading of the gate, which [Machine] and [Wrap] treat
    by themselves.  The conformance to the machine of the specification
    ([Conformance]) is proved below [2^31] milliseconds as well.  A token
    of the reference environment is in force for [TOKEN_LIFE], one hour;
    [outage_ends] is stated for schedules within that hour, so that no
    refresh of the token falls into the outage; the theorems of [Mint] hold
    while the clock is below [2^32] milliseconds, so that the expiry test
    compares unwrapped readings;
    the pump of the inbound channel hands over one message per call.

    ** Not modelled

    The MQTT client, the network client, JWT signing and the serial port are
    not in [src/]; their calls are events whose answers the environment
    chooses, so the theorems of [Connect] and [Tick] hold for every
    behaviour of the client and of the broker.  The reference environment
    of [World] is written from the specification, not from the code of the
    client: it has no wire protocol and no keep-alive; its credential
    provider always mints, the one of [Mint] fails on demand, and neither
    signs anything.  The inbound channel of [Inbox] and the record of [Outbox] are
    written from the specification as well: messages are addressed by the topic filter they
    arrive under (wildcards are not matched against topic names), the pump
    hands over one message per call, and the body of [messageReceived],
    which belongs to the sketch, is not modelled.  The machine of [Lifecycle] does not cover
    [mqttConnectAsync], which [loop] never calls; [Async] follows it in the
    reference environment from a token that the broker does not accept.  The header
    [CloudIoTCoreMqtt.h] is not in [src/] either: the constants and field
    types it declares are parameters ([BackoffConfig], [RetryArith]) with
    the upstream values as instances.  The conversion to [int] of a sum that
    does not fit is modelled as wrap-around; C++ leaves it undefined.  In
    [loop] the argument of [abs] is evaluated once; [loop_macro] is the
    member function under a core that defines [abs] as a macro.

    This file is the prelude: the scope, tactics, hint databases and the
    lemmas on integers that the component files share. *)

From stdpp Require Export base tactics numbers list strings pretty.
From Stdlib Require Export ZArith Lia.

#[global] Open Scope Z_scope.

(** ** Hint databases

    [ciot] holds the resolution lemmas of the development (bounds,
    invariants); [ciot_unfold] the monad operations that symbolic execution
    unfolds; [ciot_rw] the rewrites that normalise fields and wraps;
    [ciot_obs] those that distribute an observation over a trace. *)

Create HintDb ciot discriminated.
Create HintDb ciot_unfold discriminated.
Create Rewrite HintDb ciot_rw.
Create Rewrite HintDb ciot_obs.

(** ** Tactics *)

(** Side conditions of rewrites: arithmetic, an assumption, or a lemma of
    the [ciot] database. *)
Ltac side := solve [ lia | done | eauto with ciot ].

(** ** Characters that string literals cannot hold *)

Definition LF : string := String (Ascii.ascii_of_nat 10) EmptyString.
Definition TAB : string := String (Ascii.ascii_of_nat 9) EmptyString.

(** ** Truncating division by a positive denominator

    C converts a non-negative floating product to [int] by truncation;
    [Z.quot] rounds toward zero like it. *)

Lemma quot_scale_ge b n d : 0 <= b -> 0 < d <= n -> b <= (b * n) ÷ d.
Proof.
  intros Hb [Hd Hn]. apply Z.quot_le_lower_bound; [done|]. nia.
Qed.

Lemma quot_scale_nonneg b n d : 0 <= b -> 0 <= n -> 0 < d -> 0 <= (b * n) ÷ d.
Proof. intros. apply Z.quot_pos; nia. Qed.

Lemma quot_scale_mono a b n d :
  0 <= a <= b -> 0 <= n -> 0 < d -> (a * n) ÷ d <= (b * n) ÷ d.
Proof. intros [??] ??. apply Z.quot_le_mono; nia. Qed.

Lemma quot_scale_le b n d : 0 <= b -> 0 <= n -> 0 < d -> (b * n) ÷ d <= b * n.
Proof.
  intros. destruct (decide (b * n = 0)) as [->|]; [by rewrite Z.quot_0_l by lia|].
  apply Z.quot_le_upper_bound; nia.
Qed.

#[export] Hint Resolve quot_scale_ge quot_scale_nonneg quot_scale_mono : ciot.
