(* ===== verification/Machine.v ===== *)
(** * C integers of the target and the arithmetic of the retry gate

    The library targets ESP8266 and ESP32, where [int], [long] and
    [unsigned long] are 32 bits wide.  Values are kept in [Z]; a conversion
    to a C type is the wrap written out.  The last section gives the
    meanings the expression [abs(__last_retry_at - millis()) >= __backoff__]
    of [CloudIoTCoreMqtt::loop] can have, depending on the type the header
    declares for [__last_retry_at] and on the [abs] in scope, and says for
    each of them when the gate is open, also across the wrap of the
    clock. *)

From S2P Require Import Prelude.

(** ** Ranges and wraps *)

Definition INT_MIN : Z := - 2 ^ 31.
Definition INT_MAX : Z := 2 ^ 31 - 1.
Definition ULONG_MAX : Z := 2 ^ 32 - 1.

Definition in_int (z : Z) : Prop := INT_MIN <= z <= INT_MAX.
Definition in_ulong (z : Z) : Prop := 0 <= z <= ULONG_MAX.

#[export] Instance in_int_dec z : Decision (in_int z).
Proof. unfold in_int. apply _. Defined.

#[export] Instance in_ulong_dec z : Decision (in_ulong z).
Proof. unfold in_ulong. apply _. Defined.

(** Conversion to [unsigned long]: reduction modulo [2^32]. *)
Definition wrap_ulong (z : Z) : Z := z mod 2 ^ 32.

(** Conversion to [int] ([long]): the representative in [[-2^31, 2^31)]. *)
Definition wrap_int (z : Z) : Z := (z + 2 ^ 31) mod 2 ^ 32 - 2 ^ 31.

(** [abs] as the Arduino cores define it, [((x)>0?(x):-(x))], at a signed
    type wide enough for [-x] and at [unsigned long], where [-x] wraps.  Its
    argument is taken as evaluated once, as by a function: where [abs] is
    the macro of the older cores, [millis()] in its argument is read again
    in the branch chosen, which [MacroAbs.v] follows. *)
Definition abs_macro (x : Z) : Z := if decide (x > 0) then x else - x.
Definition abs_macro_ulong (x : Z) : Z :=
  if decide (x > 0) then x else wrap_ulong (- x).

(** ** The retry gate

    [gate_open last now backoff] is the value of
    [abs(__last_retry_at - millis()) >= __backoff__], where [last] is the
    stored [__last_retry_at], [now] the answer of [millis()] and [backoff]
    the [int] field [__backoff__]. *)
Class RetryArith := { gate_open : Z -> Z -> Z -> bool }.

(** [__last_retry_at] of a signed type wider than 32 bits (or a floating
    type): the subtraction is exact and [abs] is the absolute value. *)
Definition wide_gate (last now backoff : Z) : bool :=
  bool_decide (abs_macro (last - now) >= backoff).

(** [__last_retry_at] of type [unsigned long], [long] or [int]: the
    subtraction is done at [unsigned long], [abs] finds a value that is never
    negative, and [__backoff__] is converted to [unsigned long] for the
    comparison. *)
Definition ulong_gate (last now backoff : Z) : bool :=
  bool_decide (abs_macro_ulong (wrap_ulong (last - now)) >= wrap_ulong backoff).

(** [abs] resolved to C's [int abs(int)]: the difference, computed at
    [unsigned long], is converted to [int] before the absolute value is
    taken. *)
Definition int_gate (last now backoff : Z) : bool :=
  bool_decide (wrap_int (abs_macro (wrap_int (wrap_ulong (last - now)))) >= backoff).

(** The time that has passed between two readings of a clock that wraps at
    [2^32]. *)
Definition elapsed (last now : Z) : Z := wrap_ulong (now - last).

(** What the gate through [int abs(int)] compares the delay with, as a
    function of the time elapsed: the time itself up to [INT_MAX]; at
    [2^31] the absolute value overflows to [INT_MIN]; beyond, the time left
    until the difference wraps. *)
Definition int_gate_measure (e : Z) : Z :=
  if decide (e <= INT_MAX) then e
  else if decide (e = 2 ^ 31) then INT_MIN else 2 ^ 32 - e.

Definition wide_arith : RetryArith := {| gate_open := wide_gate |}.
Definition ulong_arith : RetryArith := {| gate_open := ulong_gate |}.
Definition int_arith : RetryArith := {| gate_open := int_gate |}.

(** What the controller's retry discipline needs from the gate: after an
    attempt at [last], at a later reading [now] of the clock less than
    [2^31] milliseconds away, the gate is open exactly when [backoff]
    milliseconds have passed. *)
Class RetryArithLaws (RA : RetryArith) : Prop := {
  gate_open_elapsed last now backoff :
    0 <= last <= now -> now <= ULONG_MAX -> now - last <= INT_MAX ->
    0 <= backoff <= INT_MAX ->
    gate_open last now backoff = true <-> backoff <= now - last
}.

(** ** [random]

    The answers Arduino's [random(howbig)] can give: [0] when [howbig] is
    [0], else a value below [howbig]. *)
Definition random_range (howbig r : Z) : Prop :=
  0 <= r <= Z.max 0 (Z.abs howbig - 1).

#[export] Instance random_range_dec howbig r : Decision (random_range howbig r).
Proof. unfold random_range. apply _. Defined.

(** ** Lemmas on the wraps *)

Lemma wrap_ulong_range z : in_ulong (wrap_ulong z).
Proof.
  unfold in_ulong, wrap_ulong, ULONG_MAX.
  pose proof (Z.mod_pos_bound z (2 ^ 32)). lia.
Qed.

Lemma wrap_ulong_id z : in_ulong z -> wrap_ulong z = z.
Proof. unfold in_ulong, wrap_ulong, ULONG_MAX. intros. apply Z.mod_small. lia. Qed.

Lemma wrap_ulong_idem z : wrap_ulong (wrap_ulong z) = wrap_ulong z.
Proof. apply wrap_ulong_id, wrap_ulong_range. Qed.

Lemma wrap_ulong_neg z : 0 < z <= 2 ^ 32 -> wrap_ulong (- z) = 2 ^ 32 - z.
Proof.
  intros. unfold wrap_ulong.
  replace (- z) with ((2 ^ 32 - z) + (-1) * 2 ^ 32) by lia.
  rewrite Z.mod_add by lia. apply Z.mod_small. lia.
Qed.

Lemma wrap_int_range z : in_int (wrap_int z).
Proof.
  unfold in_int, wrap_int, INT_MIN, INT_MAX.
  pose proof (Z.mod_pos_bound (z + 2 ^ 31) (2 ^ 32)). lia.
Qed.

Lemma wrap_int_id z : in_int z -> wrap_int z = z.
Proof.
  unfold in_int, wrap_int, INT_MIN, INT_MAX. intros.
  rewrite Z.mod_small by lia. lia.
Qed.

Lemma wrap_int_idem z : wrap_int (wrap_int z) = wrap_int z.
Proof. apply wrap_int_id, wrap_int_range. Qed.

(** One past [INT_MAX] wraps to [INT_MIN]: the overflow the back-off
    arithmetic must stay clear of. *)
Lemma wrap_int_overflow : wrap_int (INT_MAX + 1) = INT_MIN.
Proof. reflexivity. Qed.

Lemma abs_macro_abs x : abs_macro x = Z.abs x.
Proof. unfold abs_macro. case_decide; lia. Qed.

Lemma abs_macro_ulong_id x : in_ulong x -> abs_macro_ulong x = x.
Proof.
  unfold abs_macro_ulong, in_ulong. intros. case_decide; [done|].
  by replace x with 0 by lia.
Qed.

#[export] Hint Resolve wrap_ulong_range wrap_int_range : ciot.
#[export] Hint Rewrite wrap_ulong_idem wrap_int_idem abs_macro_abs : ciot_rw.

(** ** The two gates *)

Lemma wide_gate_spec last now backoff :
  wide_gate last now backoff = true <-> backoff <= Z.abs (last - now).
Proof.
  unfold wide_gate. rewrite bool_decide_eq_true, abs_macro_abs. lia.
Qed.

(** The wide reading meets the laws. *)
#[export] Instance wide_arith_laws : RetryArithLaws wide_arith.
Proof.
  constructor. intros last now backoff ????. simpl.
  rewrite wide_gate_spec. lia.
Qed.

(** Within [2^31] milliseconds of the attempt, the conversion to [int]
    recovers the difference that the unsigned subtraction wrapped. *)
Lemma int_gate_spec last now backoff :
  0 <= last <= now -> now <= ULONG_MAX -> now - last <= INT_MAX ->
  int_gate last now backoff = true <-> backoff <= now - last.
Proof.
  unfold ULONG_MAX, INT_MAX. intros ???. unfold int_gate.
  rewrite bool_decide_eq_true.
  assert (wrap_int (wrap_ulong (last - now)) = last - now) as ->.
  { unfold wrap_int, wrap_ulong. rewrite Zplus_mod_idemp_l.
    rewrite Z.mod_small by lia. lia. }
  rewrite abs_macro_abs, wrap_int_id by (unfold in_int, INT_MIN, INT_MAX; lia). lia.
Qed.

#[export] Instance int_arith_laws : RetryArithLaws int_arith.
Proof. constructor. intros. by apply int_gate_spec. Qed.

(** Under the laws the gate is the one computed without wrap-around. *)
Lemma gate_open_wide `{RA : RetryArith} `{!RetryArithLaws RA} last now backoff :
  0 <= last <= now -> now <= ULONG_MAX -> now - last <= INT_MAX ->
  0 <= backoff <= INT_MAX ->
  gate_open last now backoff = wide_gate last now backoff.
Proof.
  intros. pose proof (gate_open_elapsed last now backoff) as Hg.
  pose proof (wide_gate_spec last now backoff) as Hw.
  destruct (gate_open last now backoff), (wide_gate last now backoff);
    first [done | exfalso; intuition lia | intuition lia].
Qed.

(** At [unsigned long] the difference [last - now] of an earlier and a later
    reading wraps to [2^32 - (now - last)]. *)
Lemma ulong_gate_spec last now backoff :
  0 <= last < now -> now <= ULONG_MAX -> 0 <= backoff <= INT_MAX ->
  ulong_gate last now backoff = true <-> backoff <= 2 ^ 32 - (now - last).
Proof.
  unfold ULONG_MAX, INT_MAX. intros ???. unfold ulong_gate.
  rewrite bool_decide_eq_true.
  replace (last - now) with (- (now - last)) by lia.
  rewrite wrap_ulong_neg by lia.
  rewrite abs_macro_ulong_id by (unfold in_ulong, ULONG_MAX; lia).
  rewrite (wrap_ulong_id backoff) by (unfold in_ulong, ULONG_MAX; lia). lia.
Qed.

(** C35. The unsigned reading of the retry gate does not wait.  If
    [__last_retry_at - millis()] is computed at [unsigned long], the gate of
    [loop] is open one millisecond after an attempt, whatever the delay, and
    stays open for the next [2^31] milliseconds (24 days). *)
Lemma ulong_gate_open_early last now backoff :
  0 <= last < now -> now <= ULONG_MAX -> 0 <= backoff <= INT_MAX ->
  now - last <= 2 ^ 31 ->
  ulong_gate last now backoff = true.
Proof.
  intros ? ? ? ?. apply ulong_gate_spec; [done..|].
  unfold ULONG_MAX, INT_MAX in *. lia.
Qed.

(** At the very millisecond of the attempt the unsigned gate is closed for
    any positive back-off. *)
Lemma ulong_gate_same_instant now backoff :
  0 < backoff <= INT_MAX -> ulong_gate now now backoff = false.
Proof.
  unfold INT_MAX. intros. unfold ulong_gate. rewrite Z.sub_diag.
  apply bool_decide_eq_false. change (abs_macro_ulong (wrap_ulong 0)) with 0.
  rewrite wrap_ulong_id by (unfold in_ulong, ULONG_MAX; lia). lia.
Qed.

(** The two readings disagree as soon as time has passed and the back-off
    has not: the unsigned reading cannot meet the laws. *)
Lemma ulong_arith_not_lawful : ~ RetryArithLaws ulong_arith.
Proof.
  intros [H]. specialize (H 0 1 1000). simpl in H.
  rewrite ulong_gate_spec in H by (unfold ULONG_MAX, INT_MAX; lia).
  unfold ULONG_MAX, INT_MAX in H. lia.
Qed.

(** The wide reading of the retry gate waits.  If the difference is
    computed without wrap-around, then for a last attempt not in the future
    the gate of [loop] is open exactly when the delay has elapsed. *)
Theorem wide_gate_waits last now backoff :
  last <= now -> wide_gate last now backoff = true <-> backoff <= now - last.
Proof. intros. rewrite wide_gate_spec. lia. Qed.

(** C36. The gate through [int abs(int)], at every pair of readings.  For
    readings of the 32-bit clock, wrapped or not, the gate is open exactly
    when the delay is at most [int_gate_measure] of the time elapsed: the
    gate measures the time since the attempt, across a wrap of the clock
    too, as long as less than [2^31] ms (24.8 days) have passed; at [2^31]
    it is closed, and beyond it measures the time left until [2^32]. *)
Theorem int_gate_wraps last now backoff :
  in_ulong last -> in_ulong now ->
  int_gate last now backoff
  = bool_decide (backoff <= int_gate_measure (elapsed last now)).
Proof.
  unfold in_ulong, ULONG_MAX, int_gate, int_gate_measure, elapsed, wrap_int, wrap_ulong,
    abs_macro, INT_MAX, INT_MIN.
  intros ??. apply bool_decide_ext.
  repeat case_decide; Z.div_mod_to_equations; lia.
Qed.

(** ** On concrete readings *)

Lemma ulong_gate_open_early_witness : ulong_gate 70000 70001 2137 = true.
Proof.
  apply (ulong_gate_open_early 70000 70001 2137).
  all: vm_compute; intuition discriminate.
Defined.

Lemma wide_gate_waits_witness : wide_gate 70000 70001 2137 = true <-> 2137 <= 70001 - 70000.
Proof. apply (wide_gate_waits 70000 70001 2137). vm_compute; discriminate. Defined.

(** Fifteen milliseconds across the wrap of the clock, with a delay of ten. *)
Lemma int_gate_wraps_witness :
  int_gate (2 ^ 32 - 10) 5 10 = bool_decide (10 <= int_gate_measure (elapsed (2 ^ 32 - 10) 5)).
Proof. apply (int_gate_wraps (2 ^ 32 - 10) 5 10); by apply (bool_decide_unpack _). Defined.
