(* ===== verification/Lwmqtt.v ===== *)
(** * The lwmqtt enumerations the controller inspects

    [lwmqtt_err_t] is the type of [MQTTClient::lastError()],
    [lwmqtt_return_code_t] that of [MQTTClient::returnCode()].  The
    enumerators are those named by [logError], [logReturnCode] and
    [mqttConnect]; their numeric values, which [Serial.println] prints, are
    the ones of [lwmqtt.h].  Both types are finite with decidable equality,
    so statements quantified over them are decided by computation. *)

From S2P Require Import Prelude.
From stdpp Require Import finite.

#[local] Open Scope Z_scope.

Inductive lwmqtt_err_t : Set :=
| LWMQTT_SUCCESS
| LWMQTT_BUFFER_TOO_SHORT
| LWMQTT_VARNUM_OVERFLOW
| LWMQTT_NETWORK_FAILED_CONNECT
| LWMQTT_NETWORK_TIMEOUT
| LWMQTT_NETWORK_FAILED_READ
| LWMQTT_NETWORK_FAILED_WRITE
| LWMQTT_REMAINING_LENGTH_OVERFLOW
| LWMQTT_REMAINING_LENGTH_MISMATCH
| LWMQTT_MISSING_OR_WRONG_PACKET
| LWMQTT_CONNECTION_DENIED
| LWMQTT_FAILED_SUBSCRIPTION
| LWMQTT_SUBACK_ARRAY_OVERFLOW
| LWMQTT_PONG_TIMEOUT.

Inductive lwmqtt_return_code_t : Set :=
| LWMQTT_CONNECTION_ACCEPTED
| LWMQTT_UNACCEPTABLE_PROTOCOL
| LWMQTT_IDENTIFIER_REJECTED
| LWMQTT_SERVER_UNAVAILABLE
| LWMQTT_BAD_USERNAME_OR_PASSWORD
| LWMQTT_NOT_AUTHORIZED
| LWMQTT_UNKNOWN_RETURN_CODE.

#[export] Instance lwmqtt_err_eq_dec : EqDecision lwmqtt_err_t.
Proof. solve_decision. Defined.

#[export] Instance lwmqtt_return_code_eq_dec : EqDecision lwmqtt_return_code_t.
Proof. solve_decision. Defined.

#[export] Instance lwmqtt_err_inhabited : Inhabited lwmqtt_err_t :=
  populate LWMQTT_SUCCESS.

#[export] Instance lwmqtt_return_code_inhabited : Inhabited lwmqtt_return_code_t :=
  populate LWMQTT_CONNECTION_ACCEPTED.

Definition lwmqtt_err_all : list lwmqtt_err_t :=
  [ LWMQTT_SUCCESS; LWMQTT_BUFFER_TOO_SHORT; LWMQTT_VARNUM_OVERFLOW;
    LWMQTT_NETWORK_FAILED_CONNECT; LWMQTT_NETWORK_TIMEOUT;
    LWMQTT_NETWORK_FAILED_READ; LWMQTT_NETWORK_FAILED_WRITE;
    LWMQTT_REMAINING_LENGTH_OVERFLOW; LWMQTT_REMAINING_LENGTH_MISMATCH;
    LWMQTT_MISSING_OR_WRONG_PACKET; LWMQTT_CONNECTION_DENIED;
    LWMQTT_FAILED_SUBSCRIPTION; LWMQTT_SUBACK_ARRAY_OVERFLOW;
    LWMQTT_PONG_TIMEOUT ].

Definition lwmqtt_return_code_all : list lwmqtt_return_code_t :=
  [ LWMQTT_CONNECTION_ACCEPTED; LWMQTT_UNACCEPTABLE_PROTOCOL;
    LWMQTT_IDENTIFIER_REJECTED; LWMQTT_SERVER_UNAVAILABLE;
    LWMQTT_BAD_USERNAME_OR_PASSWORD; LWMQTT_NOT_AUTHORIZED;
    LWMQTT_UNKNOWN_RETURN_CODE ].

#[export, refine] Instance lwmqtt_err_finite : Finite lwmqtt_err_t :=
  {| enum := lwmqtt_err_all |}.
Proof.
  - by apply (bool_decide_unpack _).
  - intros []; by apply (bool_decide_unpack _).
Defined.

#[export, refine] Instance lwmqtt_return_code_finite : Finite lwmqtt_return_code_t :=
  {| enum := lwmqtt_return_code_all |}.
Proof.
  - by apply (bool_decide_unpack _).
  - intros []; by apply (bool_decide_unpack _).
Defined.

(** The value of an enumerator as an [int]. *)
Definition lwmqtt_err_code (e : lwmqtt_err_t) : Z :=
  match e with
  | LWMQTT_SUCCESS => 0
  | LWMQTT_BUFFER_TOO_SHORT => -1
  | LWMQTT_VARNUM_OVERFLOW => -2
  | LWMQTT_NETWORK_FAILED_CONNECT => -3
  | LWMQTT_NETWORK_TIMEOUT => -4
  | LWMQTT_NETWORK_FAILED_READ => -5
  | LWMQTT_NETWORK_FAILED_WRITE => -6
  | LWMQTT_REMAINING_LENGTH_OVERFLOW => -7
  | LWMQTT_REMAINING_LENGTH_MISMATCH => -8
  | LWMQTT_MISSING_OR_WRONG_PACKET => -9
  | LWMQTT_CONNECTION_DENIED => -10
  | LWMQTT_FAILED_SUBSCRIPTION => -11
  | LWMQTT_SUBACK_ARRAY_OVERFLOW => -12
  | LWMQTT_PONG_TIMEOUT => -13
  end.

Definition lwmqtt_return_code_code (r : lwmqtt_return_code_t) : Z :=
  match r with
  | LWMQTT_CONNECTION_ACCEPTED => 0
  | LWMQTT_UNACCEPTABLE_PROTOCOL => 1
  | LWMQTT_IDENTIFIER_REJECTED => 2
  | LWMQTT_SERVER_UNAVAILABLE => 3
  | LWMQTT_BAD_USERNAME_OR_PASSWORD => 4
  | LWMQTT_NOT_AUTHORIZED => 5
  | LWMQTT_UNKNOWN_RETURN_CODE => 6
  end.

(** The enumerator of an [int], when there is one. *)
Definition lwmqtt_err_of_code (z : Z) : option lwmqtt_err_t :=
  List.find (fun e => bool_decide (lwmqtt_err_code e = z)) lwmqtt_err_all.

Definition lwmqtt_return_code_of_code (z : Z) : option lwmqtt_return_code_t :=
  List.find (fun r => bool_decide (lwmqtt_return_code_code r = z))
    lwmqtt_return_code_all.

(** ** Properties of the encodings *)

Lemma lwmqtt_err_of_code_code e : lwmqtt_err_of_code (lwmqtt_err_code e) = Some e.
Proof. by destruct e. Qed.

Lemma lwmqtt_return_code_of_code_code r :
  lwmqtt_return_code_of_code (lwmqtt_return_code_code r) = Some r.
Proof. by destruct r. Qed.

#[export] Instance lwmqtt_err_code_inj : Inj (=) (=) lwmqtt_err_code.
Proof.
  intros e1 e2 H. apply (inj Some).
  by rewrite <- !lwmqtt_err_of_code_code, H.
Qed.

#[export] Instance lwmqtt_return_code_code_inj : Inj (=) (=) lwmqtt_return_code_code.
Proof.
  intros r1 r2 H. apply (inj Some).
  by rewrite <- !lwmqtt_return_code_of_code_code, H.
Qed.

Lemma lwmqtt_err_code_of_code z e :
  lwmqtt_err_of_code z = Some e -> lwmqtt_err_code e = z.
Proof.
  unfold lwmqtt_err_of_code. intros H. apply List.find_some in H as [_ H].
  by apply bool_decide_eq_true in H.
Qed.

Lemma lwmqtt_return_code_code_of_code z r :
  lwmqtt_return_code_of_code z = Some r -> lwmqtt_return_code_code r = z.
Proof.
  unfold lwmqtt_return_code_of_code. intros H.
  apply List.find_some in H as [_ H]. by apply bool_decide_eq_true in H.
Qed.

(** Error codes are never positive and return codes never negative;
    [LWMQTT_SUCCESS] is the only error code that is zero. *)
Lemma lwmqtt_err_code_range e : -13 <= lwmqtt_err_code e <= 0.
Proof. destruct e; simpl; lia. Qed.

Lemma lwmqtt_return_code_code_range r : 0 <= lwmqtt_return_code_code r <= 6.
Proof. destruct r; simpl; lia. Qed.

Lemma lwmqtt_err_code_zero e : lwmqtt_err_code e = 0 <-> e = LWMQTT_SUCCESS.
Proof. split; [|by intros ->]. change 0 with (lwmqtt_err_code LWMQTT_SUCCESS). apply (inj _). Qed.

#[export] Hint Resolve lwmqtt_err_code_range lwmqtt_return_code_code_range : ciot.
