(* ===== verification/Backoff.v ===== *)
(** * The back-off policy

    The arithmetic of [CloudIoTCoreMqtt::increaseBackoff]: clamp the delay up
    to the minimum, multiply by the factor, add the jitter drawn by
    [random(__jitter__)], clamp down to the maximum.  The constants are
    fields of the class declared in the header; they are gathered in
    [BackoffConfig].  [__backoff__] is an [int]: the sum is converted with
    [wrap_int], and [backoff_step_no_overflow] shows that under a valid
    configuration the conversion never changes the value. *)

From S2P Require Import Prelude Machine.

#[local] Open Scope Z_scope.

(** ** Configuration *)

(** [__factor__] is kept as the fraction [factor_num / factor_den]: an
    [int] factor has denominator 1, a floating one such as 2.5 is 5/2 and the
    conversion of the product to [int] truncates. *)
Record BackoffConfig : Set := {
  minbackoff : Z;
  factor_num : Z;
  factor_den : Z;
  max_backoff : Z;
  jitter : Z
}.

(** The values of the upstream header: [static const int __factor__ = 2.5f]
    initialises an [int], so the factor in effect is 2. *)
Definition upstream_backoff : BackoffConfig :=
  {| minbackoff := 1000; factor_num := 2; factor_den := 1;
     max_backoff := 60000; jitter := 500 |}.

(** The factor the header's initialiser spells, 2.5, were the field
    floating. *)
Definition documented_backoff : BackoffConfig :=
  {| minbackoff := 1000; factor_num := 5; factor_den := 2;
     max_backoff := 60000; jitter := 500 |}.

(** [__backoff__ * __factor__] on a non-negative delay. *)
Definition scale (cfg : BackoffConfig) (b : Z) : Z :=
  (b * factor_num cfg) ÷ factor_den cfg.

(** A configuration is valid when the bounds are ordered, the factor is at
    least one, and the largest sum the step can form fits an [int]. *)
Definition valid_config (cfg : BackoffConfig) : Prop :=
  0 <= minbackoff cfg <= max_backoff cfg /\
  0 < factor_den cfg <= factor_num cfg /\
  0 <= jitter cfg /\
  scale cfg (max_backoff cfg) + jitter cfg <= INT_MAX.

#[export] Instance valid_config_dec cfg : Decision (valid_config cfg).
Proof. unfold valid_config. apply _. Defined.

(** A ceiling whose double does not fit an [int] is not a valid
    configuration, and the step then leaves the interval: from [2^30] the
    product wraps to [INT_MIN], which the upper clamp lets through. *)
Definition overflowing_backoff : BackoffConfig :=
  {| minbackoff := 1000; factor_num := 2; factor_den := 1;
     max_backoff := 2 ^ 30; jitter := 500 |}.

(** ** The step *)

(** [backoff_step cfg b r] is the value of [__backoff__] after
    [increaseBackoff], from the value [b] before and the answer [r] of
    [random(__jitter__)]. *)
Definition backoff_step (cfg : BackoffConfig) (b r : Z) : Z :=
  let b1 := if decide (b < minbackoff cfg) then minbackoff cfg else b in
  let b2 := wrap_int (scale cfg b1 + r) in
  if decide (b2 > max_backoff cfg) then max_backoff cfg else b2.

(** The closed form of the specification (section 4.2), over unbounded
    integers. *)
Definition backoff_spec (cfg : BackoffConfig) (b r : Z) : Z :=
  Z.min (max_backoff cfg) (scale cfg (Z.max b (minbackoff cfg)) + r).

(** The field after a successful connect. *)
Definition backoff_reset (cfg : BackoffConfig) : Z := minbackoff cfg.

(** [__backoff__] after the failures whose jitters are [rs], oldest first. *)
Definition backoff_iter (cfg : BackoffConfig) (b : Z) (rs : list Z) : Z :=
  fold_left (backoff_step cfg) rs b.

(** The invariant of the field. *)
Definition backoff_inv (cfg : BackoffConfig) (b : Z) : Prop :=
  minbackoff cfg <= b <= max_backoff cfg.

#[export] Instance backoff_inv_dec cfg b : Decision (backoff_inv cfg b).
Proof. unfold backoff_inv. apply _. Defined.

(** The constants are [int]s. *)
Definition typed_config (cfg : BackoffConfig) : Prop :=
  in_int (minbackoff cfg) /\ in_int (max_backoff cfg).

#[export] Instance typed_config_dec cfg : Decision (typed_config cfg).
Proof. unfold typed_config. apply _. Defined.

(** ** Properties of one step *)

(** Whatever the delay and the jitter, and whether the sum overflows or
    not, the step leaves an [int]. *)
Lemma backoff_step_typed cfg b r : in_int (max_backoff cfg) -> in_int (backoff_step cfg b r).
Proof. intros. unfold backoff_step. case_decide; auto with ciot. Qed.

Section Step.
Context (cfg : BackoffConfig) (Hcfg : valid_config cfg).

Lemma scale_ge b : 0 <= b -> b <= scale cfg b.
Proof. destruct Hcfg as (? & ? & ? & ?). intros. unfold scale. auto with ciot. Qed.

(** The ceiling fits an [int]. *)
Lemma max_backoff_in_int : 0 <= max_backoff cfg <= INT_MAX.
Proof. destruct Hcfg as (? & ? & ? & ?). pose proof (scale_ge (max_backoff cfg)). lia. Qed.

Lemma scale_mono a b : 0 <= a <= b -> scale cfg a <= scale cfg b.
Proof.
  destruct Hcfg as (? & ? & ? & ?). intros. unfold scale.
  apply quot_scale_mono; lia.
Qed.

(** The sum formed by the step, before the conversion to [int]. *)
Lemma backoff_sum_bounds b r :
  b <= max_backoff cfg -> random_range (jitter cfg) r ->
  Z.max b (minbackoff cfg) <= scale cfg (Z.max b (minbackoff cfg)) + r <= INT_MAX.
Proof.
  pose proof Hcfg as (? & ? & ? & ?). unfold random_range. intros Hb Hr.
  pose proof (scale_ge (Z.max b (minbackoff cfg))).
  pose proof (scale_mono (Z.max b (minbackoff cfg)) (max_backoff cfg)). lia.
Qed.

Lemma backoff_step_no_overflow b r :
  b <= max_backoff cfg -> random_range (jitter cfg) r ->
  in_int (scale cfg (Z.max b (minbackoff cfg)) + r).
Proof.
  intros Hb Hr. pose proof (backoff_sum_bounds b r Hb Hr).
  destruct Hcfg as (? & ? & ? & ?). unfold in_int, INT_MIN, INT_MAX in *. lia.
Qed.

Lemma backoff_step_spec b r :
  b <= max_backoff cfg -> random_range (jitter cfg) r ->
  backoff_step cfg b r = backoff_spec cfg b r.
Proof.
  intros Hb Hr. pose proof (backoff_step_no_overflow b r Hb Hr) as Hin.
  unfold backoff_step, backoff_spec.
  replace (if decide (b < minbackoff cfg) then minbackoff cfg else b)
    with (Z.max b (minbackoff cfg)) by (case_decide; lia).
  rewrite wrap_int_id by done. case_decide; lia.
Qed.

(** C29. The step of [increaseBackoff] is the policy of the specification.
    Under a valid configuration, from a delay that does not exceed the
    ceiling and with a jitter in range, the sum formed at line 60 fits an
    [int], so nothing wraps, and the new delay is the closed form
    [min max (max b min * factor + r)] over unbounded integers. *)
Theorem backoff_step_meets_spec b r :
  b <= max_backoff cfg -> random_range (jitter cfg) r ->
  in_int (scale cfg (Z.max b (minbackoff cfg)) + r)
  /\ backoff_step cfg b r = backoff_spec cfg b r.
Proof. intros Hb Hr. split; [by apply backoff_step_no_overflow|by apply backoff_step_spec]. Qed.

Lemma backoff_step_inv b r :
  b <= max_backoff cfg -> random_range (jitter cfg) r ->
  backoff_inv cfg (backoff_step cfg b r).
Proof.
  intros Hb Hr. rewrite backoff_step_spec by done.
  pose proof (backoff_sum_bounds b r Hb Hr).
  destruct Hcfg as (? & ? & ? & ?). unfold backoff_inv, backoff_spec. lia.
Qed.

Lemma backoff_step_ge b r :
  b <= max_backoff cfg -> random_range (jitter cfg) r ->
  b <= backoff_step cfg b r.
Proof.
  intros Hb Hr. rewrite backoff_step_spec by done.
  pose proof (backoff_sum_bounds b r Hb Hr). unfold backoff_spec. lia.
Qed.

(** Growth by the factor.  A step that does not reach the ceiling yields
    the delay before multiplied by the factor, truncated, plus the jitter:
    the new delay is at least the previous one times the factor. *)
Lemma backoff_step_growth b r :
  backoff_inv cfg b -> random_range (jitter cfg) r ->
  backoff_step cfg b r < max_backoff cfg ->
  backoff_step cfg b r = scale cfg b + r.
Proof.
  unfold backoff_inv. intros Hb Hr. rewrite backoff_step_spec by side.
  unfold backoff_spec. rewrite Z.max_l by lia. lia.
Qed.

Lemma backoff_step_ceiling r :
  random_range (jitter cfg) r -> backoff_step cfg (max_backoff cfg) r = max_backoff cfg.
Proof.
  intros Hr. pose proof (backoff_step_inv (max_backoff cfg) r ltac:(lia) Hr).
  pose proof (backoff_step_ge (max_backoff cfg) r ltac:(lia) Hr).
  unfold backoff_inv in *. lia.
Qed.

Lemma backoff_step_mono b b' r :
  b <= b' <= max_backoff cfg -> random_range (jitter cfg) r ->
  backoff_step cfg b r <= backoff_step cfg b' r.
Proof.
  intros Hb Hr. rewrite !backoff_step_spec by side. unfold backoff_spec.
  pose proof Hcfg as (? & ? & ? & ?).
  pose proof (scale_mono (Z.max b (minbackoff cfg)) (Z.max b' (minbackoff cfg))).
  lia.
Qed.


Lemma backoff_reset_inv : backoff_inv cfg (backoff_reset cfg).
Proof. destruct Hcfg as (? & ? & ? & ?). unfold backoff_inv, backoff_reset. lia. Qed.

End Step.

#[export] Hint Resolve backoff_step_inv backoff_reset_inv backoff_step_ge : ciot.

(** ** Consecutive failures *)

Section Iter.
Context (cfg : BackoffConfig) (Hcfg : valid_config cfg).

Lemma backoff_iter_cons b r rs :
  backoff_iter cfg b (r :: rs) = backoff_iter cfg (backoff_step cfg b r) rs.
Proof. reflexivity. Qed.

Lemma backoff_iter_app b rs rs' :
  backoff_iter cfg b (rs ++ rs') = backoff_iter cfg (backoff_iter cfg b rs) rs'.
Proof. apply fold_left_app. Qed.

(** Induction over the failures, for a property carried by the invariant. *)
Lemma backoff_iter_ind (P : Z -> list Z -> Z -> Prop) :
  (forall b, backoff_inv cfg b -> P b [] b) ->
  (forall b r rs b', backoff_inv cfg b -> random_range (jitter cfg) r ->
     P (backoff_step cfg b r) rs b' -> P b (r :: rs) b') ->
  forall rs b, backoff_inv cfg b -> Forall (random_range (jitter cfg)) rs ->
    P b rs (backoff_iter cfg b rs).
Proof.
  intros Hnil Hcons. induction rs as [|r rs IH]; intros b Hb Hrs; [by apply Hnil|].
  apply Forall_cons in Hrs as [Hr Hrs]. rewrite backoff_iter_cons.
  apply Hcons; [done..|]. apply IH; [|done]. apply backoff_step_inv; [done| |done].
  unfold backoff_inv in Hb. lia.
Qed.

Lemma backoff_iter_inv rs b :
  backoff_inv cfg b -> Forall (random_range (jitter cfg)) rs ->
  backoff_inv cfg (backoff_iter cfg b rs).
Proof. apply (backoff_iter_ind (fun _ _ b' => backoff_inv cfg b')); auto. Qed.

(** C5. Back-off bound.  Under a valid configuration and with jitters in
    range, after one or more consecutive failures the delay lies between the
    minimum and the ceiling, from whatever delay not above the ceiling the
    failures started. *)
Theorem backoff_bounded rs b :
  b <= max_backoff cfg -> rs <> [] -> Forall (random_range (jitter cfg)) rs ->
  minbackoff cfg <= backoff_iter cfg b rs <= max_backoff cfg.
Proof.
  intros Hb Hne Hrs. destruct rs as [|r rs]; [done|].
  apply Forall_cons in Hrs as [Hr Hrs]. rewrite backoff_iter_cons.
  apply backoff_iter_inv; [|done]. by apply backoff_step_inv.
Qed.

Lemma backoff_iter_ge rs b :
  backoff_inv cfg b -> Forall (random_range (jitter cfg)) rs ->
  b <= backoff_iter cfg b rs.
Proof.
  apply (backoff_iter_ind (fun b _ b' => b <= b')); [lia|].
  intros b0 r rs0 b' Hb Hr Hle. unfold backoff_inv in Hb.
  pose proof (backoff_step_ge cfg Hcfg b0 r ltac:(lia) Hr). lia.
Qed.

(** With a factor of two or more, [n] failures multiply the delay by [2^n]
    unless the ceiling is reached first. *)
Lemma backoff_iter_doubles rs b :
  2 * factor_den cfg <= factor_num cfg ->
  backoff_inv cfg b -> Forall (random_range (jitter cfg)) rs ->
  Z.min (max_backoff cfg) (b * 2 ^ Z.of_nat (length rs)) <= backoff_iter cfg b rs.
Proof.
  intros Hf. pose proof Hcfg as (? & ? & ? & ?).
  apply (backoff_iter_ind
           (fun b rs b' => Z.min (max_backoff cfg) (b * 2 ^ Z.of_nat (length rs)) <= b')).
  { unfold backoff_inv. intros. simpl. lia. }
  intros b0 r rs0 b' Hb Hr IH. unfold backoff_inv in Hb.
  rewrite length_cons, Nat2Z.inj_succ, Z.pow_succ_r by lia.
  assert (Z.min (max_backoff cfg) (2 * b0) <= backoff_step cfg b0 r) as Hstep.
  { rewrite backoff_step_spec by side. unfold backoff_spec, random_range in *.
    rewrite Z.max_l by lia. assert (2 * b0 <= scale cfg b0); [|lia].
    unfold scale. apply Z.quot_le_lower_bound; nia. }
  pose proof (Z.pow_pos_nonneg 2 (Z.of_nat (length rs0))). nia.
Qed.

(** Saturation.  With a factor of two or more, once [minbackoff * 2^n]
    reaches the ceiling, [n] or more consecutive failures leave the delay
    at the ceiling exactly. *)
Lemma backoff_iter_saturates n rs b :
  2 * factor_den cfg <= factor_num cfg ->
  max_backoff cfg <= minbackoff cfg * 2 ^ Z.of_nat n ->
  backoff_inv cfg b -> Forall (random_range (jitter cfg)) rs ->
  (n <= length rs)%nat ->
  backoff_iter cfg b rs = max_backoff cfg.
Proof.
  intros Hf Hn Hb Hrs Hlen.
  pose proof (backoff_iter_doubles rs b Hf Hb Hrs) as Hlow.
  pose proof (backoff_iter_inv rs b Hb Hrs) as Hinv.
  unfold backoff_inv in *.
  destruct Hcfg as (? & _).
  assert (minbackoff cfg * 2 ^ Z.of_nat n <= b * 2 ^ Z.of_nat (length rs)).
  { apply Z.mul_le_mono_nonneg; [lia..| |apply Z.pow_le_mono_r; lia].
    apply Z.pow_nonneg. lia. }
  lia.
Qed.

End Iter.

#[export] Hint Resolve backoff_iter_inv backoff_iter_ge : ciot.

(** ** The configurations at hand *)

Lemma upstream_backoff_valid : valid_config upstream_backoff.
Proof. by apply (bool_decide_unpack _). Qed.

Lemma documented_backoff_valid : valid_config documented_backoff.
Proof. by apply (bool_decide_unpack _). Qed.

(** Six failures from the minimum, without jitter, under the upstream
    constants: the delay doubles and stops at the ceiling. *)
Example upstream_backoff_sequence :
  List.map (fun n => backoff_iter upstream_backoff 1000 (replicate n 0)) [1; 2; 3; 4; 5; 6; 7]%nat
  = [2000; 4000; 8000; 16000; 32000; 60000; 60000].
Proof. reflexivity. Qed.

(** With the factor 2.5 the product is truncated: 1001 * 2.5 = 2502.5. *)
Example documented_backoff_truncates : backoff_step documented_backoff 1001 0 = 2502.
Proof. reflexivity. Qed.

Example overflowing_backoff_invalid : ~ valid_config overflowing_backoff.
Proof. by apply (bool_decide_unpack _). Qed.


(** ** On the upstream constants *)

Lemma backoff_step_meets_spec_witness :
  in_int (scale upstream_backoff (Z.max 1000 1000) + 137)
  /\ backoff_step upstream_backoff 1000 137 = backoff_spec upstream_backoff 1000 137.
Proof.
  apply (backoff_step_meets_spec upstream_backoff upstream_backoff_valid 1000 137).
  all: vm_compute; intuition discriminate.
Defined.

Lemma backoff_step_growth_witness :
  backoff_step upstream_backoff 1000 137 = scale upstream_backoff 1000 + 137.
Proof.
  apply (backoff_step_growth upstream_backoff upstream_backoff_valid 1000 137).
  all: vm_compute; intuition discriminate.
Defined.


Lemma backoff_iter_saturates_witness :
  backoff_iter upstream_backoff 1000 [0; 0; 0; 0; 0; 0] = max_backoff upstream_backoff.
Proof.
  apply (backoff_iter_saturates upstream_backoff upstream_backoff_valid 6
           [0; 0; 0; 0; 0; 0] 1000).
  all: try (vm_compute; intuition discriminate).
  - by apply (bool_decide_unpack _).
  - simpl. lia.
Defined.

Lemma backoff_bounded_witness :
  minbackoff upstream_backoff <= backoff_iter upstream_backoff (-5) [137; 0; 499]
  <= max_backoff upstream_backoff.
Proof.
  apply (backoff_bounded upstream_backoff upstream_backoff_valid [137; 0; 499] (-5)).
  - vm_compute; discriminate.
  - discriminate.
  - by apply (bool_decide_unpack _).
Defined.
