(* ===== verification/Effects.v ===== *)
(** * Calls, programs and traces

    Everything [CloudIoTCoreMqtt.cpp] does to the outside goes through a call:
    to the Arduino core ([millis], [random], [Serial]), to the sketch
    ([getJwt]), to the device object ([getExpMillis]) or to the MQTT client.
    [Call X] lists them, [X] being the type of the answer.  A member function
    is a [Prog]: a finite tree that issues calls and continues with the
    answers.  [M S] threads the fields of the object (a state [S]) through a
    program.

    Two semantics are given and related.  [runs p t a] holds when [p] can
    issue the calls and receive the answers recorded in [t] and then return
    [a]; it constrains the answers in no way, so a statement over all traces
    holds in every environment.  [run E p w] executes [p] against an
    environment [E], a handler over a world; [run_runs] and [runs_run] show
    that the runs in environments are exactly the traces. *)

From S2P Require Import Prelude Machine Lwmqtt.

#[local] Open Scope Z_scope.

(** ** Calls *)

(** [getJwt] is the sketch's callback: it returns the token and stamps the
    issue time into [iat], the variable it shares with this file; the answer
    carries both.  [mqtt_publish] stands for the overloads of
    [MQTTClient::publish]: [length] is given for a payload passed as
    [const char*] with its length, [retained] and [qos] are [false] and [0]
    where the overload leaves them out. *)
Inductive Call : Type -> Type :=
| millis : Call Z
| random (howbig : Z) : Call Z
| Serial_print (s : string) : Call unit
| Serial_println (s : string) : Call unit
| getJwt : Call (string * Z)
| getExpMillis : Call Z
| mqtt_begin (host : string) (port : Z) : Call unit
| mqtt_onMessage : Call unit
| mqtt_connect (clientId username password : string) (skip : bool) : Call bool
| mqtt_connected : Call bool
| mqtt_disconnect : Call bool
| mqtt_subscribe (topic : string) (qos : Z) : Call bool
| mqtt_publish (topic payload : string) (length : option Z) (retained : bool) (qos : Z) : Call bool
| mqtt_lastError : Call lwmqtt_err_t
| mqtt_returnCode : Call lwmqtt_return_code_t
| mqtt_loop : Call bool.

(** A call with its answer. *)
Inductive Event : Type :=
| EvMillis (now : Z)
| EvRandom (howbig r : Z)
| EvPrint (s : string)
| EvPrintln (s : string)
| EvGetJwt (token : string) (iat : Z)
| EvGetExpMillis (exp : Z)
| EvBegin (host : string) (port : Z)
| EvOnMessage
| EvConnect (clientId username password : string) (skip result : bool)
| EvConnected (result : bool)
| EvDisconnect (result : bool)
| EvSubscribe (topic : string) (qos : Z) (result : bool)
| EvPublish (topic payload : string) (length : option Z) (retained : bool) (qos : Z) (result : bool)
| EvLastError (e : lwmqtt_err_t)
| EvReturnCode (rc : lwmqtt_return_code_t)
| EvLoop (result : bool).

#[export] Instance Event_eq_dec : EqDecision Event.
Proof. solve_decision. Defined.

Definition event_of {X} (c : Call X) : X -> Event :=
  match c in Call X return X -> Event with
  | millis => EvMillis
  | random howbig => EvRandom howbig
  | Serial_print s => fun _ => EvPrint s
  | Serial_println s => fun _ => EvPrintln s
  | getJwt => fun a => EvGetJwt a.1 a.2
  | getExpMillis => EvGetExpMillis
  | mqtt_begin host port => fun _ => EvBegin host port
  | mqtt_onMessage => fun _ => EvOnMessage
  | mqtt_connect c u p skip => EvConnect c u p skip
  | mqtt_connected => EvConnected
  | mqtt_disconnect => EvDisconnect
  | mqtt_subscribe topic qos => EvSubscribe topic qos
  | mqtt_publish topic payload len retained qos => EvPublish topic payload len retained qos
  | mqtt_lastError => EvLastError
  | mqtt_returnCode => EvReturnCode
  | mqtt_loop => EvLoop
  end.

(** The answer an event gives to a call, when it is an event of that call. *)
Definition answer_of {X} (c : Call X) (e : Event) : option X :=
  match c in Call X return option X with
  | millis => match e with EvMillis now => Some now | _ => None end
  | random howbig =>
      match e with
      | EvRandom h r => if decide (h = howbig) then Some r else None
      | _ => None
      end
  | Serial_print s =>
      match e with
      | EvPrint s' => if decide (s' = s) then Some tt else None
      | _ => None
      end
  | Serial_println s =>
      match e with
      | EvPrintln s' => if decide (s' = s) then Some tt else None
      | _ => None
      end
  | getJwt => match e with EvGetJwt token iat => Some (token, iat) | _ => None end
  | getExpMillis => match e with EvGetExpMillis exp => Some exp | _ => None end
  | mqtt_begin host port =>
      match e with
      | EvBegin h p => if decide (h = host /\ p = port) then Some tt else None
      | _ => None
      end
  | mqtt_onMessage => match e with EvOnMessage => Some tt | _ => None end
  | mqtt_connect c u p skip =>
      match e with
      | EvConnect c' u' p' skip' r =>
          if decide (c' = c /\ u' = u /\ p' = p /\ skip' = skip) then Some r else None
      | _ => None
      end
  | mqtt_connected => match e with EvConnected r => Some r | _ => None end
  | mqtt_disconnect => match e with EvDisconnect r => Some r | _ => None end
  | mqtt_subscribe topic qos =>
      match e with
      | EvSubscribe t q r => if decide (t = topic /\ q = qos) then Some r else None
      | _ => None
      end
  | mqtt_publish topic payload len retained qos =>
      match e with
      | EvPublish t p l rt q r =>
          if decide (t = topic /\ p = payload /\ l = len /\ rt = retained /\ q = qos)
          then Some r else None
      | _ => None
      end
  | mqtt_lastError => match e with EvLastError x => Some x | _ => None end
  | mqtt_returnCode => match e with EvReturnCode x => Some x | _ => None end
  | mqtt_loop => match e with EvLoop r => Some r | _ => None end
  end.

(** An answer of the right type for every call: what a script that has run
    out answers. *)
Definition default_answer {X} (c : Call X) : X :=
  match c in Call X return X with
  | millis | random _ | getExpMillis => 0
  | Serial_print _ | Serial_println _ | mqtt_begin _ _ | mqtt_onMessage => tt
  | getJwt => (EmptyString, 0)
  | mqtt_connect _ _ _ _ | mqtt_connected | mqtt_disconnect
  | mqtt_subscribe _ _ | mqtt_publish _ _ _ _ _ | mqtt_loop => false
  | mqtt_lastError => LWMQTT_SUCCESS
  | mqtt_returnCode => LWMQTT_CONNECTION_ACCEPTED
  end.

(** ** Programs *)

Inductive Prog (A : Type) : Type :=
| Ret (a : A)
| Do {X : Type} (c : Call X) (k : X -> Prog A).

Arguments Ret {A} a.
Arguments Do {A X} c k.

Fixpoint bind {A B} (p : Prog A) (f : A -> Prog B) : Prog B :=
  match p with
  | Ret a => f a
  | Do c k => Do c (fun x => bind (k x) f)
  end.

(** [runs p t a]: [p] issues the calls of [t] in order, receives the answers
    recorded there and returns [a].  The answers are not constrained. *)
Fixpoint runs {A} (p : Prog A) (t : list Event) (a : A) : Prop :=
  match p with
  | Ret a' => t = [] /\ a = a'
  | Do c k => exists x t', t = event_of c x :: t' /\ runs (k x) t' a
  end.

(** ** Environments *)

Record Env : Type := {
  World : Type;
  handle : forall X, Call X -> World -> X * World
}.

Arguments handle _ {X} _ _.

Fixpoint run {A} (E : Env) (p : Prog A) (w : World E) : A * World E * list Event :=
  match p with
  | Ret a => (a, w, [])
  | Do c k =>
      let '(x, w1) := handle E c w in
      let '(a, w2, t) := run E (k x) w1 in
      (a, w2, event_of c x :: t)
  end.

(** The environment that replays a script of events: each call is answered
    by the next event when it is an event of that call, by the default
    answer otherwise. *)
Definition script_handle X (c : Call X) (w : list Event) : X * list Event :=
  match w with
  | [] => (default_answer c, [])
  | e :: w' => (default (default_answer c) (answer_of c e), w')
  end.

Definition script_env : Env := {| World := list Event; handle := script_handle |}.

(** The call an event records, with its answer. *)
Definition Answered : Type := { X : Type & (Call X * X)%type }.

Definition pack {X} (c : Call X) (x : X) : Answered :=
  @existT Type (fun X : Type => (Call X * X)%type) X (c, x).

Definition decode (e : Event) : Answered :=
  match e with
  | EvMillis now => pack millis now
  | EvRandom howbig r => pack (random howbig) r
  | EvPrint s => pack (Serial_print s) tt
  | EvPrintln s => pack (Serial_println s) tt
  | EvGetJwt token iat => pack getJwt (token, iat)
  | EvGetExpMillis exp => pack getExpMillis exp
  | EvBegin host port => pack (mqtt_begin host port) tt
  | EvOnMessage => pack mqtt_onMessage tt
  | EvConnect c u p skip r => pack (mqtt_connect c u p skip) r
  | EvConnected r => pack mqtt_connected r
  | EvDisconnect r => pack mqtt_disconnect r
  | EvSubscribe topic qos r => pack (mqtt_subscribe topic qos) r
  | EvPublish topic payload len retained qos r =>
      pack (mqtt_publish topic payload len retained qos) r
  | EvLastError e => pack mqtt_lastError e
  | EvReturnCode rc => pack mqtt_returnCode rc
  | EvLoop r => pack mqtt_loop r
  end.

(** [answered E e w]: in the world [w], the environment [E] gives the call
    of [e] the answer that [e] records; [after E e w] is the world it
    leaves. *)
Definition answered (E : Env) (e : Event) (w : World E) : Prop :=
  match decode e with
  | existT _ (c, x) => fst (handle E c w) = x
  end.

Definition after (E : Env) (e : Event) (w : World E) : World E :=
  match decode e with
  | existT _ (c, _) => snd (handle E c w)
  end.

(** [replays E t w w']: the trace [t] is what [E] answers from the world
    [w], event after event, and [w'] is the world at its end. *)
Fixpoint replays (E : Env) (t : list Event) (w w' : World E) : Prop :=
  match t with
  | [] => w' = w
  | e :: t' => answered E e w /\ replays E t' (after E e w) w'
  end.

(** ** The state monad over programs *)

Definition M (S A : Type) : Type := S -> Prog (A * S).

Definition ret_M {S A} (a : A) : M S A := fun s => Ret (a, s).

Definition bind_M {S A B} (m : M S A) (f : A -> M S B) : M S B :=
  fun s => bind (m s) (fun '(a, s') => f a s').

(** The monad is declared to stdpp, whose notations [x ← m; k] and [m;; k]
    then write the sequencing of a member function's statements. *)
#[export] Instance M_ret {S} : MRet (M S) := fun A => @ret_M S A.
#[export] Instance M_bind {S} : MBind (M S) := fun A B f m => bind_M m f.

Definition call {S X} (c : Call X) : M S X := fun s => Do c (fun x => Ret (x, s)).

Definition gets {S A} (f : S -> A) : M S A := fun s => Ret (f s, s).

Definition modify {S} (f : S -> S) : M S unit := fun s => Ret (tt, f s).

(** [mruns m s t a s']: from the fields [s], the member function [m] can
    produce the trace [t], return [a] and leave the fields [s']. *)
Definition mruns {S A} (m : M S A) (s : S) (t : list Event) (a : A) (s' : S) : Prop :=
  runs (m s) t (a, s').

(** A member function executed in an environment. *)
Definition mrun {S A} (E : Env) (m : M S A) (s : S) (w : World E)
  : A * S * World E * list Event :=
  let '(a, s', w', t) := run E (m s) w in (a, s', w', t).

(** The parts of an execution: what the member function returned, the
    fields and the world it left. *)
Definition returned {S A} {E : Env} (r : A * S * World E * list Event) : A := r.1.1.1.
Definition fields_after {S A} {E : Env} (r : A * S * World E * list Event) : S := r.1.1.2.
Definition world_after {S A} {E : Env} (r : A * S * World E * list Event) : World E :=
  r.1.2.
Definition trace_after {S A} {E : Env} (r : A * S * World E * list Event) : list Event :=
  r.2.

(** Consecutive calls of one member function, each with its trace: the
    fields left by a call are those the next one starts from. *)
Inductive mruns_star {S} (m : M S unit) : S -> list (list Event) -> S -> Prop :=
| mruns_star_nil s : mruns_star m s [] s
| mruns_star_cons s t s1 ts s' :
    mruns m s t tt s1 -> mruns_star m s1 ts s' -> mruns_star m s (t :: ts) s'.

#[export] Hint Unfold ret_M bind_M call gets modify mruns : ciot_unfold.

(** ** Classification of events *)

Definition is_connect (e : Event) : bool :=
  match e with EvConnect _ _ _ _ _ => true | _ => false end.
Definition is_getJwt (e : Event) : bool :=
  match e with EvGetJwt _ _ => true | _ => false end.

(** ** What a trace shows

    Observations of a trace, by which the theorems on the member functions
    are stated: the answers a call received, the passwords presented to the
    broker, whether the attempt recorded in the trace failed. *)

(** The events of a trace seen through [f], in order. *)
Definition observe {X} (f : Event -> option X) (t : list Event) : list X := omap f t.

Definition password_of (e : Event) : option string :=
  match e with EvConnect _ _ p _ _ => Some p | _ => None end.
Definition connect_result_of (e : Event) : option bool :=
  match e with EvConnect _ _ _ _ r => Some r | _ => None end.
Definition subscription_of (e : Event) : option (string * Z) :=
  match e with EvSubscribe topic qos _ => Some (topic, qos) | _ => None end.
Definition publication_of (e : Event) : option (string * string * option Z * bool * Z) :=
  match e with
  | EvPublish topic payload len retained qos _ => Some (topic, payload, len, retained, qos)
  | _ => None
  end.
Definition jitter_of (e : Event) : option Z :=
  match e with EvRandom _ r => Some r | _ => None end.
Definition serial_of (e : Event) : option string :=
  match e with EvPrint s | EvPrintln s => Some s | _ => None end.

(** The answers received by the occurrences of [c]; the readings of the
    clock; the tokens minted, with their stamps; the passwords of the
    connects and their results; the topics subscribed to, with the quality
    of service asked for; what was published; the numbers drawn; the texts
    printed. *)
Abbreviation answers c := (observe (answer_of c)).
Abbreviation clock := (observe (answer_of millis)).
Abbreviation minted := (observe (answer_of getJwt)).
Abbreviation passwords := (observe password_of).
Abbreviation connect_results := (observe connect_result_of).
Abbreviation subscriptions := (observe subscription_of).
Abbreviation publications := (observe publication_of).
Abbreviation jitters := (observe jitter_of).
Abbreviation printed := (observe serial_of).

(** The number of events of a kind. *)
Definition count (p : Event -> bool) (t : list Event) : nat := length (List.filter p t).

(** No connect is issued before a token has been minted: the first
    [getJwt] of the trace, if a connect occurs at all, comes before it. *)
Fixpoint mint_precedes_connect (t : list Event) : bool :=
  match t with
  | [] => true
  | e :: t' =>
      if is_getJwt e then true
      else if is_connect e then false
      else mint_precedes_connect t'
  end.

(** What the Arduino core guarantees of its answers: [random] answers in
    range, the clock is an [unsigned long]. *)
Definition core_event_ok (e : Event) : Prop :=
  match e with
  | EvRandom howbig r => random_range howbig r
  | EvMillis now => in_ulong now
  | EvGetExpMillis exp => in_ulong exp
  | _ => True
  end.

#[export] Instance core_event_ok_dec e : Decision (core_event_ok e).
Proof. destruct e; simpl; apply _. Defined.

Definition core_ok (t : list Event) : Prop := Forall core_event_ok t.

(** The answers have the C types of the calls: [millis] and [getExpMillis]
    answer an [unsigned long], [getJwt] stamps the [unsigned long] [iat],
    [random] answers a [long]. *)
Definition typed_event (e : Event) : Prop :=
  match e with
  | EvMillis now => in_ulong now
  | EvGetExpMillis exp => in_ulong exp
  | EvGetJwt _ stamp => in_ulong stamp
  | EvRandom _ r => in_int r
  | _ => True
  end.

#[export] Instance typed_event_dec e : Decision (typed_event e).
Proof. destruct e; simpl; apply _. Defined.

Definition typed_answers (t : list Event) : Prop := Forall typed_event t.

(** ** Properties of programs *)

Lemma answer_of_event_of {X} (c : Call X) (x : X) : answer_of c (event_of c x) = Some x.
Proof.
  destruct c; simpl; repeat case_decide; try done;
    try (by destruct x); exfalso; intuition congruence.
Qed.

Lemma runs_bind {A B} (p : Prog A) (f : A -> Prog B) t b :
  runs (bind p f) t b <->
  exists a t1 t2, t = t1 ++ t2 /\ runs p t1 a /\ runs (f a) t2 b.
Proof.
  revert t. induction p as [a|X c k IH]; intros t; simpl.
  - split; [intros H; by exists a, [], t|]. by intros (a' & t1 & t2 & -> & [-> ->] & H).
  - split.
    + intros (x & t' & -> & H). apply IH in H as (a & t1 & t2 & -> & H1 & H2).
      exists a, (event_of c x :: t1), t2. eauto 10.
    + intros (a & t1 & t2 & -> & (x & t' & -> & H1) & H2).
      exists x, (t' ++ t2). split; [done|]. apply IH. eauto 10.
Qed.

(** Every program has a trace, and a trace determines the result. *)
Lemma runs_total {A} (p : Prog A) : exists t a, runs p t a.
Proof.
  induction p as [a|X c k IH]; simpl; [by exists [], a|].
  destruct (IH (default_answer c)) as (t & a & H). eauto 10.
Qed.

Lemma runs_functional {A} (p : Prog A) t a a' : runs p t a -> runs p t a' -> a = a'.
Proof.
  revert t. induction p as [b|X c k IH]; intros t; simpl.
  - by intros [_ ->] [_ ->].
  - intros (x & t1 & -> & H1) (x' & t2 & Heq & H2). simplify_eq.
    assert (Some x = Some x') as [= ->].
    { rewrite <- (answer_of_event_of c x), <- (answer_of_event_of c x'). by f_equal. }
    eauto.
Qed.

(** ** The two semantics agree *)

Lemma run_runs {A} (E : Env) (p : Prog A) (w : World E) :
  runs p (run E p w).2 (run E p w).1.1.
Proof.
  revert w. induction p as [a|X c k IH]; intros w; simpl; [done|].
  destruct (handle E c w) as [x w1] eqn:Hh. specialize (IH x w1).
  destruct (run E (k x) w1) as [[a w2] t]. simpl in *. eauto.
Qed.

Lemma runs_run {A} (p : Prog A) t a : runs p t a -> run script_env p t = (a, [], t).
Proof.
  revert t. induction p as [b|X c k IH]; intros t; simpl.
  - by intros [-> ->].
  - intros (x & t' & -> & H). simpl. rewrite answer_of_event_of. simpl.
    by rewrite (IH _ _ H).
Qed.

(** ** Traces and environments

    The trace of an execution in [E] replays in [E]; conversely a trace of
    the program that replays in [E] is the one its execution produces. *)

Lemma decode_event_of {X} (c : Call X) (x : X) : decode (event_of c x) = pack c x.
Proof. destruct c; try done; by destruct x. Qed.

Lemma answered_event_of E {X} (c : Call X) (x : X) w :
  answered E (event_of c x) w <-> fst (handle E c w) = x.
Proof. unfold answered. by rewrite decode_event_of. Qed.

Lemma after_event_of E {X} (c : Call X) (x : X) w :
  after E (event_of c x) w = snd (handle E c w).
Proof. unfold after. by rewrite decode_event_of. Qed.

Lemma replays_app E t1 t2 w w' :
  replays E (t1 ++ t2) w w' <-> exists w1, replays E t1 w w1 /\ replays E t2 w1 w'.
Proof.
  revert w. induction t1 as [|e t1 IH]; intros w; simpl.
  - split; [eauto|]. by intros (w1 & -> & H).
  - rewrite IH. split.
    + intros (He & w1 & H1 & H2). eauto.
    + intros (w1 & (He & H1) & H2). eauto.
Qed.

Lemma replays_functional E t w w1 w2 : replays E t w w1 -> replays E t w w2 -> w1 = w2.
Proof.
  revert w. induction t as [|e t IH]; intros w; simpl; [congruence|].
  intros [_ H1] [_ H2]. eauto.
Qed.

Lemma run_replays E {A} (p : Prog A) (w : World E) :
  replays E (run E p w).2 w (run E p w).1.2.
Proof.
  revert w. induction p as [a|X c k IH]; intros w; simpl; [done|].
  destruct (handle E c w) as [x w1] eqn:Hh. specialize (IH x w1).
  destruct (run E (k x) w1) as [[a w2] t]. simpl in *.
  rewrite answered_event_of, after_event_of, Hh. done.
Qed.

Lemma replays_run E {A} (p : Prog A) t a (w w' : World E) :
  runs p t a -> replays E t w w' -> run E p w = (a, w', t).
Proof.
  revert t w. induction p as [b|X c k IH]; intros t w; simpl.
  - by intros [-> ->] ->.
  - intros (x & t' & -> & Hr). simpl. rewrite answered_event_of, after_event_of.
    destruct (handle E c w) as [x' w1]. simpl. intros [-> Hp].
    by rewrite (IH _ _ _ Hr Hp).
Qed.

(** ** Observations of concatenated traces *)

Lemma observe_app {X} (f : Event -> option X) t1 t2 :
  observe f (t1 ++ t2) = observe f t1 ++ observe f t2.
Proof. apply omap_app. Qed.

Lemma observe_cons {X} (f : Event -> option X) e t :
  observe f (e :: t) = from_option (fun x => [x]) [] (f e) ++ observe f t.
Proof. unfold observe. simpl. by destruct (f e). Qed.

Lemma observe_nil {X} (f : Event -> option X) : observe f [] = [].
Proof. reflexivity. Qed.

Lemma count_cons p e t : count p (e :: t) = ((if p e then 1 else 0) + count p t)%nat.
Proof. unfold count. simpl. by destruct (p e). Qed.

Lemma count_nil p : count p [] = 0%nat.
Proof. reflexivity. Qed.

Lemma count_app p t1 t2 : count p (t1 ++ t2) = (count p t1 + count p t2)%nat.
Proof. unfold count. by rewrite List.filter_app, length_app. Qed.

Lemma count_zero p t : count p t = 0%nat <-> existsb p t = false.
Proof.
  unfold count. induction t as [|e t IH]; simpl; [done|].
  destruct (p e); simpl; [split; intros; discriminate|done].
Qed.

Lemma mint_precedes_connect_app t1 t2 :
  existsb is_getJwt t1 = false -> existsb is_connect t1 = false ->
  mint_precedes_connect (t1 ++ t2) = mint_precedes_connect t2.
Proof.
  induction t1 as [|e t1 IH]; simpl; [done|].
  intros [-> H1]%orb_false_iff [-> H2]%orb_false_iff. auto.
Qed.

Lemma mint_precedes_connect_none t :
  existsb is_connect t = false -> mint_precedes_connect t = true.
Proof.
  induction t as [|e t IH]; simpl; [done|].
  intros [-> H]%orb_false_iff. destruct (is_getJwt e); auto.
Qed.

Lemma core_ok_app t1 t2 : core_ok (t1 ++ t2) <-> core_ok t1 /\ core_ok t2.
Proof. apply Forall_app. Qed.

Lemma core_ok_cons e t : core_ok (e :: t) <-> core_event_ok e /\ core_ok t.
Proof. apply Forall_cons. Qed.

Lemma core_ok_elem e t : core_ok t -> e ∈ t -> core_event_ok e.
Proof. intros H. by apply Forall_forall. Qed.

#[export] Hint Rewrite @observe_app @observe_cons @observe_nil count_app count_cons
  count_nil : ciot_obs.

(** ** Symbolic execution of member functions *)

Section MRuns.
Context {S : Type}.

Lemma mruns_ret {A} (a : A) (s : S) t b s' :
  mruns (mret a) s t b s' <-> t = [] /\ b = a /\ s' = s.
Proof.
  unfold mruns, mret, M_ret, ret_M. simpl.
  split; [by intros [-> [= -> ->]]|by intros (-> & -> & ->)].
Qed.

Lemma mruns_bind {A B} (m : M S A) (f : A -> M S B) s t b s' :
  mruns (m ≫= f) s t b s' <->
  exists a s1 t1 t2, t = t1 ++ t2 /\ mruns m s t1 a s1 /\ mruns (f a) s1 t2 b s'.
Proof.
  unfold mruns, mbind, M_bind, bind_M. rewrite runs_bind. split.
  - intros ([a s1] & t1 & t2 & ?). exists a, s1, t1, t2. done.
  - intros (a & s1 & t1 & t2 & ?). by exists (a, s1), t1, t2.
Qed.

Lemma mruns_call {X} (c : Call X) (s : S) t x s' :
  mruns (call c) s t x s' <-> t = [event_of c x] /\ s' = s.
Proof.
  unfold mruns, call. simpl. split.
  - by intros (x' & t' & -> & -> & [= -> ->]).
  - intros [-> ->]. by exists x, [].
Qed.

Lemma mruns_gets {A} (f : S -> A) (s : S) t a s' :
  mruns (gets f) s t a s' <-> t = [] /\ a = f s /\ s' = s.
Proof.
  unfold mruns, gets. simpl.
  split; [by intros [-> [= -> ->]]|by intros (-> & -> & ->)].
Qed.

Lemma mruns_modify (f : S -> S) (s : S) t u s' :
  mruns (modify f) s t u s' <-> t = [] /\ s' = f s.
Proof.
  unfold mruns, modify. simpl. destruct u.
  split; [by intros [-> [= ->]]|by intros (-> & ->)].
Qed.

Lemma mruns_total {A} (m : M S A) (s : S) : exists t a s', mruns m s t a s'.
Proof. destruct (runs_total (m s)) as (t & [a s'] & H). by exists t, a, s'. Qed.

Lemma mruns_functional {A} (m : M S A) s t a1 s1 a2 s2 :
  mruns m s t a1 s1 -> mruns m s t a2 s2 -> a1 = a2 /\ s1 = s2.
Proof. intros H1 H2. by pose proof (runs_functional _ _ _ _ H1 H2) as [= -> ->]. Qed.

Lemma mrun_mruns {A} (E : Env) (m : M S A) s w a s' w' t :
  mrun E m s w = (a, s', w', t) -> mruns m s t a s'.
Proof.
  unfold mrun, mruns. pose proof (run_runs E (m s) w) as H.
  destruct (run E (m s) w) as [[[a0 s0] w0] t0]. by intros [= <- <- <- <-].
Qed.

(** An execution in [E] is a run whose trace replays in [E]. *)
Lemma mrun_replays {A} (E : Env) (m : M S A) s w a s' w' t :
  mrun E m s w = (a, s', w', t) <-> mruns m s t a s' /\ replays E t w w'.
Proof.
  split.
  - intros H. split; [by eapply mrun_mruns|].
    unfold mrun in H. pose proof (run_replays E (m s) w) as Hr.
    destruct (run E (m s) w) as [[[a0 s0] w0] t0]. by simplify_eq/=.
  - intros [Hm Hr]. unfold mrun. by rewrite (replays_run E _ _ _ _ _ Hm Hr).
Qed.

Lemma mruns_mrun {A} (m : M S A) s t a s' :
  mruns m s t a s' -> mrun script_env m s t = (a, s', [], t).
Proof. unfold mruns, mrun. intros H. by rewrite (runs_run _ _ _ H). Qed.

(** A member function whose runs are characterised by [R] executes to a
    result in [R] in every environment, and replays every result in [R]
    against the script of its trace. *)
Lemma mrun_refines {A} (m : M S A) (R : S -> list Event -> A -> S -> Prop) :
  (forall s t a s', mruns m s t a s' <-> R s t a s') ->
  (forall E s w, exists a s' w' t, mrun E m s w = (a, s', w', t) /\ R s t a s') /\
  (forall s t a s', R s t a s' -> mrun script_env m s t = (a, s', [], t)).
Proof.
  intros HR. split.
  - intros E s w. destruct (mrun E m s w) as [[[a s'] w'] t] eqn:H.
    exists a, s', w', t. split; [done|]. by eapply HR, mrun_mruns.
  - intros s t a s' H. by apply mruns_mrun, HR.
Qed.

(** Rules that build a run statement by statement. *)
Lemma mruns_bind_intro {A B} (m : M S A) (f : A -> M S B) s t1 t2 a s1 b s' :
  mruns m s t1 a s1 -> mruns (f a) s1 t2 b s' -> mruns (m ≫= f) s (t1 ++ t2) b s'.
Proof. intros. apply mruns_bind. eauto 10. Qed.

Lemma mruns_call_bind {X B} (c : Call X) (f : X -> M S B) s e x t b s' :
  event_of c x = e -> mruns (f x) s t b s' -> mruns (call c ≫= f) s (e :: t) b s'.
Proof. intros <- H. by apply (mruns_bind_intro _ _ _ [_] _ x s); [apply mruns_call|]. Qed.

Lemma mruns_gets_bind {A B} (g : S -> A) (f : A -> M S B) s t b s' :
  mruns (f (g s)) s t b s' -> mruns (gets g ≫= f) s t b s'.
Proof. intros H. by apply (mruns_bind_intro _ _ _ [] _ (g s) s); [apply mruns_gets|]. Qed.

Lemma mruns_modify_bind {B} (g : S -> S) (f : unit -> M S B) s t b s' :
  mruns (f tt) (g s) t b s' -> mruns (modify g ≫= f) s t b s'.
Proof. intros H. by apply (mruns_bind_intro _ _ _ [] _ tt (g s)); [apply mruns_modify|]. Qed.

Lemma mruns_ret_bind {A B} (a : A) (f : A -> M S B) s t b s' :
  mruns (f a) s t b s' -> mruns (mret a ≫= f) s t b s'.
Proof. intros H. by apply (mruns_bind_intro _ _ _ [] _ a s); [apply mruns_ret|]. Qed.

Lemma mruns_bind_assoc {A B C} (m : M S A) (f : A -> M S B) (g : B -> M S C) s t c s' :
  mruns (m ≫= (fun a => f a ≫= g)) s t c s' -> mruns ((m ≫= f) ≫= g) s t c s'.
Proof.
  intros (a & s1 & t1 & t2 & -> & Hm & (b & s2 & t3 & t4 & -> & Hf & Hg)%mruns_bind)%mruns_bind.
  rewrite app_assoc. eapply mruns_bind_intro; [|done]. by eapply mruns_bind_intro.
Qed.

End MRuns.

(** ** Consecutive calls *)

Section Star.
Context {S : Type} (m : M S unit).

Lemma mruns_star_one s t s' : mruns m s t tt s' -> mruns_star m s [t] s'.
Proof. intros. eapply mruns_star_cons; [done|constructor]. Qed.

Lemma mruns_star_app s ts1 s1 ts2 s' :
  mruns_star m s ts1 s1 -> mruns_star m s1 ts2 s' -> mruns_star m s (ts1 ++ ts2) s'.
Proof. induction 1; simpl; [done|]. intros. eapply mruns_star_cons; eauto. Qed.

Lemma mruns_star_snoc s ts s1 t s' :
  mruns_star m s ts s1 -> mruns m s1 t tt s' -> mruns_star m s (ts ++ [t]) s'.
Proof. intros H1 H2. eapply mruns_star_app; [done|by apply mruns_star_one]. Qed.

(** A property of the fields that every call preserves, on traces that
    satisfy [ok], holds after any number of calls. *)
Lemma mruns_star_invariant (I : S -> Prop) (ok : list Event -> Prop) :
  (forall s t s', I s -> ok t -> mruns m s t tt s' -> I s') ->
  forall s ts s', mruns_star m s ts s' -> Forall ok ts -> I s -> I s'.
Proof.
  intros Hstep s ts s'. induction 1 as [|s t s1 ts s' Hrun _ IH]; [done|].
  intros [Hok Hoks]%Forall_cons HI. eauto.
Qed.

(** Calls can always go on, and the traces determine the fields reached. *)
Lemma mruns_star_total s n : exists ts s', length ts = n /\ mruns_star m s ts s'.
Proof.
  revert s. induction n as [|n IH]; intros s; [exists [], s; split; [done|constructor]|].
  destruct (mruns_total m s) as (t & [] & s1 & Hrun).
  destruct (IH s1) as (ts & s' & <- & Hstar).
  exists (t :: ts), s'. split; [done|]. by eapply mruns_star_cons.
Qed.

Lemma mruns_star_functional s ts s1 s2 :
  mruns_star m s ts s1 -> mruns_star m s ts s2 -> s1 = s2.
Proof.
  intros H. revert s2. induction H as [|s t s1 ts s' Hrun _ IH]; intros s2 H2.
  - by inversion H2.
  - inversion H2 as [|? ? s1' ? ? Hrun' Hstar']; subst.
    destruct (mruns_functional _ _ _ _ _ _ _ Hrun Hrun') as [_ <-]. auto.
Qed.

End Star.

(** Decompose a hypothesis [mruns m s t a s'] along the structure of [m].
    [mruns_hook] is extended by the component files with the
    characterisations of their member functions. *)
Ltac mruns_hook := fail.

Ltac mruns_step :=
  match goal with
  | H : mruns (_ ≫= _) _ _ _ _ |- _ =>
      apply mruns_bind in H as (? & ? & ? & ? & -> & ? & H)
  | H : mruns (mret _) _ _ _ _ |- _ => apply mruns_ret in H as (-> & ? & ?)
  | H : mruns (call _) _ _ _ _ |- _ => apply mruns_call in H as (-> & ?)
  | H : mruns (gets _) _ _ _ _ |- _ => apply mruns_gets in H as (-> & ? & ?)
  | H : mruns (modify _) _ _ _ _ |- _ => apply mruns_modify in H as (-> & ?)
  | H : mruns (if decide ?P then _ else _) _ _ _ _ |- _ => destruct (decide P)
  | H : mruns (if ?b then _ else _) _ _ _ _ |- _ => destruct b eqn:?
  | H : mruns (match ?x with _ => _ end) _ _ _ _ |- _ => destruct x eqn:?
  | H : if ?b then _ else _ |- _ => destruct b eqn:?
  | H : _ /\ _ |- _ => destruct H
  | H : exists _, _ |- _ => destruct H
  end.

Ltac mruns_inv := repeat first [ mruns_hook | mruns_step ]; simplify_eq/=.

(** [executed as pat]: the execution [mrun E m s w] of the goal is replaced
    by its result, a run of [m] and a replay of its trace in [E], which
    [pat] introduces. *)
Tactic Notation "executed" "as" simple_intropattern(pat) :=
  lazymatch goal with
  | |- context [mrun ?E ?m ?s ?w] =>
      let H := fresh "Hrun" in
      destruct (mrun E m s w) as [[[?u ?s'] ?w'] ?t] eqn:H;
      apply mrun_replays in H as pat;
      unfold returned, fields_after, world_after, trace_after; cbn [fst snd]
  end.

(** Exhibit the run whose trace is given: each call is answered by the event
    at its place in the trace.  The member functions to run through are
    unfolded from the [ciot_unfold] database. *)
Ltac runs_unfold :=
  repeat progress
    (autounfold with ciot_unfold;
     unfold mbind, mret, M_bind, M_ret, bind_M, ret_M; simpl).

Ltac runs_case :=
  match goal with
  | |- context [decide ?P] => tryif has_evar P then fail else destruct (decide P)
  | |- context [if ?b then _ else _] =>
      tryif has_evar b then fail else destruct b eqn:?
  | |- context [match ?x with _ => _ end] =>
      tryif has_evar x then fail else destruct x eqn:?
  end.

Ltac runs_go :=
  runs_unfold;
  repeat (lazymatch goal with
          | |- exists (_ : unit), _ => exists tt
          | |- exists (_ : _ * _), _ => eexists (_, _)
          | |- exists _, _ => eexists
          | |- _ :: _ = _ :: _ /\ _ => split; [reflexivity|]
          | |- [] = [] /\ _ => split; [reflexivity|]
          | |- (_, _) = (_, _) => reflexivity
          | |- _ => runs_case
          end; runs_unfold); try done.

(** Match a trace obtained by [mruns_inv] against a reference trace whose
    answers are still to be chosen: the events are unified one by one, and a
    guard is decided from the hypotheses once the answers it tests are
    known. *)
Ltac trace_guard :=
  match goal with
  | H : ?b = true |- context [if ?c then _ else _] =>
      lazymatch c with context [b] => rewrite H end
  | H : ?b = false |- context [if ?c then _ else _] =>
      lazymatch c with context [b] => rewrite H end
  | H : true = ?b |- context [if ?c then _ else _] =>
      lazymatch c with context [b] => rewrite <- H end
  | H : false = ?b |- context [if ?c then _ else _] =>
      lazymatch c with context [b] => rewrite <- H end
  | |- context [decide ?P] =>
      tryif has_evar P then fail
      else first [ rewrite (decide_True (P := P)) by done
                 | rewrite (decide_False (P := P)) by done ]
  end.

Ltac trace_match :=
  repeat (simpl; autorewrite with ciot_rw;
          first [ reflexivity
                | trace_guard
                | lazymatch goal with
                  | |- ?x :: _ = ?y :: _ => unify x y; apply (f_equal (cons x))
                  end ]).

(** Read the first events off an equation between traces, without
    unfolding what follows them. *)
Ltac trace_inj H :=
  cbn [app] in H;
  repeat (let E := fresh "E" in
          apply (inj2 cons) in H as [E H]; injection E as E;
          lazymatch type of E with
          | ?x = ?y => first [ subst x | subst y | idtac ]
          end;
          cbn [app] in H).

(** Build the run of a member function along a given trace, statement by
    statement.  A call takes its answer from the event at the head of the
    trace; a guard is decided by case analysis; a member function called by
    this one is run by [mruns_exec_hook], which the component files extend
    with their characterisations. *)
Ltac mruns_exec_hook := fail.
Ltac mruns_exec_bind_hook := fail.

Ltac mruns_exec_simpl := idtac.

Ltac mruns_exec_step :=
  cbv beta; mruns_exec_simpl;
  lazymatch goal with
  | |- mruns ((_ ≫= _) ≫= _) _ _ _ _ => apply mruns_bind_assoc
  | |- mruns (call _ ≫= _) _ (_ :: _) _ _ =>
      first [ eapply (mruns_call_bind _ _ _ _ tt); [reflexivity|]
            | eapply mruns_call_bind; [reflexivity|] ]
  | |- mruns (gets _ ≫= _) _ _ _ _ => apply mruns_gets_bind
  | |- mruns (modify _ ≫= _) _ _ _ _ => apply mruns_modify_bind
  | |- mruns (mret _ ≫= _) _ _ _ _ => apply mruns_ret_bind
  | |- mruns ((if decide ?P then _ else _) ≫= _) _ _ _ _ => destruct (decide P)
  | |- mruns ((if ?b then _ else _) ≫= _) _ _ _ _ => destruct b eqn:?
  | |- mruns (if decide ?P then _ else _) _ _ _ _ => destruct (decide P)
  | |- mruns (if ?b then _ else _) _ _ _ _ => destruct b eqn:?
  | |- mruns (_ ≫= _) _ (_ ++ _) _ _ =>
      eapply mruns_bind_intro; [solve [mruns_exec_hook]|]
  | |- mruns (_ ≫= _) _ _ _ _ => mruns_exec_bind_hook
  | |- mruns (call _) _ _ _ _ => apply mruns_call; by split
  | |- mruns (mret _) _ _ _ _ => apply mruns_ret; by split_and!
  | |- mruns (modify _) _ _ _ _ => apply mruns_modify; by split
  | |- mruns (gets _) _ _ _ _ => apply mruns_gets; by split_and!
  | |- mruns _ _ _ _ _ => solve [mruns_exec_hook]
  end.

Ltac mruns_exec :=
  cbn [app orb andb negb]; rewrite <- ?app_assoc;
  repeat (mruns_exec_step; cbn [app orb andb negb]; rewrite <- ?app_assoc).
