(* ===== verification/State.v ===== *)
(** * The state of the controller object

    The fields of [CloudIoTCoreMqtt] that [CloudIoTCoreMqtt.cpp] reads and
    writes, the identity the device object supplies, the constants of
    [CloudIoTCore.h], the constructor and the three setters.

    [iat] and [jwt] are assigned by the file without being declared in it;
    they are kept with the fields.  The pointers [mqttClient] and
    [netClient] stored by the constructor are the receivers of the [mqtt_]
    calls and carry no state of their own here. *)

From S2P Require Import Prelude Machine Lwmqtt Backoff Effects.

#[local] Open Scope Z_scope.

(** ** The device identity *)

(** What [CloudIoTCoreDevice] answers to its accessors; the answers never
    change once the device object is built. *)
Record CloudIoTCoreDevice : Set := {
  getClientId : string;
  getConfigTopic : string;
  getCommandsTopic : string;
  getEventsTopic : string;
  getStateTopic : string;
  getDeviceId : string
}.

#[export] Instance CloudIoTCoreDevice_eq_dec : EqDecision CloudIoTCoreDevice.
Proof. solve_decision. Defined.

(** The device object of the library, built from the registry coordinates. *)
Definition CloudIoTCoreDevice_new (project_id location registry_id device_id : string)
  : CloudIoTCoreDevice :=
  {| getClientId := "projects/" +:+ project_id +:+ "/locations/" +:+ location
                    +:+ "/registries/" +:+ registry_id +:+ "/devices/" +:+ device_id;
     getConfigTopic := "/devices/" +:+ device_id +:+ "/config";
     getCommandsTopic := "/devices/" +:+ device_id +:+ "/commands/#";
     getEventsTopic := "/devices/" +:+ device_id +:+ "/events";
     getStateTopic := "/devices/" +:+ device_id +:+ "/state";
     getDeviceId := device_id |}.

(** ** Constants of [CloudIoTCore.h] *)

Definition CLOUD_IOT_CORE_MQTT_HOST : string := "mqtt.googleapis.com".
Definition CLOUD_IOT_CORE_MQTT_HOST_LTS : string := "mqtt.2030.ltsapis.goog".
Definition CLOUD_IOT_CORE_MQTT_PORT : Z := 8883.
Definition CLOUD_IOT_CORE_HTTP_PORT : Z := 443.

(** ** The fields *)

Record CloudIoTCoreMqtt : Set := {
  device : CloudIoTCoreDevice;
  __backoff__ : Z;
  __last_retry_at : Z;
  iat : Z;
  jwt : string;
  logConnect : bool;
  useLts : bool;
  use443Port : bool
}.

#[export] Instance CloudIoTCoreMqtt_eq_dec : EqDecision CloudIoTCoreMqtt.
Proof. solve_decision. Defined.

(** Assignments to one field. *)
Definition set_backoff (v : Z) (s : CloudIoTCoreMqtt) : CloudIoTCoreMqtt :=
  {| device := device s; __backoff__ := v; __last_retry_at := __last_retry_at s;
     iat := iat s; jwt := jwt s; logConnect := logConnect s; useLts := useLts s;
     use443Port := use443Port s |}.

Definition set_last_retry_at (v : Z) (s : CloudIoTCoreMqtt) : CloudIoTCoreMqtt :=
  {| device := device s; __backoff__ := __backoff__ s; __last_retry_at := v;
     iat := iat s; jwt := jwt s; logConnect := logConnect s; useLts := useLts s;
     use443Port := use443Port s |}.

Definition set_iat (v : Z) (s : CloudIoTCoreMqtt) : CloudIoTCoreMqtt :=
  {| device := device s; __backoff__ := __backoff__ s;
     __last_retry_at := __last_retry_at s; iat := v; jwt := jwt s;
     logConnect := logConnect s; useLts := useLts s; use443Port := use443Port s |}.

Definition set_jwt (v : string) (s : CloudIoTCoreMqtt) : CloudIoTCoreMqtt :=
  {| device := device s; __backoff__ := __backoff__ s;
     __last_retry_at := __last_retry_at s; iat := iat s; jwt := v;
     logConnect := logConnect s; useLts := useLts s; use443Port := use443Port s |}.

Definition set_logConnect (v : bool) (s : CloudIoTCoreMqtt) : CloudIoTCoreMqtt :=
  {| device := device s; __backoff__ := __backoff__ s;
     __last_retry_at := __last_retry_at s; iat := iat s; jwt := jwt s;
     logConnect := v; useLts := useLts s; use443Port := use443Port s |}.

Definition set_useLts (v : bool) (s : CloudIoTCoreMqtt) : CloudIoTCoreMqtt :=
  {| device := device s; __backoff__ := __backoff__ s;
     __last_retry_at := __last_retry_at s; iat := iat s; jwt := jwt s;
     logConnect := logConnect s; useLts := v; use443Port := use443Port s |}.

Definition set_use443Port (v : bool) (s : CloudIoTCoreMqtt) : CloudIoTCoreMqtt :=
  {| device := device s; __backoff__ := __backoff__ s;
     __last_retry_at := __last_retry_at s; iat := iat s; jwt := jwt s;
     logConnect := logConnect s; useLts := useLts s; use443Port := v |}.

(** ** Constructor and setters *)

(** [CloudIoTCoreMqtt::CloudIoTCoreMqtt]: the constructor stores its
    arguments; the other fields take the initialisers of the class
    definition. *)
Definition CloudIoTCoreMqtt_new (_device : CloudIoTCoreDevice) : CloudIoTCoreMqtt :=
  {| device := _device; __backoff__ := 1000; __last_retry_at := 0; iat := 0;
     jwt := ""; logConnect := true; useLts := false; use443Port := false |}.

Definition setLogConnect (enabled : bool) : M CloudIoTCoreMqtt unit :=
  modify (set_logConnect enabled).

Definition setUseLts (enabled : bool) : M CloudIoTCoreMqtt unit :=
  modify (set_useLts enabled).

Definition setUse443Port (enabled : bool) : M CloudIoTCoreMqtt unit :=
  modify (set_use443Port enabled).

(** The call of the sketch's [getJwt()]: the token is returned and [iat]
    holds what the callback stamped. *)
Definition call_getJwt : M CloudIoTCoreMqtt string :=
  '(token, stamp) ← call getJwt;
  modify (set_iat stamp);;
  mret token.

(** ** Invariant of the fields *)

(** The delay is between the bounds, so the next [increaseBackoff] cannot
    overflow, and the time of the last attempt is a reading of the clock. *)
Definition state_inv (cfg : BackoffConfig) (s : CloudIoTCoreMqtt) : Prop :=
  backoff_inv cfg (__backoff__ s) /\ in_ulong (__last_retry_at s).

#[export] Instance state_inv_dec cfg s : Decision (state_inv cfg s).
Proof. unfold state_inv. apply _. Defined.

(** The numeric fields hold values of their C types: [__backoff__] is an
    [int], [__last_retry_at] and [iat] are [unsigned long]. *)
Definition typed (s : CloudIoTCoreMqtt) : Prop :=
  in_int (__backoff__ s) /\ in_ulong (__last_retry_at s) /\ in_ulong (iat s).

#[export] Instance typed_dec s : Decision (typed s).
Proof. unfold typed. apply _. Defined.

(** Two states that differ at most in the fields a connect attempt may
    write. *)
Definition same_settings (s s' : CloudIoTCoreMqtt) : Prop :=
  device s' = device s /\ logConnect s' = logConnect s /\
  useLts s' = useLts s /\ use443Port s' = use443Port s.

#[export] Instance same_settings_equiv : Equivalence same_settings.
Proof.
  unfold same_settings. split.
  - by intros s.
  - intros s s' (-> & -> & -> & ->). done.
  - intros s1 s2 s3 (H1 & H2 & H3 & H4) (-> & -> & -> & ->). done.
Qed.

(** ** Properties *)

(** Writing a field with the value it holds changes nothing. *)
Lemma set_iat_id s : set_iat (iat s) s = s.
Proof. by destruct s. Qed.

Lemma set_backoff_id s : set_backoff (__backoff__ s) s = s.
Proof. by destruct s. Qed.

Lemma set_backoff_set_backoff a b s : set_backoff a (set_backoff b s) = set_backoff a s.
Proof. done. Qed.

Lemma set_iat_set_iat a b s : set_iat a (set_iat b s) = set_iat a s.
Proof. done. Qed.

#[export] Hint Rewrite set_iat_id set_backoff_id set_backoff_set_backoff
  set_iat_set_iat : ciot_rw.

Lemma CloudIoTCoreMqtt_new_inv cfg dev :
  minbackoff cfg <= 1000 <= max_backoff cfg -> state_inv cfg (CloudIoTCoreMqtt_new dev).
Proof. intros. split; [done|]. by apply (bool_decide_unpack _). Qed.

(** Each setter writes its own flag and nothing else. *)
Lemma setLogConnect_runs enabled s t u s' :
  mruns (setLogConnect enabled) s t u s' <-> t = [] /\ s' = set_logConnect enabled s.
Proof. apply mruns_modify. Qed.

Lemma setUseLts_runs enabled s t u s' :
  mruns (setUseLts enabled) s t u s' <-> t = [] /\ s' = set_useLts enabled s.
Proof. apply mruns_modify. Qed.

Lemma setUse443Port_runs enabled s t u s' :
  mruns (setUse443Port enabled) s t u s' <-> t = [] /\ s' = set_use443Port enabled s.
Proof. apply mruns_modify. Qed.

Lemma call_getJwt_runs s t token s' :
  mruns call_getJwt s t token s' <->
  exists stamp, t = [EvGetJwt token stamp] /\ s' = set_iat stamp s.
Proof.
  unfold call_getJwt. split.
  - intros H. mruns_inv. eauto.
  - intros (stamp & -> & ->). unfold mruns. simpl. by exists (token, stamp), [].
Qed.

Lemma call_getJwt_bind {B} (f : string -> M CloudIoTCoreMqtt B) s token stamp t b s' :
  mruns (f token) (set_iat stamp s) t b s' ->
  mruns (call_getJwt ≫= f) s (EvGetJwt token stamp :: t) b s'.
Proof.
  intros H. apply (mruns_bind_intro _ _ _ [_] _ token (set_iat stamp s)); [|done].
  apply call_getJwt_runs. eauto.
Qed.

#[export] Hint Resolve CloudIoTCoreMqtt_new_inv : ciot.

#[export] Hint Unfold call_getJwt setLogConnect setUseLts setUse443Port : ciot_unfold.

Ltac state_hook :=
  match goal with
  | H : mruns call_getJwt _ _ _ _ |- _ => apply call_getJwt_runs in H as (? & -> & ?)
  | H : mruns (setLogConnect _) _ _ _ _ |- _ => apply setLogConnect_runs in H as (-> & ?)
  | H : mruns (setUseLts _) _ _ _ _ |- _ => apply setUseLts_runs in H as (-> & ?)
  | H : mruns (setUse443Port _) _ _ _ _ |- _ => apply setUse443Port_runs in H as (-> & ?)
  end.

Ltac mruns_hook ::= state_hook.

Ltac state_exec_bind_hook :=
  lazymatch goal with
  | |- mruns (call_getJwt ≫= _) _ (EvGetJwt _ _ :: _) _ _ => apply call_getJwt_bind
  end.

Ltac mruns_exec_bind_hook ::= state_exec_bind_hook.

(** Reads of fields through the assignments made before them. *)
Ltac state_simpl :=
  cbn [device __backoff__ __last_retry_at iat jwt logConnect useLts use443Port
       set_backoff set_last_retry_at set_iat set_jwt set_logConnect set_useLts
       set_use443Port].

Ltac mruns_exec_simpl ::= state_simpl.
