(* ===== verification/Diagnostics.v ===== *)
(** * Diagnostics: [logError], [logReturnCode], [logConfiguration]

    The three member functions print what the MQTT client reports after a
    failed connect.  Their classification is pure: [error_name] and
    [return_code_name] are the texts chosen by the two [switch] statements,
    [invalidates_token] tells the two return codes on which [logReturnCode]
    also clears [iat], so that the next connect mints a new JWT. *)

From S2P Require Import Prelude Machine Lwmqtt Backoff Effects State.
From stdpp Require Import finite.

#[local] Open Scope Z_scope.

(** ** Classification *)

(** The text printed by the [switch] of [logError]; [LWMQTT_SUCCESS] has no
    [case] and falls to [default]. *)
Definition error_name (e : lwmqtt_err_t) : string :=
  match e with
  | LWMQTT_BUFFER_TOO_SHORT => "LWMQTT_BUFFER_TOO_SHORT"
  | LWMQTT_VARNUM_OVERFLOW => "LWMQTT_VARNUM_OVERFLOW"
  | LWMQTT_NETWORK_FAILED_CONNECT => "LWMQTT_NETWORK_FAILED_CONNECT"
  | LWMQTT_NETWORK_TIMEOUT => "LWMQTT_NETWORK_TIMEOUT"
  | LWMQTT_NETWORK_FAILED_READ => "LWMQTT_NETWORK_FAILED_READ"
  | LWMQTT_NETWORK_FAILED_WRITE => "LWMQTT_NETWORK_FAILED_WRITE"
  | LWMQTT_REMAINING_LENGTH_OVERFLOW => "LWMQTT_REMAINING_LENGTH_OVERFLOW"
  | LWMQTT_REMAINING_LENGTH_MISMATCH => "LWMQTT_REMAINING_LENGTH_MISMATCH"
  | LWMQTT_MISSING_OR_WRONG_PACKET => "LWMQTT_MISSING_OR_WRONG_PACKET"
  | LWMQTT_CONNECTION_DENIED => "LWMQTT_CONNECTION_DENIED"
  | LWMQTT_FAILED_SUBSCRIPTION => "LWMQTT_FAILED_SUBSCRIPTION"
  | LWMQTT_SUBACK_ARRAY_OVERFLOW => "LWMQTT_SUBACK_ARRAY_OVERFLOW"
  | LWMQTT_PONG_TIMEOUT => "LWMQTT_PONG_TIMEOUT"
  | _ => "This error code should never be reached."
  end.

(** The text printed by the [switch] of [logReturnCode]. *)
Definition return_code_name (rc : lwmqtt_return_code_t) : string :=
  match rc with
  | LWMQTT_CONNECTION_ACCEPTED => "OK"
  | LWMQTT_UNACCEPTABLE_PROTOCOL => "LWMQTT_UNACCEPTABLE_PROTOCOLL"
  | LWMQTT_IDENTIFIER_REJECTED => "LWMQTT_IDENTIFIER_REJECTED"
  | LWMQTT_SERVER_UNAVAILABLE => "LWMQTT_SERVER_UNAVAILABLE"
  | LWMQTT_BAD_USERNAME_OR_PASSWORD => "LWMQTT_BAD_USERNAME_OR_PASSWORD"
  | LWMQTT_NOT_AUTHORIZED => "LWMQTT_NOT_AUTHORIZED"
  | LWMQTT_UNKNOWN_RETURN_CODE => "LWMQTT_UNKNOWN_RETURN_CODE"
  end.

(** The return codes whose [case] holds [iat = 0]. *)
Definition invalidates_token (rc : lwmqtt_return_code_t) : bool :=
  match rc with
  | LWMQTT_BAD_USERNAME_OR_PASSWORD | LWMQTT_NOT_AUTHORIZED => true
  | _ => false
  end.

(** ** The member functions *)

(** [lastError()] is asked twice: for the number and for the [switch]. *)
Definition logError : M CloudIoTCoreMqtt unit :=
  e ← call mqtt_lastError;
  call (Serial_println (pretty (lwmqtt_err_code e)));;
  e ← call mqtt_lastError;
  call (Serial_println (error_name e)).

Definition logConfiguration (showJWT : bool) : M CloudIoTCoreMqtt unit :=
  call (Serial_println ("Connect with " +:+ CLOUD_IOT_CORE_MQTT_HOST_LTS +:+
                        ":" +:+ pretty CLOUD_IOT_CORE_MQTT_PORT));;
  dev ← gets device;
  call (Serial_println ("ClientId: " +:+ getClientId dev));;
  if showJWT then
    token ← call_getJwt;
    call (Serial_println ("JWT: " +:+ token))
  else mret tt.

(** Every enumerator has its [case], so the [default] of the source is not
    taken by any answer of the client. *)
Definition logReturnCode : M CloudIoTCoreMqtt unit :=
  rc ← call mqtt_returnCode;
  call (Serial_println (pretty (lwmqtt_return_code_code rc)));;
  rc ← call mqtt_returnCode;
  match rc with
  | LWMQTT_CONNECTION_ACCEPTED =>
      call (Serial_println "OK")
  | LWMQTT_UNACCEPTABLE_PROTOCOL =>
      call (Serial_println "LWMQTT_UNACCEPTABLE_PROTOCOLL")
  | LWMQTT_IDENTIFIER_REJECTED =>
      call (Serial_println "LWMQTT_IDENTIFIER_REJECTED")
  | LWMQTT_SERVER_UNAVAILABLE =>
      call (Serial_println "LWMQTT_SERVER_UNAVAILABLE")
  | LWMQTT_BAD_USERNAME_OR_PASSWORD =>
      call (Serial_println "LWMQTT_BAD_USERNAME_OR_PASSWORD");;
      modify (set_iat 0)
  | LWMQTT_NOT_AUTHORIZED =>
      call (Serial_println "LWMQTT_NOT_AUTHORIZED");;
      modify (set_iat 0)
  | LWMQTT_UNKNOWN_RETURN_CODE =>
      call (Serial_println "LWMQTT_UNKNOWN_RETURN_CODE")
  end.

(** ** Reference results *)

(** The events of the three functions, from the answers of the client. *)
Definition logError_trace (e1 e2 : lwmqtt_err_t) : list Event :=
  [EvLastError e1; EvPrintln (pretty (lwmqtt_err_code e1));
   EvLastError e2; EvPrintln (error_name e2)].

Definition logReturnCode_trace (rc1 rc2 : lwmqtt_return_code_t) : list Event :=
  [EvReturnCode rc1; EvPrintln (pretty (lwmqtt_return_code_code rc1));
   EvReturnCode rc2; EvPrintln (return_code_name rc2)].

Definition logConfiguration_trace (s : CloudIoTCoreMqtt) : list Event :=
  [EvPrintln ("Connect with " +:+ CLOUD_IOT_CORE_MQTT_HOST_LTS +:+ ":" +:+
              pretty CLOUD_IOT_CORE_MQTT_PORT);
   EvPrintln ("ClientId: " +:+ getClientId (device s))].

Arguments logError_trace : simpl never.
Arguments logReturnCode_trace : simpl never.
Arguments logConfiguration_trace : simpl never.

(** The fields after [logReturnCode] has seen [rc]. *)
Definition after_return_code (rc : lwmqtt_return_code_t) (s : CloudIoTCoreMqtt)
  : CloudIoTCoreMqtt :=
  set_iat (if invalidates_token rc then 0 else iat s) s.

(** What a trace shows of the return code: whether the one that
    [logReturnCode] switched on, the last one read, invalidates the
    token. *)
Definition rejected (t : list Event) : bool :=
  from_option invalidates_token false (last (answers mqtt_returnCode t)).

(** ** Properties of the classification *)

Lemma invalidates_token_iff rc :
  invalidates_token rc = true <->
  rc = LWMQTT_BAD_USERNAME_OR_PASSWORD \/ rc = LWMQTT_NOT_AUTHORIZED.
Proof. destruct rc; simpl; split; intros; (done || auto || (by destruct_or!)). Qed.

(** The broker's numeric codes 4 and 5, and no other. *)
Lemma invalidates_token_code rc :
  invalidates_token rc = true <-> 4 <= lwmqtt_return_code_code rc <= 5.
Proof. destruct rc; simpl; split; (done || lia). Qed.

Lemma error_name_default e :
  error_name e = "This error code should never be reached." <-> e = LWMQTT_SUCCESS.
Proof. by destruct e. Qed.

Lemma return_code_name_not_default rc :
  return_code_name rc <> "This return code should never be reached.".
Proof. by destruct rc. Qed.

#[export] Instance error_name_inj : Inj (=) (=) error_name.
Proof. intros e1 e2. by destruct e1, e2. Qed.

#[export] Instance return_code_name_inj : Inj (=) (=) return_code_name.
Proof. intros r1 r2. by destruct r1, r2. Qed.

(** ** Properties of the member functions *)

Lemma logError_runs s t u s' :
  mruns logError s t u s' <->
  exists e1 e2, t = logError_trace e1 e2 /\ s' = s.
Proof.
  unfold logError, logError_trace. split.
  - intros H. mruns_inv. eauto.
  - intros (e1 & e2 & -> & ->). destruct u. runs_go.
Qed.

Lemma logReturnCode_runs s t u s' :
  mruns logReturnCode s t u s' <->
  exists rc1 rc2, t = logReturnCode_trace rc1 rc2 /\ s' = after_return_code rc2 s.
Proof.
  unfold logReturnCode, logReturnCode_trace. split.
  - intros H. mruns_inv;
      match goal with
      | |- context [EvReturnCode ?a :: _ :: EvReturnCode ?b :: _] =>
          exists a, b; (split; [done|]); unfold after_return_code; simpl;
          by rewrite ?set_iat_id
      end.
  - intros (rc1 & rc2 & -> & ->). destruct u. unfold after_return_code.
    runs_go; by rewrite ?set_iat_id.
Qed.

Lemma logConfiguration_runs showJWT s t u s' :
  mruns (logConfiguration showJWT) s t u s' <->
  exists t',
    t = logConfiguration_trace s ++ t' /\
    if showJWT
    then exists token stamp,
        t' = [EvGetJwt token stamp; EvPrintln ("JWT: " +:+ token)] /\
        s' = set_iat stamp s
    else t' = [] /\ s' = s.
Proof.
  unfold logConfiguration, logConfiguration_trace. split.
  - intros H. mruns_inv; eauto 10.
  - intros (t' & -> & H). destruct u, showJWT.
    + destruct H as (token & stamp & -> & ->). runs_go.
    + destruct H as [-> ->]. runs_go.
Qed.

(** [logError] and [logConfiguration false] leave every field as it was. *)
Lemma logError_state s t u s' : mruns logError s t u s' -> s' = s.
Proof. intros (? & ? & _ & ->)%logError_runs. done. Qed.

Lemma logConfiguration_false_state s t u s' :
  mruns (logConfiguration false) s t u s' -> s' = s.
Proof. intros (? & _ & _ & ->)%logConfiguration_runs. done. Qed.

(** [after_return_code] writes [iat] at most: the other fields are read
    through it by computation. *)
Lemma after_return_code_keep rc s :
  invalidates_token rc = false -> after_return_code rc s = s.
Proof. unfold after_return_code. intros ->. apply set_iat_id. Qed.

Lemma after_return_code_iat rc s :
  iat (after_return_code rc s) = if invalidates_token rc then 0 else iat s.
Proof. done. Qed.

#[export] Hint Rewrite after_return_code_iat : ciot_rw.

#[export] Hint Unfold logError logReturnCode logConfiguration : ciot_unfold.

Ltac diagnostics_hook :=
  match goal with
  | H : mruns logError _ _ _ _ |- _ => apply logError_runs in H as (? & ? & -> & ?)
  | H : mruns logReturnCode _ _ _ _ |- _ =>
      apply logReturnCode_runs in H as (? & ? & -> & ?)
  | H : mruns (logConfiguration false) _ _ _ _ |- _ =>
      apply logConfiguration_runs in H as (? & -> & -> & ?);
      rewrite ?app_nil_r in *
  end.

Ltac mruns_hook ::= first [ state_hook | diagnostics_hook ].

Lemma logConfiguration_false_runs s :
  mruns (logConfiguration false) s (logConfiguration_trace s) tt s.
Proof. apply logConfiguration_runs. exists []. by rewrite app_nil_r. Qed.

Ltac diagnostics_exec_hook :=
  lazymatch goal with
  | |- mruns logError _ _ _ _ => apply logError_runs; by do 2 eexists
  | |- mruns logReturnCode _ _ _ _ => apply logReturnCode_runs; by do 2 eexists
  | |- mruns (logConfiguration false) ?s ?t _ _ =>
      change t with (logConfiguration_trace s); apply logConfiguration_false_runs
  end.

Ltac mruns_exec_hook ::= diagnostics_exec_hook.

(** ** What the diagnostics do to the fields *)

(** [logReturnCode] clears [iat] on the two rejections and does nothing
    else.  The client is asked for the return code twice; when the second
    answer is "bad user name or password" or "not authorized", [iat] is set
    to zero and the other fields are kept; for every other return code all
    the fields are as before. *)
Theorem logReturnCode_effect s t u s' :
  mruns logReturnCode s t u s' ->
  length (answers mqtt_returnCode t) = 2%nat
  /\ s' = if rejected t then set_iat 0 s else s.
Proof.
  intros (rc1 & rc2 & -> & ->)%logReturnCode_runs. split; [done|].
  unfold after_return_code. change (rejected _) with (invalidates_token rc2).
  destruct (invalidates_token rc2); [done|apply set_iat_id].
Qed.

(** [logConfiguration] reports the long-term host and the MQTT port
    whatever the flags.  The two lines printed name
    [CLOUD_IOT_CORE_MQTT_HOST_LTS] and [CLOUD_IOT_CORE_MQTT_PORT] for every
    value of [useLts] and [use443Port], also when [startMQTT] has connected
    elsewhere. *)
Theorem logConfiguration_ignores_settings lts p443 s t u s' :
  mruns (logConfiguration false) (set_useLts lts (set_use443Port p443 s)) t u s' ->
  t = [EvPrintln "Connect with mqtt.2030.ltsapis.goog:8883";
       EvPrintln ("ClientId: " +:+ getClientId (device s))].
Proof. by intros (? & -> & -> & _)%logConfiguration_runs. Qed.

Lemma logReturnCode_effect_witness :
  length (answers mqtt_returnCode
            (logReturnCode_trace LWMQTT_NOT_AUTHORIZED LWMQTT_NOT_AUTHORIZED)) = 2%nat
  /\ set_iat 0 (CloudIoTCoreMqtt_new (CloudIoTCoreDevice_new "p" "l" "r" "d"))
     = set_iat 0 (CloudIoTCoreMqtt_new (CloudIoTCoreDevice_new "p" "l" "r" "d")).
Proof.
  apply (logReturnCode_effect (CloudIoTCoreMqtt_new (CloudIoTCoreDevice_new "p" "l" "r" "d"))
           (logReturnCode_trace LWMQTT_NOT_AUTHORIZED LWMQTT_NOT_AUTHORIZED) tt).
  apply (mrun_mruns script_env _ _
           (logReturnCode_trace LWMQTT_NOT_AUTHORIZED LWMQTT_NOT_AUTHORIZED) _ _ []).
  reflexivity.
Defined.

Lemma logConfiguration_ignores_settings_witness :
  logConfiguration_trace (CloudIoTCoreMqtt_new (CloudIoTCoreDevice_new "p" "l" "r" "d"))
  = [EvPrintln "Connect with mqtt.2030.ltsapis.goog:8883";
     EvPrintln ("ClientId: " +:+ "projects/p/locations/l/registries/r/devices/d")].
Proof.
  apply (logConfiguration_ignores_settings false true
           (CloudIoTCoreMqtt_new (CloudIoTCoreDevice_new "p" "l" "r" "d")) _ tt
           (set_useLts false
              (set_use443Port true
                 (CloudIoTCoreMqtt_new (CloudIoTCoreDevice_new "p" "l" "r" "d"))))).
  apply (mrun_mruns script_env _ _
           (logConfiguration_trace
              (CloudIoTCoreMqtt_new (CloudIoTCoreDevice_new "p" "l" "r" "d"))) _ _ []).
  reflexivity.
Defined.
