(* ===== verification/Controller.v ===== *)
(** * The connection lifecycle controller

    The member functions of [CloudIoTCoreMqtt] that drive the session:
    [loop], [increaseBackoff], [mqttConnect], [mqttConnectAsync],
    [startMQTT], the publish overloads and [onConnect].  Each definition is
    the whole member function: every call it makes, in the order of the
    source, and every assignment to a field.

    The constants of the back-off ([cfg]) and the arithmetic of the retry
    gate ([RA]) are declared in the header and are parameters here.  Where
    C++ leaves the order of evaluation of two operands open (the two sides
    of [millis() > device->getExpMillis()]), the left operand is evaluated
    first; the argument of [abs] is evaluated once (see [Machine]); the
    call [mqttConnect()] of [loop] takes the default [skip = false] of the
    header.

    Beside each member function stands its reference result, and the lemma
    [..._runs] that its runs are exactly those the reference result gives;
    the tactics [mruns_inv] and [mruns_exec] of [Effects] carry the two
    directions, extended here with the lemmas of the functions called. *)

From S2P Require Import Prelude Machine Lwmqtt Backoff Effects State Diagnostics.

#[local] Open Scope Z_scope.

(** ** The answers of the environment *)

(** The answers read by a connect attempt, in the order of the calls; an
    answer that the path taken does not ask for is not used. *)
Record ConnectAnswers : Set := {
  ans_token : string;                 (* getJwt *)
  ans_stamp : Z;
  ans_now : Z;                        (* millis *)
  ans_result : bool;                  (* connect *)
  ans_connected : bool;               (* connected *)
  ans_error : lwmqtt_err_t;           (* lastError, tested *)
  ans_error1 : lwmqtt_err_t;          (* lastError, logged *)
  ans_error2 : lwmqtt_err_t;
  ans_rc1 : lwmqtt_return_code_t;     (* returnCode, logged *)
  ans_rc2 : lwmqtt_return_code_t;
  ans_jitter : Z;                     (* random *)
  ans_sub_config : bool;              (* subscribe *)
  ans_sub_commands : bool;
  ans_pub_state : bool;               (* publish *)
  ans_pub_events : bool
}.

#[export] Instance ConnectAnswers_inhabited : Inhabited ConnectAnswers :=
  populate (Build_ConnectAnswers inhabitant inhabitant inhabitant inhabitant inhabitant
              inhabitant inhabitant inhabitant inhabitant inhabitant inhabitant
              inhabitant inhabitant inhabitant inhabitant).

(** The answers read by one call of [loop], in the order of the calls. *)
Record LoopAnswers : Set := {
  tick_now : Z;                       (* millis, against the expiry *)
  tick_exp : Z;                       (* getExpMillis *)
  tick_was_connected : bool;          (* connected, before the disconnect *)
  tick_disconnect : bool;             (* disconnect *)
  tick_connected : bool;              (* connected *)
  tick_now2 : Z;                      (* millis, against the last attempt *)
  tick_connect : ConnectAnswers;      (* the answers to mqttConnect *)
  tick_loop : bool                    (* MQTTClient::loop *)
}.

#[export] Instance LoopAnswers_inhabited : Inhabited LoopAnswers :=
  populate (Build_LoopAnswers inhabitant inhabitant inhabitant inhabitant inhabitant
              inhabitant inhabitant inhabitant).

Section Controller.
Context (cfg : BackoffConfig) {RA : RetryArith}.

#[local] Abbreviation St := CloudIoTCoreMqtt.

(** ** Publishing *)

Definition publishTelemetry (data : string) : M St bool :=
  dev ← gets device;
  call (mqtt_publish (getEventsTopic dev) data None false 0).

Definition publishTelemetry_qos (data : string) (qos : Z) : M St bool :=
  dev ← gets device;
  call (mqtt_publish (getEventsTopic dev) data None false qos).

Definition publishTelemetry_bytes (data : string) (length : Z) : M St bool :=
  dev ← gets device;
  call (mqtt_publish (getEventsTopic dev) data (Some length) false 0).

Definition publishTelemetry_sub (subtopic data : string) : M St bool :=
  dev ← gets device;
  call (mqtt_publish (getEventsTopic dev +:+ subtopic) data None false 0).

Definition publishTelemetry_sub_qos (subtopic data : string) (qos : Z) : M St bool :=
  dev ← gets device;
  call (mqtt_publish (getEventsTopic dev +:+ subtopic) data None false qos).

Definition publishTelemetry_sub_bytes (subtopic data : string) (length : Z) : M St bool :=
  dev ← gets device;
  call (mqtt_publish (getEventsTopic dev +:+ subtopic) data (Some length) false 0).

Definition publishState (data : string) : M St bool :=
  dev ← gets device;
  call (mqtt_publish (getStateTopic dev) data None false 0).

Definition publishState_bytes (data : string) (length : Z) : M St bool :=
  dev ← gets device;
  call (mqtt_publish (getStateTopic dev) data (Some length) false 0).

(** ** [onConnect] *)

(** The two results are dropped. *)
Definition onConnect : M St unit :=
  l ← gets logConnect;
  if (l : bool) then
    publishState "connected";;
    dev ← gets device;
    publishTelemetry_sub "/events" (getDeviceId dev +:+ "-connected");;
    mret tt
  else mret tt.

(** ** [increaseBackoff] *)

Definition increaseBackoff : M St unit :=
  b ← gets __backoff__;
  (if decide (b < minbackoff cfg) then modify (set_backoff (minbackoff cfg))
   else mret tt);;
  b ← gets __backoff__;
  r ← call (random (jitter cfg));
  modify (set_backoff (wrap_int (scale cfg b + r)));;
  b ← gets __backoff__;
  (if decide (b > max_backoff cfg) then modify (set_backoff (max_backoff cfg))
   else mret tt);;
  b ← gets __backoff__;
  call (Serial_print ("Back-off: " +:+ pretty b +:+ "ms" +:+ LF)).

(** ** [mqttConnect] *)

(** The subscriptions and [onConnect] that end both connect functions. *)
Definition subscribe_and_notify : M St unit :=
  dev ← gets device;
  call (mqtt_subscribe (getConfigTopic dev) 1);;
  call (mqtt_subscribe (getCommandsTopic dev) 0);;
  onConnect.

(** The parameter [skip] is not used by the blocking connect: the client is
    always asked to connect with [skip = false]. *)
Definition mqttConnect (skip : bool) : M St unit :=
  call (Serial_print "Connecting MQTT... ");;
  i ← gets iat;
  (if decide (i = 0) then token ← call_getJwt; modify (set_jwt token)
   else mret tt);;
  now ← call millis;
  modify (set_last_retry_at now);;
  dev ← gets device;
  password ← gets jwt;
  result ← call (mqtt_connect (getClientId dev) "unused" password false);
  c ← call mqtt_connected;
  call (Serial_println (if (c : bool) then "connected" else "not connected"));;
  e ← call mqtt_lastError;
  (if bool_decide (e ≠ LWMQTT_SUCCESS) && negb result then
     call (Serial_println "Settings incorrect or missing a cyper for SSL");;
     logError;;
     logReturnCode;;
     logConfiguration false;;
     increaseBackoff
   else
     call (Serial_println "Library connected!");;
     modify (set_backoff (minbackoff cfg)));;
  subscribe_and_notify.

(** ** [mqttConnectAsync] *)

Definition mqttConnectAsync (skip : bool) : M St unit :=
  call (Serial_print "Connecting MQTT async [NOT COMPLETE IMPLEMENTATION]...");;
  i ← gets iat;
  (if decide (i = 0) then token ← call_getJwt; modify (set_jwt token)
   else mret tt);;
  now ← call millis;
  modify (set_last_retry_at now);;
  dev ← gets device;
  password ← gets jwt;
  result ← call (mqtt_connect (getClientId dev) "unused" password skip);
  e ← call mqtt_lastError;
  (if bool_decide (e ≠ LWMQTT_SUCCESS) && result then
     logError;;
     logReturnCode;;
     logConfiguration false;;
     increaseBackoff
   else
     c ← call mqtt_connected;
     call (Serial_println (if (c : bool) then "connected" else "not connected"));;
     c ← call mqtt_connected;
     if negb c then
       call (Serial_println
               "No internet or Settings incorrect or missing a cyper for SSL");;
       logConfiguration false;;
       call (Serial_println
               (LF +:+ "aborting mqtt connection attempt, lets rety later..." +:+
                TAB +:+ "Library not connected!"));;
       increaseBackoff
     else
       call (Serial_println (LF +:+ "Library connected!"));;
       modify (set_backoff (minbackoff cfg)));;
  subscribe_and_notify.

(** ** [startMQTT] *)

(** [begin] also receives the network client; [onMessage] registers the
    sketch's [messageReceived]. *)
Definition startMQTT : M St unit :=
  u ← gets use443Port;
  let port := if (u : bool) then CLOUD_IOT_CORE_HTTP_PORT else CLOUD_IOT_CORE_MQTT_PORT in
  l ← gets useLts;
  (if (l : bool) then call (mqtt_begin CLOUD_IOT_CORE_MQTT_HOST_LTS port)
   else call (mqtt_begin CLOUD_IOT_CORE_MQTT_HOST port));;
  call mqtt_onMessage.

(** ** [loop] *)

(** [&&] evaluates [millis()] only when the client is not connected. *)
Definition loop : M St unit :=
  now ← call millis;
  exp ← call getExpMillis;
  needToReconnect ←
    (if bool_decide (now > exp) then
       call (Serial_println "Reconnecting before JWT expiration");;
       modify (set_iat 0);;
       c ← call mqtt_connected;
       (if (c : bool) then call mqtt_disconnect;; mret tt else mret tt);;
       mret true
     else mret false);
  c ← call mqtt_connected;
  needToReconnect ←
    (if negb c then
       last ← gets __last_retry_at;
       now' ← call millis;
       b ← gets __backoff__;
       if gate_open last now' b then
         call (Serial_println "Reconnecting with back-off");;
         modify (set_iat 0);;
         mret true
       else mret needToReconnect
     else mret needToReconnect);
  (if (needToReconnect : bool) then mqttConnect false else mret tt);;
  call mqtt_loop;;
  mret tt.

(** ** Reference results

    What each member function leaves in the fields and in the trace, as
    functions of the answers it received. *)

(** The events of [onConnect], from the answers of the two publishes. *)
Definition onConnect_trace (s : St) (pub_state pub_events : bool) : list Event :=
  if logConnect s then
    [EvPublish (getStateTopic (device s)) "connected" None false 0 pub_state;
     EvPublish (getEventsTopic (device s) +:+ "/events")
       (getDeviceId (device s) +:+ "-connected") None false 0 pub_events]
  else [].

Definition subscribe_and_notify_trace (s : St)
    (sub_config sub_commands pub_state pub_events : bool) : list Event :=
  EvSubscribe (getConfigTopic (device s)) 1 sub_config
  :: EvSubscribe (getCommandsTopic (device s)) 0 sub_commands
  :: onConnect_trace s pub_state pub_events.

Definition increaseBackoff_trace (s : St) (r : Z) : list Event :=
  [EvRandom (jitter cfg) r;
   EvPrint ("Back-off: " +:+ pretty (backoff_step cfg (__backoff__ s) r) +:+ "ms" +:+ LF)].

Definition increaseBackoff_state (s : St) (r : Z) : St :=
  set_backoff (backoff_step cfg (__backoff__ s) r) s.

Definition startMQTT_host (s : St) : string :=
  if useLts s then CLOUD_IOT_CORE_MQTT_HOST_LTS else CLOUD_IOT_CORE_MQTT_HOST.

Definition startMQTT_port (s : St) : Z :=
  if use443Port s then CLOUD_IOT_CORE_HTTP_PORT else CLOUD_IOT_CORE_MQTT_PORT.

(** *** [mqttConnect]: the answers it reads and what it makes of them *)

(** The test of [mqttConnect] after the connect. *)
Definition connect_failed (e : lwmqtt_err_t) (result : bool) : bool :=
  bool_decide (e ≠ LWMQTT_SUCCESS) && negb result.

(** The fields after the [if (iat == 0)] that opens both connect
    functions. *)
Definition after_mint (s : St) (token : string) (stamp : Z) : St :=
  if decide (iat s = 0) then set_jwt token (set_iat stamp s) else s.

Definition mint_trace (s : St) (token : string) (stamp : Z) : list Event :=
  if decide (iat s = 0) then [EvGetJwt token stamp] else [].

Definition mqttConnect_state (s : St) (a : ConnectAnswers) : St :=
  let s1 := set_last_retry_at (ans_now a) (after_mint s (ans_token a) (ans_stamp a)) in
  if connect_failed (ans_error a) (ans_result a)
  then increaseBackoff_state (after_return_code (ans_rc2 a) s1) (ans_jitter a)
  else set_backoff (minbackoff cfg) s1.

Definition mqttConnect_trace (s : St) (a : ConnectAnswers) : list Event :=
  let s1 := set_last_retry_at (ans_now a) (after_mint s (ans_token a) (ans_stamp a)) in
  EvPrint "Connecting MQTT... "
  :: mint_trace s (ans_token a) (ans_stamp a)
  ++ EvMillis (ans_now a)
  :: EvConnect (getClientId (device s)) "unused" (jwt s1) false (ans_result a)
  :: EvConnected (ans_connected a)
  :: EvPrintln (if ans_connected a then "connected" else "not connected")
  :: EvLastError (ans_error a)
  :: (if connect_failed (ans_error a) (ans_result a)
      then EvPrintln "Settings incorrect or missing a cyper for SSL"
           :: logError_trace (ans_error1 a) (ans_error2 a)
           ++ logReturnCode_trace (ans_rc1 a) (ans_rc2 a)
           ++ logConfiguration_trace s
           ++ increaseBackoff_trace (after_return_code (ans_rc2 a) s1) (ans_jitter a)
      else [EvPrintln "Library connected!"])
  ++ subscribe_and_notify_trace s (ans_sub_config a) (ans_sub_commands a)
       (ans_pub_state a) (ans_pub_events a).

(** What a trace shows of a connect attempt: the test made on the first
    connect of the trace. *)
Definition attempt_failed (t : list Event) : bool :=
  match answers mqtt_lastError t, connect_results t with
  | e :: _, result :: _ => connect_failed e result
  | _, _ => false
  end.

(** *** [mqttConnectAsync] *)

(** The first test of [mqttConnectAsync] after the connect. *)
Definition async_failed (e : lwmqtt_err_t) (result : bool) : bool :=
  bool_decide (e ≠ LWMQTT_SUCCESS) && result.

(** [connected2] is the answer to the second [connected()]. *)
Definition mqttConnectAsync_state (s : St) (a : ConnectAnswers) (connected2 : bool) : St :=
  let s1 := set_last_retry_at (ans_now a) (after_mint s (ans_token a) (ans_stamp a)) in
  if async_failed (ans_error a) (ans_result a)
  then increaseBackoff_state (after_return_code (ans_rc2 a) s1) (ans_jitter a)
  else if negb connected2 then increaseBackoff_state s1 (ans_jitter a)
  else set_backoff (minbackoff cfg) s1.

Definition mqttConnectAsync_trace (skip : bool) (s : St) (a : ConnectAnswers)
    (connected2 : bool) : list Event :=
  let s1 := set_last_retry_at (ans_now a) (after_mint s (ans_token a) (ans_stamp a)) in
  EvPrint "Connecting MQTT async [NOT COMPLETE IMPLEMENTATION]..."
  :: mint_trace s (ans_token a) (ans_stamp a)
  ++ EvMillis (ans_now a)
  :: EvConnect (getClientId (device s)) "unused" (jwt s1) skip (ans_result a)
  :: EvLastError (ans_error a)
  :: (if async_failed (ans_error a) (ans_result a)
      then logError_trace (ans_error1 a) (ans_error2 a)
           ++ logReturnCode_trace (ans_rc1 a) (ans_rc2 a)
           ++ logConfiguration_trace s
           ++ increaseBackoff_trace (after_return_code (ans_rc2 a) s1) (ans_jitter a)
      else EvConnected (ans_connected a)
           :: EvPrintln (if ans_connected a then "connected" else "not connected")
           :: EvConnected connected2
           :: (if negb connected2
               then EvPrintln "No internet or Settings incorrect or missing a cyper for SSL"
                    :: logConfiguration_trace s
                    ++ EvPrintln (LF +:+ "aborting mqtt connection attempt, lets rety later..."
                                  +:+ TAB +:+ "Library not connected!")
                    :: increaseBackoff_trace s1 (ans_jitter a)
               else [EvPrintln (LF +:+ "Library connected!")]))
  ++ subscribe_and_notify_trace s (ans_sub_config a) (ans_sub_commands a)
       (ans_pub_state a) (ans_pub_events a).

(** *** [loop] *)

(** The two conditions under which [loop] sets [needToReconnect]. *)
Definition token_expired (a : LoopAnswers) : bool :=
  bool_decide (tick_now a > tick_exp a).

Definition retry_due (s : St) (a : LoopAnswers) : bool :=
  negb (tick_connected a)
  && gate_open (__last_retry_at s) (tick_now2 a) (__backoff__ s).

Definition loop_reconnects (s : St) (a : LoopAnswers) : bool :=
  token_expired a || retry_due s a.

Definition loop_state (s : St) (a : LoopAnswers) : St :=
  if loop_reconnects s a then mqttConnect_state (set_iat 0 s) (tick_connect a) else s.

(** The events of the two tests, before the connect. *)
Definition loop_prefix (s : St) (a : LoopAnswers) : list Event :=
  EvMillis (tick_now a) :: EvGetExpMillis (tick_exp a)
  :: (if token_expired a
      then EvPrintln "Reconnecting before JWT expiration"
           :: EvConnected (tick_was_connected a)
           :: (if tick_was_connected a then [EvDisconnect (tick_disconnect a)] else [])
      else [])
  ++ EvConnected (tick_connected a)
  :: (if negb (tick_connected a)
      then EvMillis (tick_now2 a)
           :: (if gate_open (__last_retry_at s) (tick_now2 a) (__backoff__ s)
               then [EvPrintln "Reconnecting with back-off"] else [])
      else []).

Definition loop_trace (s : St) (a : LoopAnswers) : list Event :=
  loop_prefix s a
  ++ (if loop_reconnects s a
      then mqttConnect_trace (set_iat 0 s) (tick_connect a) else [])
  ++ [EvLoop (tick_loop a)].

End Controller.

Arguments onConnect_trace : simpl never.
Arguments subscribe_and_notify_trace : simpl never.
Arguments increaseBackoff_trace : simpl never.
Arguments mqttConnect_trace : simpl never.
Arguments mqttConnectAsync_trace : simpl never.

#[local] Abbreviation St := CloudIoTCoreMqtt.

(** ** The small member functions *)

Lemma publishTelemetry_runs data s t r s' :
  mruns (publishTelemetry data) s t r s' <->
  t = [EvPublish (getEventsTopic (device s)) data None false 0 r] /\ s' = s.
Proof. unfold publishTelemetry. split; [intros H; by mruns_inv|intros [-> ->]; runs_go]. Qed.

Lemma publishTelemetry_qos_runs data qos s t r s' :
  mruns (publishTelemetry_qos data qos) s t r s' <->
  t = [EvPublish (getEventsTopic (device s)) data None false qos r] /\ s' = s.
Proof. unfold publishTelemetry_qos. split; [intros H; by mruns_inv|intros [-> ->]; runs_go]. Qed.

Lemma publishTelemetry_bytes_runs data len s t r s' :
  mruns (publishTelemetry_bytes data len) s t r s' <->
  t = [EvPublish (getEventsTopic (device s)) data (Some len) false 0 r] /\ s' = s.
Proof. unfold publishTelemetry_bytes. split; [intros H; by mruns_inv|intros [-> ->]; runs_go]. Qed.

Lemma publishTelemetry_sub_runs subtopic data s t r s' :
  mruns (publishTelemetry_sub subtopic data) s t r s' <->
  t = [EvPublish (getEventsTopic (device s) +:+ subtopic) data None false 0 r] /\ s' = s.
Proof. unfold publishTelemetry_sub. split; [intros H; by mruns_inv|intros [-> ->]; runs_go]. Qed.

Lemma publishTelemetry_sub_qos_runs subtopic data qos s t r s' :
  mruns (publishTelemetry_sub_qos subtopic data qos) s t r s' <->
  t = [EvPublish (getEventsTopic (device s) +:+ subtopic) data None false qos r] /\ s' = s.
Proof.
  unfold publishTelemetry_sub_qos. split; [intros H; by mruns_inv|intros [-> ->]; runs_go].
Qed.

Lemma publishTelemetry_sub_bytes_runs subtopic data len s t r s' :
  mruns (publishTelemetry_sub_bytes subtopic data len) s t r s' <->
  t = [EvPublish (getEventsTopic (device s) +:+ subtopic) data (Some len) false 0 r]
  /\ s' = s.
Proof.
  unfold publishTelemetry_sub_bytes. split; [intros H; by mruns_inv|intros [-> ->]; runs_go].
Qed.

Lemma publishState_runs data s t r s' :
  mruns (publishState data) s t r s' <->
  t = [EvPublish (getStateTopic (device s)) data None false 0 r] /\ s' = s.
Proof. unfold publishState. split; [intros H; by mruns_inv|intros [-> ->]; runs_go]. Qed.

Lemma publishState_bytes_runs data len s t r s' :
  mruns (publishState_bytes data len) s t r s' <->
  t = [EvPublish (getStateTopic (device s)) data (Some len) false 0 r] /\ s' = s.
Proof. unfold publishState_bytes. split; [intros H; by mruns_inv|intros [-> ->]; runs_go]. Qed.

Ltac publish_hook :=
  match goal with
  | H : mruns (publishTelemetry _) _ _ _ _ |- _ =>
      apply publishTelemetry_runs in H as [-> ?]
  | H : mruns (publishTelemetry_qos _ _) _ _ _ _ |- _ =>
      apply publishTelemetry_qos_runs in H as [-> ?]
  | H : mruns (publishTelemetry_bytes _ _) _ _ _ _ |- _ =>
      apply publishTelemetry_bytes_runs in H as [-> ?]
  | H : mruns (publishTelemetry_sub _ _) _ _ _ _ |- _ =>
      apply publishTelemetry_sub_runs in H as [-> ?]
  | H : mruns (publishTelemetry_sub_qos _ _ _) _ _ _ _ |- _ =>
      apply publishTelemetry_sub_qos_runs in H as [-> ?]
  | H : mruns (publishTelemetry_sub_bytes _ _ _) _ _ _ _ |- _ =>
      apply publishTelemetry_sub_bytes_runs in H as [-> ?]
  | H : mruns (publishState _) _ _ _ _ |- _ => apply publishState_runs in H as [-> ?]
  | H : mruns (publishState_bytes _ _) _ _ _ _ |- _ =>
      apply publishState_bytes_runs in H as [-> ?]
  end.

Ltac mruns_hook ::= first [ state_hook | diagnostics_hook | publish_hook ].

Lemma onConnect_runs s t u s' :
  mruns onConnect s t u s' <->
  exists pub_state pub_events, t = onConnect_trace s pub_state pub_events /\ s' = s.
Proof.
  unfold onConnect, onConnect_trace. split.
  - intros H. mruns_inv; destruct (logConnect s); simplify_eq; [eauto|].
    by exists false, false.
  - intros (ps & pe & -> & ->). destruct u.
    unfold publishState, publishTelemetry_sub. runs_go.
Qed.

Ltac onConnect_hook :=
  match goal with
  | H : mruns onConnect _ _ _ _ |- _ => apply onConnect_runs in H as (? & ? & -> & ?)
  end.

Ltac mruns_hook ::=
  first [ state_hook | diagnostics_hook | publish_hook | onConnect_hook ].

Lemma subscribe_and_notify_runs s t u s' :
  mruns subscribe_and_notify s t u s' <->
  exists sub_config sub_commands pub_state pub_events,
    t = subscribe_and_notify_trace s sub_config sub_commands pub_state pub_events
    /\ s' = s.
Proof.
  unfold subscribe_and_notify, subscribe_and_notify_trace. split.
  - intros H. mruns_inv. eauto 10.
  - intros (sc & sm & ps & pe & -> & ->). destruct u.
    unfold onConnect, onConnect_trace, publishState, publishTelemetry_sub. runs_go.
Qed.

Lemma increaseBackoff_runs cfg s t u s' :
  mruns (increaseBackoff cfg) s t u s' <->
  exists r, t = increaseBackoff_trace cfg s r /\ s' = increaseBackoff_state cfg s r.
Proof.
  unfold increaseBackoff, increaseBackoff_trace, increaseBackoff_state, backoff_step.
  split.
  - intros H. mruns_inv; eexists; repeat case_decide; try lia; done.
  - intros (r & -> & ->). destruct u. runs_go; lia.
Qed.

Lemma startMQTT_runs s t u s' :
  mruns startMQTT s t u s' <->
  t = [EvBegin (startMQTT_host s) (startMQTT_port s); EvOnMessage] /\ s' = s.
Proof.
  unfold startMQTT, startMQTT_host, startMQTT_port. split.
  - intros H. mruns_inv; by destruct (useLts s), (use443Port s).
  - intros [-> ->]. destruct u. runs_go.
Qed.

Ltac controller_hook :=
  match goal with
  | H : mruns subscribe_and_notify _ _ _ _ |- _ =>
      apply subscribe_and_notify_runs in H as (? & ? & ? & ? & -> & ?)
  | H : mruns (increaseBackoff _) _ _ _ _ |- _ =>
      apply increaseBackoff_runs in H as (? & -> & ?)
  | H : mruns startMQTT _ _ _ _ |- _ => apply startMQTT_runs in H as (-> & ?)
  end.

Ltac mruns_hook ::=
  first [ state_hook | diagnostics_hook | publish_hook | onConnect_hook
        | controller_hook ].

Ltac controller_exec_hook :=
  lazymatch goal with
  | |- mruns onConnect ?s (onConnect_trace _ ?a ?b) _ _ =>
      change (onConnect_trace _ a b) with (onConnect_trace s a b);
      apply onConnect_runs; by do 2 eexists
  | |- mruns subscribe_and_notify ?s (subscribe_and_notify_trace _ ?a ?b ?c ?d) _ _ =>
      change (subscribe_and_notify_trace _ a b c d)
        with (subscribe_and_notify_trace s a b c d);
      apply subscribe_and_notify_runs; by do 4 eexists
  | |- mruns (increaseBackoff _) _ _ _ _ => apply increaseBackoff_runs; by eexists
  | |- mruns startMQTT _ _ _ _ => by apply startMQTT_runs
  end.

Ltac mruns_exec_hook ::= first [ diagnostics_exec_hook | controller_exec_hook ].

(** [mqttConnect] is its reference result: the runs of the member function
    are the traces and final fields computed from some answers. *)
Lemma mqttConnect_runs cfg skip s t u s' :
  mruns (mqttConnect cfg skip) s t u s' <->
  exists a, t = mqttConnect_trace cfg s a /\ s' = mqttConnect_state cfg s a.
Proof.
  split.
  - intros H. unfold mqttConnect in H. mruns_inv.
    all: eexists (Build_ConnectAnswers _ _ _ _ _ _ _ _ _ _ _ _ _ _ _).
    all: unfold mqttConnect_trace, mqttConnect_state, mint_trace, after_mint,
           connect_failed, subscribe_and_notify_trace, onConnect_trace,
           increaseBackoff_trace, increaseBackoff_state; split; trace_match.
  - intros (a & -> & ->). destruct a, u.
    unfold mqttConnect, mqttConnect_trace, mqttConnect_state, mint_trace, after_mint,
      connect_failed. cbn [ans_token ans_stamp ans_now ans_result ans_connected
        ans_error ans_error1 ans_error2 ans_rc1 ans_rc2 ans_jitter ans_sub_config
        ans_sub_commands ans_pub_state ans_pub_events]. mruns_exec.
  Unshelve. all: first [exact tt | exact inhabitant].
Qed.

Lemma mqttConnectAsync_runs cfg skip s t u s' :
  mruns (mqttConnectAsync cfg skip) s t u s' <->
  exists a connected2,
    t = mqttConnectAsync_trace cfg skip s a connected2
    /\ s' = mqttConnectAsync_state cfg s a connected2.
Proof.
  split.
  - intros H. unfold mqttConnectAsync in H. mruns_inv.
    all: eexists (Build_ConnectAnswers _ _ _ _ _ _ _ _ _ _ _ _ _ _ _), _.
    all: unfold mqttConnectAsync_trace, mqttConnectAsync_state, mint_trace, after_mint,
           async_failed, subscribe_and_notify_trace, onConnect_trace,
           increaseBackoff_trace, increaseBackoff_state; split; trace_match.
  - intros (a & c2 & -> & ->). destruct a, u.
    unfold mqttConnectAsync, mqttConnectAsync_trace, mqttConnectAsync_state, mint_trace,
      after_mint, async_failed. cbn [ans_token ans_stamp ans_now ans_result ans_connected
        ans_error ans_error1 ans_error2 ans_rc1 ans_rc2 ans_jitter ans_sub_config
        ans_sub_commands ans_pub_state ans_pub_events]. mruns_exec.
  Unshelve. all: first [exact tt | exact inhabitant].
Qed.

Ltac connect_hook :=
  match goal with
  | H : mruns (mqttConnect _ _) _ _ _ _ |- _ => apply mqttConnect_runs in H as (? & -> & ?)
  | H : mruns (mqttConnectAsync _ _) _ _ _ _ |- _ =>
      apply mqttConnectAsync_runs in H as (? & ? & -> & ?)
  end.

Ltac mruns_hook ::=
  first [ state_hook | diagnostics_hook | publish_hook | onConnect_hook
        | controller_hook | connect_hook ].

Ltac connect_exec_hook :=
  lazymatch goal with
  | |- mruns (mqttConnect ?cfg _) ?s (mqttConnect_trace _ _ ?a) _ _ =>
      change (mqttConnect_trace _ _ a) with (mqttConnect_trace cfg s a);
      apply mqttConnect_runs; by eexists
  end.

Ltac mruns_exec_hook ::=
  first [ diagnostics_exec_hook | controller_exec_hook | connect_exec_hook ].

(** [loop] is its reference result. *)
Lemma loop_runs cfg `{RA : RetryArith} s t u s' :
  mruns (loop cfg) s t u s' <->
  exists a, t = loop_trace cfg s a /\ s' = loop_state cfg s a.
Proof.
  split.
  - intros H. unfold loop in H. mruns_inv.
    all: eexists (Build_LoopAnswers _ _ _ _ _ _ _ _).
    all: unfold loop_trace, loop_prefix, loop_state, loop_reconnects, token_expired,
           retry_due; split; trace_match.
  - intros (a & -> & ->). destruct a, u.
    unfold loop, loop_trace, loop_prefix, loop_state, loop_reconnects, token_expired,
      retry_due.
    cbn [tick_now tick_exp tick_was_connected tick_disconnect tick_connected tick_now2
         tick_connect tick_loop]. mruns_exec.
  Unshelve. all: first [exact tt | exact inhabitant].
Qed.


Ltac loop_hook :=
  match goal with
  | H : mruns (loop _) _ _ _ _ |- _ => apply loop_runs in H as (? & -> & ?)
  end.

Ltac mruns_hook ::=
  first [ state_hook | diagnostics_hook | publish_hook | onConnect_hook
        | controller_hook | connect_hook | loop_hook ].

(** ** Evaluation of the reference results

    [trace_eval] decides a statement on a reference trace or state by cases
    on the guards it is built from. *)
Ltac trace_unfold :=
  unfold loop_trace, loop_prefix, loop_state, loop_reconnects, token_expired, retry_due,
    mqttConnect_trace, mqttConnect_state, mqttConnectAsync_trace,
    mqttConnectAsync_state, mint_trace, after_mint, subscribe_and_notify_trace,
    onConnect_trace, increaseBackoff_trace, increaseBackoff_state, logError_trace,
    logReturnCode_trace, logConfiguration_trace, after_return_code.

Ltac trace_cases :=
  repeat match goal with
         | |- context [if decide ?P then _ else _] => destruct (decide P)
         | |- context [if ?b then _ else _] => destruct b eqn:?
         end.

Ltac trace_eval := trace_unfold; trace_cases; try done.

(** ** Publishing, set-up and the back-off step *)


(** [startMQTT] selects the endpoint from the flags.  The client is set up
    for the long-term host when [useLts] is set and for the default host
    otherwise, on port 443 when [use443Port] is set and on 8883 otherwise;
    then the message handler is registered.  The fields are unchanged. *)
Theorem startMQTT_selects_endpoint s t u s' :
  mruns startMQTT s t u s' ->
  t = [EvBegin (if useLts s then "mqtt.2030.ltsapis.goog" else "mqtt.googleapis.com")
         (if use443Port s then 443 else 8883);
       EvOnMessage]
  /\ s' = s.
Proof.
  intros [-> ->]%startMQTT_runs. unfold startMQTT_host, startMQTT_port.
  by destruct (useLts s), (use443Port s).
Qed.

(** [increaseBackoff] is the step of the policy.  Executed in any
    environment, the member function draws one number [r] from
    [random(__jitter__)], leaves in [__backoff__] the value
    [backoff_step cfg b r] computed from the value [b] before, prints it
    and changes no other field; and it does so for every [r] the
    environment can answer. *)
Theorem increaseBackoff_refines cfg :
  (forall E s w, exists r w',
     mrun E (increaseBackoff cfg) s w
     = (tt, set_backoff (backoff_step cfg (__backoff__ s) r) s, w',
        increaseBackoff_trace cfg s r)) /\
  (forall s r,
     mrun script_env (increaseBackoff cfg) s (increaseBackoff_trace cfg s r)
     = (tt, set_backoff (backoff_step cfg (__backoff__ s) r) s, [],
        increaseBackoff_trace cfg s r)).
Proof.
  destruct (mrun_refines (increaseBackoff cfg)
              (fun s t _ s' =>
                 exists r, t = increaseBackoff_trace cfg s r
                           /\ s' = increaseBackoff_state cfg s r))
    as [H1 H2]; [intros; apply increaseBackoff_runs|]. split.
  - intros E s w. destruct (H1 E s w) as ([] & ? & w' & ? & -> & r & -> & ->). eauto.
  - intros s r. apply H2. eauto.
Qed.


Lemma startMQTT_selects_endpoint_witness :
  [EvBegin "mqtt.2030.ltsapis.goog" 443; EvOnMessage]
  = [EvBegin "mqtt.2030.ltsapis.goog" 443; EvOnMessage]
  /\ set_useLts true (set_use443Port true (CloudIoTCoreMqtt_new (CloudIoTCoreDevice_new "p" "l" "r" "d")))
     = set_useLts true (set_use443Port true (CloudIoTCoreMqtt_new (CloudIoTCoreDevice_new "p" "l" "r" "d"))).
Proof.
  apply (startMQTT_selects_endpoint
           (set_useLts true
              (set_use443Port true
                 (CloudIoTCoreMqtt_new (CloudIoTCoreDevice_new "p" "l" "r" "d"))))
           [EvBegin "mqtt.2030.ltsapis.goog" 443; EvOnMessage] tt).
  apply (mrun_mruns script_env _ _ [EvBegin "mqtt.2030.ltsapis.goog" 443; EvOnMessage]
           _ _ []).
  reflexivity.
Defined.
