(* ===== verification/World.v ===== *)
(** * A reference environment

    The collaborators of the controller as the specification describes them
    (section 6): a clock, a credential provider that mints numbered tokens
    valid for an hour, and a transport session whose connect is decided by
    the network (a list of outcomes, one per connect) and by the broker,
    which accepts the token in force and no other.  The environment is
    executable: the controller is run against it, call after call.

    [Transport] is the contract the controller's clients rely on: what
    [connected] and [publish] answer in terms of the state of the session.
    The reference environment is an instance. *)

From S2P Require Import Prelude Machine Lwmqtt Backoff Effects State Diagnostics.
From S2P Require Import Controller.

#[local] Open Scope Z_scope.

(** ** The world *)

(** What the network does to a connect: it reaches the broker, which
    accepts it or refuses it with a return code, or it breaks with an error
    of the transport. *)
Inductive Outcome : Set :=
| Accept
| Refuse (rc : lwmqtt_return_code_t)
| Break (e : lwmqtt_err_t).

Record RWorld : Set := {
  w_clock : Z;                        (* milliseconds since start, unwrapped *)
  w_exp : Z;                          (* expiry of the token in force, as millis *)
  w_minted : nat;                     (* tokens minted so far *)
  w_token : string;                   (* the token the broker accepts *)
  w_connected : bool;                 (* the session *)
  w_error : lwmqtt_err_t;             (* lastError() *)
  w_rc : lwmqtt_return_code_t;        (* returnCode() *)
  w_network : list Outcome;           (* outcomes of the connects to come *)
  w_random : list Z                   (* numbers random() will draw from *)
}.

(** The life of a token, in milliseconds. *)
Definition TOKEN_LIFE : Z := 3600000.

Definition token_name (n : nat) : string := "jwt-" +:+ pretty n.

(** The world after the controller has started, nothing minted yet. *)
Definition world_start (network : list Outcome) (randoms : list Z) : RWorld :=
  {| w_clock := 0; w_exp := 0; w_minted := 0; w_token := ""; w_connected := false;
     w_error := LWMQTT_SUCCESS; w_rc := LWMQTT_CONNECTION_ACCEPTED;
     w_network := network; w_random := randoms |}.

(** [d] milliseconds pass. *)
Definition elapse (d : Z) (w : RWorld) : RWorld :=
  {| w_clock := w_clock w + d; w_exp := w_exp w; w_minted := w_minted w;
     w_token := w_token w; w_connected := w_connected w; w_error := w_error w;
     w_rc := w_rc w; w_network := w_network w; w_random := w_random w |}.

(** The connection is lost. *)
Definition drop_session (w : RWorld) : RWorld :=
  {| w_clock := w_clock w; w_exp := w_exp w; w_minted := w_minted w;
     w_token := w_token w; w_connected := false; w_error := w_error w;
     w_rc := w_rc w; w_network := w_network w; w_random := w_random w |}.

(** ** The collaborators *)

(** [millis()]: the clock, wrapped to [unsigned long].  Time passes between
    the calls of the controller, not during one. *)
Definition world_millis (w : RWorld) : Z * RWorld := (wrap_ulong (w_clock w), w).

(** [random(howbig)]: the next number of the list, brought into range. *)
Definition draw (howbig : Z) (randoms : list Z) : Z :=
  Z.min (Z.max 0 (Z.abs howbig - 1)) (Z.max 0 (hd 0 randoms)).

Definition world_random (howbig : Z) (w : RWorld) : Z * RWorld :=
  (draw howbig (w_random w),
      {| w_clock := w_clock w; w_exp := w_exp w; w_minted := w_minted w;
         w_token := w_token w; w_connected := w_connected w; w_error := w_error w;
         w_rc := w_rc w; w_network := w_network w; w_random := tl (w_random w) |}).

(** [getJwt()]: a new token, stamped with its number, in force for
    [TOKEN_LIFE] from now. *)
Definition world_getJwt (w : RWorld) : (string * Z) * RWorld :=
  let n := S (w_minted w) in
  ((token_name n, Z.of_nat n),
   {| w_clock := w_clock w; w_exp := w_clock w + TOKEN_LIFE; w_minted := n;
      w_token := token_name n; w_connected := w_connected w; w_error := w_error w;
      w_rc := w_rc w; w_network := w_network w; w_random := w_random w |}).

(** The broker accepts the token in force until it expires. *)
Definition token_accepted (password : string) (w : RWorld) : bool :=
  bool_decide (password = w_token w) && bool_decide (0 < w_minted w)%nat
  && bool_decide (w_clock w <= w_exp w).

(** What a connect with [password] comes to: the outcome of the network,
    and for a connect that reaches the broker its verdict on the token. *)
Definition connect_outcome (password : string) (w : RWorld) : Outcome :=
  match hd Accept (w_network w) with
  | Accept => if token_accepted password w then Accept else Refuse LWMQTT_NOT_AUTHORIZED
  | o => o
  end.

(** What the client reports of an outcome: the result of [connect], the
    last error and the return code (lwmqtt resets it at every connect). *)
Definition connect_result (o : Outcome) : bool :=
  match o with Accept => true | _ => false end.

Definition connect_error (o : Outcome) : lwmqtt_err_t :=
  match o with
  | Accept => LWMQTT_SUCCESS
  | Refuse _ => LWMQTT_CONNECTION_DENIED
  | Break e => e
  end.

Definition connect_rc (o : Outcome) : lwmqtt_return_code_t :=
  match o with
  | Accept => LWMQTT_CONNECTION_ACCEPTED
  | Refuse rc => rc
  | Break _ => LWMQTT_UNKNOWN_RETURN_CODE
  end.

Definition world_connect (password : string) (w : RWorld) : bool * RWorld :=
  let o := connect_outcome password w in
  (connect_result o,
   {| w_clock := w_clock w; w_exp := w_exp w; w_minted := w_minted w;
      w_token := w_token w; w_connected := connect_result o;
      w_error := connect_error o; w_rc := connect_rc o;
      w_network := tl (w_network w); w_random := w_random w |}).

Definition world_disconnect (w : RWorld) : bool * RWorld := (true, drop_session w).

Definition world_handle X (c : Call X) (w : RWorld) : X * RWorld :=
  match c in Call X return X * RWorld with
  | millis => world_millis w
  | random howbig => world_random howbig w
  | Serial_print _ | Serial_println _ | mqtt_begin _ _ | mqtt_onMessage => (tt, w)
  | getJwt => world_getJwt w
  | getExpMillis => (wrap_ulong (w_exp w), w)
  | mqtt_connect _ _ password _ => world_connect password w
  | mqtt_connected => (w_connected w, w)
  | mqtt_disconnect => world_disconnect w
  | mqtt_subscribe _ _ | mqtt_publish _ _ _ _ _ | mqtt_loop => (w_connected w, w)
  | mqtt_lastError => (w_error w, w)
  | mqtt_returnCode => (w_rc w, w)
  end.

Definition world_env : Env := {| World := RWorld; handle := world_handle |}.

(** ** The contract of the transport session *)

(** What a client of the controller may assume of an environment:
    [session_up] tells whether the session is connected; [connected()]
    reports it; a publish does not change it and fails when it is down. *)
Class Transport (E : Env) := {
  session_up : World E -> bool;
  connected_reports w : fst (handle E mqtt_connected w) = session_up w;
  publish_fails_down w topic payload len retained qos :
    session_up w = false ->
    fst (handle E (mqtt_publish topic payload len retained qos) w) = false;
  publish_keeps_session w topic payload len retained qos :
    session_up (snd (handle E (mqtt_publish topic payload len retained qos) w))
    = session_up w
}.

#[export] Instance world_transport : Transport world_env.
Proof. by refine (Build_Transport world_env w_connected _ _ _). Defined.

(** ** Properties of the collaborators *)

(** A token just minted is accepted: the connect that presents it comes to
    what the network decides. *)
Lemma fresh_token_outcome w :
  connect_outcome (token_name (S (w_minted w))) (snd (world_getJwt w))
  = hd Accept (w_network w).
Proof.
  unfold connect_outcome, token_accepted, world_getJwt, TOKEN_LIFE. simpl.
  destruct (hd Accept (w_network w)); [|done..].
  rewrite !bool_decide_true; first [done | lia].
Qed.

(** A token that the broker does not accept is not let through, whatever
    the network does. *)
Lemma stale_outcome password w :
  token_accepted password w = false ->
  connect_result (connect_outcome password w) = false.
Proof. unfold connect_outcome. intros ->. by destruct (hd Accept (w_network w)). Qed.

(** A connect that reaches the broker with such a token is refused as not
    authorized. *)
Lemma stale_refused password w :
  token_accepted password w = false -> hd Accept (w_network w) = Accept ->
  connect_outcome password w = Refuse LWMQTT_NOT_AUTHORIZED.
Proof. unfold connect_outcome. by intros -> ->. Qed.

(** The verdict of the broker depends on the token in force and on the
    clock. *)
Lemma token_accepted_ext password w w' :
  w_token w' = w_token w -> w_minted w' = w_minted w -> w_clock w' = w_clock w ->
  w_exp w' = w_exp w -> token_accepted password w' = token_accepted password w.
Proof. unfold token_accepted. by intros -> -> -> ->. Qed.

(** [random] answers in range whatever the list holds. *)
Lemma world_random_range howbig w : random_range howbig (fst (world_random howbig w)).
Proof. unfold random_range, world_random, draw. simpl. lia. Qed.

(** Dropping a session that is down changes nothing. *)
Lemma drop_session_down w : w_connected w = false -> drop_session w = w.
Proof. destruct w. simpl. by intros ->. Qed.

(** ** A client of the contract

    The scenario of the specification: with the session down, a publish
    returns false.  It is proved of every environment that meets
    [Transport]. *)

Section Client.
Context (E : Env) `{!Transport E}.

Lemma publish_event_down topic data len retained qos r (w w' : World E) :
  session_up w = false ->
  replays E [EvPublish topic data len retained qos r] w w' ->
  r = false /\ session_up w' = false.
Proof.
  intros Hdown [Hr ->]. cbn in Hr |- *. rewrite <- Hr.
  by rewrite publish_fails_down, publish_keeps_session.
Qed.

(** C40. Publishing while the session is down.  In every environment that
    meets the contract of the transport session, each of the eight publish
    overloads called while the session is down returns false, leaves the
    fields of the controller as they were and leaves the session down: a
    failed publish is reported to the caller and triggers nothing. *)
Theorem publish_while_disconnected data subtopic qos len (m : M CloudIoTCoreMqtt bool)
    s (w : World E) :
  m ∈ [publishTelemetry data; publishTelemetry_qos data qos;
       publishTelemetry_bytes data len; publishTelemetry_sub subtopic data;
       publishTelemetry_sub_qos subtopic data qos;
       publishTelemetry_sub_bytes subtopic data len;
       publishState data; publishState_bytes data len] ->
  session_up w = false ->
  let r := mrun E m s w in
  returned r = false /\ fields_after r = s /\ session_up (world_after r) = false.
Proof.
  rewrite !elem_of_cons, elem_of_nil. intros Hm Hdown.
  executed as [Hruns Hrep]. destruct_or!; try done; subst m; mruns_inv.
  all: by destruct (publish_event_down _ _ _ _ _ _ _ _ Hdown Hrep).
Qed.

End Client.

Lemma publish_while_disconnected_witness :
  let r := mrun world_env (publishState "on")
             (CloudIoTCoreMqtt_new (CloudIoTCoreDevice_new "p" "l" "r" "d"))
             (world_start [] []) in
  returned r = false
  /\ fields_after r = CloudIoTCoreMqtt_new (CloudIoTCoreDevice_new "p" "l" "r" "d")
  /\ session_up (world_after r) = false.
Proof.
  apply (publish_while_disconnected world_env "on" "/alerts" 1 2 (publishState "on")
           (CloudIoTCoreMqtt_new (CloudIoTCoreDevice_new "p" "l" "r" "d"))
           (world_start [] [])).
  - do 6 apply list_elem_of_further. apply list_elem_of_here.
  - reflexivity.
Defined.

(** Reduction of a replay in the reference environment. *)
Ltac replay_cbn H :=
  cbn [replays answered after decode pack handle world_env world_handle world_millis
       world_getJwt world_connect world_random world_disconnect drop_session fst snd app
       projT1 projT2 w_clock w_exp w_minted w_token w_connected w_error w_rc w_network
       w_random] in H.

(** The end of an attempt, replayed: the diagnostics, the subscriptions and
    the notifications leave the world as it is, apart from the number that
    [random] draws. *)
Ltac replay_end H :=
  unfold logError_trace, logReturnCode_trace, logConfiguration_trace,
    increaseBackoff_trace, subscribe_and_notify_trace, onConnect_trace in H;
  repeat match type of H with
    | context [if ?b then _ else _] => destruct b
    end;
  replay_cbn H; destruct_and!.
