(* ===== verification/Fixtures.v ===== *)
(** * Concrete devices, fields and runs

    A device, the fields of a controller at the moments of interest and the
    runs of the member functions from them, against scripted answers.  Each
    run is obtained by executing the member function in the environment that
    replays the script ([script_env]); the theorems of the development are
    exercised on these runs. *)

From S2P Require Import Prelude Machine Lwmqtt Backoff Effects State Diagnostics Controller.

#[local] Open Scope Z_scope.

Definition demo_device : CloudIoTCoreDevice :=
  CloudIoTCoreDevice_new "my-project" "us-central1" "my-registry" "esp32-1".

(** The controller as constructed: no token yet. *)
Definition constructed : CloudIoTCoreMqtt := CloudIoTCoreMqtt_new demo_device.

(** ** A connect that the broker accepts *)

Definition accepted_answers : ConnectAnswers :=
  {| ans_token := "eyJ.first"; ans_stamp := 1700000000; ans_now := 5000;
     ans_result := true; ans_connected := true; ans_error := LWMQTT_SUCCESS;
     ans_error1 := LWMQTT_SUCCESS; ans_error2 := LWMQTT_SUCCESS;
     ans_rc1 := LWMQTT_CONNECTION_ACCEPTED; ans_rc2 := LWMQTT_CONNECTION_ACCEPTED;
     ans_jitter := 0; ans_sub_config := true; ans_sub_commands := true;
     ans_pub_state := true; ans_pub_events := true |}.

Definition accepted_trace : list Event :=
  Eval vm_compute in mqttConnect_trace upstream_backoff constructed accepted_answers.

Definition connected : CloudIoTCoreMqtt :=
  Eval vm_compute in mqttConnect_state upstream_backoff constructed accepted_answers.

(** ** A connect that the broker rejects as not authorized *)

Definition rejected_answers : ConnectAnswers :=
  {| ans_token := "eyJ.second"; ans_stamp := 1700003600; ans_now := 70000;
     ans_result := false; ans_connected := false; ans_error := LWMQTT_CONNECTION_DENIED;
     ans_error1 := LWMQTT_CONNECTION_DENIED; ans_error2 := LWMQTT_CONNECTION_DENIED;
     ans_rc1 := LWMQTT_NOT_AUTHORIZED; ans_rc2 := LWMQTT_NOT_AUTHORIZED;
     ans_jitter := 137; ans_sub_config := false; ans_sub_commands := false;
     ans_pub_state := false; ans_pub_events := false |}.

Definition rejected_trace : list Event :=
  Eval vm_compute in mqttConnect_trace upstream_backoff connected rejected_answers.

Definition after_rejection : CloudIoTCoreMqtt :=
  Eval vm_compute in mqttConnect_state upstream_backoff connected rejected_answers.

(** The attempt that follows the rejection, rejected again. *)
Definition rejected_again_trace : list Event :=
  Eval vm_compute in mqttConnect_trace upstream_backoff after_rejection rejected_answers.

Definition after_second_rejection : CloudIoTCoreMqtt :=
  Eval vm_compute in mqttConnect_state upstream_backoff after_rejection rejected_answers.

(** ** An asynchronous connect that the broker refuses *)

Definition refused_async_trace : list Event :=
  Eval vm_compute in
    mqttConnectAsync_trace upstream_backoff true connected rejected_answers false.

Definition after_refused_async : CloudIoTCoreMqtt :=
  Eval vm_compute in
    mqttConnectAsync_state upstream_backoff connected rejected_answers false.

(** ** Calls of [loop], with the wide reading of the retry gate *)

(** The answers to the connects made by the calls below. *)
Definition renewal_answers : ConnectAnswers :=
  {| ans_token := "eyJ.renewed"; ans_stamp := 1700003600; ans_now := 3600003;
     ans_result := true; ans_connected := true; ans_error := LWMQTT_SUCCESS;
     ans_error1 := LWMQTT_SUCCESS; ans_error2 := LWMQTT_SUCCESS;
     ans_rc1 := LWMQTT_CONNECTION_ACCEPTED; ans_rc2 := LWMQTT_CONNECTION_ACCEPTED;
     ans_jitter := 0; ans_sub_config := true; ans_sub_commands := true;
     ans_pub_state := true; ans_pub_events := true |}.

Definition retry_connect_answers : ConnectAnswers :=
  {| ans_token := "eyJ.third"; ans_stamp := 1700000073; ans_now := 73002;
     ans_result := false; ans_connected := false; ans_error := LWMQTT_NETWORK_TIMEOUT;
     ans_error1 := LWMQTT_NETWORK_TIMEOUT; ans_error2 := LWMQTT_NETWORK_TIMEOUT;
     ans_rc1 := LWMQTT_UNKNOWN_RETURN_CODE; ans_rc2 := LWMQTT_UNKNOWN_RETURN_CODE;
     ans_jitter := 42; ans_sub_config := false; ans_sub_commands := false;
     ans_pub_state := false; ans_pub_events := false |}.

(** Connected, the token in force: nothing to do. *)
Definition quiet_answers : LoopAnswers :=
  {| tick_now := 6000; tick_exp := 3600000; tick_was_connected := true;
     tick_disconnect := true; tick_connected := true; tick_now2 := 6000;
     tick_connect := accepted_answers; tick_loop := true |}.

Definition quiet_trace : list Event :=
  Eval vm_compute in loop_trace (RA := wide_arith) upstream_backoff connected quiet_answers.

(** One millisecond past the expiry of the token, still connected. *)
Definition expiry_answers : LoopAnswers :=
  {| tick_now := 3600001; tick_exp := 3600000; tick_was_connected := true;
     tick_disconnect := true; tick_connected := false; tick_now2 := 3600002;
     tick_connect := renewal_answers; tick_loop := true |}.

Definition expiry_trace : list Event :=
  Eval vm_compute in loop_trace (RA := wide_arith) upstream_backoff connected expiry_answers.

Definition renewed : CloudIoTCoreMqtt :=
  Eval vm_compute in loop_state (RA := wide_arith) upstream_backoff connected expiry_answers.

(** Half a second after the rejected attempt, the delay being 2137 ms. *)
Definition early_answers : LoopAnswers :=
  {| tick_now := 70500; tick_exp := 3600000; tick_was_connected := false;
     tick_disconnect := false; tick_connected := false; tick_now2 := 70501;
     tick_connect := rejected_answers; tick_loop := false |}.

Definition early_trace : list Event :=
  Eval vm_compute in
    loop_trace (RA := wide_arith) upstream_backoff after_rejection early_answers.

(** Three seconds after the rejected attempt. *)
Definition retry_answers : LoopAnswers :=
  {| tick_now := 73000; tick_exp := 3600000; tick_was_connected := false;
     tick_disconnect := false; tick_connected := false; tick_now2 := 73001;
     tick_connect := retry_connect_answers; tick_loop := false |}.

Definition retry_trace : list Event :=
  Eval vm_compute in
    loop_trace (RA := wide_arith) upstream_backoff after_rejection retry_answers.

Definition after_retry : CloudIoTCoreMqtt :=
  Eval vm_compute in
    loop_state (RA := wide_arith) upstream_backoff after_rejection retry_answers.

(** ** The runs *)

(** A run is checked by executing the member function against its script. *)
Ltac run_script t := eapply (mrun_mruns script_env _ _ t); vm_compute; reflexivity.

Lemma accepted_run :
  mruns (mqttConnect upstream_backoff false) constructed accepted_trace tt connected.
Proof. run_script accepted_trace. Qed.

Lemma rejected_run :
  mruns (mqttConnect upstream_backoff false) connected rejected_trace tt after_rejection.
Proof. run_script rejected_trace. Qed.

Lemma rejected_again_run :
  mruns (mqttConnect upstream_backoff false) after_rejection rejected_again_trace tt
    after_second_rejection.
Proof. run_script rejected_again_trace. Qed.

Lemma quiet_run :
  mruns (loop (RA := wide_arith) upstream_backoff) connected quiet_trace tt connected.
Proof. run_script quiet_trace. Qed.

Lemma expiry_run :
  mruns (loop (RA := wide_arith) upstream_backoff) connected expiry_trace tt renewed.
Proof. run_script expiry_trace. Qed.

Lemma early_run :
  mruns (loop (RA := wide_arith) upstream_backoff) after_rejection early_trace tt
    after_rejection.
Proof. run_script early_trace. Qed.

Lemma retry_run :
  mruns (loop (RA := wide_arith) upstream_backoff) after_rejection retry_trace tt
    after_retry.
Proof. run_script retry_trace. Qed.

Lemma refused_async_run :
  mruns (mqttConnectAsync upstream_backoff true) connected refused_async_trace tt
    after_refused_async.
Proof. run_script refused_async_trace. Qed.

Lemma two_rejections_run :
  mruns_star (mqttConnect upstream_backoff false) connected
    [rejected_trace; rejected_again_trace] after_second_rejection.
Proof.
  eapply mruns_star_cons; [apply rejected_run|]. apply mruns_star_one, rejected_again_run.
Qed.

(** Two consecutive calls: nothing to do, then the token has expired. *)
Lemma quiet_then_expiry_run :
  mruns_star (loop (RA := wide_arith) upstream_backoff) connected
    [quiet_trace; expiry_trace] renewed.
Proof.
  eapply mruns_star_cons; [apply quiet_run|]. apply mruns_star_one, expiry_run.
Qed.

(** ** The fields at hand satisfy the invariant *)

Lemma connected_inv : state_inv upstream_backoff connected.
Proof. by apply (bool_decide_unpack _). Qed.

Lemma after_rejection_inv : state_inv upstream_backoff after_rejection.
Proof. by apply (bool_decide_unpack _). Qed.
