(* ===== verification/Connect.v ===== *)
(** * One connect attempt

    What every run of [mqttConnect] does, read off its trace and the fields
    it leaves: which token it presents and when it mints one, what becomes
    of the back-off delay and of [iat], which subscriptions and
    notifications follow.  The statements quantify over all runs, hence over
    all answers of the MQTT client, the clock and the sketch.

    The first two groups of lemmas evaluate the observations on the
    reference result of [Controller]; the theorems transfer them to the
    member function through [mqttConnect_runs]. *)

From S2P Require Import Prelude Machine Lwmqtt Backoff Effects State Diagnostics.
From S2P Require Import Controller Fixtures.
From stdpp Require Import sets.

#[local] Open Scope Z_scope.

(** The stamp left in [iat] by the mint of the trace, [i] when the trace
    mints nothing. *)
Definition stamp_or (i : Z) (t : list Event) : Z :=
  match minted t with
  | (_, stamp) :: _ => stamp
  | [] => i
  end.

(** The number drawn by the [increaseBackoff] of the trace. *)
Definition jitter_drawn (t : list Event) : Z := hd 0 (jitters t).

Section Attempt.
Context (cfg : BackoffConfig).
Implicit Types (s : CloudIoTCoreMqtt) (a : ConnectAnswers) (t : list Event).

(** ** What the reference trace shows *)

Lemma mqttConnect_trace_connects s a :
  List.filter is_connect (mqttConnect_trace cfg s a)
  = [EvConnect (getClientId (device s)) "unused" (jwt (mqttConnect_state cfg s a)) false
       (ans_result a)].
Proof. trace_eval. Qed.

Lemma mqttConnect_trace_passwords s a :
  passwords (mqttConnect_trace cfg s a) = [jwt (mqttConnect_state cfg s a)].
Proof. trace_eval. Qed.

Lemma mqttConnect_trace_minted s a :
  minted (mqttConnect_trace cfg s a)
  = if decide (iat s = 0) then [(ans_token a, ans_stamp a)] else [].
Proof. trace_eval. Qed.

Lemma mqttConnect_trace_mint_precedes s a :
  mint_precedes_connect (mqttConnect_trace cfg s a) = bool_decide (iat s = 0).
Proof. trace_eval; by case_bool_decide. Qed.

Lemma mqttConnect_trace_clock s a : clock (mqttConnect_trace cfg s a) = [ans_now a].
Proof. trace_eval. Qed.

Lemma mqttConnect_trace_failed s a :
  attempt_failed (mqttConnect_trace cfg s a) = connect_failed (ans_error a) (ans_result a).
Proof. trace_eval. Qed.

Lemma mqttConnect_trace_rejected s a :
  attempt_failed (mqttConnect_trace cfg s a) && rejected (mqttConnect_trace cfg s a)
  = connect_failed (ans_error a) (ans_result a) && invalidates_token (ans_rc2 a).
Proof. rewrite mqttConnect_trace_failed. trace_eval. Qed.

Lemma mqttConnect_trace_jitter s a :
  connect_failed (ans_error a) (ans_result a) = true ->
  jitter_drawn (mqttConnect_trace cfg s a) = ans_jitter a.
Proof. intros H. trace_unfold. rewrite H. trace_eval. Qed.

Lemma mqttConnect_trace_subscriptions s a :
  subscriptions (mqttConnect_trace cfg s a)
  = [(getConfigTopic (device s), 1); (getCommandsTopic (device s), 0)].
Proof. trace_eval. Qed.

Lemma mqttConnect_trace_publications s a :
  publications (mqttConnect_trace cfg s a)
  = if logConnect s
    then [(getStateTopic (device s), "connected", None, false, 0);
          (getEventsTopic (device s) +:+ "/events",
           getDeviceId (device s) +:+ "-connected", None, false, 0)]
    else [].
Proof. trace_eval. Qed.

Lemma mqttConnect_trace_millis s a : EvMillis (ans_now a) ∈ mqttConnect_trace cfg s a.
Proof. trace_eval; set_solver. Qed.

Lemma mqttConnect_trace_random s a :
  connect_failed (ans_error a) (ans_result a) = true ->
  EvRandom (jitter cfg) (ans_jitter a) ∈ mqttConnect_trace cfg s a.
Proof. intros H. trace_unfold. rewrite H. trace_cases; set_solver. Qed.

Lemma mqttConnect_trace_core_ok s a :
  core_ok (mqttConnect_trace cfg s a) ->
  in_ulong (ans_now a) /\
  (connect_failed (ans_error a) (ans_result a) = true ->
   random_range (jitter cfg) (ans_jitter a)).
Proof.
  intros H. split.
  - apply (core_ok_elem _ _ H (mqttConnect_trace_millis s a)).
  - intros Hf. apply (core_ok_elem _ _ H (mqttConnect_trace_random s a Hf)).
Qed.

(** ** What the reference state holds *)

Lemma mqttConnect_state_backoff s a :
  __backoff__ (mqttConnect_state cfg s a)
  = if connect_failed (ans_error a) (ans_result a)
    then backoff_step cfg (__backoff__ s) (ans_jitter a)
    else minbackoff cfg.
Proof. trace_eval. Qed.

Lemma mqttConnect_state_last_retry_at s a :
  __last_retry_at (mqttConnect_state cfg s a) = ans_now a.
Proof. trace_eval. Qed.

Lemma mqttConnect_state_jwt s a :
  jwt (mqttConnect_state cfg s a) = if decide (iat s = 0) then ans_token a else jwt s.
Proof. trace_eval. Qed.

Lemma mqttConnect_state_iat s a :
  iat (mqttConnect_state cfg s a)
  = if connect_failed (ans_error a) (ans_result a) && invalidates_token (ans_rc2 a)
    then 0
    else if decide (iat s = 0) then ans_stamp a else iat s.
Proof. trace_eval. Qed.

Lemma mqttConnect_state_settings s a : same_settings s (mqttConnect_state cfg s a).
Proof. unfold same_settings. trace_eval. Qed.

Lemma mqttConnect_state_inv s a :
  valid_config cfg -> state_inv cfg s -> in_ulong (ans_now a) ->
  (connect_failed (ans_error a) (ans_result a) = true ->
   random_range (jitter cfg) (ans_jitter a)) ->
  state_inv cfg (mqttConnect_state cfg s a).
Proof.
  intros Hcfg [Hb _] Hnow Hr. split.
  - rewrite mqttConnect_state_backoff.
    destruct (connect_failed _ _); [|by apply backoff_reset_inv].
    apply backoff_step_inv; [done|apply Hb|by apply Hr].
  - by rewrite mqttConnect_state_last_retry_at.
Qed.

End Attempt.

(** ** Every run of [mqttConnect] *)

Section Runs.
Context (cfg : BackoffConfig).
Implicit Types (s : CloudIoTCoreMqtt) (t : list Event).

(** C3. Back-off after a connect attempt.  When the test of the attempt fails
    (the client reports an error and [connect] returned false) the delay
    becomes exactly one step of the back-off policy from the delay before,
    with the number drawn in this attempt; in every other case it is reset
    to the minimum. *)
Theorem mqttConnect_backoff skip s t u s' :
  mruns (mqttConnect cfg skip) s t u s' ->
  __backoff__ s'
  = if attempt_failed t then backoff_step cfg (__backoff__ s) (jitter_drawn t)
    else minbackoff cfg.
Proof.
  intros (a & -> & ->)%mqttConnect_runs.
  rewrite mqttConnect_trace_failed, mqttConnect_state_backoff.
  destruct (connect_failed _ _) eqn:Hf; [|done]. by rewrite mqttConnect_trace_jitter.
Qed.

(** C32. One attempt, with the token held.  Every run of [mqttConnect] asks the
    client to connect exactly once, as the device's client id, with the
    placeholder user name, without [skip] whatever the argument, and with
    the token that the fields hold when the function returns as password. *)
Theorem mqttConnect_presents_token skip s t u s' :
  mruns (mqttConnect cfg skip) s t u s' ->
  exists result,
    List.filter is_connect t
    = [EvConnect (getClientId (device s)) "unused" (jwt s') false result].
Proof.
  intros (a & -> & ->)%mqttConnect_runs. exists (ans_result a).
  apply mqttConnect_trace_connects.
Qed.

(** C8. A cleared token is minted before it is used.  When [iat] is zero at
    entry, the run calls [getJwt] exactly once, before the connect, and the
    password of the connect is the token just minted. *)
Theorem mqttConnect_mints_when_cleared skip s t u s' :
  mruns (mqttConnect cfg skip) s t u s' -> iat s = 0 ->
  exists token stamp,
    minted t = [(token, stamp)] /\ passwords t = [token]
    /\ mint_precedes_connect t = true.
Proof.
  intros (a & -> & ->)%mqttConnect_runs Hi. exists (ans_token a), (ans_stamp a).
  rewrite mqttConnect_trace_minted, mqttConnect_trace_passwords,
    mqttConnect_trace_mint_precedes, mqttConnect_state_jwt, bool_decide_true by done.
  by rewrite !decide_True by done.
Qed.

(** A token in force is reused.  When [iat] is not zero at entry, the run
    does not call [getJwt] and presents the token the fields held. *)
Theorem mqttConnect_reuses_token skip s t u s' :
  mruns (mqttConnect cfg skip) s t u s' -> iat s <> 0 ->
  minted t = [] /\ passwords t = [jwt s] /\ jwt s' = jwt s.
Proof.
  intros (a & -> & ->)%mqttConnect_runs Hi.
  rewrite mqttConnect_trace_minted, mqttConnect_trace_passwords, mqttConnect_state_jwt.
  by rewrite !decide_False by done.
Qed.

(** C10. Invalidation of the token.  [iat] is zero after the attempt when the
    attempt failed and the return code that [logReturnCode] switched on is
    "bad user name or password" or "not authorized"; otherwise it holds the
    stamp of the token minted in this attempt, or its value at entry when
    none was minted. *)
Theorem mqttConnect_iat skip s t u s' :
  mruns (mqttConnect cfg skip) s t u s' ->
  iat s' = if attempt_failed t && rejected t then 0 else stamp_or (iat s) t.
Proof.
  intros (a & -> & ->)%mqttConnect_runs.
  rewrite mqttConnect_trace_rejected, mqttConnect_state_iat. unfold stamp_or.
  rewrite mqttConnect_trace_minted. by case_decide.
Qed.

(** The time of the attempt.  The run reads the clock once, and
    [__last_retry_at] holds that reading afterwards. *)
Theorem mqttConnect_records_attempt skip s t u s' :
  mruns (mqttConnect cfg skip) s t u s' -> clock t = [__last_retry_at s'].
Proof.
  intros (a & -> & ->)%mqttConnect_runs.
  by rewrite mqttConnect_trace_clock, mqttConnect_state_last_retry_at.
Qed.

(** C33. What follows every attempt.  Whether the attempt failed or not, the
    run subscribes to the configuration topic at quality of service 1 and
    to the commands topic at quality of service 0, in this order, and to
    nothing else.  With [logConnect] set it then publishes "connected" to
    the state topic and the device id followed by "-connected" to the
    events topic extended by "/events", and nothing else; with [logConnect]
    cleared it publishes nothing. *)
Theorem mqttConnect_follow_up skip s t u s' :
  mruns (mqttConnect cfg skip) s t u s' ->
  subscriptions t = [(getConfigTopic (device s), 1); (getCommandsTopic (device s), 0)]
  /\ publications t
     = if logConnect s
       then [(getStateTopic (device s), "connected", None, false, 0);
             (getEventsTopic (device s) +:+ "/events",
              getDeviceId (device s) +:+ "-connected", None, false, 0)]
       else [].
Proof.
  intros (a & -> & ->)%mqttConnect_runs.
  split; [apply mqttConnect_trace_subscriptions|apply mqttConnect_trace_publications].
Qed.

(** The fields an attempt does not touch.  The device and the three flags
    are the same after [mqttConnect] as before. *)
Theorem mqttConnect_settings skip s t u s' :
  mruns (mqttConnect cfg skip) s t u s' -> same_settings s s'.
Proof. intros (a & -> & ->)%mqttConnect_runs. apply mqttConnect_state_settings. Qed.


(** ** Consecutive attempts *)

Lemma mqttConnect_run_inv skip s t s' :
  valid_config cfg -> state_inv cfg s -> core_ok t ->
  mruns (mqttConnect cfg skip) s t tt s' -> state_inv cfg s'.
Proof.
  intros Hcfg Hs Hok (a & -> & ->)%mqttConnect_runs.
  destruct (mqttConnect_trace_core_ok _ _ _ Hok). by apply mqttConnect_state_inv.
Qed.

(** C4. Token invalidation on rejection.  After an attempt that failed with
    the return code "bad user name or password" or "not authorized", the
    next attempt mints a new token before it connects and presents it,
    whether or not the clock has passed the expiry of the old one. *)
Theorem rejection_forces_mint skip1 skip2 s t1 s1 t2 s2 :
  mruns (mqttConnect cfg skip1) s t1 tt s1 ->
  attempt_failed t1 && rejected t1 = true ->
  mruns (mqttConnect cfg skip2) s1 t2 tt s2 ->
  exists token stamp,
    minted t2 = [(token, stamp)] /\ passwords t2 = [token]
    /\ mint_precedes_connect t2 = true.
Proof.
  intros (a1 & -> & ->)%mqttConnect_runs Hrej (a2 & -> & ->)%mqttConnect_runs.
  rewrite mqttConnect_trace_rejected in Hrej.
  assert (iat (mqttConnect_state cfg s a1) = 0) as Hi.
  { by rewrite mqttConnect_state_iat, Hrej. }
  exists (ans_token a2), (ans_stamp a2).
  rewrite mqttConnect_trace_minted, mqttConnect_trace_passwords,
    mqttConnect_trace_mint_precedes, mqttConnect_state_jwt, bool_decide_true by done.
  by rewrite !decide_True by done.
Qed.

(** Consecutive failures follow the back-off policy.  After any number of
    consecutive attempts that all failed, the delay is the one the policy
    computes from the delay before the first by iterating its step over the
    numbers drawn; under a valid configuration and with [random] in range
    it therefore lies between the minimum and the maximum. *)
Theorem failures_follow_policy skip s ts s' :
  mruns_star (mqttConnect cfg skip) s ts s' ->
  Forall (fun t => attempt_failed t = true) ts ->
  __backoff__ s' = backoff_iter cfg (__backoff__ s) (jitter_drawn <$> ts).
Proof.
  induction 1 as [|s t s1 ts s' (a & -> & ->)%mqttConnect_runs _ IH]; [done|].
  intros [Hf Hfs]%Forall_cons. rewrite IH by done. simpl.
  rewrite mqttConnect_trace_failed in Hf.
  by rewrite mqttConnect_state_backoff, Hf, mqttConnect_trace_jitter.
Qed.

(** The invariant of the fields over consecutive attempts.  Under a valid
    configuration, and as long as the clock and [random] answer within
    their ranges, any number of calls of [mqttConnect] keeps the delay
    between the minimum and the maximum and [__last_retry_at] a reading of
    the clock. *)
Theorem attempts_inv skip s ts s' :
  valid_config cfg -> state_inv cfg s ->
  mruns_star (mqttConnect cfg skip) s ts s' -> Forall core_ok ts ->
  state_inv cfg s'.
Proof.
  intros Hcfg Hs Hruns Hok. revert Hruns Hok Hs.
  apply mruns_star_invariant. intros. by eapply mqttConnect_run_inv.
Qed.

End Runs.

(** ** The asynchronous variant *)

Section Async.
Context (cfg : BackoffConfig).
Implicit Types (s : CloudIoTCoreMqtt) (a : ConnectAnswers) (t : list Event).

Lemma mqttConnectAsync_trace_connects skip s a c2 :
  List.filter is_connect (mqttConnectAsync_trace cfg skip s a c2)
  = [EvConnect (getClientId (device s)) "unused"
       (jwt (mqttConnectAsync_state cfg s a c2)) skip (ans_result a)].
Proof. trace_eval. Qed.

Lemma mqttConnectAsync_trace_results skip s a c2 :
  connect_results (mqttConnectAsync_trace cfg skip s a c2) = [ans_result a].
Proof. trace_eval. Qed.

Lemma mqttConnectAsync_trace_minted skip s a c2 :
  minted (mqttConnectAsync_trace cfg skip s a c2)
  = if decide (iat s = 0) then [(ans_token a, ans_stamp a)] else [].
Proof. trace_eval. Qed.

Lemma mqttConnectAsync_trace_return_codes skip s a c2 :
  ans_result a = false ->
  answers mqtt_returnCode (mqttConnectAsync_trace cfg skip s a c2) = [].
Proof.
  intros Hr. unfold mqttConnectAsync_trace, async_failed. rewrite Hr, andb_false_r.
  trace_eval.
Qed.

Lemma mqttConnectAsync_state_iat s a c2 :
  ans_result a = false ->
  iat (mqttConnectAsync_state cfg s a c2)
  = if decide (iat s = 0) then ans_stamp a else iat s.
Proof.
  intros Hr. unfold mqttConnectAsync_state, async_failed. rewrite Hr, andb_false_r.
  trace_eval.
Qed.

(** The asynchronous connect passes [skip] on.  Every run of
    [mqttConnectAsync] asks the client to connect exactly once, with the
    token held at return as password and with the [skip] it was given. *)
Theorem mqttConnectAsync_presents_token skip s t u s' :
  mruns (mqttConnectAsync cfg skip) s t u s' ->
  exists result,
    List.filter is_connect t
    = [EvConnect (getClientId (device s)) "unused" (jwt s') skip result].
Proof.
  intros (a & c2 & -> & ->)%mqttConnectAsync_runs. exists (ans_result a).
  apply mqttConnectAsync_trace_connects.
Qed.

(** The asynchronous connect never invalidates a refused token.  When the
    connect returns false, [mqttConnectAsync] does not read the return code
    of the broker, so [iat] is not cleared whatever the broker answered: it
    holds the stamp of the token minted in the attempt, or its value at
    entry. *)
Theorem mqttConnectAsync_keeps_token skip s t u s' :
  mruns (mqttConnectAsync cfg skip) s t u s' ->
  connect_results t = [false] ->
  answers mqtt_returnCode t = [] /\ iat s' = stamp_or (iat s) t.
Proof.
  intros (a & c2 & -> & ->)%mqttConnectAsync_runs.
  rewrite mqttConnectAsync_trace_results. intros [= Hr].
  rewrite mqttConnectAsync_trace_return_codes, mqttConnectAsync_state_iat by done.
  unfold stamp_or. rewrite mqttConnectAsync_trace_minted. by case_decide.
Qed.

(** [mqttConnectAsync] and its reference result, in every environment and
    against every script. *)
Theorem mqttConnectAsync_refines skip :
  (forall E s w, exists a c2 w',
     mrun E (mqttConnectAsync cfg skip) s w
     = (tt, mqttConnectAsync_state cfg s a c2, w', mqttConnectAsync_trace cfg skip s a c2))
  /\
  (forall s a c2,
     mrun script_env (mqttConnectAsync cfg skip) s (mqttConnectAsync_trace cfg skip s a c2)
     = (tt, mqttConnectAsync_state cfg s a c2, [], mqttConnectAsync_trace cfg skip s a c2)).
Proof.
  destruct (mrun_refines (mqttConnectAsync cfg skip)
              (fun s t _ s' =>
                 exists a c2, t = mqttConnectAsync_trace cfg skip s a c2
                              /\ s' = mqttConnectAsync_state cfg s a c2))
    as [H1 H2]; [intros; apply mqttConnectAsync_runs|]. split.
  - intros E s w. destruct (H1 E s w) as ([] & ? & w' & ? & -> & a & c2 & -> & ->). eauto.
  - intros s a c2. apply H2. eauto.
Qed.

End Async.

(** ** On the concrete runs *)

Lemma mqttConnect_backoff_witness :
  __backoff__ after_rejection = backoff_step upstream_backoff (__backoff__ connected) 137.
Proof.
  exact (mqttConnect_backoff upstream_backoff false connected rejected_trace tt
           after_rejection rejected_run).
Defined.

Lemma mqttConnect_presents_token_witness :
  exists result,
    List.filter is_connect accepted_trace
    = [EvConnect (getClientId (device constructed)) "unused" (jwt connected) false result].
Proof.
  exact (mqttConnect_presents_token upstream_backoff false constructed accepted_trace tt
           connected accepted_run).
Defined.

Lemma mqttConnect_mints_when_cleared_witness :
  exists token stamp,
    minted accepted_trace = [(token, stamp)] /\ passwords accepted_trace = [token]
    /\ mint_precedes_connect accepted_trace = true.
Proof.
  exact (mqttConnect_mints_when_cleared upstream_backoff false constructed accepted_trace tt
           connected accepted_run eq_refl).
Defined.

Lemma mqttConnect_reuses_token_witness :
  minted rejected_trace = [] /\ passwords rejected_trace = [jwt connected]
  /\ jwt after_rejection = jwt connected.
Proof.
  refine (mqttConnect_reuses_token upstream_backoff false connected rejected_trace tt
            after_rejection rejected_run _).
  discriminate.
Defined.

Lemma mqttConnect_iat_witness : iat after_rejection = 0.
Proof.
  exact (mqttConnect_iat upstream_backoff false connected rejected_trace tt
           after_rejection rejected_run).
Defined.

Lemma mqttConnect_records_attempt_witness :
  clock rejected_trace = [__last_retry_at after_rejection].
Proof.
  exact (mqttConnect_records_attempt upstream_backoff false connected rejected_trace tt
           after_rejection rejected_run).
Defined.

Lemma mqttConnect_follow_up_witness :
  subscriptions rejected_trace
  = [(getConfigTopic (device connected), 1); (getCommandsTopic (device connected), 0)]
  /\ publications rejected_trace
     = if logConnect connected
       then [(getStateTopic (device connected), "connected", None, false, 0);
             (getEventsTopic (device connected) +:+ "/events",
              getDeviceId (device connected) +:+ "-connected", None, false, 0)]
       else [].
Proof.
  exact (mqttConnect_follow_up upstream_backoff false connected rejected_trace tt
           after_rejection rejected_run).
Defined.

Lemma mqttConnect_settings_witness : same_settings connected after_rejection.
Proof.
  exact (mqttConnect_settings upstream_backoff false connected rejected_trace tt
           after_rejection rejected_run).
Defined.

Lemma rejection_forces_mint_witness :
  exists token stamp,
    minted rejected_again_trace = [(token, stamp)]
    /\ passwords rejected_again_trace = [token]
    /\ mint_precedes_connect rejected_again_trace = true.
Proof.
  exact (rejection_forces_mint upstream_backoff false false connected rejected_trace
           after_rejection rejected_again_trace after_second_rejection
           rejected_run eq_refl rejected_again_run).
Defined.

Lemma failures_follow_policy_witness :
  __backoff__ after_second_rejection = backoff_iter upstream_backoff 1000 [137; 137].
Proof.
  apply (failures_follow_policy upstream_backoff false connected
           [rejected_trace; rejected_again_trace] after_second_rejection
           two_rejections_run).
  by repeat constructor.
Defined.

Lemma attempts_inv_witness : state_inv upstream_backoff after_second_rejection.
Proof.
  apply (attempts_inv upstream_backoff false connected
           [rejected_trace; rejected_again_trace] after_second_rejection
           upstream_backoff_valid connected_inv two_rejections_run).
  by apply (bool_decide_unpack _).
Defined.

Lemma mqttConnectAsync_presents_token_witness :
  exists result,
    List.filter is_connect refused_async_trace
    = [EvConnect (getClientId (device connected)) "unused" (jwt after_refused_async) true
         result].
Proof.
  exact (mqttConnectAsync_presents_token upstream_backoff true connected
           refused_async_trace tt after_refused_async refused_async_run).
Defined.

Lemma mqttConnectAsync_keeps_token_witness :
  answers mqtt_returnCode refused_async_trace = []
  /\ iat after_refused_async = iat connected.
Proof.
  exact (mqttConnectAsync_keeps_token upstream_backoff true connected
           refused_async_trace tt after_refused_async refused_async_run eq_refl).
Defined.
