(* ===== verification/Report.v ===== *)
(** * Reading the diagnostics back

    What [logError] and [logReturnCode] print is the only account of a
    failed connect that leaves the device.  [read_error] and
    [read_return_code] read the serial log as an operator does: the first
    line that is the text of an error, the first that is the text of a
    return code.  The round trip says that the account is faithful: from the
    log of a failed attempt one reads the error the client last reported and
    the return code on which the token was kept or cleared, whatever else
    the attempt printed.

    [logConfiguration] prints the endpoint.  [read_endpoint] reads it back,
    and [endpoint_report] compares it with the endpoint that [startMQTT]
    set the client up for. *)

From S2P Require Import Prelude Machine Lwmqtt Backoff Effects State Diagnostics.
From S2P Require Import Controller Fixtures Connect.

#[local] Open Scope Z_scope.

(** ** The readers *)

(** The error and the return code that print as [line], if any. *)
Definition error_of_name (line : string) : option lwmqtt_err_t :=
  head (filter (fun e => error_name e = line) lwmqtt_err_all).

Definition return_code_of_name (line : string) : option lwmqtt_return_code_t :=
  head (filter (fun rc => return_code_name rc = line) lwmqtt_return_code_all).

(** The first error, the first return code named in a log. *)
Definition read_error (lines : list string) : option lwmqtt_err_t :=
  head (omap error_of_name lines).

Definition read_return_code (lines : list string) : option lwmqtt_return_code_t :=
  head (omap return_code_of_name lines).

(** The endpoints the client can be set up for, and how [logConfiguration]
    prints one. *)
Definition endpoints : list (string * Z) :=
  [(CLOUD_IOT_CORE_MQTT_HOST, CLOUD_IOT_CORE_MQTT_PORT);
   (CLOUD_IOT_CORE_MQTT_HOST, CLOUD_IOT_CORE_HTTP_PORT);
   (CLOUD_IOT_CORE_MQTT_HOST_LTS, CLOUD_IOT_CORE_MQTT_PORT);
   (CLOUD_IOT_CORE_MQTT_HOST_LTS, CLOUD_IOT_CORE_HTTP_PORT)].

Definition endpoint_line (ep : string * Z) : string :=
  "Connect with " +:+ ep.1 +:+ ":" +:+ pretty ep.2.

Definition endpoint_of_line (line : string) : option (string * Z) :=
  head (filter (fun ep => endpoint_line ep = line) endpoints).

(** The first endpoint named in a log. *)
Definition read_endpoint (lines : list string) : option (string * Z) :=
  head (omap endpoint_of_line lines).

(** The endpoint that a call set the client up for. *)
Definition begin_of (e : Event) : option (string * Z) :=
  match e with EvBegin host port => Some (host, port) | _ => None end.

(** ** Names and numbers *)

Lemma error_of_name_name e : error_of_name (error_name e) = Some e.
Proof. destruct e; vm_compute; reflexivity. Qed.

Lemma return_code_of_name_name rc : return_code_of_name (return_code_name rc) = Some rc.
Proof. destruct rc; vm_compute; reflexivity. Qed.

(** The number printed before a name is the name of nothing, and the two
    families of names do not meet. *)
Lemma error_of_name_code e : error_of_name (pretty (lwmqtt_err_code e)) = None.
Proof. destruct e; vm_compute; reflexivity. Qed.

Lemma return_code_of_name_err_code e :
  return_code_of_name (pretty (lwmqtt_err_code e)) = None.
Proof. destruct e; vm_compute; reflexivity. Qed.

Lemma return_code_of_name_code rc :
  return_code_of_name (pretty (lwmqtt_return_code_code rc)) = None.
Proof. destruct rc; vm_compute; reflexivity. Qed.

Lemma return_code_of_name_error e : return_code_of_name (error_name e) = None.
Proof. destruct e; vm_compute; reflexivity. Qed.

(** ** Reading a log line by line *)

Lemma read_error_skip line lines :
  error_of_name line = None -> read_error (line :: lines) = read_error lines.
Proof. unfold read_error. simpl. by intros ->. Qed.

Lemma read_error_found line lines e :
  error_of_name line = Some e -> read_error (line :: lines) = Some e.
Proof. unfold read_error. simpl. by intros ->. Qed.

Lemma read_return_code_skip line lines :
  return_code_of_name line = None ->
  read_return_code (line :: lines) = read_return_code lines.
Proof. unfold read_return_code. simpl. by intros ->. Qed.

Lemma read_return_code_found line lines rc :
  return_code_of_name line = Some rc -> read_return_code (line :: lines) = Some rc.
Proof. unfold read_return_code. simpl. by intros ->. Qed.

(** The log up to the texts, line by line. *)
Ltac read_log :=
  repeat match goal with
    | |- context [read_error (pretty (lwmqtt_err_code ?e) :: ?l)] =>
        rewrite (read_error_skip _ l (error_of_name_code e))
    | |- context [read_error (error_name ?e :: ?l)] =>
        rewrite (read_error_found _ l e (error_of_name_name e))
    | |- context [read_error (String ?c ?x :: ?l)] =>
        rewrite (read_error_skip (String c x) l) by (vm_compute; reflexivity)
    | |- context [read_return_code (pretty (lwmqtt_err_code ?e) :: ?l)] =>
        rewrite (read_return_code_skip _ l (return_code_of_name_err_code e))
    | |- context [read_return_code (pretty (lwmqtt_return_code_code ?rc) :: ?l)] =>
        rewrite (read_return_code_skip _ l (return_code_of_name_code rc))
    | |- context [read_return_code (error_name ?e :: ?l)] =>
        rewrite (read_return_code_skip _ l (return_code_of_name_error e))
    | |- context [read_return_code (return_code_name ?rc :: ?l)] =>
        rewrite (read_return_code_found _ l rc (return_code_of_name_name rc))
    | |- context [read_return_code (String ?c ?x :: ?l)] =>
        rewrite (read_return_code_skip (String c x) l) by (vm_compute; reflexivity)
    end.

(** ** The diagnostics by themselves *)

Lemma logError_read e1 e2 lines :
  read_error (printed (logError_trace e1 e2) ++ lines) = Some e2.
Proof. unfold logError_trace. cbn. by read_log. Qed.

Lemma logReturnCode_read rc1 rc2 lines :
  read_return_code (printed (logReturnCode_trace rc1 rc2) ++ lines) = Some rc2.
Proof. unfold logReturnCode_trace. cbn. by read_log. Qed.

(** ** The endpoint *)

Lemma endpoint_of_line_line ep : ep ∈ endpoints -> endpoint_of_line (endpoint_line ep) = Some ep.
Proof.
  unfold endpoints. rewrite !elem_of_cons, elem_of_nil.
  intros [->|[->|[->|[->|[]]]]]; vm_compute; reflexivity.
Qed.

Lemma read_endpoint_found line lines ep :
  endpoint_of_line line = Some ep -> read_endpoint (line :: lines) = Some ep.
Proof. unfold read_endpoint. simpl. by intros ->. Qed.

(** The endpoint read from what [logConfiguration] prints. *)
Lemma logConfiguration_read s lines :
  read_endpoint (printed (logConfiguration_trace s) ++ lines)
  = Some (CLOUD_IOT_CORE_MQTT_HOST_LTS, CLOUD_IOT_CORE_MQTT_PORT).
Proof.
  change (printed (logConfiguration_trace s) ++ lines)
    with (endpoint_line (CLOUD_IOT_CORE_MQTT_HOST_LTS, CLOUD_IOT_CORE_MQTT_PORT)
          :: ("ClientId: " +:+ getClientId (device s)) :: lines).
  apply read_endpoint_found, endpoint_of_line_line.
  do 2 apply list_elem_of_further. apply list_elem_of_here.
Qed.

(** C34. The endpoint reported and the endpoint in use.  [startMQTT] sets the
    client up for the host and the port that the flags select.  The
    endpoint that [logConfiguration] then prints, whether or not the token
    is shown, is the long-term host on the MQTT port: it is the endpoint
    in use exactly when [useLts] is set and [use443Port] is not. *)
Theorem endpoint_report show s t1 u1 s1 t2 u2 s2 :
  mruns startMQTT s t1 u1 s1 -> mruns (logConfiguration show) s1 t2 u2 s2 ->
  observe begin_of t1
  = [(if useLts s then CLOUD_IOT_CORE_MQTT_HOST_LTS else CLOUD_IOT_CORE_MQTT_HOST,
      if use443Port s then CLOUD_IOT_CORE_HTTP_PORT else CLOUD_IOT_CORE_MQTT_PORT)]
  /\ (read_endpoint (printed t2) = head (observe begin_of t1)
      <-> useLts s = true /\ use443Port s = false).
Proof.
  intros [-> ->]%startMQTT_runs (t' & -> & _)%logConfiguration_runs.
  rewrite observe_app, logConfiguration_read. unfold startMQTT_host, startMQTT_port.
  destruct (useLts s), (use443Port s); (split; [done|]); split; try done.
  all: by intros [??].
Qed.

Section Report.
Context (cfg : BackoffConfig).

(** C23. The diagnostics are a faithful account.  After a failed run of
    [mqttConnect], the first error named in the serial log is the last
    error the client reported, and the first return code named in it is the
    last return code the client reported, the one that decided whether the
    token was cleared. *)
Theorem diagnosis_roundtrip skip s t u s' :
  mruns (mqttConnect cfg skip) s t u s' -> attempt_failed t = true ->
  read_error (printed t) = last (answers mqtt_lastError t)
  /\ read_return_code (printed t) = last (answers mqtt_returnCode t).
Proof.
  intros (a & -> & _)%mqttConnect_runs. rewrite mqttConnect_trace_failed. intros Hf.
  trace_unfold. rewrite Hf. trace_cases; cbn; by read_log.
Qed.

End Report.

(** The log of the rejected attempt of [Fixtures] names the denial and the
    refusal. *)
Lemma diagnosis_roundtrip_witness :
  read_error (printed rejected_trace) = last (answers mqtt_lastError rejected_trace)
  /\ read_return_code (printed rejected_trace)
     = last (answers mqtt_returnCode rejected_trace).
Proof.
  apply (diagnosis_roundtrip upstream_backoff false connected rejected_trace tt
           after_rejection rejected_run).
  by vm_compute.
Defined.

(** Set up for the default host on port 443, the controller reports the
    long-term host on port 8883. *)
Lemma endpoint_report_witness :
  observe begin_of [EvBegin "mqtt.googleapis.com" 443; EvOnMessage]
  = [("mqtt.googleapis.com", 443)]
  /\ (read_endpoint (printed (logConfiguration_trace (set_use443Port true constructed)))
      = head (observe begin_of [EvBegin "mqtt.googleapis.com" 443; EvOnMessage])
      <-> useLts (set_use443Port true constructed) = true
          /\ use443Port (set_use443Port true constructed) = false).
Proof.
  apply (endpoint_report false (set_use443Port true constructed)
           [EvBegin "mqtt.googleapis.com" 443; EvOnMessage] tt (set_use443Port true constructed)
           (logConfiguration_trace (set_use443Port true constructed)) tt
           (set_use443Port true constructed)).
  - apply (mrun_mruns script_env _ _ [EvBegin "mqtt.googleapis.com" 443; EvOnMessage] _ _ []).
    reflexivity.
  - apply (mrun_mruns script_env _ _
             (logConfiguration_trace (set_use443Port true constructed)) _ _ []).
    reflexivity.
Defined.
