(* ===== verification/Variants.v ===== *)
(** * The two connect functions

    [mqttConnectAsync] repeats [mqttConnect] with another test after the
    connect: it looks at [lastError()] together with a result that is true,
    and otherwise at [connected()].  This file says when the two functions
    do the same: given the same answers of the collaborators, whether they
    leave the same fields and ask the same of the collaborators.  The
    diagnostics are left out of the comparison: two traces are
    [same_actions] when they agree up to what is printed and up to the
    queries [connected()], [lastError()] and [returnCode()], which do not
    act on the client. *)

From Stdlib Require Import Morphisms.
From S2P Require Import Prelude Machine Lwmqtt Backoff Effects State Diagnostics.
From S2P Require Import Controller Fixtures.

#[local] Open Scope Z_scope.

(** ** Traces up to the diagnostics *)

(** An event that acts on a collaborator or draws from it. *)
Definition is_action (e : Event) : bool :=
  match e with
  | EvPrint _ | EvPrintln _ | EvConnected _ | EvLastError _ | EvReturnCode _ => false
  | _ => true
  end.

Definition actions (t : list Event) : list Event := List.filter is_action t.

Definition same_actions (t t' : list Event) : Prop := actions t = actions t'.

#[export] Instance same_actions_dec t t' : Decision (same_actions t t').
Proof. unfold same_actions. apply _. Defined.

#[local] Infix "≈" := same_actions (at level 70, no associativity).

(** ** When the two functions agree *)

(** The answers on which the tests of the two functions come to the same:
    the client reports no error and is connected; or [connect] failed with
    an error, the client is not connected and the return code does not
    invalidate the token. *)
Definition variants_agree (a : ConnectAnswers) (connected2 : bool) : bool :=
  let failed := bool_decide (ans_error a <> LWMQTT_SUCCESS) in
  (negb failed && connected2)
  || (failed && negb (ans_result a) && negb connected2
      && negb (invalidates_token (ans_rc2 a))).

(** ** The equivalence of traces *)

#[export] Instance same_actions_equiv : Equivalence same_actions.
Proof.
  unfold same_actions. split; [by intros t|by intros t t'|].
  intros t1 t2 t3. congruence.
Qed.

Lemma actions_app t1 t2 : actions (t1 ++ t2) = actions t1 ++ actions t2.
Proof. apply List.filter_app. Qed.

#[export] Instance app_same_actions : Proper (same_actions ==> same_actions ==> same_actions) app.
Proof. intros t1 t1' H1 t2 t2' H2. unfold same_actions in *. by rewrite !actions_app, H1, H2. Qed.

#[export] Instance cons_same_actions e : Proper (same_actions ==> same_actions) (cons e).
Proof. intros t t' H. unfold same_actions in *. simpl. by rewrite H. Qed.

Lemma same_actions_skip e t : is_action e = false -> (e :: t) ≈ t.
Proof. unfold same_actions. simpl. by intros ->. Qed.

Lemma same_actions_silent t : forallb (fun e => negb (is_action e)) t = true -> t ≈ [].
Proof.
  induction t as [|e t IH]; [done|]. simpl. intros [He Ht]%andb_prop.
  rewrite same_actions_skip by by destruct (is_action e). by apply IH.
Qed.

(** The diagnostics act on nothing. *)
Lemma logError_silent e1 e2 : logError_trace e1 e2 ≈ [].
Proof. by apply same_actions_silent. Qed.

Lemma logReturnCode_silent rc1 rc2 : logReturnCode_trace rc1 rc2 ≈ [].
Proof. by apply same_actions_silent. Qed.

Lemma logConfiguration_silent s : logConfiguration_trace s ≈ [].
Proof. by apply same_actions_silent. Qed.

Section Variants.
Context (cfg : BackoffConfig).

Lemma increaseBackoff_actions s r :
  increaseBackoff_trace cfg s r ≈ [EvRandom (jitter cfg) r].
Proof. done. Qed.

(** ** The fields *)

Lemma variants_agree_state s a c2 :
  variants_agree a c2 = true ->
  mqttConnectAsync_state cfg s a c2 = mqttConnect_state cfg s a.
Proof.
  unfold variants_agree, mqttConnectAsync_state, mqttConnect_state, async_failed,
    connect_failed.
  destruct (bool_decide _), (ans_result a), c2, (invalidates_token _) eqn:Hi; try done.
  all: intros _; simpl; by rewrite after_return_code_keep.
Qed.

(** ** The actions *)

Lemma variants_agree_actions s a c2 :
  variants_agree a c2 = true ->
  mqttConnectAsync_trace cfg false s a c2 ≈ mqttConnect_trace cfg s a.
Proof.
  unfold variants_agree, mqttConnectAsync_trace, mqttConnect_trace, async_failed,
    connect_failed.
  destruct (bool_decide _), (ans_result a), c2, (invalidates_token _) eqn:Hi; try done.
  all: intros _; cbn [negb andb orb].
  all: rewrite ?logError_silent, ?logReturnCode_silent, ?logConfiguration_silent,
         ?increaseBackoff_actions, ?after_return_code_keep by done.
  all: unfold same_actions, actions; simpl; rewrite !List.filter_app; simpl.
  all: by rewrite ?List.filter_app.
Qed.

(** C20. When the two connect functions do the same.  Executed against the
    same answers of the collaborators, [mqttConnectAsync(false)] and
    [mqttConnect] leave the same fields and ask the same of the
    collaborators, diagnostics aside, whenever the client reports no error
    and is connected, and whenever the connect failed with an error, the
    client is not connected and the return code does not invalidate the
    token. *)
Theorem connect_variants_equiv s a c2 :
  variants_agree a c2 = true ->
  let r := mrun script_env (mqttConnect cfg false) s (mqttConnect_trace cfg s a) in
  let r' := mrun script_env (mqttConnectAsync cfg false) s
              (mqttConnectAsync_trace cfg false s a c2) in
  fields_after r' = fields_after r /\ trace_after r' ≈ trace_after r.
Proof.
  intros Hagree.
  rewrite (mruns_mrun (mqttConnect cfg false) s _ tt (mqttConnect_state cfg s a))
    by (apply mqttConnect_runs; eauto).
  rewrite (mruns_mrun (mqttConnectAsync cfg false) s _ tt (mqttConnectAsync_state cfg s a c2))
    by (apply mqttConnectAsync_runs; eauto).
  split; [by apply variants_agree_state|by apply variants_agree_actions].
Qed.

End Variants.

(** ** Where they part *)

(** A token refused as not authorized: [mqttConnect] clears [iat],
    [mqttConnectAsync] keeps the token. *)
Example variants_part_on_rejection :
  variants_agree rejected_answers false = false
  /\ iat (mqttConnect_state upstream_backoff connected rejected_answers) = 0
  /\ iat (mqttConnectAsync_state upstream_backoff connected rejected_answers false)
     = iat connected
  /\ iat connected <> 0.
Proof. by vm_compute. Qed.

Lemma connect_variants_equiv_witness :
  let r := mrun script_env (mqttConnect upstream_backoff false) constructed
             (mqttConnect_trace upstream_backoff constructed accepted_answers) in
  let r' := mrun script_env (mqttConnectAsync upstream_backoff false) constructed
              (mqttConnectAsync_trace upstream_backoff false constructed accepted_answers
                 true) in
  fields_after r' = fields_after r /\ same_actions (trace_after r') (trace_after r).
Proof.
  apply (connect_variants_equiv upstream_backoff constructed accepted_answers true).
  reflexivity.
Defined.
