(* ===== verification/Tick.v ===== *)
(** * One call of [loop], and many

    [loop] is what the sketch calls on every pass of its main loop.  The
    theorems say when a call connects and when it does not, that a connect
    made by [loop] always presents a token minted in the same call, that a
    call makes one attempt at most and always ends with the message pump of
    the client, and that the invariant of the fields holds after any number
    of calls.

    A statement about a call that starts with given answers is written on
    the prefix of its trace: the first events of every trace of [loop] are
    the reading of the clock and of the expiry time. *)

From S2P Require Import Prelude Machine Lwmqtt Backoff Effects State Diagnostics.
From S2P Require Import Controller Fixtures Connect.

#[local] Open Scope Z_scope.

Section Tick.
Context (cfg : BackoffConfig) {RA : RetryArith}.
Implicit Types (s : CloudIoTCoreMqtt) (a : LoopAnswers) (t : list Event).

(** ** The events before the connect *)

Lemma loop_prefix_minted s a : minted (loop_prefix s a) = [].
Proof. trace_eval. Qed.

Lemma loop_prefix_passwords s a : passwords (loop_prefix s a) = [].
Proof. trace_eval. Qed.

Lemma loop_prefix_connects s a : count is_connect (loop_prefix s a) = 0%nat.
Proof. trace_eval. Qed.

Lemma loop_prefix_no_connect s a : existsb is_connect (loop_prefix s a) = false.
Proof. trace_eval. Qed.

Lemma loop_prefix_no_mint s a : existsb is_getJwt (loop_prefix s a) = false.
Proof. trace_eval. Qed.

(** ** The two shapes of a call *)

Lemma loop_trace_idle s a :
  loop_reconnects s a = false ->
  loop_trace cfg s a = loop_prefix s a ++ [EvLoop (tick_loop a)]
  /\ loop_state cfg s a = s.
Proof. unfold loop_trace, loop_state. by intros ->. Qed.

Lemma loop_trace_reconnect s a :
  loop_reconnects s a = true ->
  loop_trace cfg s a
  = loop_prefix s a ++ mqttConnect_trace cfg (set_iat 0 s) (tick_connect a)
    ++ [EvLoop (tick_loop a)]
  /\ loop_state cfg s a = mqttConnect_state cfg (set_iat 0 s) (tick_connect a).
Proof. unfold loop_trace, loop_state. by intros ->. Qed.

(** The observations of a call that reconnects are those of its connect. *)
Lemma loop_trace_reconnect_minted s a :
  loop_reconnects s a = true ->
  minted (loop_trace cfg s a) = [(ans_token (tick_connect a), ans_stamp (tick_connect a))].
Proof.
  intros [-> _]%loop_trace_reconnect. autorewrite with ciot_obs.
  by rewrite loop_prefix_minted, mqttConnect_trace_minted.
Qed.

Lemma loop_trace_reconnect_passwords s a :
  loop_reconnects s a = true ->
  passwords (loop_trace cfg s a) = [ans_token (tick_connect a)].
Proof.
  intros [-> _]%loop_trace_reconnect. autorewrite with ciot_obs.
  by rewrite loop_prefix_passwords, mqttConnect_trace_passwords, mqttConnect_state_jwt.
Qed.

Lemma loop_trace_reconnect_precedes s a :
  loop_reconnects s a = true -> mint_precedes_connect (loop_trace cfg s a) = true.
Proof.
  intros [-> _]%loop_trace_reconnect.
  rewrite mint_precedes_connect_app by auto using loop_prefix_no_mint, loop_prefix_no_connect.
  trace_eval.
Qed.

Lemma loop_trace_connects s a :
  count is_connect (loop_trace cfg s a) = if loop_reconnects s a then 1%nat else 0%nat.
Proof.
  unfold loop_trace. autorewrite with ciot_obs. rewrite loop_prefix_connects.
  destruct (loop_reconnects s a); [|done].
  unfold count. by rewrite mqttConnect_trace_connects.
Qed.

Lemma loop_trace_last s a : last (loop_trace cfg s a) = Some (EvLoop (tick_loop a)).
Proof. unfold loop_trace. by rewrite !app_assoc, last_snoc. Qed.

(** Reading the answers off the first events of a trace of [loop]. *)
Lemma loop_trace_head s a now exp t :
  loop_trace cfg s a = EvMillis now :: EvGetExpMillis exp :: t ->
  tick_now a = now /\ tick_exp a = exp.
Proof. unfold loop_trace, loop_prefix. intros Ht. by trace_inj Ht. Qed.

Lemma loop_trace_expired s a now exp t :
  loop_trace cfg s a = EvMillis now :: EvGetExpMillis exp :: t ->
  now > exp -> loop_reconnects s a = true.
Proof.
  intros [<- <-]%loop_trace_head Hgt. unfold loop_reconnects, token_expired.
  by rewrite bool_decide_true by lia.
Qed.

Lemma loop_trace_expired_prefix s a now exp t :
  loop_trace cfg s a = EvMillis now :: EvGetExpMillis exp :: t ->
  now > exp ->
  exists t',
    t = EvPrintln "Reconnecting before JWT expiration"
        :: EvConnected (tick_was_connected a)
        :: (if tick_was_connected a then [EvDisconnect (tick_disconnect a)] else [])
        ++ t'.
Proof.
  intros Ht Hgt. destruct (loop_trace_head _ _ _ _ _ Ht) as [Hn He].
  assert (token_expired a = true) as Hx.
  { unfold token_expired. rewrite Hn, He. by apply bool_decide_true. }
  unfold loop_trace, loop_prefix in Ht. rewrite Hx in Ht. trace_inj Ht.
  rewrite <- Ht, <- !app_assoc. eauto.
Qed.

(** The trace of a call made before the expiry, by cases on the answer of
    the client and on the gate. *)
Lemma loop_trace_unexpired s a now exp c t :
  loop_trace cfg s a = EvMillis now :: EvGetExpMillis exp :: EvConnected c :: t ->
  now <= exp ->
  tick_connected a = c /\
  loop_reconnects s a
  = negb c && gate_open (__last_retry_at s) (tick_now2 a) (__backoff__ s) /\
  t = (if negb c
       then EvMillis (tick_now2 a)
            :: (if gate_open (__last_retry_at s) (tick_now2 a) (__backoff__ s)
                then [EvPrintln "Reconnecting with back-off"] else [])
       else [])
      ++ (if loop_reconnects s a
          then mqttConnect_trace cfg (set_iat 0 s) (tick_connect a) else [])
      ++ [EvLoop (tick_loop a)].
Proof.
  intros Ht Hle. destruct (loop_trace_head _ _ _ _ _ Ht) as [Hn He].
  assert (token_expired a = false) as Hx.
  { unfold token_expired. rewrite Hn, He. by apply bool_decide_false; lia. }
  unfold loop_reconnects, retry_due. rewrite Hx.
  unfold loop_trace, loop_prefix, loop_reconnects, retry_due in Ht. rewrite Hx in Ht.
  trace_inj Ht. simpl in Ht. by rewrite <- Ht.
Qed.

(** ** Every run of [loop] *)

(** C30. Nothing to do while connected.  When the clock has not passed the
    expiry of the token and the client reports that it is connected, [loop]
    only runs the message pump of the client: it does not connect, does not
    mint a token and leaves the fields as they were. *)
Theorem loop_idles_when_connected s now exp t u s' :
  mruns (loop cfg) s (EvMillis now :: EvGetExpMillis exp :: EvConnected true :: t) u s' ->
  now <= exp ->
  (exists l, t = [EvLoop l]) /\ s' = s.
Proof.
  intros (a & Ht%symmetry & ->)%loop_runs Hle.
  destruct (loop_trace_unexpired _ _ _ _ _ _ Ht Hle) as (_ & Hr & ->).
  unfold loop_state. rewrite Hr. simpl. eauto.
Qed.

(** C1. No premature retry.  With an arithmetic of the retry gate that meets
    its laws: when the token has not expired, the client is not connected
    and fewer milliseconds than the current delay have passed since the
    last attempt, [loop] does not connect; it runs the message pump and
    leaves the fields as they were. *)
Theorem loop_waits_for_backoff `{!RetryArithLaws RA} s now exp now2 t u s' :
  valid_config cfg -> state_inv cfg s ->
  mruns (loop cfg) s
    (EvMillis now :: EvGetExpMillis exp :: EvConnected false :: EvMillis now2 :: t) u s' ->
  now <= exp ->
  __last_retry_at s <= now2 <= ULONG_MAX ->
  now2 - __last_retry_at s < __backoff__ s ->
  (exists l, t = [EvLoop l]) /\ s' = s.
Proof.
  intros Hcfg [Hb Hl] (a & Ht%symmetry & ->)%loop_runs Hle Hnow Hearly.
  destruct (loop_trace_unexpired _ _ _ _ _ _ Ht Hle) as (_ & Hr & Ht').
  cbn [negb andb app] in Hr, Ht'. trace_inj Ht'.
  assert (gate_open (__last_retry_at s) (tick_now2 a) (__backoff__ s) = false) as Hg.
  { pose proof (max_backoff_in_int cfg Hcfg). unfold backoff_inv, in_ulong in *.
    apply not_true_is_false. rewrite gate_open_elapsed; lia. }
  unfold loop_state. rewrite Hr, Hg in *. simpl in Ht'. eauto.
Qed.

(** C31. A retry when it is due.  When the token has not expired, the client
    is not connected and the retry gate is open, [loop] clears [iat],
    makes one connect attempt from the fields so obtained and then runs the
    message pump. *)
Theorem loop_retries_when_due s now exp now2 t u s' :
  mruns (loop cfg) s
    (EvMillis now :: EvGetExpMillis exp :: EvConnected false :: EvMillis now2 :: t) u s' ->
  now <= exp ->
  gate_open (__last_retry_at s) now2 (__backoff__ s) = true ->
  exists tc l,
    t = EvPrintln "Reconnecting with back-off" :: tc ++ [EvLoop l]
    /\ mruns (mqttConnect cfg false) (set_iat 0 s) tc tt s'.
Proof.
  intros (a & Ht%symmetry & ->)%loop_runs Hle Hg.
  destruct (loop_trace_unexpired _ _ _ _ _ _ Ht Hle) as (_ & Hr & Ht').
  cbn [negb andb app] in Hr, Ht'. trace_inj Ht'.
  unfold loop_state. rewrite Hr, Hg in *. cbn [app] in Ht'.
  do 2 eexists. split; [apply Ht'|]. apply mqttConnect_runs. eauto.
Qed.

(** C2. Token refresh on expiry.  When the clock has passed the expiry of the
    token, [loop] asks the client whether it is connected and disconnects
    it if so; whatever the answer, it then mints a token exactly once,
    before the one connect it makes, presents the minted token as password
    and holds it afterwards. *)
Theorem loop_refreshes_expired_token s now exp t u s' :
  mruns (loop cfg) s (EvMillis now :: EvGetExpMillis exp :: t) u s' ->
  now > exp ->
  (exists c t',
     t = EvPrintln "Reconnecting before JWT expiration" :: EvConnected c :: t'
     /\ (c = true -> exists d, head t' = Some (EvDisconnect d)))
  /\ exists token stamp,
       minted (EvMillis now :: EvGetExpMillis exp :: t) = [(token, stamp)]
       /\ passwords (EvMillis now :: EvGetExpMillis exp :: t) = [token]
       /\ mint_precedes_connect (EvMillis now :: EvGetExpMillis exp :: t) = true
       /\ jwt s' = token.
Proof.
  intros (a & Ht%symmetry & ->)%loop_runs Hgt. split.
  - destruct (loop_trace_expired_prefix _ _ _ _ _ Ht Hgt) as (t' & ->).
    do 2 eexists. split; [done|]. intros ->. simpl. eauto.
  - pose proof (loop_trace_expired _ _ _ _ _ Ht Hgt) as Hr. rewrite <- Ht.
    exists (ans_token (tick_connect a)), (ans_stamp (tick_connect a)).
    rewrite loop_trace_reconnect_minted, loop_trace_reconnect_passwords,
      loop_trace_reconnect_precedes by done.
    destruct (loop_trace_reconnect s a Hr) as [_ ->]. by rewrite mqttConnect_state_jwt.
Qed.

(** C9. One attempt at most, and the pump always.  A call of [loop] asks the
    client to connect once at most, so a failed attempt is never retried
    within the call, and the last thing it does is to run the message pump
    of the client, whether it has reconnected or not. *)
Theorem loop_single_attempt s t u s' :
  mruns (loop cfg) s t u s' ->
  (count is_connect t <= 1)%nat /\ exists l, last t = Some (EvLoop l).
Proof.
  intros (a & -> & ->)%loop_runs. rewrite loop_trace_connects, loop_trace_last.
  split; [destruct (loop_reconnects s a); lia|eauto].
Qed.

(** Every connect made by [loop] presents a fresh token.  Both reasons to
    reconnect clear [iat]: a call of [loop] that connects has minted a
    token before, exactly once, and presents that token. *)
Theorem loop_connect_is_fresh s t u s' :
  mruns (loop cfg) s t u s' -> count is_connect t = 1%nat ->
  exists token stamp,
    minted t = [(token, stamp)] /\ passwords t = [token]
    /\ mint_precedes_connect t = true.
Proof.
  intros (a & -> & ->)%loop_runs. rewrite loop_trace_connects.
  destruct (loop_reconnects s a) eqn:Hr; [intros _|done].
  exists (ans_token (tick_connect a)), (ans_stamp (tick_connect a)).
  by rewrite loop_trace_reconnect_minted, loop_trace_reconnect_passwords,
    loop_trace_reconnect_precedes.
Qed.

(** [loop] writes neither the device nor the flags. *)
Lemma loop_state_settings s a : same_settings s (loop_state cfg s a).
Proof.
  unfold loop_state. destruct (loop_reconnects s a); [|done].
  apply (mqttConnect_state_settings cfg (set_iat 0 s)).
Qed.

(** ** The invariant of the fields *)

Lemma set_iat_inv v s : state_inv cfg s -> state_inv cfg (set_iat v s).
Proof. done. Qed.

Lemma loop_state_inv s a :
  valid_config cfg -> state_inv cfg s -> core_ok (loop_trace cfg s a) ->
  state_inv cfg (loop_state cfg s a).
Proof.
  intros Hcfg Hs Hok. unfold loop_state, loop_trace in *.
  destruct (loop_reconnects s a); [|done].
  apply core_ok_app in Hok as [_ [Hok _]%core_ok_app].
  destruct (mqttConnect_trace_core_ok _ _ _ Hok).
  by apply mqttConnect_state_inv; [|apply set_iat_inv|..].
Qed.

Lemma loop_run_inv s t s' :
  valid_config cfg -> state_inv cfg s -> core_ok t -> mruns (loop cfg) s t tt s' ->
  state_inv cfg s'.
Proof. intros Hcfg Hs Hok (a & -> & ->)%loop_runs. by apply loop_state_inv. Qed.

(** The invariant of the fields over the life of the controller.  Under a
    valid configuration, and as long as the clock and [random] answer
    within their ranges, the delay stays between the minimum and the
    maximum and [__last_retry_at] is a reading of the clock after any number
    of calls of [loop], whatever the client, the broker and the sketch
    answer. *)
Theorem ticks_inv s ts s' :
  valid_config cfg -> state_inv cfg s ->
  mruns_star (loop cfg) s ts s' -> Forall core_ok ts ->
  state_inv cfg s'.
Proof.
  intros Hcfg Hs Hruns Hok. revert Hruns Hok Hs.
  apply mruns_star_invariant. intros. by eapply loop_run_inv.
Qed.


End Tick.

(** ** On the concrete runs *)

Lemma loop_idles_when_connected_witness :
  (exists l, [EvLoop true] = [EvLoop l]) /\ connected = connected.
Proof.
  apply (loop_idles_when_connected upstream_backoff (RA := wide_arith) connected
           6000 3600000 [EvLoop true] tt connected quiet_run).
  lia.
Defined.

Lemma loop_waits_for_backoff_witness :
  (exists l, [EvLoop false] = [EvLoop l]) /\ after_rejection = after_rejection.
Proof.
  apply (loop_waits_for_backoff upstream_backoff (RA := wide_arith) after_rejection
           70500 3600000 70501 [EvLoop false] tt after_rejection
           upstream_backoff_valid after_rejection_inv early_run).
  all: vm_compute; intuition discriminate.
Defined.

Lemma loop_retries_when_due_witness :
  exists tc l,
    drop 4 retry_trace = EvPrintln "Reconnecting with back-off" :: tc ++ [EvLoop l]
    /\ mruns (mqttConnect upstream_backoff false) (set_iat 0 after_rejection) tc tt
         after_retry.
Proof.
  apply (loop_retries_when_due upstream_backoff (RA := wide_arith) after_rejection
           73000 3600000 73001 (drop 4 retry_trace) tt after_retry retry_run).
  - lia.
  - reflexivity.
Defined.

Lemma loop_refreshes_expired_token_witness :
  (exists c t',
     drop 2 expiry_trace
     = EvPrintln "Reconnecting before JWT expiration" :: EvConnected c :: t'
     /\ (c = true -> exists d, head t' = Some (EvDisconnect d)))
  /\ exists token stamp,
       minted expiry_trace = [(token, stamp)] /\ passwords expiry_trace = [token]
       /\ mint_precedes_connect expiry_trace = true /\ jwt renewed = token.
Proof.
  apply (loop_refreshes_expired_token upstream_backoff (RA := wide_arith) connected
           3600001 3600000 (drop 2 expiry_trace) tt renewed expiry_run).
  lia.
Defined.

Lemma loop_single_attempt_witness :
  (count is_connect retry_trace <= 1)%nat /\ exists l, last retry_trace = Some (EvLoop l).
Proof.
  exact (loop_single_attempt upstream_backoff (RA := wide_arith) after_rejection
           retry_trace tt after_retry retry_run).
Defined.

Lemma loop_connect_is_fresh_witness :
  exists token stamp,
    minted retry_trace = [(token, stamp)] /\ passwords retry_trace = [token]
    /\ mint_precedes_connect retry_trace = true.
Proof.
  exact (loop_connect_is_fresh upstream_backoff (RA := wide_arith) after_rejection
           retry_trace tt after_retry retry_run eq_refl).
Defined.

Lemma ticks_inv_witness : state_inv upstream_backoff renewed.
Proof.
  apply (ticks_inv upstream_backoff (RA := wide_arith) connected
           [quiet_trace; expiry_trace] renewed upstream_backoff_valid connected_inv
           quiet_then_expiry_run).
  by apply (bool_decide_unpack _).
Defined.
