(* ===== verification/Typing.v ===== *)
(** * The fields keep their C types

    [__backoff__] is an [int], [__last_retry_at] and [iat] are
    [unsigned long].  The theorems of [Connect] and [Tick] bound the delay
    under a valid configuration; here nothing is assumed of the
    configuration but that its constants are [int]s, so the sum formed by
    [increaseBackoff] may overflow: the conversion to [int] wraps it and the
    field still holds an [int].  The answers of the collaborators are of the
    C types of the calls ([typed_answers]). *)

From S2P Require Import Prelude Machine Lwmqtt Backoff Effects State Diagnostics.
From S2P Require Import Controller Fixtures Connect.

#[local] Open Scope Z_scope.

Section Typing.
Context (cfg : BackoffConfig) {RA : RetryArith} (Hcfg : typed_config cfg).
Implicit Types (s : CloudIoTCoreMqtt) (a : ConnectAnswers) (t : list Event).

(** ** The assignments *)

Lemma set_iat_typed v s : in_ulong v -> typed s -> typed (set_iat v s).
Proof. by intros ? (? & ? & ?). Qed.

Lemma set_backoff_typed v s : in_int v -> typed s -> typed (set_backoff v s).
Proof. by intros ? (? & ? & ?). Qed.

Lemma set_last_retry_at_typed v s : in_ulong v -> typed s -> typed (set_last_retry_at v s).
Proof. by intros ? (? & ? & ?). Qed.

Lemma zero_in_ulong : in_ulong 0.
Proof. by apply (bool_decide_unpack _). Qed.

Lemma after_return_code_typed rc s : typed s -> typed (after_return_code rc s).
Proof.
  intros Hs. apply set_iat_typed; [|done].
  destruct (invalidates_token rc); [apply zero_in_ulong|apply Hs].
Qed.

Lemma increaseBackoff_state_typed s r : typed s -> typed (increaseBackoff_state cfg s r).
Proof. intros. apply set_backoff_typed; [|done]. apply backoff_step_typed, Hcfg. Qed.

Lemma after_mint_typed s token stamp :
  (iat s = 0 -> in_ulong stamp) -> typed s -> typed (after_mint s token stamp).
Proof.
  intros Hstamp (? & ? & ?). unfold after_mint. case_decide; [|done].
  split_and!; [done..|by apply Hstamp].
Qed.

(** ** The connect functions *)

Lemma mint_trace_typed s token stamp t :
  typed_answers (mint_trace s token stamp ++ t) -> iat s = 0 -> in_ulong stamp.
Proof. unfold mint_trace. intros H Hi. rewrite decide_True in H by done. by inv H. Qed.

Lemma mqttConnect_state_typed s a :
  typed s -> typed_answers (mqttConnect_trace cfg s a) -> typed (mqttConnect_state cfg s a).
Proof.
  intros Hs Ht. unfold mqttConnect_trace in Ht. apply Forall_cons in Ht as [_ Ht].
  pose proof (mint_trace_typed _ _ _ _ Ht) as Hstamp.
  apply Forall_app in Ht as [_ [Hnow _]%Forall_cons].
  unfold mqttConnect_state. assert (typed (set_last_retry_at (ans_now a)
    (after_mint s (ans_token a) (ans_stamp a)))) by
    by apply set_last_retry_at_typed, after_mint_typed.
  destruct (connect_failed _ _).
  - by apply increaseBackoff_state_typed, after_return_code_typed.
  - apply set_backoff_typed; [apply Hcfg|done].
Qed.

Lemma mqttConnectAsync_state_typed skip s a c2 :
  typed s -> typed_answers (mqttConnectAsync_trace cfg skip s a c2) ->
  typed (mqttConnectAsync_state cfg s a c2).
Proof.
  intros Hs Ht. unfold mqttConnectAsync_trace in Ht. apply Forall_cons in Ht as [_ Ht].
  pose proof (mint_trace_typed _ _ _ _ Ht) as Hstamp.
  apply Forall_app in Ht as [_ [Hnow _]%Forall_cons].
  unfold mqttConnectAsync_state. assert (typed (set_last_retry_at (ans_now a)
    (after_mint s (ans_token a) (ans_stamp a)))) by
    by apply set_last_retry_at_typed, after_mint_typed.
  destruct (async_failed _ _); [|destruct (negb c2)].
  - by apply increaseBackoff_state_typed, after_return_code_typed.
  - by apply increaseBackoff_state_typed.
  - apply set_backoff_typed; [apply Hcfg|done].
Qed.

(** ** [logConfiguration], which mints a token when asked to show it *)

Lemma logConfiguration_typed flag s t u s' :
  typed s -> typed_answers t -> mruns (logConfiguration flag) s t u s' -> typed s'.
Proof.
  intros Hs Ht (t' & -> & H)%logConfiguration_runs. apply Forall_app in Ht as [_ Ht].
  destruct flag; [|by destruct H as [_ ->]].
  destruct H as (token & stamp & -> & ->). apply Forall_cons in Ht as [Hstamp _].
  by apply set_iat_typed.
Qed.

(** ** [loop] *)

Lemma loop_state_typed s (a : LoopAnswers) :
  typed s -> typed_answers (loop_trace cfg s a) -> typed (loop_state cfg s a).
Proof.
  intros Hs Ht. unfold loop_state, loop_trace in *.
  destruct (loop_reconnects s a); [|done].
  apply Forall_app in Ht as [_ [Ht _]%Forall_app].
  apply mqttConnect_state_typed; [|done]. apply set_iat_typed; [apply zero_in_ulong|done].
Qed.


End Typing.

