(* ===== verification/Termination.v ===== *)
(** * Every call returns

    The member functions have no loop and call no function that calls them
    back: each is a finite tree of calls to the collaborators, and [run]
    follows one branch of it.  The theorems bound the length of the branch:
    the number of calls a member function makes before it returns, in every
    environment.  In particular [loop] connects at most once and never
    waits for the delay to pass. *)

From S2P Require Import Prelude Machine Lwmqtt Backoff Effects State Diagnostics.
From S2P Require Import Controller Fixtures.

#[local] Open Scope nat_scope.

(** The longest call of [loop]: the token has expired while the client was
    connected, the delay has passed too, and the broker rejects the
    connect. *)
Definition longest_tick : LoopAnswers :=
  {| tick_now := 3700000%Z; tick_exp := 3600000%Z; tick_was_connected := true;
     tick_disconnect := true; tick_connected := false; tick_now2 := 3700001%Z;
     tick_connect := rejected_answers; tick_loop := false |}.

Definition longest_script : list Event :=
  Eval vm_compute in loop_trace (RA := wide_arith) upstream_backoff connected longest_tick.

Section Bounds.
Context (cfg : BackoffConfig) {RA : RetryArith}.

Lemma mqttConnect_trace_length s a : length (mqttConnect_trace cfg s a) <= 24.
Proof. trace_eval; simpl; lia. Qed.

Lemma mqttConnectAsync_trace_length skip s a c2 :
  length (mqttConnectAsync_trace cfg skip s a c2) <= 21.
Proof. trace_eval; simpl; lia. Qed.

Lemma loop_trace_length s a : length (loop_trace cfg s a) <= 33.
Proof.
  unfold loop_trace. rewrite !length_app.
  assert (length (loop_prefix s a) <= 8) by (trace_eval; simpl; lia).
  pose proof (mqttConnect_trace_length (set_iat 0 s) (tick_connect a)).
  destruct (loop_reconnects s a); cbn [length]; lia.
Qed.

(** The trace of an execution is the trace of a run. *)
Lemma mrun_trace {S A} (E : Env) (m : M S A) s (w : World E) :
  exists a s', mruns m s (trace_after (mrun E m s w)) a s'.
Proof.
  destruct (mrun E m s w) as [[[a s'] w'] t] eqn:H. exists a, s'. by eapply mrun_mruns.
Qed.

(** C22. Every call returns.  In every environment and from any fields, a
    call of [loop] returns after at most 33 calls to the collaborators, a
    call of [mqttConnect] after at most 24 and a call of [mqttConnectAsync]
    after at most 21: no member function repeats an attempt or waits for
    the delay inside a call. *)
Theorem calls_bounded (E : Env) skip s (w : World E) :
  length (trace_after (mrun E (loop cfg) s w)) <= 33
  /\ length (trace_after (mrun E (mqttConnect cfg skip) s w)) <= 24
  /\ length (trace_after (mrun E (mqttConnectAsync cfg skip) s w)) <= 21.
Proof.
  split_and!.
  - destruct (mrun_trace E (loop cfg) s w) as ([] & s' & (a & -> & _)%loop_runs).
    apply loop_trace_length.
  - destruct (mrun_trace E (mqttConnect cfg skip) s w)
      as ([] & s' & (a & -> & _)%mqttConnect_runs).
    apply mqttConnect_trace_length.
  - destruct (mrun_trace E (mqttConnectAsync cfg skip) s w)
      as ([] & s' & (a & c2 & -> & _)%mqttConnectAsync_runs).
    apply mqttConnectAsync_trace_length.
Qed.

End Bounds.

(** The bound of [loop] is attained. *)
Example loop_bound_attained :
  length (trace_after (mrun script_env (loop (RA := wide_arith) upstream_backoff) connected
                         longest_script)) = 33.
Proof. by vm_compute. Qed.
