(* ===== verification/Api.v ===== *)
(** * The calls a sketch makes

    The member functions of [CloudIoTCoreMqtt] are called by the sketch in
    whatever order it chooses: [startMQTT] and the setters in its [setup],
    [loop] and the publish operations in its [loop], [mqttConnect] where it
    wants to connect by itself, the diagnostics where it wants to log.  This
    file makes the controller a transition system whose steps are these
    calls ([Op], [invoke]) and whose states are the fields reached from an
    initial state by a history of calls ([reachable]).

    The properties of single calls proved in [Connect], [Tick] and [Typing]
    become invariants of the reachable states, by induction on the history:
    the numeric fields stay within the bounds of the policy and within their
    types and the device is never replaced ([api_inv]); every connect
    presents the token that [getJwt] returned last, as long as the sketch
    does not ask [logConfiguration] to show the token
    ([connects_present_latest]). *)

From stdpp Require Import sets.
From S2P Require Import Prelude Machine Lwmqtt Backoff Effects State Diagnostics.
From S2P Require Import Controller World Fixtures Connect Tick Typing.

#[local] Open Scope Z_scope.

#[local] Abbreviation St := CloudIoTCoreMqtt.

(** ** The operations *)

(** A call of a member function, with its arguments. *)
Inductive Op : Type :=
| OpLoop
| OpIncreaseBackoff
| OpMqttConnect (skip : bool)
| OpMqttConnectAsync (skip : bool)
| OpStartMQTT
| OpPublishTelemetry (data : string)
| OpPublishTelemetry_qos (data : string) (qos : Z)
| OpPublishTelemetry_bytes (data : string) (length : Z)
| OpPublishTelemetry_sub (subtopic data : string)
| OpPublishTelemetry_sub_qos (subtopic data : string) (qos : Z)
| OpPublishTelemetry_sub_bytes (subtopic data : string) (length : Z)
| OpPublishState (data : string)
| OpPublishState_bytes (data : string) (length : Z)
| OpLogError
| OpLogConfiguration (showJWT : bool)
| OpLogReturnCode
| OpOnConnect
| OpSetLogConnect (enabled : bool)
| OpSetUseLts (enabled : bool)
| OpSetUse443Port (enabled : bool).

#[export] Instance Op_eq_dec : EqDecision Op.
Proof. solve_decision. Defined.

(** What a call returns: the flag of a publish operation, nothing for the
    functions declared [void]. *)
Definition returns_void (m : M St unit) : M St (option bool) := m;; mret None.
Definition returns_flag (m : M St bool) : M St (option bool) := r ← m; mret (Some r).

Definition invoke (cfg : BackoffConfig) `{RA : RetryArith} (o : Op) : M St (option bool) :=
  match o with
  | OpLoop => returns_void (loop cfg)
  | OpIncreaseBackoff => returns_void (increaseBackoff cfg)
  | OpMqttConnect skip => returns_void (mqttConnect cfg skip)
  | OpMqttConnectAsync skip => returns_void (mqttConnectAsync cfg skip)
  | OpStartMQTT => returns_void startMQTT
  | OpPublishTelemetry data => returns_flag (publishTelemetry data)
  | OpPublishTelemetry_qos data qos => returns_flag (publishTelemetry_qos data qos)
  | OpPublishTelemetry_bytes data len => returns_flag (publishTelemetry_bytes data len)
  | OpPublishTelemetry_sub subtopic data => returns_flag (publishTelemetry_sub subtopic data)
  | OpPublishTelemetry_sub_qos subtopic data qos =>
      returns_flag (publishTelemetry_sub_qos subtopic data qos)
  | OpPublishTelemetry_sub_bytes subtopic data len =>
      returns_flag (publishTelemetry_sub_bytes subtopic data len)
  | OpPublishState data => returns_flag (publishState data)
  | OpPublishState_bytes data len => returns_flag (publishState_bytes data len)
  | OpLogError => returns_void logError
  | OpLogConfiguration showJWT => returns_void (logConfiguration showJWT)
  | OpLogReturnCode => returns_void logReturnCode
  | OpOnConnect => returns_void onConnect
  | OpSetLogConnect enabled => returns_void (setLogConnect enabled)
  | OpSetUseLts enabled => returns_void (setUseLts enabled)
  | OpSetUse443Port enabled => returns_void (setUse443Port enabled)
  end.

(** ** Histories *)

(** The calls made so far, oldest first, each with the events of its run. *)
Definition History : Type := list (Op * list Event).

Definition history_trace (h : History) : list Event := concat h.*2.

(** The fields reached from [s0] by a history of calls. *)
Inductive reachable (cfg : BackoffConfig) `{RA : RetryArith} (s0 : St) : History -> St -> Prop :=
| reachable_start : reachable cfg s0 [] s0
| reachable_step h s o t r s' :
    reachable cfg s0 h s -> mruns (invoke cfg o) s t r s' ->
    reachable cfg s0 (h ++ [(o, t)]) s'.

(** ** The token along a trace *)

(** The token [getJwt] returned last, [held] when it has not been called. *)
Fixpoint latest_token (held : string) (t : list Event) : string :=
  match t with
  | [] => held
  | EvGetJwt token _ :: t' => latest_token token t'
  | _ :: t' => latest_token held t'
  end.

(** Every connect of the trace presents the token returned last. *)
Fixpoint tokens_current (held : string) (t : list Event) : bool :=
  match t with
  | [] => true
  | EvGetJwt token _ :: t' => tokens_current token t'
  | EvConnect _ _ password _ _ :: t' => bool_decide (password = held) && tokens_current held t'
  | _ :: t' => tokens_current held t'
  end.

(** The sketch never asks for the token to be shown. *)
Definition token_unshown (h : History) : Prop := OpLogConfiguration true ∉ h.*1.

#[export] Instance token_unshown_dec h : Decision (token_unshown h).
Proof. unfold token_unshown. apply _. Defined.

(** ** Sketches *)

(** The calls of a sketch executed in an environment: the history they
    leave, the fields and the world at the end. *)
Fixpoint play (cfg : BackoffConfig) `{RA : RetryArith} (E : Env) (ops : list Op)
    (s : St) (w : World E) : History * St * World E :=
  match ops with
  | [] => ([], s, w)
  | o :: ops' =>
      let r := mrun E (invoke cfg o) s w in
      let '(h, s', w') := play cfg E ops' (fields_after r) (world_after r) in
      ((o, trace_after r) :: h, s', w')
  end.

(** A sketch that shows the token before it connects, and one that does
    what the examples of the library do. *)
Definition showing_sketch : list Op :=
  [OpStartMQTT; OpLogConfiguration true; OpMqttConnect false].

Definition usual_sketch : list Op :=
  [OpSetLogConnect false; OpStartMQTT; OpMqttConnect false; OpLoop;
   OpPublishTelemetry "21.5"; OpLoop; OpPublishState "on"; OpLogConfiguration false; OpLoop].

(** ** Calls *)

Lemma returns_void_runs m s t r s' :
  mruns (returns_void m) s t r s' <-> r = None /\ mruns m s t tt s'.
Proof.
  unfold returns_void. rewrite mruns_bind. split.
  - intros ([] & s1 & t1 & t2 & -> & Hm & (-> & -> & ->)%mruns_ret).
    by rewrite app_nil_r.
  - intros [-> H]. exists tt, s', t, []. by rewrite app_nil_r, mruns_ret.
Qed.

Lemma returns_flag_runs m s t r s' :
  mruns (returns_flag m) s t r s' <-> exists b, r = Some b /\ mruns m s t b s'.
Proof.
  unfold returns_flag. rewrite mruns_bind. split.
  - intros (b & s1 & t1 & t2 & -> & Hm & (-> & -> & ->)%mruns_ret).
    exists b. by rewrite app_nil_r.
  - intros (b & -> & H). exists b, s', t, []. by rewrite app_nil_r, mruns_ret.
Qed.

(** A call, read through the function it runs. *)
Ltac invoke_inv H :=
  unfold invoke in H;
  first [ apply returns_void_runs in H as [-> H]
        | apply returns_flag_runs in H as (? & -> & H) ].

(** ** What a call keeps *)

Section Calls.
Context (cfg : BackoffConfig) `{RA : RetryArith}.
Implicit Types (s : St) (a : ConnectAnswers) (t : list Event) (o : Op).

Lemma mqttConnectAsync_trace_millis skip s a c2 :
  EvMillis (ans_now a) ∈ mqttConnectAsync_trace cfg skip s a c2.
Proof.
  unfold mqttConnectAsync_trace. apply list_elem_of_further, elem_of_app. right.
  apply list_elem_of_here.
Qed.

Lemma mqttConnectAsync_trace_random skip s a c2 :
  async_failed (ans_error a) (ans_result a) || negb c2 = true ->
  EvRandom (jitter cfg) (ans_jitter a) ∈ mqttConnectAsync_trace cfg skip s a c2.
Proof. intros H. trace_unfold. revert H. trace_cases; intros ?; first [done|set_solver]. Qed.

Lemma mqttConnectAsync_state_backoff s a c2 :
  __backoff__ (mqttConnectAsync_state cfg s a c2)
  = if async_failed (ans_error a) (ans_result a) || negb c2
    then backoff_step cfg (__backoff__ s) (ans_jitter a)
    else minbackoff cfg.
Proof. trace_eval. Qed.

Lemma mqttConnectAsync_state_last_retry_at s a c2 :
  __last_retry_at (mqttConnectAsync_state cfg s a c2) = ans_now a.
Proof. trace_eval. Qed.

Lemma mqttConnectAsync_run_inv skip s t s' :
  valid_config cfg -> state_inv cfg s -> core_ok t ->
  mruns (mqttConnectAsync cfg skip) s t tt s' -> state_inv cfg s'.
Proof.
  intros Hcfg [Hb _] Hok (a & c2 & -> & ->)%mqttConnectAsync_runs. split.
  - rewrite mqttConnectAsync_state_backoff.
    destruct (_ || _) eqn:Hf; [|by apply backoff_reset_inv].
    apply backoff_step_inv; [done|apply Hb|].
    apply (core_ok_elem _ _ Hok (mqttConnectAsync_trace_random skip s a c2 Hf)).
  - rewrite mqttConnectAsync_state_last_retry_at.
    apply (core_ok_elem _ _ Hok (mqttConnectAsync_trace_millis skip s a c2)).
Qed.

Lemma increaseBackoff_run_inv s t s' :
  valid_config cfg -> state_inv cfg s -> core_ok t ->
  mruns (increaseBackoff cfg) s t tt s' -> state_inv cfg s'.
Proof.
  intros Hcfg [Hb Hl] Hok (r & -> & ->)%increaseBackoff_runs. split; [|done].
  apply backoff_step_inv; [done|apply Hb|].
  by apply core_ok_cons in Hok as [Hr _].
Qed.

(** [logConfiguration] writes at most [iat]. *)
Lemma logConfiguration_state showJWT s t u s' :
  mruns (logConfiguration showJWT) s t u s' -> exists v, s' = set_iat v s.
Proof.
  intros (t' & -> & H)%logConfiguration_runs. destruct showJWT.
  - destruct H as (token & stamp & -> & ->). eauto.
  - destruct H as [-> ->]. exists (iat s). by rewrite set_iat_id.
Qed.

(** Every call keeps the invariant of the fields. *)
Lemma invoke_state_inv o s t r s' :
  valid_config cfg -> state_inv cfg s -> core_ok t ->
  mruns (invoke cfg o) s t r s' -> state_inv cfg s'.
Proof.
  intros Hcfg Hs Hok H.
  destruct o; invoke_inv H.
  all: first [ by eapply loop_run_inv | by eapply increaseBackoff_run_inv
             | by eapply mqttConnect_run_inv | by eapply mqttConnectAsync_run_inv
             | apply logConfiguration_state in H as [v ->] | idtac ].
  all: mruns_inv; subst; try done.
  all: unfold after_return_code; by apply set_iat_inv.
Qed.

(** No call replaces the device. *)
Lemma invoke_device o s t r s' : mruns (invoke cfg o) s t r s' -> device s' = device s.
Proof.
  intros H. destruct o; invoke_inv H.
  all: try apply logConfiguration_state in H as [v ->].
  all: mruns_inv; subst; try done.
  all: trace_eval.
Qed.

(** *** The token *)

Lemma latest_token_app held t1 t2 :
  latest_token held (t1 ++ t2) = latest_token (latest_token held t1) t2.
Proof. revert held. induction t1 as [|[] t1 IH]; intros held; simpl; auto. Qed.

Lemma tokens_current_app held t1 t2 :
  tokens_current held (t1 ++ t2)
  = tokens_current held t1 && tokens_current (latest_token held t1) t2.
Proof.
  revert held. induction t1 as [|[] t1 IH]; intros held; simpl; auto.
  by rewrite IH, andb_assoc.
Qed.

(** A trace without [getJwt] and [connect] leaves the token alone. *)
Lemma tokens_untouched held t :
  forallb (fun e => negb (is_getJwt e || is_connect e)) t = true ->
  latest_token held t = held /\ tokens_current held t = true.
Proof.
  induction t as [|e t IH]; [done|]. simpl. intros [He Ht]%andb_prop.
  destruct (IH Ht). by destruct e.
Qed.

Lemma mqttConnect_trace_tokens s a :
  latest_token (jwt s) (mqttConnect_trace cfg s a) = jwt (mqttConnect_state cfg s a)
  /\ tokens_current (jwt s) (mqttConnect_trace cfg s a) = true.
Proof. trace_unfold. trace_cases; state_simpl; simpl; by rewrite ?bool_decide_true. Qed.

Lemma mqttConnectAsync_trace_tokens skip s a c2 :
  latest_token (jwt s) (mqttConnectAsync_trace cfg skip s a c2)
  = jwt (mqttConnectAsync_state cfg s a c2)
  /\ tokens_current (jwt s) (mqttConnectAsync_trace cfg skip s a c2) = true.
Proof. trace_unfold. trace_cases; state_simpl; simpl; by rewrite ?bool_decide_true. Qed.

Lemma loop_trace_tokens s (a : LoopAnswers) :
  latest_token (jwt s) (loop_trace cfg s a) = jwt (loop_state cfg s a)
  /\ tokens_current (jwt s) (loop_trace cfg s a) = true.
Proof.
  unfold loop_trace, loop_state.
  destruct (tokens_untouched (jwt s) (loop_prefix s a)) as [Hl Hc].
  { unfold loop_prefix. by trace_cases. }
  rewrite !latest_token_app, !tokens_current_app, Hl, Hc.
  destruct (loop_reconnects s a); [|done].
  destruct (mqttConnect_trace_tokens (set_iat 0 s) (tick_connect a)) as [H1 H2].
  change (jwt (set_iat 0 s)) with (jwt s) in H1, H2. by rewrite H1, H2.
Qed.

(** Every call but [logConfiguration(true)] stores the token it obtains
    and presents the token it holds. *)
Lemma invoke_tokens o s t r s' :
  o <> OpLogConfiguration true -> mruns (invoke cfg o) s t r s' ->
  latest_token (jwt s) t = jwt s' /\ tokens_current (jwt s) t = true.
Proof.
  intros Ho H. destruct o as [| | | | | | | | | | | | | |[]| | | | |]; try done.
  all: invoke_inv H.
  all: first
    [ apply loop_runs in H as (a & -> & ->); apply loop_trace_tokens
    | apply mqttConnect_runs in H as (a & -> & ->); apply mqttConnect_trace_tokens
    | apply mqttConnectAsync_runs in H as (a & c2 & -> & ->);
      apply mqttConnectAsync_trace_tokens
    | apply logConfiguration_runs in H as (t' & -> & -> & ->)
    | idtac ].
  all: mruns_inv; subst.
  all: first [done | by apply tokens_untouched; trace_eval].
Qed.

End Calls.

(** ** Histories *)

Section Histories.
Context (cfg : BackoffConfig) `{RA : RetryArith}.
Implicit Types (s : St) (h : History).

Lemma history_trace_snoc h o t : history_trace (h ++ [(o, t)]) = history_trace h ++ t.
Proof. unfold history_trace. rewrite fmap_app, concat_app. simpl. by rewrite app_nil_r. Qed.

Lemma token_unshown_snoc h o t :
  token_unshown (h ++ [(o, t)]) <-> token_unshown h /\ o <> OpLogConfiguration true.
Proof.
  unfold token_unshown. rewrite fmap_app. simpl.
  rewrite not_elem_of_app, not_elem_of_cons. split; [by intros [? [? _]]|].
  intros [? ?]. split_and!; [done| |apply not_elem_of_nil]. congruence.
Qed.

(** A history can be extended at its start as at its end. *)
Lemma reachable_cons s0 o t r s1 h s :
  mruns (invoke cfg o) s0 t r s1 -> reachable cfg s1 h s ->
  reachable cfg s0 ((o, t) :: h) s.
Proof.
  intros H0. induction 1 as [|h s o' t' r' s' _ IH Hstep].
  - apply (reachable_step cfg s0 [] s0 o t r s1); [constructor|done].
  - rewrite app_comm_cons. by eapply reachable_step.
Qed.

(** What a sketch leaves in an environment is a history of the
    controller. *)
Lemma play_reachable (E : Env) ops s (w : World E) :
  reachable cfg s (play cfg E ops s w).1.1 (play cfg E ops s w).1.2.
Proof.
  revert s w. induction ops as [|o ops IH]; intros s w; simpl; [constructor|].
  destruct (mrun E (invoke cfg o) s w) as [[[r s1] w1] t] eqn:Hrun.
  apply mrun_mruns in Hrun. specialize (IH s1 w1). unfold fields_after, world_after. simpl.
  destruct (play cfg E ops s1 w1) as [[h s'] w']. simpl in *. by eapply reachable_cons.
Qed.

(** Invariants: a property of the fields that every call keeps, on traces
    that are [ok], holds of every state reached. *)
Lemma reachable_invariant (I : St -> Prop) (ok : list Event -> Prop) s0 h s :
  (forall o s t r s', I s -> ok t -> mruns (invoke cfg o) s t r s' -> I s') ->
  reachable cfg s0 h s -> Forall ok h.*2 -> I s0 -> I s.
Proof.
  intros Hstep. induction 1 as [|h s o t r s' _ IH Hrun]; [done|].
  rewrite fmap_app. simpl. rewrite Forall_app, Forall_singleton. intros [Hh Ht] H0. eauto.
Qed.

Lemma core_ok_history h : core_ok (history_trace h) <-> Forall core_ok h.*2.
Proof. unfold core_ok, history_trace. by rewrite Forall_concat. Qed.

(** C6. The invariant of the fields over the life of the controller.
    Whatever member functions the sketch calls, in whatever order and with
    whatever arguments, and whatever the client, the broker and the sketch's
    callbacks answer: under a valid configuration, and as long as the clock
    and [random] answer within their ranges, the delay stays between the
    minimum and the maximum, [__last_retry_at] is a reading of the clock,
    and the device is the one the controller was constructed with. *)
Theorem api_inv s0 h s :
  valid_config cfg -> state_inv cfg s0 ->
  reachable cfg s0 h s -> core_ok (history_trace h) ->
  state_inv cfg s /\ device s = device s0.
Proof.
  intros Hcfg H0 Hr Hok%core_ok_history.
  apply (reachable_invariant (fun s => state_inv cfg s /\ device s = device s0) core_ok
           s0 h s); [|done..].
  intros o s1 t r s2 [Hs Hd] Ht Hrun. split; [by eapply invoke_state_inv|].
  by rewrite (invoke_device cfg _ _ _ _ _ Hrun).
Qed.

(** C7. Every connect presents the token minted last.  Over any history
    of calls in which the sketch never asks [logConfiguration] to show the
    token, each call of [getJwt] is followed by the assignment of its result
    to [jwt], so that every connect, whether made by [loop], [mqttConnect]
    or [mqttConnectAsync], presents the token that [getJwt] returned last
    (the token held at the start when it has not been called), and [jwt]
    holds that token at the end. *)
Theorem connects_present_latest s0 h s :
  reachable cfg s0 h s -> token_unshown h ->
  tokens_current (jwt s0) (history_trace h) = true
  /\ jwt s = latest_token (jwt s0) (history_trace h).
Proof.
  induction 1 as [|h s o t r s' _ IH Hrun]; [done|].
  intros [Hh Ho]%token_unshown_snoc. destruct (IH Hh) as [Hc Hj].
  destruct (invoke_tokens cfg o s t r s' Ho Hrun) as [Hl Ht].
  rewrite history_trace_snoc, tokens_current_app, latest_token_app, <- Hj.
  by rewrite Hc, Ht, Hl.
Qed.

End Histories.

(** ** Two sketches *)

(** A sketch that has the token shown before it connects: [getJwt] is
    called and stamps [iat], its result is printed and not kept, and the
    connect that follows presents the empty token the controller was
    constructed with.  The broker refuses it; the refusal clears [iat] and
    costs one step of the back-off. *)
Example shown_token_is_not_stored :
  let r := play (RA := int_arith) upstream_backoff world_env showing_sketch constructed
             (world_start [] []) in
  minted (history_trace r.1.1) = [("jwt-1", 1)]
  /\ passwords (history_trace r.1.1) = [""]
  /\ tokens_current "" (history_trace r.1.1) = false
  /\ w_connected r.2 = false /\ __backoff__ r.1.2 = 2000 /\ iat r.1.2 = 0.
Proof. by vm_compute. Qed.

Lemma api_inv_witness :
  let r := play (RA := int_arith) upstream_backoff world_env usual_sketch constructed
             (elapse 5000 (world_start [] [])) in
  state_inv upstream_backoff r.1.2 /\ device r.1.2 = device constructed.
Proof.
  apply (api_inv (RA := int_arith) upstream_backoff constructed
           (play (RA := int_arith) upstream_backoff world_env usual_sketch constructed
              (elapse 5000 (world_start [] []))).1.1).
  - apply upstream_backoff_valid.
  - apply (bool_decide_unpack _). by vm_compute.
  - apply play_reachable.
  - apply (bool_decide_unpack _). by vm_compute.
Defined.

Lemma connects_present_latest_witness :
  let r := play (RA := int_arith) upstream_backoff world_env usual_sketch constructed
             (elapse 5000 (world_start [] [])) in
  tokens_current (jwt constructed) (history_trace r.1.1) = true
  /\ jwt r.1.2 = latest_token (jwt constructed) (history_trace r.1.1).
Proof.
  apply (connects_present_latest (RA := int_arith) upstream_backoff constructed
           (play (RA := int_arith) upstream_backoff world_env usual_sketch constructed
              (elapse 5000 (world_start [] []))).1.1).
  - apply play_reachable.
  - apply (bool_decide_unpack _). by vm_compute.
Defined.
