(* ===== verification/Lifecycle.v ===== *)
(** * The session lifecycle

    The state machine of the specification (section 4.1): the session is
    disconnected, connecting or connected; a tick reconnects when the token
    has expired or when the session is down and the delay has elapsed, and
    the outcome of the attempt decides the next state, the delay and the
    fate of the token.  The transitions are computed as the code computes
    them ([due] from the two tests of [loop], [settle] from the branch of
    [mqttConnect] after the connect), so that the machine can be compared
    with the controller step by step.

    [System] closes the machine with its surroundings (clock, expiry of the
    token, outcomes of the network, random numbers).  [ticks_refine] is the
    comparison: the controller called by the periodic driver in the
    reference environment of [World], seen through [system_of], makes the
    ticks of the system, in whatever arithmetic the gate is computed.
    [reconnects_eventually] is proved on the machine, for a gate that meets
    [RetryArithLaws] and while its premises hold, and carried to the
    controller. *)

From S2P Require Import Prelude Machine Lwmqtt Backoff Effects State Diagnostics.
From S2P Require Import Controller World Fixtures Connect.

#[local] Open Scope Z_scope.

(** ** The machine *)

Inductive Session : Set := Disconnected | Connecting | Connected.

#[export] Instance Session_eq_dec : EqDecision Session.
Proof. solve_decision. Defined.

(** The abstract state: the session, whether a token in force is held, the
    current delay and the instant of the last attempt. *)
Record Lifecycle : Set := {
  a_session : Session;
  a_token : bool;
  a_delay : Z;
  a_last : Z
}.

(** What a tick finds: the instant, the expiry of the token, what the
    network will do to a connect and the jitter that would be drawn. *)
Record Input : Set := {
  in_now : Z;
  in_exp : Z;
  in_outcome : Outcome;
  in_jitter : Z
}.

(** An outcome that makes the delay grow: the test of [mqttConnect] on what
    the client reports of it. *)
Definition outcome_failed (o : Outcome) : bool :=
  connect_failed (connect_error o) (connect_result o).

(** A reconnect is due: the token has expired, or the session is down and
    the gate is open.  The gate is the one of the code, in the arithmetic
    the build gives it. *)
Definition due `{RA : RetryArith} (i : Input) (a : Lifecycle) : bool :=
  bool_decide (in_now i > in_exp i)
  || (bool_decide (a_session a <> Connected)
      && gate_open (a_last a) (in_now i) (a_delay a)).

(** The session on its way through an attempt: a token is held and the
    instant is recorded. *)
Definition connecting (i : Input) (a : Lifecycle) : Lifecycle :=
  {| a_session := Connecting; a_token := true; a_delay := a_delay a;
     a_last := in_now i |}.

(** The end of an attempt, from [Connecting]: the session is up when the
    connect succeeded; a failure makes the delay grow and, when the broker
    refused the credentials, clears the token; anything else resets the
    delay. *)
Definition settle (cfg : BackoffConfig) (i : Input) (a : Lifecycle) : Lifecycle :=
  let o := in_outcome i in
  {| a_session := if connect_result o then Connected else Disconnected;
     a_token := negb (outcome_failed o && invalidates_token (connect_rc o));
     a_delay := if outcome_failed o then backoff_step cfg (a_delay a) (in_jitter i)
                else minbackoff cfg;
     a_last := a_last a |}.

Definition attempt (cfg : BackoffConfig) (i : Input) (a : Lifecycle) : Lifecycle :=
  settle cfg i (connecting i a).

(** One tick. *)
Definition lifecycle_tick (cfg : BackoffConfig) `{RA : RetryArith} (i : Input)
    (a : Lifecycle) : Lifecycle :=
  if due i a then attempt cfg i a else a.

(** ** The controller seen as the machine *)

Definition abstraction (s : CloudIoTCoreMqtt) (w : RWorld) : Lifecycle :=
  {| a_session := if w_connected w then Connected else Disconnected;
     a_token := bool_decide (iat s <> 0);
     a_delay := __backoff__ s;
     a_last := __last_retry_at s |}.

Definition input_of (cfg : BackoffConfig) (w : RWorld) : Input :=
  {| in_now := wrap_ulong (w_clock w);
     in_exp := wrap_ulong (w_exp w);
     in_outcome := hd Accept (w_network w);
     in_jitter := draw (jitter cfg) (w_random w) |}.

(** ** The device and its surroundings as one system

    The machine together with what its inputs are read from: the clock, the
    expiry of the token in force, the outcomes the network has in store and
    the numbers [random] will draw from. *)

Record System : Set := {
  sys_life : Lifecycle;
  sys_clock : Z;
  sys_exp : Z;
  sys_network : list Outcome;
  sys_random : list Z
}.

Definition system_input (cfg : BackoffConfig) (y : System) : Input :=
  {| in_now := wrap_ulong (sys_clock y);
     in_exp := wrap_ulong (sys_exp y);
     in_outcome := hd Accept (sys_network y);
     in_jitter := draw (jitter cfg) (sys_random y) |}.

(** A tick of the system: an attempt mints a token, uses up an outcome of
    the network and, when it fails, a random number. *)
Definition system_tick (cfg : BackoffConfig) `{RA : RetryArith} (y : System) : System :=
  let i := system_input cfg y in
  let attempted := due i (sys_life y) in
  {| sys_life := lifecycle_tick cfg i (sys_life y);
     sys_clock := sys_clock y;
     sys_exp := if attempted then sys_clock y + TOKEN_LIFE else sys_exp y;
     sys_network := if attempted then tl (sys_network y) else sys_network y;
     sys_random := if attempted && outcome_failed (in_outcome i) then tl (sys_random y)
                   else sys_random y |}.

(** The session breaks. *)
Definition break (a : Lifecycle) : Lifecycle :=
  {| a_session := Disconnected; a_token := a_token a; a_delay := a_delay a;
     a_last := a_last a |}.

(** Between two ticks [d] milliseconds pass, and the session may break. *)
Definition system_between (e : Z * bool) (y : System) : System :=
  {| sys_life := if e.2 then break (sys_life y) else sys_life y;
     sys_clock := sys_clock y + e.1;
     sys_exp := sys_exp y; sys_network := sys_network y; sys_random := sys_random y |}.

Fixpoint system_ticks (cfg : BackoffConfig) `{RA : RetryArith} (es : list (Z * bool))
    (y : System) : System :=
  match es with
  | [] => y
  | e :: es' => system_ticks cfg es' (system_tick cfg (system_between e y))
  end.

(** The systems a schedule goes through, one after each tick. *)
Fixpoint system_run (cfg : BackoffConfig) `{RA : RetryArith} (es : list (Z * bool))
    (y : System) : list System :=
  match es with
  | [] => []
  | e :: es' =>
      let y' := system_tick cfg (system_between e y) in y' :: system_run cfg es' y'
  end.

(** The conditions under which every arithmetic of the gate is exact: the
    clock has not wrapped, the last attempt is not in the future and, while
    the session is down, not more than [INT_MAX] milliseconds back; the
    delay is an [int]. *)
Definition tick_ok (y : System) : Prop :=
  0 <= a_last (sys_life y) <= sys_clock y /\ sys_clock y <= ULONG_MAX
  /\ 0 <= a_delay (sys_life y) <= INT_MAX
  /\ (a_session (sys_life y) <> Connected ->
      sys_clock y - a_last (sys_life y) <= INT_MAX).

#[export] Instance tick_ok_dec y : Decision (tick_ok y).
Proof. unfold tick_ok. apply _. Defined.

(** [tick_ok] at every tick of a schedule. *)
Fixpoint timely (cfg : BackoffConfig) `{RA : RetryArith} (es : list (Z * bool))
    (y : System) : Prop :=
  match es with
  | [] => True
  | e :: es' =>
      tick_ok (system_between e y)
      /\ timely cfg es' (system_tick cfg (system_between e y))
  end.

#[export] Instance timely_dec cfg `{RA : RetryArith} es y : Decision (timely cfg es y).
Proof. revert y. induction es; simpl; apply _. Defined.

(** The time a schedule takes. *)
Definition span (es : list (Z * bool)) : Z := foldr (fun e n => e.1 + n) 0 es.

(** A schedule in which time does not run backwards. *)
Definition forward (es : list (Z * bool)) : Prop := Forall (fun e => 0 <= e.1) es.

(** A schedule during which the session does not break by itself. *)
Definition unbroken (es : list (Z * bool)) : Prop := Forall (fun e => e.2 = false) es.

(** What the system keeps: the last attempt is not in the future, the delay
    is within the bounds of the policy. *)
Definition system_inv (cfg : BackoffConfig) (y : System) : Prop :=
  0 <= a_last (sys_life y) <= sys_clock y /\ backoff_inv cfg (a_delay (sys_life y)).

(** The session is up on a token in force, the delay back at its minimum. *)
Definition up (cfg : BackoffConfig) (a : Lifecycle) : Prop :=
  a_session a = Connected /\ a_token a = true /\ a_delay a = minbackoff cfg.

(** The network lets every connect through, and the session is up or no
    attempt has been made since the one at [last] that left the delay at
    [delay]. *)
Definition recovering (cfg : BackoffConfig) (last delay : Z) (y : System) : Prop :=
  sys_network y = []
  /\ (up cfg (sys_life y)
      \/ (a_session (sys_life y) <> Connected /\ a_last (sys_life y) = last
          /\ a_delay (sys_life y) = delay)).

(** ** The controller in the reference environment *)

Definition system_of (s : CloudIoTCoreMqtt) (w : RWorld) : System :=
  {| sys_life := abstraction s w; sys_clock := w_clock w; sys_exp := w_exp w;
     sys_network := w_network w; sys_random := w_random w |}.

Definition world_between (e : Z * bool) (w : RWorld) : RWorld :=
  if e.2 then drop_session (elapse e.1 w) else elapse e.1 w.

(** The controller ticking in the reference environment. *)
Fixpoint world_ticks (cfg : BackoffConfig) `{RA : RetryArith} (es : list (Z * bool))
    (s : CloudIoTCoreMqtt) (w : RWorld) : CloudIoTCoreMqtt * RWorld :=
  match es with
  | [] => (s, w)
  | e :: es' =>
      let r := mrun world_env (loop cfg) s (world_between e w) in
      world_ticks cfg es' (fields_after r) (world_after r)
  end.

(** The states of the controller and of the environment after each call. *)
Fixpoint world_run (cfg : BackoffConfig) `{RA : RetryArith} (es : list (Z * bool))
    (s : CloudIoTCoreMqtt) (w : RWorld) : list (CloudIoTCoreMqtt * RWorld) :=
  match es with
  | [] => []
  | e :: es' =>
      let r := mrun world_env (loop cfg) s (world_between e w) in
      (fields_after r, world_after r) :: world_run cfg es' (fields_after r) (world_after r)
  end.

(** ** The two cases of a tick *)

(** Time that passes does not make the broker accept a token. *)
Lemma unaccepted_between password e w :
  0 <= e.1 -> token_accepted password w = false ->
  token_accepted password (world_between e w) = false.
Proof.
  intros He. unfold token_accepted, world_between.
  destruct e as [d []]; simpl in *; rewrite !andb_false_iff, !bool_decide_eq_false.
  all: intros [[H|H]|H]; [by left; left|by left; right|right; lia].
Qed.

Lemma system_tick_due cfg `{RA : RetryArith} y :
  due (system_input cfg y) (sys_life y) = true ->
  system_tick cfg y
  = {| sys_life := attempt cfg (system_input cfg y) (sys_life y);
       sys_clock := sys_clock y;
       sys_exp := sys_clock y + TOKEN_LIFE;
       sys_network := tl (sys_network y);
       sys_random := if outcome_failed (hd Accept (sys_network y)) then tl (sys_random y)
                     else sys_random y |}.
Proof. unfold system_tick, lifecycle_tick. by intros ->. Qed.

Lemma system_tick_idle cfg `{RA : RetryArith} y :
  due (system_input cfg y) (sys_life y) = false -> system_tick cfg y = y.
Proof. unfold system_tick, lifecycle_tick. intros ->. by destruct y. Qed.

(** Case analysis on whether the tick of [y] makes an attempt. *)
Ltac tick_cases cfg y :=
  let Hd := fresh "Hdue" in
  destruct (due (system_input cfg y) (sys_life y)) eqn:Hd;
  [rewrite (system_tick_due cfg y Hd) | rewrite (system_tick_idle cfg y Hd)].

(** ** One attempt in the reference environment *)

Section Attempt.
Context (cfg : BackoffConfig).

Lemma mqttConnect_in_world s a w w' :
  iat s = 0 ->
  replays world_env (mqttConnect_trace cfg s a) w w' ->
  let o := hd Accept (w_network w) in
  ans_stamp a = Z.of_nat (S (w_minted w)) /\ ans_now a = wrap_ulong (w_clock w)
  /\ ans_result a = connect_result o /\ ans_error a = connect_error o
  /\ (connect_failed (ans_error a) (ans_result a) = true ->
      ans_rc2 a = connect_rc o /\ ans_jitter a = draw (jitter cfg) (w_random w))
  /\ w_connected w' = connect_result o /\ w_clock w' = w_clock w
  /\ w_exp w' = w_clock w + TOKEN_LIFE /\ w_network w' = tl (w_network w)
  /\ w_random w' = (if connect_failed (ans_error a) (ans_result a)
                    then tl (w_random w) else w_random w)
  /\ ans_sub_config a = connect_result o /\ ans_sub_commands a = connect_result o
  /\ (logConnect s = true ->
      ans_pub_state a = connect_result o /\ ans_pub_events a = connect_result o).
Proof.
  intros Hi H. unfold mqttConnect_trace, mint_trace, after_mint in H.
  rewrite !decide_True in H by done. replay_cbn H.
  destruct H as (_ & [= Htok Hstamp] & Hnow & Hres & _ & _ & Herr & H).
  revert Hres Herr H. state_simpl. rewrite <- Htok.
  change (connect_outcome _ _)
    with (connect_outcome (token_name (S (w_minted w))) (snd (world_getJwt w))).
  rewrite fresh_token_outcome. intros Hres Herr H.
  repeat (split; [done|]).
  replay_end H; subst w'; by repeat split.
Qed.

Lemma world_attempt s a w w' :
  iat s = 0 ->
  replays world_env (mqttConnect_trace cfg s a) w w' ->
  abstraction (mqttConnect_state cfg s a) w' = attempt cfg (input_of cfg w) (abstraction s w).
Proof.
  intros Hi H.
  destruct (mqttConnect_in_world s a w w' Hi H) as (Hs & Hn & Hr & He & Hf & Hc & _).
  clear H. unfold abstraction, attempt, settle, connecting, input_of, outcome_failed.
  cbn [in_now in_outcome in_jitter a_delay a_last].
  rewrite mqttConnect_state_backoff, mqttConnect_state_last_retry_at,
    mqttConnect_state_iat, Hc, Hn, decide_True by done.
  rewrite Hr, He in Hf |- *. f_equal.
  - destruct (connect_failed _ _); [destruct (Hf eq_refl) as [-> _]|]; simpl.
    + destruct (invalidates_token _); simpl; first [done | apply bool_decide_true; lia].
    + apply bool_decide_true. lia.
  - destruct (connect_failed _ _); [|done]. by destruct (Hf eq_refl) as [_ ->].
Qed.

End Attempt.

Section Tick.
Context (cfg : BackoffConfig) `{RA : RetryArith}.

Lemma loop_prefix_in_world s a w w1 :
  replays world_env (loop_prefix s a) w w1 ->
  tick_now a = wrap_ulong (w_clock w) /\ tick_exp a = wrap_ulong (w_exp w)
  /\ tick_connected a = negb (token_expired a) && w_connected w
  /\ (tick_connected a = false -> tick_now2 a = wrap_ulong (w_clock w))
  /\ w1 = if token_expired a then drop_session w else w.
Proof.
  unfold loop_prefix, token_expired. intros H.
  destruct (bool_decide _), (tick_was_connected a) eqn:?, (tick_connected a) eqn:?,
    (gate_open _ _ _); cbn [negb] in H; replay_cbn H; destruct_and!; subst w1.
  all: try discriminate; repeat split; simpl; try congruence.
  all: symmetry; by apply drop_session_down.
Qed.

(** The two tests of [loop] are the test of the machine. *)
Lemma loop_due s a w w1 :
  replays world_env (loop_prefix s a) w w1 ->
  loop_reconnects s a = due (input_of cfg w) (abstraction s w).
Proof.
  intros H.
  destruct (loop_prefix_in_world s a w w1 H) as (Hn & He & Hc & Hn2 & _). clear H.
  unfold loop_reconnects, retry_due, due. rewrite Hc. unfold token_expired.
  simpl in *. rewrite Hn, He. destruct (bool_decide (_ > _)); [done|]. simpl.
  destruct (w_connected w) eqn:Hw; [done|]. simpl.
  by rewrite Hn2 by (by rewrite ?Hc, ?andb_false_r).
Qed.

(** An attempt reads the delay of the machine and nothing else of it. *)
Lemma attempt_ext i i' a a' :
  in_now i = in_now i' -> in_outcome i = in_outcome i' -> in_jitter i = in_jitter i' ->
  a_delay a = a_delay a' ->
  attempt cfg i a = attempt cfg i' a'.
Proof. unfold attempt, settle, connecting. simpl. by intros -> -> -> ->. Qed.

Lemma outcome_failed_answers s a w w' :
  iat s = 0 -> replays world_env (mqttConnect_trace cfg s a) w w' ->
  connect_failed (ans_error a) (ans_result a) = outcome_failed (hd Accept (w_network w)).
Proof.
  intros Hi H. destruct (mqttConnect_in_world cfg s a w w' Hi H) as (_ & _ & -> & -> & _).
  done.
Qed.

(** One call of [loop] in the reference environment is one tick of the
    system. *)
Lemma loop_in_world s a w w' :
  replays world_env (loop_trace cfg s a) w w' ->
  system_of (loop_state cfg s a) w' = system_tick cfg (system_of s w).
Proof.
  intros H. unfold loop_trace in H.
  apply replays_app in H as (w1 & Hpre & H). apply replays_app in H as (w2 & H & Hl).
  replay_cbn Hl. destruct Hl as [_ ->].
  pose proof (loop_due s a w w1 Hpre) as Hdue.
  destruct (loop_prefix_in_world s a w w1 Hpre) as (Hn & He & Hc & Hn2 & Hw1).
  unfold loop_state. symmetry in Hdue.
  change (input_of cfg w) with (system_input cfg (system_of s w)) in Hdue.
  change (abstraction s w) with (sys_life (system_of s w)) in Hdue.
  destruct (loop_reconnects s a) eqn:Hr;
    [rewrite (system_tick_due _ _ Hdue) | rewrite (system_tick_idle _ _ Hdue)];
    unfold system_of; cbn [sys_life sys_clock sys_exp sys_network sys_random].
  - assert (iat (set_iat 0 s) = 0) as Hi by done.
    destruct (mqttConnect_in_world cfg _ _ _ _ Hi H) as (_ & _ & _ & _ & _ & _ & Hck & Hex & Hnet & Hrnd & _).
    rewrite (world_attempt cfg _ _ _ _ Hi H), Hck, Hex, Hnet, Hrnd.
    rewrite (outcome_failed_answers _ _ _ _ Hi H).
    assert (w_clock w1 = w_clock w /\ w_network w1 = w_network w
            /\ w_random w1 = w_random w) as (Hk & Hnw & Hrw)
      by (subst w1; by destruct (token_expired a)).
    rewrite Hk, Hnw, Hrw. f_equal. apply attempt_ext; simpl; congruence.
  - simpl in H. unfold loop_reconnects in Hr. apply orb_false_elim in Hr as [Hr _].
    rewrite Hr in Hw1. by subst.
Qed.

End Tick.

(** ** The machine by itself *)

Section Machine.
Context (cfg : BackoffConfig) `{RA : RetryArith} `{!RetryArithLaws RA}.
Context (Hcfg : valid_config cfg).

Lemma system_ticks_snoc es e y :
  system_ticks cfg (es ++ [e]) y = system_tick cfg (system_between e (system_ticks cfg es y)).
Proof. revert y. induction es as [|e' es IH]; intros y; [done|]. apply IH. Qed.

Lemma span_snoc es e : span (es ++ [e]) = span es + e.1.
Proof. unfold span. induction es as [|e' es IH]; simpl; lia. Qed.

Lemma span_cons e es : span (e :: es) = e.1 + span es.
Proof. done. Qed.

Lemma span_nonneg es : forward es -> 0 <= span es.
Proof. induction 1; simpl; lia. Qed.

Lemma system_tick_clock y : sys_clock (system_tick cfg y) = sys_clock y.
Proof. done. Qed.

Lemma system_ticks_clock es y : sys_clock (system_ticks cfg es y) = sys_clock y + span es.
Proof.
  revert y. induction es as [|e es IH]; intros y; simpl; [lia|].
  rewrite IH, system_tick_clock. simpl. lia.
Qed.

Lemma draw_range howbig l : random_range howbig (draw howbig l).
Proof. unfold random_range, draw. lia. Qed.

(** *** What a tick keeps *)

Lemma system_tick_inv y :
  sys_clock y <= ULONG_MAX -> system_inv cfg y -> system_inv cfg (system_tick cfg y).
Proof.
  intros Hc [Hl Hb]. unfold system_inv. tick_cases cfg y; [|done].
  unfold attempt, settle, connecting. simpl.
  rewrite wrap_ulong_id by (unfold in_ulong; lia).
  pose proof (backoff_reset_inv cfg Hcfg) as Hr.
  pose proof (backoff_step_inv cfg Hcfg _ _ (proj2 Hb)
                (draw_range (jitter cfg) (sys_random y))) as Hs.
  destruct (outcome_failed _); auto with lia.
Qed.

Lemma system_between_inv e y :
  0 <= e.1 -> system_inv cfg y -> system_inv cfg (system_between e y).
Proof. intros ? [??]. unfold system_inv. destruct e as [d []]; simpl in *; auto with lia. Qed.

(** While the clock is below [INT_MAX] every arithmetic of the gate is
    exact. *)
Lemma tick_ok_early y : system_inv cfg y -> sys_clock y <= INT_MAX -> tick_ok y.
Proof.
  intros [Hl [Hb1 Hb2]] Hc. pose proof (max_backoff_in_int cfg Hcfg).
  destruct Hcfg as ([??] & _). unfold tick_ok, ULONG_MAX, INT_MAX in *. lia.
Qed.

Lemma timely_early es y :
  system_inv cfg y -> forward es -> sys_clock y + span es <= INT_MAX -> timely cfg es y.
Proof.
  intros Hy Hes. revert y Hy. induction Hes as [|e es He Hes IH]; intros y Hy Hc; [done|].
  pose proof (system_between_inv e y He Hy) as Hy1.
  pose proof (span_nonneg es Hes).
  simpl in Hc |- *. split.
  - apply tick_ok_early; [done|]. simpl. lia.
  - apply IH.
    + apply system_tick_inv; [|done]. unfold ULONG_MAX, INT_MAX in *. simpl. lia.
    + rewrite system_tick_clock. simpl. lia.
Qed.

Lemma timely_snoc es e y :
  timely cfg (es ++ [e]) y -> tick_ok (system_between e (system_ticks cfg es y)).
Proof.
  revert y. induction es as [|e' es IH]; intros y; simpl; [tauto|].
  intros [_ H]. by apply IH.
Qed.

(** *** Recovery *)

Lemma system_tick_recovering last delay y :
  recovering cfg last delay y -> recovering cfg last delay (system_tick cfg y).
Proof.
  intros [Hn H]. unfold recovering. tick_cases cfg y; [|done].
  split; [by simpl; rewrite Hn|]. left.
  unfold up, attempt, settle, system_input. simpl. by rewrite Hn.
Qed.

Lemma system_between_recovering last delay e y :
  e.2 = false -> recovering cfg last delay y ->
  recovering cfg last delay (system_between e y).
Proof. destruct e as [d b]. simpl. by intros ->. Qed.

Lemma system_ticks_recovering last delay es y :
  unbroken es -> recovering cfg last delay y ->
  recovering cfg last delay (system_ticks cfg es y).
Proof.
  intros Hes. revert y. induction Hes as [|e es He Hes IH]; intros y Hy; [done|].
  simpl. by apply IH, system_tick_recovering, system_between_recovering.
Qed.

(** When no reconnect is due the session is up or the delay has not
    elapsed. *)
Lemma idle_waits y :
  tick_ok y -> due (system_input cfg y) (sys_life y) = false ->
  a_session (sys_life y) = Connected
  \/ sys_clock y - a_last (sys_life y) < a_delay (sys_life y).
Proof.
  intros (Hl & Hc & Hdl & Hgap) Hd.
  unfold due in Hd. simpl in Hd. apply orb_false_elim in Hd as [_ Hd].
  rewrite wrap_ulong_id in Hd by (unfold in_ulong; lia).
  destruct (decide (a_session (sys_life y) = Connected)) as [|Hs]; [by left|right].
  rewrite bool_decide_true in Hd by done. simpl in Hd. apply not_true_iff_false in Hd.
  rewrite gate_open_elapsed in Hd by auto. lia.
Qed.

(** After a tick the session is up or the delay has not elapsed. *)
Lemma system_tick_waiting y :
  tick_ok y -> sys_network y = [] ->
  a_session (sys_life (system_tick cfg y)) = Connected
  \/ sys_clock (system_tick cfg y) - a_last (sys_life (system_tick cfg y))
     < a_delay (sys_life (system_tick cfg y)).
Proof.
  intros Hok Hn.
  tick_cases cfg y; [left; unfold attempt, settle, system_input; simpl; by rewrite Hn|].
  by apply idle_waits.
Qed.

Lemma system_recovers es e y :
  system_inv cfg y -> forward (es ++ [e]) -> unbroken (es ++ [e]) ->
  sys_clock y + span (es ++ [e]) <= INT_MAX ->
  sys_network y = [] -> a_session (sys_life y) <> Connected ->
  a_delay (sys_life y) <= span (es ++ [e]) ->
  up cfg (sys_life (system_ticks cfg (es ++ [e]) y)).
Proof.
  intros Hy Hf Hu Hc Hn Hs Hd.
  pose proof (timely_snoc _ _ _ (timely_early _ _ Hy Hf Hc)) as Hok.
  pose proof (system_ticks_clock (es ++ [e]) y) as Hck.
  apply Forall_app in Hu as [Hu [He _]%Forall_cons].
  assert (recovering cfg (a_last (sys_life y)) (a_delay (sys_life y)) y) as Hr
    by (split; auto).
  apply (system_ticks_recovering _ _ es _ Hu) in Hr.
  apply (system_between_recovering _ _ e _ He) in Hr.
  pose proof (system_tick_waiting _ Hok (proj1 Hr)) as Hw.
  apply system_tick_recovering in Hr as [_ [Hup|(Hdown & Hl & Hdl)]].
  all: rewrite system_ticks_snoc in *.
  { done. }
  destruct Hw as [Hw|Hw]; [done|]. destruct Hy as [? _]. lia.
Qed.

End Machine.

(** ** Runs *)

Section Runs.
Context (cfg : BackoffConfig) `{RA : RetryArith}.

Lemma abstraction_connected s w :
  a_session (abstraction s w) = Connected <-> w_connected w = true.
Proof. unfold abstraction. simpl. by destruct (w_connected w). Qed.

Lemma system_of_between e s w :
  system_of s (world_between e w) = system_between e (system_of s w).
Proof. destruct e as [d []]; done. Qed.

(** A call of [loop], executed. *)
Lemma loop_mrun_in_world s w :
  let r := mrun world_env (loop cfg) s w in
  system_of (fields_after r) (world_after r) = system_tick cfg (system_of s w).
Proof.
  executed as [(a & -> & ->)%loop_runs Hrep]. by apply loop_in_world.
Qed.

Lemma ticks_in_world es s w :
  let r := world_ticks cfg es s w in
  system_of r.1 r.2 = system_ticks cfg es (system_of s w).
Proof.
  revert s w. induction es as [|e es IH]; intros s w; [done|].
  simpl. by rewrite IH, loop_mrun_in_world, system_of_between.
Qed.

(** The systems after each call are the systems after each tick. *)
Lemma world_run_systems es s w :
  map (fun r => system_of r.1 r.2) (world_run cfg es s w)
  = system_run cfg es (system_of s w).
Proof.
  revert s w. induction es as [|e es IH]; intros s w; [done|].
  simpl. by rewrite IH, loop_mrun_in_world, system_of_between.
Qed.

(** The last state of a run is the state the ticks end in. *)
Lemma world_run_last es s w :
  default (s, w) (last (world_run cfg es s w)) = world_ticks cfg es s w.
Proof.
  revert s w. induction es as [|e es IH]; intros s w; [done|].
  cbn [world_run world_ticks system_ticks]. rewrite last_cons, <- IH. by destruct (last _).
Qed.

Lemma system_run_last es y :
  default y (last (system_run cfg es y)) = system_ticks cfg es y.
Proof.
  revert y. induction es as [|e es IH]; intros y; [done|].
  cbn [system_run world_ticks system_ticks]. rewrite last_cons, <- IH. by destruct (last _).
Qed.

(** C12. The controller implements the lifecycle machine.  Run in the
    reference environment, at any intervals and with the session breaking at
    any of them, the calls of [loop] take the system (the session, whether a
    token is held, the delay, the instant of the last attempt, the clock, the
    expiry of the token, the outcomes and the random numbers still to come)
    through the ticks of the machine: the system after each call is the
    system after the corresponding tick, and so is the system the calls end
    in.  This holds in every arithmetic of the retry gate and at every
    reading of the clock, wrapped or not, the machine deciding with the gate
    of the build. *)
Theorem ticks_refine es s w :
  map (fun r => system_of r.1 r.2) (world_run cfg es s w)
  = system_run cfg es (system_of s w)
  /\ (let r := world_ticks cfg es s w in
      system_of r.1 r.2 = system_ticks cfg es (system_of s w)).
Proof. split; [apply world_run_systems|apply ticks_in_world]. Qed.

Section Recovery.
Context `{!RetryArithLaws RA}.

(** C13. The session comes back.  When the session is down and the network
    lets every connect through, the calls of [loop] made while at least the
    current delay passes, at whatever intervals, end with the session up, a
    token held and the delay back at its minimum (the clock staying below
    [2^31] milliseconds). *)
Theorem reconnects_eventually es s w :
  valid_config cfg -> state_inv cfg s -> __last_retry_at s <= w_clock w ->
  w_connected w = false -> w_network w = [] ->
  forward es -> unbroken es -> es <> [] ->
  w_clock w + span es <= INT_MAX -> __backoff__ s <= span es ->
  let r := world_ticks cfg es s w in
  w_connected r.2 = true /\ iat r.1 <> 0 /\ __backoff__ r.1 = minbackoff cfg.
Proof.
  intros Hcfg [Hb Hl] Hlast Hdown Hn Hf Hu Hne Hc Hd.
  assert (system_inv cfg (system_of s w)) as Hy
    by (split; [|done]; unfold in_ulong in Hl; simpl; lia).
  destruct es as [|e es _] using rev_ind; [done|].
  pose proof (ticks_in_world (es ++ [e]) s w) as Hsim.
  simpl in Hsim. pose proof (system_recovers cfg Hcfg es e (system_of s w)) as Hup.
  rewrite <- Hsim in Hup. simpl in Hup. rewrite Hdown in Hup.
  destruct Hup as (Hs & Ht & Hdl); try done.
  apply bool_decide_eq_true in Ht. simpl. split_and!; [|done..].
  by apply abstraction_connected in Hs.
Qed.

End Recovery.

End Runs.

(** A run of the machine: the first connect is refused and the delay
    grows, the tick a second later finds the gate shut, the third connects
    and resets the delay. *)
Example system_run_sessions :
  let es := [(5000, false); (1000, false); (3000, true)] in
  let y := system_of constructed (world_start [Refuse LWMQTT_NOT_AUTHORIZED; Accept] [137]) in
  map (fun y => (a_session (sys_life y), a_delay (sys_life y)))
    (system_run (RA := int_arith) upstream_backoff es y)
  = [(Disconnected, 2137); (Disconnected, 2137); (Connected, 1000)].
Proof. by vm_compute. Qed.


Lemma reconnects_eventually_witness :
  let r := world_ticks (RA := int_arith) upstream_backoff [(400, false); (700, false)]
             constructed (world_start [] []) in
  w_connected r.2 = true /\ iat r.1 <> 0 /\ __backoff__ r.1 = 1000.
Proof.
  apply (@reconnects_eventually upstream_backoff int_arith _
           [(400, false); (700, false)] constructed (world_start [] [])
           upstream_backoff_valid).
  - by apply (bool_decide_unpack _).
  - simpl. lia.
  - reflexivity.
  - reflexivity.
  - repeat constructor; simpl; lia.
  - by repeat constructor.
  - done.
  - by vm_compute.
  - by vm_compute.
Defined.
