(* ===== verification/Conformance.v ===== *)
(** * The machine as the specification words it

    [Lifecycle] computes the transitions of the session machine as the code
    computes them.  Here the machine is written from the words of section
    4.1 of the specification: the token is refreshed at any instant at or
    past its expiry, a retry waits until the time since the last attempt has
    reached the delay, a token is minted only when none in force is held,
    and a connect has succeeded when the session is connected and the last
    error is "no error".

    [system_tick_conforms] says when a tick of the code's machine is the
    tick of the specification's: at every instant but the one of the expiry,
    for every outcome but a connect that fails without an error, and when
    the attempt does not find a token still in force.  The three examples
    that follow show that each condition is needed.  [loop_conforms] carries
    the statement to the controller running in the reference environment. *)

From S2P Require Import Prelude Machine Lwmqtt Backoff Effects State Diagnostics.
From S2P Require Import Controller World Fixtures Connect Lifecycle.

#[local] Open Scope Z_scope.

#[export] Instance Outcome_eq_dec : EqDecision Outcome.
Proof. solve_decision. Defined.

(** ** The transitions of section 4.1 *)

(** "If current instant >= token-expiry instant". *)
Definition spec_expired (i : Input) : bool := bool_decide (in_now i >= in_exp i).

(** "Else, if transport reports not connected AND elapsed time since last
    attempt >= current backoff delay". *)
Definition spec_due (i : Input) (a : Lifecycle) : bool :=
  spec_expired i
  || (bool_decide (a_session a <> Connected)
      && bool_decide (in_now i - a_last a >= a_delay a)).

(** "On success (transport reports connected and last error is no
    error)". *)
Definition spec_success (o : Outcome) : bool :=
  connect_result o && bool_decide (connect_error o = LWMQTT_SUCCESS).

(** "If no valid token is held, request one": the token has expired or
    none is held. *)
Definition spec_mints (i : Input) (a : Lifecycle) : bool :=
  spec_expired i || negb (a_token a).

(** The end of [connect()]: on success the delay is reset; on failure the
    diagnostics clear the token on the two rejections and the policy of
    section 4.2 raises the delay. *)
Definition spec_settle (cfg : BackoffConfig) (i : Input) (a : Lifecycle) : Lifecycle :=
  let o := in_outcome i in
  {| a_session := if spec_success o then Connected else Disconnected;
     a_token := negb (negb (spec_success o) && invalidates_token (connect_rc o));
     a_delay := if spec_success o then minbackoff cfg
                else backoff_spec cfg (a_delay a) (in_jitter i);
     a_last := a_last a |}.

Definition spec_tick (cfg : BackoffConfig) (i : Input) (a : Lifecycle) : Lifecycle :=
  if spec_due i a then spec_settle cfg i (connecting i a) else a.

(** The tick of the specification on the system. *)
Definition spec_system_tick (cfg : BackoffConfig) (y : System) : System :=
  let i := system_input cfg y in
  let attempted := spec_due i (sys_life y) in
  {| sys_life := spec_tick cfg i (sys_life y);
     sys_clock := sys_clock y;
     sys_exp := if attempted && spec_mints i (sys_life y) then sys_clock y + TOKEN_LIFE
                else sys_exp y;
     sys_network := if attempted then tl (sys_network y) else sys_network y;
     sys_random := if attempted && negb (spec_success (in_outcome i)) then tl (sys_random y)
                   else sys_random y |}.

(** ** Where the two machines agree *)

(** The tick is not made at the very instant of the expiry; an attempt, if
    one is due, does not fail without an error and does not find a token
    still in force. *)
Definition agreeable (cfg : BackoffConfig) (y : System) : Prop :=
  let i := system_input cfg y in
  in_now i <> in_exp i
  /\ (spec_due i (sys_life y) = true ->
      in_outcome i <> Break LWMQTT_SUCCESS
      /\ spec_mints i (sys_life y) = true).

#[export] Instance agreeable_dec cfg y : Decision (agreeable cfg y).
Proof. unfold agreeable. apply _. Defined.

(** The systems the machine of the specification goes through. *)
Fixpoint spec_system_run (cfg : BackoffConfig) (es : list (Z * bool)) (y : System)
    : list System :=
  match es with
  | [] => []
  | e :: es' =>
      let y' := spec_system_tick cfg (system_between e y) in
      y' :: spec_system_run cfg es' y'
  end.

(** [agreeable] at every tick of a schedule. *)
Fixpoint conforming (cfg : BackoffConfig) (es : list (Z * bool)) (y : System) : Prop :=
  match es with
  | [] => True
  | e :: es' =>
      agreeable cfg (system_between e y)
      /\ conforming cfg es' (spec_system_tick cfg (system_between e y))
  end.

#[export] Instance conforming_dec cfg es y : Decision (conforming cfg es y).
Proof. revert y. induction es; simpl; apply _. Defined.

(** ** Systems for the examples *)

(** The session is up and the clock is at the very instant of the
    expiry. *)
Definition at_expiry : System :=
  {| sys_life := {| a_session := Connected; a_token := true; a_delay := 1000;
                    a_last := 5000 |};
     sys_clock := 3605000; sys_exp := 3605000; sys_network := []; sys_random := [] |}.

(** The session is down, no token is held, the delay has elapsed and the
    connect to come will fail without an error. *)
Definition before_silent_failure : System :=
  {| sys_life := {| a_session := Disconnected; a_token := false; a_delay := 2137;
                    a_last := 5000 |};
     sys_clock := 9000; sys_exp := 3605000; sys_network := [Break LWMQTT_SUCCESS];
     sys_random := [250] |}.

(** The session broke while the token was in force, and the delay has
    elapsed. *)
Definition after_break : System :=
  {| sys_life := {| a_session := Disconnected; a_token := true; a_delay := 1000;
                    a_last := 5000 |};
     sys_clock := 9000; sys_exp := 3605000; sys_network := []; sys_random := [] |}.

(** ** The parts of a tick *)

Lemma spec_success_failed o :
  o <> Break LWMQTT_SUCCESS -> outcome_failed o = negb (spec_success o).
Proof. destruct o as [|rc|[]]; done. Qed.

Lemma spec_expired_strict i :
  in_now i <> in_exp i -> bool_decide (in_now i > in_exp i) = spec_expired i.
Proof. intros. unfold spec_expired. apply bool_decide_ext. lia. Qed.

Section Conformance.
Context (cfg : BackoffConfig) `{RA : RetryArith} `{!RetryArithLaws RA}.
Context (Hcfg : valid_config cfg).

Lemma due_conforms y :
  tick_ok y -> in_now (system_input cfg y) <> in_exp (system_input cfg y) ->
  due (system_input cfg y) (sys_life y) = spec_due (system_input cfg y) (sys_life y).
Proof.
  intros (Hl & Hc & Hd & Hgap) Hne. unfold due, spec_due.
  rewrite spec_expired_strict by done. f_equal.
  destruct (decide (a_session (sys_life y) = Connected)) as [Hs|Hs].
  { by rewrite !(bool_decide_false (_ <> _)) by (intros H; by apply H). }
  rewrite !(bool_decide_true (_ <> _)) by done. simpl.
  rewrite wrap_ulong_id by (unfold in_ulong; lia).
  apply eq_true_iff_eq. rewrite gate_open_elapsed, bool_decide_eq_true by auto. lia.
Qed.

Lemma settle_conforms i a :
  a_delay a <= max_backoff cfg -> random_range (jitter cfg) (in_jitter i) ->
  in_outcome i <> Break LWMQTT_SUCCESS ->
  settle cfg i a = spec_settle cfg i a.
Proof.
  intros Hd Hr Ho. unfold settle, spec_settle.
  rewrite (spec_success_failed _ Ho), (backoff_step_spec cfg Hcfg) by done.
  by destruct (in_outcome i).
Qed.

(** A tick of the machine of the code is the tick of the specification. *)
Lemma system_tick_conforms y :
  system_inv cfg y -> tick_ok y -> agreeable cfg y ->
  system_tick cfg y = spec_system_tick cfg y.
Proof.
  intros [_ [_ Hmax]] Hok [Hne Hag]. unfold system_tick, spec_system_tick, lifecycle_tick,
    spec_tick, attempt.
  rewrite (due_conforms y Hok Hne). destruct (spec_due _ _) eqn:Hdue; [|done].
  destruct (Hag eq_refl) as [Ho ->].
  rewrite settle_conforms, (spec_success_failed _ Ho); try done.
  apply draw_range.
Qed.

End Conformance.

(** ** Runs *)

Section Runs.
Context (cfg : BackoffConfig) `{RA : RetryArith} `{!RetryArithLaws RA}.
Context (Hcfg : valid_config cfg).

Lemma system_run_conforms es y :
  system_inv cfg y -> forward es -> sys_clock y + span es <= INT_MAX ->
  conforming cfg es y ->
  system_run cfg es y = spec_system_run cfg es y.
Proof.
  intros Hy Hf. revert y Hy. induction Hf as [|e es He Hf IH]; intros y Hy Hc; [done|].
  intros [Hag Hconf]. rewrite span_cons in Hc. pose proof (span_nonneg es Hf).
  pose proof (system_between_inv cfg e y He Hy) as Hy0.
  assert (sys_clock (system_between e y) <= INT_MAX) as Hc0 by (simpl; lia).
  pose proof (system_tick_conforms cfg Hcfg _ Hy0 (tick_ok_early cfg Hcfg _ Hy0 Hc0) Hag) as Ht.
  simpl. rewrite <- Ht in Hconf |- *. f_equal. apply IH; [|simpl; lia|done].
  apply system_tick_inv; [done| |done]. unfold ULONG_MAX, INT_MAX in *. lia.
Qed.

(** C15. The controller implements the machine of the specification,
    where the two agree.  Run in the reference environment while the clock
    is below [2^31] milliseconds, the calls of [loop] take the system
    through the ticks that section 4.1 describes, as long as no tick falls
    on the very instant of the expiry, no connect fails without an error,
    and no attempt is made with a token still in force (the code mints a
    new one at every reconnect). *)
Theorem run_conforms es s w :
  state_inv cfg s -> __last_retry_at s <= w_clock w ->
  forward es -> w_clock w + span es <= INT_MAX ->
  conforming cfg es (system_of s w) ->
  map (fun r => system_of r.1 r.2) (world_run cfg es s w)
  = spec_system_run cfg es (system_of s w).
Proof.
  intros [Hb Hl] Hlast Hf Hc Hconf. rewrite world_run_systems.
  apply system_run_conforms; try done.
  split; [|done]. unfold in_ulong in Hl. simpl. lia.
Qed.

End Runs.

(** ** Where the two machines part *)

(** At the instant of the expiry the specification refreshes the token;
    the code waits for the next millisecond. *)
Example expiry_instant_diverges :
  system_tick (RA := int_arith) upstream_backoff at_expiry = at_expiry
  /\ sys_exp (spec_system_tick upstream_backoff at_expiry) = 3605000 + TOKEN_LIFE
  /\ a_last (sys_life (spec_system_tick upstream_backoff at_expiry)) = 3605000.
Proof. by vm_compute. Qed.

(** A connect that fails without an error: the specification raises the
    delay, the code resets it. *)
Example silent_failure_diverges :
  let code := sys_life (system_tick (RA := int_arith) upstream_backoff before_silent_failure) in
  let spec := sys_life (spec_system_tick upstream_backoff before_silent_failure) in
  a_session code = Disconnected /\ a_delay code = 1000
  /\ a_session spec = Disconnected /\ a_delay spec = 4524.
Proof. by vm_compute. Qed.

(** A retry with a token still in force: the specification presents it
    again, the code mints another and the expiry moves. *)
Example held_token_diverges :
  sys_life (system_tick (RA := int_arith) upstream_backoff after_break)
  = sys_life (spec_system_tick upstream_backoff after_break)
  /\ sys_exp (system_tick (RA := int_arith) upstream_backoff after_break) = 9000 + TOKEN_LIFE
  /\ sys_exp (spec_system_tick upstream_backoff after_break) = 3605000.
Proof. by vm_compute. Qed.

Lemma run_conforms_witness :
  let es := [(5000, false); (3000, false); (1000, false)] in
  let w := world_start [Refuse LWMQTT_NOT_AUTHORIZED; Accept] [137] in
  map (fun r => system_of r.1 r.2) (world_run (RA := int_arith) upstream_backoff es constructed w)
  = spec_system_run upstream_backoff es (system_of constructed w).
Proof.
  apply (@run_conforms upstream_backoff int_arith _ upstream_backoff_valid
           [(5000, false); (3000, false); (1000, false)] constructed
           (world_start [Refuse LWMQTT_NOT_AUTHORIZED; Accept] [137])).
  - by apply (bool_decide_unpack _).
  - simpl. lia.
  - repeat constructor; simpl; lia.
  - by vm_compute.
  - apply (bool_decide_unpack _). by vm_compute.
Defined.
