(* ===== verification/Wrap.v ===== *)
(** * At the wrap of the clock

    [millis()] counts in an [unsigned long] and starts again from zero
    after [2^32] milliseconds, 49.7 days.  The clock of the reference
    environment and of the session machine is not wrapped; the controller
    and the machine read it through [wrap_ulong], as they read the expiry
    of the token.  This file follows the two tests of [loop] across the
    wrap.

    The retry gate computed through [int abs(int)] measures the time since
    the last attempt correctly across the wrap, as long as that time fits an
    [int] ([int_gate_across_wrap]).  The expiry test does not survive it: a
    token minted during the last [TOKEN_LIFE] before the wrap expires after
    it, its expiry reads as a small number, and every call of [loop] until
    the clock has wrapped finds the token expired, closes the session and
    connects again ([expiry_wrap_storm]). *)

From S2P Require Import Prelude Machine Lwmqtt Backoff Effects State Diagnostics.
From S2P Require Import Controller World Fixtures Connect Lifecycle.

#[local] Open Scope Z_scope.

(** ** The window before the wrap *)

(** The clock is within [TOKEN_LIFE] of the wrap and the token in force
    expires after it. *)
Definition in_storm (y : System) : Prop :=
  ULONG_MAX - TOKEN_LIFE < sys_clock y <= ULONG_MAX
  /\ ULONG_MAX < sys_exp y <= sys_clock y + TOKEN_LIFE.

#[export] Instance in_storm_dec y : Decision (in_storm y).
Proof. unfold in_storm. apply _. Defined.

(** The session has been up for a while when the clock comes within an
    hour of the wrap and the hourly refresh falls due. *)
Definition before_wrap : RWorld :=
  {| w_clock := 2 ^ 32 - 1800000; w_exp := 2 ^ 32 - 1800001; w_minted := 1192;
     w_token := token_name 1192; w_connected := true; w_error := LWMQTT_SUCCESS;
     w_rc := LWMQTT_CONNECTION_ACCEPTED; w_network := []; w_random := [] |}.

(** ** The retry gate *)

Lemma wrap_ulong_sub a b : wrap_ulong (wrap_ulong a - wrap_ulong b) = wrap_ulong (a - b).
Proof. unfold wrap_ulong. by rewrite <- Zminus_mod. Qed.

(** Through [int abs(int)] the gate compares the delay with the time that
    has passed, whether or not the clock has wrapped in between. *)
Lemma int_gate_across_wrap c0 c1 delay :
  0 <= c1 - c0 <= INT_MAX ->
  int_gate (wrap_ulong c0) (wrap_ulong c1) delay = bool_decide (delay <= c1 - c0).
Proof.
  intros Hd. unfold int_gate. rewrite wrap_ulong_sub. apply bool_decide_ext.
  unfold wrap_int, abs_macro, wrap_ulong, INT_MAX in *.
  case_decide; Z.div_mod_to_equations; lia.
Qed.

(** At [unsigned long] the gate is open as soon as time has passed, across
    the wrap as before it. *)
Lemma ulong_gate_across_wrap c0 c1 delay :
  0 < c1 - c0 <= INT_MAX -> 0 <= delay <= INT_MAX ->
  ulong_gate (wrap_ulong c0) (wrap_ulong c1) delay = true.
Proof.
  intros Hd Hb. unfold ulong_gate. rewrite wrap_ulong_sub. apply bool_decide_eq_true.
  unfold abs_macro_ulong, wrap_ulong, INT_MAX in *.
  case_decide; Z.div_mod_to_equations; lia.
Qed.

(** ** The expiry test *)

Section Storm.
Context (cfg : BackoffConfig) `{RA : RetryArith}.

Lemma storm_due y : in_storm y -> due (system_input cfg y) (sys_life y) = true.
Proof.
  intros [Hc He]. unfold due, system_input. simpl.
  rewrite bool_decide_true; [done|].
  unfold wrap_ulong, ULONG_MAX, TOKEN_LIFE in *. Z.div_mod_to_equations. lia.
Qed.

Lemma storm_tick y :
  in_storm y ->
  in_storm (system_tick cfg y) /\ sys_network (system_tick cfg y) = tl (sys_network y).
Proof.
  intros Hy. rewrite (system_tick_due cfg y (storm_due y Hy)).
  destruct Hy as [Hc He]. unfold in_storm. simpl. auto with lia.
Qed.

Lemma storm_between e y :
  0 <= e.1 -> sys_clock y + e.1 <= ULONG_MAX -> in_storm y -> in_storm (system_between e y).
Proof. intros ?? [Hc He]. unfold in_storm. simpl. lia. Qed.

Lemma storm_ticks es y :
  in_storm y -> forward es -> sys_clock y + span es <= ULONG_MAX ->
  in_storm (system_ticks cfg es y)
  /\ sys_network (system_ticks cfg es y) = drop (length es) (sys_network y).
Proof.
  intros Hy Hf. revert y Hy. induction Hf as [|e es He Hf IH]; intros y Hy Hc; [done|].
  rewrite span_cons in Hc. pose proof (span_nonneg es Hf).
  destruct (storm_tick _ (storm_between e y He ltac:(lia) Hy)) as [Hy1 Hn].
  destruct (IH _ Hy1) as [Hy2 Hn2]; [simpl; lia|].
  simpl. split; [done|]. rewrite Hn2, Hn. simpl.
  destruct (sys_network y); simpl; by rewrite ?drop_nil.
Qed.

(** A refresh made within [TOKEN_LIFE] of the wrap opens the window. *)
Lemma storm_starts y :
  ULONG_MAX - TOKEN_LIFE < sys_clock y <= ULONG_MAX ->
  due (system_input cfg y) (sys_life y) = true ->
  in_storm (system_tick cfg y).
Proof. intros Hc Hdue. rewrite (system_tick_due cfg y Hdue). unfold in_storm. simpl. lia. Qed.

(** C37. Reconnects without pause before the wrap of the clock.  Once a
    token has been minted within [TOKEN_LIFE] of the wrap of [millis()],
    its expiry lies beyond the wrap and reads as a small number: until the
    clock has wrapped, every call of [loop] finds the token expired and
    makes a connect, whatever the state of the session, the delay and the
    arithmetic of the gate, and the token it mints expires beyond the wrap
    in its turn. *)
Theorem expiry_wrap_storm es s w :
  in_storm (system_of s w) -> forward es -> w_clock w + span es <= ULONG_MAX ->
  let r := world_ticks cfg es s w in
  w_network r.2 = drop (length es) (w_network w)
  /\ w_clock r.2 <= ULONG_MAX < w_exp r.2.
Proof.
  intros Hy Hf Hc. cbn zeta.
  destruct (storm_ticks es (system_of s w) Hy Hf Hc) as [[Hc' He'] Hn].
  rewrite <- (ticks_in_world cfg es s w) in Hc', He', Hn. simpl in *. split; [done|lia].
Qed.

End Storm.

(** ** The hour before the wrap *)

(** The refresh that falls due half an hour before the wrap mints a token
    that expires after it; the calls that follow, a second apart, connect
    again each time. *)
Example storm_run :
  let r1 := mrun world_env (loop (RA := int_arith) upstream_backoff) connected before_wrap in
  let r := world_ticks (RA := int_arith) upstream_backoff
             [(1000, false); (1000, false); (1000, false)]
             (fields_after r1) (world_after r1) in
  in_storm (system_of (fields_after r1) (world_after r1))
  /\ w_minted (world_after r1) = 1193%nat /\ w_minted r.2 = 1196%nat.
Proof. split; [apply (bool_decide_unpack _)|]; by vm_compute. Qed.

(** Across the wrap the gate of [int abs(int)] still waits for the delay. *)
Example int_gate_waits_across_wrap :
  int_gate (2 ^ 32 - 500) 300 1000 = false /\ int_gate (2 ^ 32 - 500) 500 1000 = true.
Proof. done. Qed.

Lemma expiry_wrap_storm_witness :
  let r1 := mrun world_env (loop (RA := int_arith) upstream_backoff) connected before_wrap in
  let es := [(1000, false); (1000, false); (1000, false)] in
  let r := world_ticks (RA := int_arith) upstream_backoff es (fields_after r1) (world_after r1) in
  w_network r.2 = drop (length es) (w_network (world_after r1))
  /\ w_clock r.2 <= ULONG_MAX < w_exp r.2.
Proof.
  set (r1 := mrun world_env (loop (RA := int_arith) upstream_backoff) connected before_wrap).
  apply (expiry_wrap_storm upstream_backoff [(1000, false); (1000, false); (1000, false)]
           (fields_after r1) (world_after r1)).
  - apply (bool_decide_unpack _). by vm_compute.
  - repeat constructor; simpl; lia.
  - by vm_compute.
Defined.
