(* ===== verification/Outage.v ===== *)
(** * The end of an outage

    The specification asks that the controller favours eventual
    reconnection: nothing is fatal, every failure is followed by a retry
    after the delay of the back-off.  [Lifecycle.reconnects_eventually]
    covers a network that lets the next connect through.  Here the network
    may first fail: it has [k] outcomes in store, of whatever kind, and lets
    every connect through once they are used up.

    The argument is a budget of time ([outage_budget]): what is left to wait
    before the gate opens, one gap between ticks, and for each outcome in
    store the largest delay and one gap.  A tick made after [d] milliseconds
    lowers the budget by [d] at least ([budget_tick]), so a schedule that
    lasts as long as the budget ends with the session up.  Since the delay
    never exceeds the ceiling of the policy, [(k + 1) * (max + gap)]
    milliseconds are enough ([outage_ends]). *)

From S2P Require Import Prelude Machine Lwmqtt Backoff Effects State Diagnostics.
From S2P Require Import Controller World Fixtures Connect Lifecycle.

#[local] Open Scope Z_scope.

(** ** The budget *)

(** A schedule whose ticks are at most [gap] milliseconds apart. *)
Definition paced (gap : Z) (es : list (Z * bool)) : Prop := Forall (fun e => e.1 <= gap) es.

(** The time left before the gate opens. *)
Definition wait_left (y : System) : Z :=
  Z.max 0 (a_last (sys_life y) + a_delay (sys_life y) - sys_clock y).

(** The time within which the session is up, with ticks at most [gap]
    apart. *)
Definition outage_budget (cfg : BackoffConfig) (gap : Z) (y : System) : Z :=
  if decide (a_session (sys_life y) = Connected) then 0
  else wait_left y + gap
       + Z.of_nat (length (sys_network y)) * (max_backoff cfg + gap).

(** What the argument carries from tick to tick: the invariant of the
    system, a clock below [2^31], when the session is up a token that
    outlives the schedule and the delay at its minimum, and a budget that the
    schedule covers. *)
Definition covered (cfg : BackoffConfig) (gap span : Z) (y : System) : Prop :=
  system_inv cfg y
  /\ sys_clock y + span <= INT_MAX
  /\ (a_session (sys_life y) = Connected ->
      sys_clock y + span <= sys_exp y <= ULONG_MAX /\ up cfg (sys_life y))
  /\ outage_budget cfg gap y <= span.

(** A network that fails twice before it lets a connect through. *)
Definition failing_network : list Outcome :=
  [Break LWMQTT_NETWORK_TIMEOUT; Refuse LWMQTT_SERVER_UNAVAILABLE].

(** ** A tick *)

Section Budget.
Context (cfg : BackoffConfig) `{RA : RetryArith} `{!RetryArithLaws RA}.
Context (Hcfg : valid_config cfg) (gap : Z).

(** With the session up and the token in force nothing is due. *)
Lemma up_idle y :
  a_session (sys_life y) = Connected -> 0 <= sys_clock y <= sys_exp y ->
  sys_exp y <= ULONG_MAX ->
  due (system_input cfg y) (sys_life y) = false.
Proof.
  intros Hs ??. unfold due, system_input. simpl.
  rewrite !wrap_ulong_id by (unfold in_ulong; lia).
  rewrite !bool_decide_false; [done|by rewrite Hs; intros ?|lia].
Qed.

(** An attempt that leaves the session down has used up an outcome of the
    network. *)
Lemma attempt_down_uses y :
  a_session (attempt cfg (system_input cfg y) (sys_life y)) <> Connected ->
  (0 < length (sys_network y))%nat.
Proof.
  unfold attempt, settle, system_input. simpl.
  destruct (sys_network y); simpl; [done|lia].
Qed.

(** An attempt that brings the session up leaves a token held and the
    delay at its minimum. *)
Lemma attempt_up i a : a_session (attempt cfg i a) = Connected -> up cfg (attempt cfg i a).
Proof. unfold up, attempt, settle. simpl. by destruct (in_outcome i). Qed.

(** A tick made [d] milliseconds after the last one leaves a budget that a
    schedule shorter by [d] covers. *)
Lemma budget_tick e span y :
  0 <= e.1 <= gap -> e.2 = false -> 0 <= span -> e.1 + span <= TOKEN_LIFE ->
  covered cfg gap (e.1 + span) y ->
  covered cfg gap span (system_tick cfg (system_between e y)).
Proof.
  destruct e as [d br]. simpl. intros Hd -> Hsp Hlife (Hy & Hc & Hexp & Hb).
  pose proof (system_between_inv cfg (d, false) y (proj1 Hd) Hy) as Hy0.
  assert (sys_clock (system_between (d, false) y) <= INT_MAX) as Hc0 by (simpl; lia).
  pose proof (tick_ok_early cfg Hcfg _ Hy0 Hc0) as Hok.
  assert (system_inv cfg (system_tick cfg (system_between (d, false) y))) as Hy1
    by (apply system_tick_inv; [done|unfold ULONG_MAX, INT_MAX in *; lia|done]).
  set (y0 := system_between (d, false) y) in *.
  unfold covered. split; [done|]. rewrite system_tick_clock. split; [simpl; lia|].
  revert Hy1. tick_cases cfg y0; intros Hy1.
  - (* an attempt *)
    cbn [sys_life sys_clock sys_exp sys_network]. unfold outage_budget at 1.
    cbn [sys_life sys_network sys_clock]. split.
    { intros Hs. split; [unfold TOKEN_LIFE, ULONG_MAX, INT_MAX in *; simpl; lia|].
      by apply attempt_up. }
    case_decide as Hs; [done|]. pose proof (attempt_down_uses y0 Hs) as Hn.
    destruct Hy1 as [Hl1 [_ Hmax]]. simpl in Hl1, Hmax, Hn.
    revert Hb. unfold outage_budget, wait_left.
    destruct Hy as [Hl _]. destruct Hcfg as ([??] & _).
    case_decide as Hs0.
    + (* the session was up: the attempt is not made *)
      exfalso. destruct (Hexp Hs0) as [[??] _]. rewrite up_idle in Hdue; [done..|simpl; lia|done].
    + unfold attempt, settle, connecting in *. simpl in *.
      rewrite wrap_ulong_id in * by (unfold in_ulong, ULONG_MAX, INT_MAX in *; lia).
      destruct (sys_network y) as [|o net]; simpl in *; [lia|]. nia.
  - (* no attempt *)
    split; [intros Hs; destruct (Hexp Hs) as [[??] ?]; simpl; split; [lia|done]|].
    revert Hb. unfold outage_budget, wait_left. subst y0. simpl.
    case_decide as Hs; [lia|].
    destruct (idle_waits cfg _ Hok Hdue) as [?|Hw]; [done|]. simpl in Hw. lia.
Qed.

(** ** A schedule *)

Lemma covered_ticks es y :
  forward es -> unbroken es -> paced gap es -> span es <= TOKEN_LIFE ->
  covered cfg gap (span es) y -> covered cfg gap 0 (system_ticks cfg es y).
Proof.
  intros Hf Hu Hp. revert y.
  induction Hf as [|e es He Hf IH]; intros y Hlife Hy; [done|].
  apply Forall_cons in Hu as [Hu1 Hu], Hp as [Hp1 Hp].
  pose proof (span_nonneg es Hf). rewrite span_cons in *.
  simpl. apply IH; [done..|lia|]. by apply budget_tick.
Qed.

(** A budget that is used up: the session is up. *)
Lemma covered_up y : 0 < gap -> covered cfg gap 0 y -> up cfg (sys_life y).
Proof.
  intros Hgap (_ & _ & Hup & Hb). revert Hb. unfold outage_budget, wait_left.
  destruct Hcfg as ([??] & _). case_decide; [intros _; by apply Hup|].
  pose proof (Z.mul_nonneg_nonneg (Z.of_nat (length (sys_network y)))
                (max_backoff cfg + gap)). lia.
Qed.

(** The session down, the first attempt at most the current delay away:
    [(k + 1)] times the largest delay and a gap cover the [k] outcomes the
    network has in store. *)
Lemma down_covered span y :
  system_inv cfg y -> a_session (sys_life y) <> Connected ->
  0 <= gap -> sys_clock y + span <= INT_MAX ->
  a_delay (sys_life y) + gap
  + Z.of_nat (length (sys_network y)) * (max_backoff cfg + gap) <= span ->
  covered cfg gap span y.
Proof.
  intros Hy Hs ? ? Hb. split_and!; [done..| |]; [done|].
  unfold outage_budget, wait_left. destruct Hy as [? [??]], Hcfg as ([??] & _).
  case_decide; [done|lia].
Qed.

(** The machine by itself: the outage ends. *)
Lemma system_outage_ends es y :
  system_inv cfg y -> a_session (sys_life y) <> Connected ->
  forward es -> unbroken es -> paced gap es -> 0 < gap ->
  sys_clock y + span es <= INT_MAX -> span es <= TOKEN_LIFE ->
  a_delay (sys_life y) + gap
  + Z.of_nat (length (sys_network y)) * (max_backoff cfg + gap) <= span es ->
  up cfg (sys_life (system_ticks cfg es y)).
Proof.
  intros. apply covered_up; [done|].
  apply covered_ticks; [done..|]. apply down_covered; [done..|lia|done|done].
Qed.

End Budget.

(** ** The controller *)

Section Controller.
Context (cfg : BackoffConfig) `{RA : RetryArith} `{!RetryArithLaws RA}.

(** C14. An outage ends.  The session down and the network failing the next
    [k] connects, for whatever reason, before it lets one through: the calls
    of [loop] made at most [gap] milliseconds apart, while the current delay,
    a gap and [k] times the largest delay and a gap pass, end with the
    session up, a token held and the delay back at its minimum (the clock
    staying below [2^31] milliseconds and the schedule within the life of a
    token). *)
Theorem outage_ends gap es s w :
  valid_config cfg -> state_inv cfg s -> __last_retry_at s <= w_clock w ->
  w_connected w = false ->
  forward es -> unbroken es -> paced gap es -> 0 < gap ->
  w_clock w + span es <= INT_MAX -> span es <= TOKEN_LIFE ->
  __backoff__ s + gap
  + Z.of_nat (length (w_network w)) * (max_backoff cfg + gap) <= span es ->
  let r := world_ticks cfg es s w in
  w_connected r.2 = true /\ iat r.1 <> 0 /\ __backoff__ r.1 = minbackoff cfg.
Proof.
  intros Hcfg [Hb Hl] Hlast Hdown Hf Hu Hp Hgap Hc Hlife Hd.
  assert (system_inv cfg (system_of s w)) as Hy
    by (split; [|done]; unfold in_ulong in Hl; simpl; lia).
  pose proof (system_outage_ends cfg Hcfg gap es (system_of s w) Hy) as Hup.
  rewrite <- (ticks_in_world cfg es s w) in Hup. simpl in Hup. rewrite Hdown in Hup.
  destruct Hup as (Hs & Ht & Hdl); try done.
  apply bool_decide_eq_true in Ht. simpl. split_and!; [|done..].
  by apply abstraction_connected in Hs.
Qed.

End Controller.

(** Two failures in store and ticks a second apart: the first attempt is
    made after one second and fails, the second three seconds later and
    fails, the third five seconds after it; the budget goes down by a second
    at least with each tick. *)
Example outage_run :
  let y := system_of constructed (world_start failing_network [137; 52]) in
  outage_budget upstream_backoff 1000 y = 124000
  /\ map (fun y => (a_session (sys_life y), a_delay (sys_life y),
                     outage_budget upstream_backoff 1000 y))
       (system_run (RA := int_arith) upstream_backoff (replicate 9 (1000, false)) y)
     = [(Disconnected, 2137, 64137); (Disconnected, 2137, 63137);
        (Disconnected, 2137, 62137); (Disconnected, 4326, 5326);
        (Disconnected, 4326, 4326); (Disconnected, 4326, 3326);
        (Disconnected, 4326, 2326); (Disconnected, 4326, 1326);
        (Connected, 1000, 0)].
Proof. by vm_compute. Qed.

(** Two failures in store: the session is up within 124 seconds of ticks a
    second apart. *)
Lemma outage_ends_witness :
  let r := world_ticks (RA := int_arith) upstream_backoff (replicate 124 (1000, false))
             constructed (world_start failing_network [137; 52]) in
  w_connected r.2 = true /\ iat r.1 <> 0 /\ __backoff__ r.1 = 1000.
Proof.
  apply (@outage_ends upstream_backoff int_arith _ 1000
           (replicate 124 (1000, false)) constructed
           (world_start failing_network [137; 52]) upstream_backoff_valid).
  - by apply (bool_decide_unpack _).
  - simpl. lia.
  - reflexivity.
  - apply Forall_replicate. simpl. lia.
  - by apply Forall_replicate.
  - apply Forall_replicate. simpl. lia.
  - lia.
  - by vm_compute.
  - by vm_compute.
  - by vm_compute.
Defined.
