(* ===== verification/Async.v ===== *)
(** * Reconnecting with [mqttConnectAsync]

    [loop] reconnects with [mqttConnect]; a sketch may call
    [mqttConnectAsync] instead.  The two differ in what they do with a
    connect that fails: [mqttConnectAsync] reads the return code of the
    broker only when [connect] returned true.  This file follows both in the
    reference environment from a state in which the controller holds a token
    that the broker does not accept ([stale]): the token has expired, or
    another one has been minted since (by [logConfiguration(true)], for
    instance).  [world_calls] is a sketch that calls one member function
    again and again, time passing between the calls. *)

From S2P Require Import Prelude Machine Lwmqtt Backoff Effects State Diagnostics.
From S2P Require Import Controller World Fixtures Connect Lifecycle.

#[local] Open Scope Z_scope.
#[local] Abbreviation St := CloudIoTCoreMqtt.

(** The controller holds a token, and the broker does not accept it. *)
Definition stale (s : St) (w : RWorld) : Prop :=
  iat s <> 0 /\ token_accepted (jwt s) w = false.

#[export] Instance stale_dec s w : Decision (stale s w).
Proof. unfold stale. apply _. Defined.

(** A sketch that calls [m] after each interval of the schedule: the fields
    and the world after each call. *)
Fixpoint world_calls (m : M St unit) (es : list (Z * bool)) (s : St) (w : RWorld)
    : list (St * RWorld) :=
  match es with
  | [] => []
  | e :: es' =>
      let r := mrun world_env m s (world_between e w) in
      (fields_after r, world_after r) :: world_calls m es' (fields_after r) (world_after r)
  end.

(** The world after [logConfiguration(true)] has minted the token it shows:
    the broker accepts that token, the controller holds none. *)
Definition shown_world (network : list Outcome) : St * RWorld :=
  let r := mrun world_env (logConfiguration true) constructed (world_start network []) in
  (fields_after r, world_after r).

Section Stale.
Context (cfg : BackoffConfig).

(** A token that is stale stays so as time passes. *)
Lemma stale_between e s w : 0 <= e.1 -> stale s w -> stale s (world_between e w).
Proof. intros He [Hi Ht]. split; [done|]. by apply unaccepted_between. Qed.

(** One call of [mqttConnectAsync] with a stale token: the connect is
    refused, the function takes the branch of a client that is not
    connected, and nothing that the broker decides on has changed. *)
Lemma async_refused_in_world skip s a c2 w w' :
  stale s w ->
  replays world_env (mqttConnectAsync_trace cfg skip s a c2) w w' ->
  ans_result a = false /\ c2 = false
  /\ w_connected w' = false /\ w_token w' = w_token w /\ w_minted w' = w_minted w
  /\ w_clock w' = w_clock w /\ w_exp w' = w_exp w.
Proof.
  intros [Hi Ht] H. unfold mqttConnectAsync_trace, mint_trace, after_mint in H.
  rewrite !decide_False in H by done. replay_cbn H.
  destruct H as (_ & Hnow & Hres & Herr & H).
  revert Hres Herr H. state_simpl. rewrite (stale_outcome _ _ Ht). intros <- Herr H.
  unfold async_failed in H. rewrite andb_false_r in H. replay_cbn H.
  destruct H as (_ & _ & <- & H). cbn [negb] in H.
  replay_end H; by subst w'.
Qed.

(** The fields after such a call: the token and its stamp are the ones
    held before. *)
Lemma async_refused_state s a c2 :
  ans_result a = false -> iat s <> 0 ->
  iat (mqttConnectAsync_state cfg s a c2) = iat s
  /\ jwt (mqttConnectAsync_state cfg s a c2) = jwt s.
Proof.
  intros Hr Hi. unfold mqttConnectAsync_state, async_failed, after_mint.
  rewrite Hr, andb_false_r, decide_False by done. by destruct (negb c2).
Qed.

(** A call of [mqttConnectAsync] with a stale token, executed. *)
Lemma async_call_stale skip s w :
  stale s w ->
  let r := mrun world_env (mqttConnectAsync cfg skip) s w in
  w_connected (world_after r) = false /\ w_minted (world_after r) = w_minted w
  /\ iat (fields_after r) = iat s /\ jwt (fields_after r) = jwt s
  /\ stale (fields_after r) (world_after r).
Proof.
  intros Hs. executed as [(a & c2 & -> & ->)%mqttConnectAsync_runs Hrep].
  destruct (async_refused_in_world _ _ _ _ _ _ Hs Hrep) as (Hr & _ & ? & Ht & Hm & Hc & He).
  destruct Hs as [Hi Hacc]. destruct (async_refused_state s a c2 Hr Hi) as [Hi' Hj'].
  unfold stale. rewrite Hi', Hj'.
  split_and!; [done..|]. by rewrite (token_accepted_ext _ w w').
Qed.

(** The sketch that reconnects with [mqttConnectAsync]: the session is
    down after every call, and the token held is the one the broker does
    not accept. *)
Lemma async_calls_stale skip es s w :
  forward es -> stale s w ->
  Forall (fun r => w_connected r.2 = false /\ w_minted r.2 = w_minted w
                   /\ iat r.1 = iat s /\ jwt r.1 = jwt s)
    (world_calls (mqttConnectAsync cfg skip) es s w).
Proof.
  intros Hf. revert s w. induction Hf as [|e es He Hf IH]; intros s w Hs; [done|].
  apply (stale_between e) in Hs; [|done].
  destruct (async_call_stale skip s _ Hs) as (Hc & Hm & Hi & Hj & Hs').
  cbn [world_calls]. constructor; [split_and!; try done; by destruct e as [d []]|].
  eapply Forall_impl; [by apply IH|]. intros r (? & ? & ? & ?).
  split_and!; [done|destruct e as [d []]; simpl in *|..]; congruence.
Qed.

(** ** The same with [mqttConnect] *)

(** One call of [mqttConnect] with a stale token that reaches the broker:
    the connect is refused and the return code read is the broker's. *)
Lemma sync_refused_in_world s a w w' :
  stale s w -> hd Accept (w_network w) = Accept ->
  replays world_env (mqttConnect_trace cfg s a) w w' ->
  connect_failed (ans_error a) (ans_result a) = true
  /\ ans_rc2 a = LWMQTT_NOT_AUTHORIZED
  /\ w_connected w' = false /\ w_network w' = tl (w_network w).
Proof.
  intros [Hi Ht] Hn H. unfold mqttConnect_trace, mint_trace, after_mint in H.
  rewrite !decide_False in H by done. replay_cbn H.
  destruct H as (_ & _ & Hres & _ & _ & Herr & H).
  revert Hres Herr H. state_simpl. rewrite (stale_refused _ _ Ht Hn).
  intros <- <- H.
  change (connect_failed _ _) with true in H |- *.
  unfold connect_rc, connect_result, connect_error in H.
  replay_end H; by subst w'.
Qed.

(** A call of [mqttConnect] with a stale token that reaches the broker,
    executed: the token is cleared. *)
Lemma sync_call_stale skip s w :
  stale s w -> hd Accept (w_network w) = Accept ->
  let r := mrun world_env (mqttConnect cfg skip) s w in
  iat (fields_after r) = 0 /\ w_connected (world_after r) = false
  /\ w_network (world_after r) = tl (w_network w).
Proof.
  intros Hs Hn. executed as [(a & -> & ->)%mqttConnect_runs Hrep].
  destruct (sync_refused_in_world _ _ _ _ Hs Hn Hrep) as (Hf & Hrc & ? & ?).
  by rewrite mqttConnect_state_iat, Hf, Hrc.
Qed.

(** A call of [mqttConnect] with no token held, executed: the session is
    what the network makes of the connect. *)
Lemma sync_call_cleared skip s w :
  iat s = 0 ->
  let r := mrun world_env (mqttConnect cfg skip) s w in
  w_connected (world_after r) = connect_result (hd Accept (w_network w)).
Proof.
  intros Hi. executed as [(a & -> & ->)%mqttConnect_runs Hrep].
  by destruct (mqttConnect_in_world cfg _ _ _ _ Hi Hrep) as (_ & _ & _ & _ & _ & ? & _).
Qed.

(** C16. A token that the broker does not accept.  The controller holding a
    stamped token that the broker does not accept (it has expired, or
    another has been minted since): a sketch that reconnects with
    [mqttConnect] is refused once and is connected by the second call, the
    network letting the two connects through; a sketch that reconnects with
    [mqttConnectAsync] finds the session down after every call, however
    many it makes and whatever the network does, always presenting the
    token it held and minting none. *)
Theorem stale_token_paths skip e1 e2 es s w :
  stale s w -> 0 <= e1.1 -> forward es ->
  (w_network w = [] ->
   exists r1 r2, world_calls (mqttConnect cfg skip) [e1; e2] s w = [r1; r2]
     /\ w_connected r1.2 = false /\ w_connected r2.2 = true)
  /\ Forall (fun r => w_connected r.2 = false /\ w_minted r.2 = w_minted w
                      /\ iat r.1 = iat s /\ jwt r.1 = jwt s)
       (world_calls (mqttConnectAsync cfg skip) es s w).
Proof.
  intros Hs He1 Hf. split; [|by apply async_calls_stale].
  intros Hn. eexists _, _. split; [done|]. cbn [snd].
  apply (stale_between e1) in Hs; [|done].
  assert (w_network (world_between e1 w) = []) as Hn1 by (by destruct e1 as [d []]).
  destruct (sync_call_stale skip s _ Hs) as (Hi & Hc & Hn2); [by rewrite Hn1|].
  split; [done|]. rewrite sync_call_cleared by done.
  destruct e2 as [d []]; simpl; by rewrite Hn2, Hn1.
Qed.

End Stale.

(** After [logConfiguration(true)]: two calls of [mqttConnect] bring the
    session up, six calls of [mqttConnectAsync] leave it down, each
    presenting the empty token. *)
Example shown_token_runs :
  let '(s, w) := shown_world [] in
  let es := replicate 6 (70000, false) in
  map (fun r => w_connected r.2) (world_calls (mqttConnect upstream_backoff false) es s w)
  = [false; true; true; true; true; true]
  /\ map (fun r => (w_connected r.2, jwt r.1, __backoff__ r.1))
       (world_calls (mqttConnectAsync upstream_backoff false) es s w)
     = [(false, "", 2000); (false, "", 4000); (false, "", 8000);
        (false, "", 16000); (false, "", 32000); (false, "", 60000)].
Proof. by vm_compute. Qed.

Lemma stale_token_paths_witness :
  let '(s, w) := shown_world [] in
  let es := replicate 6 (70000, false) in
  (w_network w = [] ->
   exists r1 r2,
     world_calls (mqttConnect upstream_backoff true) [(1000, false); (2000, false)] s w
     = [r1; r2]
     /\ w_connected r1.2 = false /\ w_connected r2.2 = true)
  /\ Forall (fun r => w_connected r.2 = false /\ w_minted r.2 = w_minted w
                      /\ iat r.1 = iat s /\ jwt r.1 = jwt s)
       (world_calls (mqttConnectAsync upstream_backoff true) es s w).
Proof.
  apply (stale_token_paths upstream_backoff true (1000, false) (2000, false)
           (replicate 6 (70000, false)) (shown_world []).1 (shown_world []).2).
  - by apply (bool_decide_unpack _).
  - simpl. lia.
  - apply Forall_replicate. simpl. lia.
Defined.
