(* ===== verification/Mint.v ===== *)
(** * A credential provider that fails

    The specification lets the credential provider fail: it then returns an
    empty token (section 6), and the attempt is to be given up and retried
    after the delay of the back-off (section 7).  [mqttConnect] has no such
    path.  This file adds the failure to the reference environment
    ([faulty_env]: the environment of [World.v] with a provider that mints
    or fails as a list of outcomes says) and follows [mqttConnect] and
    [loop] through it.

    A failed mint leaves the expiry of the device where it was.  On a
    device whose token has expired, or that never had one, the expiry test
    of [loop] therefore stays true for as long as the provider fails: every
    call of [loop] presents the empty token to the broker, and the delay of
    the back-off, raised at every call, is never waited for
    ([mint_outage_storm]).  With no failure in store the environment is the
    reference environment ([mrun_healthy]), and the call of [loop] that
    follows the outage connects ([mint_outage_ends]). *)

From S2P Require Import Prelude Machine Lwmqtt Backoff Effects State Diagnostics.
From S2P Require Import Controller World Fixtures Connect Tick Lifecycle.

#[local] Open Scope Z_scope.
#[local] Abbreviation St := CloudIoTCoreMqtt.

(** ** The environment *)

(** What the provider does of a call of [getJwt]: it mints a token, or it
    fails, returns the empty token and leaves [stamp] in [iat] (zero when
    the clock of the device is not set). *)
Inductive MintOutcome : Set :=
| Minted
| MintFails (stamp : Z).

#[export] Instance MintOutcome_eq_dec : EqDecision MintOutcome.
Proof. solve_decision. Defined.

(** The reference world with the outcomes of the mints to come. *)
Record FWorld : Set := {
  f_world : RWorld;
  f_mints : list MintOutcome
}.

Definition lift_world {X} (r : X * RWorld) (f : FWorld) : X * FWorld :=
  (r.1, {| f_world := r.2; f_mints := f_mints f |}).

Definition faulty_getJwt (f : FWorld) : (string * Z) * FWorld :=
  match hd Minted (f_mints f) with
  | Minted =>
      let r := world_getJwt (f_world f) in
      (r.1, {| f_world := r.2; f_mints := tl (f_mints f) |})
  | MintFails stamp => (("", stamp), {| f_world := f_world f; f_mints := tl (f_mints f) |})
  end.

Definition faulty_handle X (c : Call X) (f : FWorld) : X * FWorld :=
  match c in Call X return X * FWorld with
  | getJwt => faulty_getJwt f
  | c' => lift_world (world_handle _ c' (f_world f)) f
  end.

Definition faulty_env : Env := {| World := FWorld; handle := faulty_handle |}.

(** The reference world with a provider that has no failure in store. *)
Definition healthy (w : RWorld) : FWorld := {| f_world := w; f_mints := [] |}.

Definition faulty_between (e : Z * bool) (f : FWorld) : FWorld :=
  {| f_world := world_between e (f_world f); f_mints := f_mints f |}.

(** The periodic driver in this environment: the fields, the world and the
    trace of each call of [loop]. *)
Fixpoint faulty_ticks (cfg : BackoffConfig) `{RA : RetryArith} (es : list (Z * bool))
    (s : St) (f : FWorld) : list (St * FWorld * list Event) :=
  match es with
  | [] => []
  | e :: es' =>
      let r := mrun faulty_env (loop cfg) s (faulty_between e f) in
      (fields_after r, world_after r, trace_after r)
      :: faulty_ticks cfg es' (fields_after r) (world_after r)
  end.

(** A trace without a call of [getJwt]. *)
Definition mintless (t : list Event) : Prop := Forall (fun e => is_getJwt e = false) t.

(** The token has expired, or none was ever minted; the clock has not
    wrapped. *)
Definition lapsed (w : RWorld) : Prop := 0 <= w_exp w < w_clock w.

#[export] Instance lapsed_dec w : Decision (lapsed w).
Proof. unfold lapsed. apply _. Defined.

(** The provider fails at each of the next [n] calls. *)
Definition mint_outage (n : nat) (f : FWorld) : Prop :=
  (n <= length (f_mints f))%nat /\ Forall (fun m => m <> Minted) (take n (f_mints f)).

#[export] Instance mint_outage_dec n f : Decision (mint_outage n f).
Proof. unfold mint_outage. apply _. Defined.

(** A device just started, five seconds after boot, whose provider fails
    four times before it mints. *)
Definition unprovisioned : FWorld :=
  {| f_world := elapse 5000 (world_start [] []);
     f_mints := [MintFails 0; MintFails 0; MintFails 0; MintFails 0] |}.

(** ** A provider that does not fail

    With no failure in store the environment is the reference
    environment. *)

Lemma handle_healthy X (c : Call X) w :
  handle faulty_env c (healthy w)
  = ((handle world_env c w).1, healthy (handle world_env c w).2).
Proof. by destruct c. Qed.

Lemma run_healthy {A} (p : Prog A) w :
  run faulty_env p (healthy w)
  = let r := run world_env p w in (r.1.1, healthy r.1.2, r.2).
Proof.
  revert w. induction p as [a|X c k IH]; intros w; [done|].
  cbn [run]. rewrite handle_healthy. destruct (handle world_env c w) as [x w1].
  cbn [fst snd]. rewrite IH. by destruct (run world_env (k x) w1) as [[? ?] ?].
Qed.

Lemma mrun_healthy {A} (m : M St A) s w :
  let r := mrun world_env m s w in
  mrun faulty_env m s (healthy w)
  = (returned r, fields_after r, healthy (world_after r), trace_after r).
Proof.
  unfold mrun. rewrite run_healthy.
  by destruct (run world_env (m s) w) as [[[? ?] ?] ?].
Qed.

(** ** Calls other than [getJwt] *)

Lemma answered_lift e f :
  is_getJwt e = false -> answered faulty_env e f <-> answered world_env e (f_world f).
Proof. by destruct e. Qed.

Lemma after_lift e f :
  is_getJwt e = false ->
  after faulty_env e f = {| f_world := after world_env e (f_world f); f_mints := f_mints f |}.
Proof. by destruct e. Qed.

(** A trace without a mint is replayed by the reference environment, and
    the provider is as it was. *)
Lemma replays_lift t f f' :
  mintless t ->
  replays faulty_env t f f'
  <-> replays world_env t (f_world f) (f_world f') /\ f_mints f' = f_mints f.
Proof.
  intros Ht. revert f. induction Ht as [|e t He Ht IH]; intros f.
  - cbn [replays]. split; [by intros ->|]. destruct f, f'. simpl. by intros [-> ->].
  - cbn [replays]. rewrite answered_lift, after_lift, IH by done. simpl. tauto.
Qed.

(** Reduction of a replay in this environment. *)
Ltac faulty_cbn H :=
  cbn [replays answered after decode pack handle faulty_env faulty_handle world_handle
       lift_world f_world f_mints fst snd app projT1 projT2] in H.

Section Failure.
Context (cfg : BackoffConfig).

Lemma faulty_getJwt_fails w mints stamp :
  hd Minted mints = MintFails stamp ->
  faulty_getJwt {| f_world := w; f_mints := mints |}
  = (("", stamp), {| f_world := w; f_mints := tl mints |}).
Proof. unfold faulty_getJwt. simpl. by intros ->. Qed.

(** What follows the mint in [mqttConnect] has no other. *)
Lemma connect_tail_mintless s a :
  mintless (drop 2 (mqttConnect_trace cfg (set_iat 0 s) a)).
Proof.
  unfold mqttConnect_trace, mint_trace, logError_trace, logReturnCode_trace,
    logConfiguration_trace, increaseBackoff_trace, subscribe_and_notify_trace,
    onConnect_trace, mintless.
  rewrite decide_True by done. cbn [drop app].
  destruct (connect_failed _ _), (logConnect _); simpl; repeat constructor.
Qed.

Lemma loop_prefix_mintless `{RA : RetryArith} s a : mintless (loop_prefix s a).
Proof.
  unfold loop_prefix, mintless.
  destruct (token_expired a), (tick_was_connected a), (tick_connected a), (gate_open _ _ _);
    simpl; repeat constructor.
Qed.

(** The two events that open an attempt of [loop] when the mint fails: the
    token is empty, and the world is as it was. *)
Lemma failed_mint_head s a f f1 stamp :
  hd Minted (f_mints f) = MintFails stamp ->
  replays faulty_env (take 2 (mqttConnect_trace cfg (set_iat 0 s) a)) f f1 ->
  ans_token a = "" /\ ans_stamp a = stamp
  /\ f1 = {| f_world := f_world f; f_mints := tl (f_mints f) |}.
Proof.
  intros Hm. unfold mqttConnect_trace, mint_trace. rewrite decide_True by done.
  cbn [take app]. intros H. faulty_cbn H. rewrite (faulty_getJwt_fails _ _ _ Hm) in H.
  by destruct H as (_ & [= <- <-] & ->).
Qed.

(** What follows, in the reference environment: the broker does not let
    the empty token through, and nothing it decides on changes. *)
Lemma failed_mint_tail s a w w' :
  ans_token a = "" -> token_accepted "" w = false ->
  replays world_env (drop 2 (mqttConnect_trace cfg (set_iat 0 s) a)) w w' ->
  w_connected w' = false /\ w_token w' = w_token w /\ w_minted w' = w_minted w
  /\ w_clock w' = w_clock w /\ w_exp w' = w_exp w
  /\ w_network w' = tl (w_network w).
Proof.
  intros Htok Ht. unfold mqttConnect_trace, mint_trace, after_mint.
  rewrite !decide_True by done. cbn [drop app]. intros H. replay_cbn H.
  destruct H as (_ & Hres & _ & _ & _ & H). revert Hres H. state_simpl.
  rewrite Htok, (stale_outcome _ _ Ht). intros _ H.
  replay_end H; by subst w'.
Qed.

(** An attempt of [loop] while the provider fails. *)
Lemma failed_mint_attempt s a f f' stamp :
  hd Minted (f_mints f) = MintFails stamp ->
  token_accepted "" (f_world f) = false ->
  replays faulty_env (mqttConnect_trace cfg (set_iat 0 s) a) f f' ->
  ans_token a = "" /\ f_mints f' = tl (f_mints f)
  /\ w_connected (f_world f') = false /\ w_token (f_world f') = w_token (f_world f)
  /\ w_minted (f_world f') = w_minted (f_world f)
  /\ w_clock (f_world f') = w_clock (f_world f) /\ w_exp (f_world f') = w_exp (f_world f)
  /\ w_network (f_world f') = tl (w_network (f_world f)).
Proof.
  intros Hm Ht H. rewrite <- (take_drop 2 (mqttConnect_trace _ _ _)) in H.
  apply replays_app in H as (f1 & Hhead & Htail).
  apply failed_mint_head with (1 := Hm) in Hhead as (Htok & _ & ->).
  apply replays_lift in Htail as [Htail ->]; [|apply connect_tail_mintless].
  split; [done|]. split; [done|]. by apply (failed_mint_tail s a).
Qed.

(** A tick of [loop] on a lapsed token while the provider fails: the token
    counts as expired, so the call connects whatever the delay; the empty
    token is presented; the session is down afterwards, and the expiry is
    where it was. *)
Lemma failed_mint_tick `{RA : RetryArith} s f stamp :
  lapsed (f_world f) -> w_clock (f_world f) <= ULONG_MAX ->
  hd Minted (f_mints f) = MintFails stamp ->
  token_accepted "" (f_world f) = false ->
  let r := mrun faulty_env (loop cfg) s f in
  passwords (trace_after r) = [""]
  /\ w_connected (f_world (world_after r)) = false
  /\ w_clock (f_world (world_after r)) = w_clock (f_world f)
  /\ w_exp (f_world (world_after r)) = w_exp (f_world f)
  /\ token_accepted "" (f_world (world_after r)) = false
  /\ f_mints (world_after r) = tl (f_mints f)
  /\ w_network (f_world (world_after r)) = tl (w_network (f_world f)).
Proof.
  intros [He Hc] Hu Hm Ht.
  executed as [(a & -> & ->)%loop_runs Hrep]. unfold loop_trace in Hrep.
  apply replays_app in Hrep as (f1 & Hpre & H).
  apply replays_lift in Hpre as [Hpre Hm1]; [|apply loop_prefix_mintless].
  destruct (loop_prefix_in_world _ _ _ _ Hpre) as (Hn & Hx & _ & _ & Hw1).
  assert (token_expired a = true) as Hexp.
  { unfold token_expired. rewrite Hn, Hx, !wrap_ulong_id by (unfold in_ulong; lia).
    apply bool_decide_eq_true. lia. }
  assert (loop_reconnects s a = true) as Hr by (unfold loop_reconnects; by rewrite Hexp).
  rewrite Hexp in Hw1. rewrite Hr in H.
  apply replays_app in H as (f2 & H & Hl). faulty_cbn Hl. destruct Hl as [_ ->].
  rewrite <- Hm1 in Hm.
  assert (token_accepted "" (f_world f1) = false) as Ht1 by (by rewrite Hw1).
  destruct (failed_mint_attempt _ _ _ _ _ Hm Ht1 H) as (Htok & ? & ? & ? & ? & ? & ? & ?).
  rewrite loop_trace_reconnect_passwords, Htok by done. cbn [lift_world f_world f_mints fst snd].
  rewrite Hw1 in *. simpl in *.
  split_and!; [done..| |congruence|done]. by rewrite (token_accepted_ext _ (f_world f)).
Qed.

(** ** A schedule *)

(** An outage of the provider that lasts: the next call fails, and the
    outage goes on after it. *)
Lemma mint_outage_next n f :
  mint_outage (S n) f ->
  exists stamp, hd Minted (f_mints f) = MintFails stamp
    /\ forall w, mint_outage n {| f_world := w; f_mints := tl (f_mints f) |}.
Proof.
  unfold mint_outage. destruct (f_mints f) as [|[|stamp] l]; simpl; [lia| |].
  - by intros [_ [? _]%Forall_cons].
  - intros [? [_ ?]%Forall_cons]. exists stamp. split; [done|]. intros _. split; [lia|done].
Qed.

Lemma lapsed_between e w : 0 <= e.1 -> lapsed w -> lapsed (world_between e w).
Proof. unfold lapsed, world_between. destruct e as [d []]; simpl; lia. Qed.

(** C17. While the provider cannot mint.  On a device whose token has
    expired or that never had one, as long as the credential provider
    fails, every call of [loop] makes a connect that presents the empty
    token, however soon after the call before and whatever the delay of the
    back-off has grown to; the session is down after each (the clock not
    having wrapped, the broker not accepting the empty token).  The attempt
    is not given up, and the delay is not waited for. *)
Theorem mint_outage_storm `{RA : RetryArith} es s f :
  forward es -> lapsed (f_world f) -> w_clock (f_world f) + span es <= ULONG_MAX ->
  token_accepted "" (f_world f) = false -> mint_outage (length es) f ->
  Forall (fun r => passwords r.2 = [""] /\ w_connected (f_world r.1.2) = false)
    (faulty_ticks cfg es s f).
Proof.
  intros Hf. revert s f.
  induction Hf as [|e es He Hf IH]; intros s f Hl Hc Ht Ho; [done|].
  pose proof (span_nonneg es Hf) as Hsp. rewrite span_cons in Hc.
  apply mint_outage_next in Ho as (stamp & Hm & Ho).
  apply (lapsed_between e) in Hl; [|done].
  apply (unaccepted_between _ e) in Ht; [|done].
  assert (w_clock (world_between e (f_world f)) = w_clock (f_world f) + e.1) as Hck
    by (by destruct e as [d []]).
  destruct (failed_mint_tick s (faulty_between e f) stamp)
    as (Hp & Hd & Hk & Hx & Ha & Hm' & _);
    [done|simpl; lia|done..|].
  cbn [faulty_ticks]. constructor; [done|].
  destruct (world_after _) as [w' l'] eqn:Hw'. simpl in *.
  apply IH; simpl; [unfold lapsed in *; simpl in *; lia|lia|done|by subst l'].
Qed.

(** ** The end of the outage *)

(** On a lapsed token a tick is due. *)
Lemma lapsed_due `{RA : RetryArith} s w :
  lapsed w -> w_clock w <= ULONG_MAX ->
  due (system_input cfg (system_of s w)) (sys_life (system_of s w)) = true.
Proof.
  intros [He Hc] Hu. unfold due, system_input. simpl.
  rewrite !wrap_ulong_id by (unfold in_ulong; lia). rewrite bool_decide_true; [done|lia].
Qed.

(** The tick after the provider has recovered connects, the network
    letting it through. *)
Lemma healthy_tick_connects `{RA : RetryArith} s w :
  lapsed w -> w_clock w <= ULONG_MAX -> hd Accept (w_network w) = Accept ->
  let r := mrun faulty_env (loop cfg) s (healthy w) in
  w_connected (f_world (world_after r)) = true.
Proof.
  intros Hl Hu Hn. rewrite mrun_healthy.
  change (w_connected (world_after (mrun world_env (loop cfg) s w)) = true).
  pose proof (loop_mrun_in_world cfg s w) as Hsys. cbv zeta in Hsys.
  rewrite (system_tick_due cfg _ (lapsed_due s w Hl Hu)) in Hsys.
  apply (f_equal (fun y => a_session (sys_life y))) in Hsys.
  eapply abstraction_connected. etrans; [exact Hsys|].
  unfold attempt, settle, system_input. simpl. by rewrite Hn.
Qed.

(** The provider fails at each call of an outage and mints at the next:
    that call connects, the network letting every connect through. *)
Lemma mint_outage_ends `{RA : RetryArith} es e s f :
  forward es -> 0 <= e.1 -> lapsed (f_world f) ->
  w_clock (f_world f) + span es + e.1 <= ULONG_MAX ->
  token_accepted "" (f_world f) = false ->
  mint_outage (length es) f -> length (f_mints f) = length es ->
  w_network (f_world f) = [] ->
  exists r, last (faulty_ticks cfg (es ++ [e]) s f) = Some r
    /\ w_connected (f_world r.1.2) = true.
Proof.
  intros Hf He. revert s f.
  induction Hf as [|e1 es He1 Hf IH]; intros s f Hl Hc Ht Ho Hlen Hn.
  - destruct f as [w [|??]]; [|done]. simpl in *. eexists. split; [done|].
    apply healthy_tick_connects; [by apply lapsed_between| |];
      destruct e as [d []]; simpl in *; first [lia | by rewrite Hn].
  - pose proof (span_nonneg es Hf) as Hsp. rewrite span_cons in Hc.
    apply mint_outage_next in Ho as (stamp & Hm & Ho).
    apply (lapsed_between e1) in Hl; [|done].
    apply (unaccepted_between _ e1) in Ht; [|done].
    assert (w_clock (world_between e1 (f_world f)) = w_clock (f_world f) + e1.1
            /\ w_network (world_between e1 (f_world f)) = []) as [Hck Hnw]
      by (by destruct e1 as [d []]).
    destruct (failed_mint_tick s (faulty_between e1 f) stamp)
      as (_ & _ & Hk & Hx & Ha & Hm' & Hn'); [done|simpl; lia|done..|].
    cbn [app faulty_ticks]. rewrite last_cons.
    destruct (world_after _) as [w' l'] eqn:Hw'. simpl in Hk, Hx, Ha, Hm', Hn'.
    destruct (IH (fields_after (mrun faulty_env (loop cfg) s (faulty_between e1 f)))
                {| f_world := w'; f_mints := l' |}) as (r & -> & Hr); simpl;
      [unfold lapsed in *; simpl in *; lia|lia|done|by subst l'| |by rewrite Hn', Hnw|by exists r].
    subst l'. destruct (f_mints f); simpl in *; [done|lia].
Qed.

End Failure.



(** A device just started whose provider fails four times: calls of [loop]
    ten milliseconds apart each present the empty token while the delay
    grows to sixteen seconds; the fifth call mints and connects. *)
Example unprovisioned_run :
  map (fun r => (passwords r.2, w_connected (f_world r.1.2), __backoff__ r.1.1))
    (faulty_ticks (RA := int_arith) upstream_backoff (replicate 5 (10, false))
       constructed unprovisioned)
  = [([""], false, 2000); ([""], false, 4000); ([""], false, 8000);
     ([""], false, 16000); (["jwt-1"], true, 1000)].
Proof. by vm_compute. Qed.

Lemma mint_outage_storm_witness :
  Forall (fun r => passwords r.2 = [""] /\ w_connected (f_world r.1.2) = false)
    (faulty_ticks (RA := int_arith) upstream_backoff (replicate 4 (10, false))
       constructed unprovisioned).
Proof.
  apply (@mint_outage_storm upstream_backoff int_arith (replicate 4 (10, false))
           constructed unprovisioned).
  - apply Forall_replicate. simpl. lia.
  - by vm_compute.
  - by vm_compute.
  - reflexivity.
  - by apply (bool_decide_unpack _).
Defined.
