(* ===== verification/Inbox.v ===== *)
(** * The inbound channel

    The side of the transport session that the controller never reads: the
    handler registered by [startMQTT], the subscriptions made after each
    connect, and the messages that the pump of [loop] hands to the handler
    (sections 6 and 9 of the specification: the handler is invoked by the
    session when a message arrives on a subscribed topic; delivery is an
    explicit queue drained by the driver loop, in order).

    The channel is a fold over the trace of the controller: it watches the
    calls [onMessage], [connect], [subscribe] and [loop] with their answers
    and nothing else, so it cannot influence the controller.  A message is
    addressed by the topic filter it arrives under; matching names against
    wildcards is the broker's.  The fourth argument of [connect] is read as
    the interface of the specification names it, the clean-session flag.

    [channel_tick] is what one call of [loop] does to the channel, as a
    function of whether a connect was attempted and whether the session is
    up afterwards; [loop_mrun_mail] shows that the fold over the trace of
    [loop] in the reference environment is this function.  On it rest the
    theorems over schedules: the subscriptions are held whenever the session
    is up, messages are delivered in the order of their arrival and none is
    lost over reconnects, and a session that stays up drains the queue. *)

From stdpp Require Import gmap.
From S2P Require Import Prelude Machine Lwmqtt Backoff Effects State Diagnostics.
From S2P Require Import Controller World Fixtures Connect Tick Lifecycle.

#[local] Open Scope Z_scope.

(** ** The mailbox *)

(** A message: the topic it arrives under and its payload. *)
Definition Message : Type := string * string.

Record Mailbox : Type := {
  mb_handler : bool;                  (* a handler is registered *)
  mb_subs : gmap string Z;            (* the subscriptions, with their QoS *)
  mb_pending : list Message;          (* arrived, oldest first *)
  mb_delivered : list Message         (* handed to the handler, oldest first *)
}.

Definition mailbox_start : Mailbox :=
  {| mb_handler := false; mb_subs := ∅; mb_pending := []; mb_delivered := [] |}.

(** [onMessage(handler)]. *)
Definition register (b : Mailbox) : Mailbox :=
  {| mb_handler := true; mb_subs := mb_subs b; mb_pending := mb_pending b;
     mb_delivered := mb_delivered b |}.

(** [subscribe(topic, qos)] on a session that is up. *)
Definition subscribe (topic : string) (qos : Z) (b : Mailbox) : Mailbox :=
  {| mb_handler := mb_handler b; mb_subs := <[topic := qos]> (mb_subs b);
     mb_pending := mb_pending b; mb_delivered := mb_delivered b |}.

(** A connect that asks for a clean session: the subscriptions and the
    messages kept for the client are discarded. *)
Definition forget (b : Mailbox) : Mailbox :=
  {| mb_handler := mb_handler b; mb_subs := ∅; mb_pending := [];
     mb_delivered := mb_delivered b |}.

(** [pump()] on a session that is up: the oldest message is handed to the
    handler; without a handler it is dropped. *)
Definition deliver (b : Mailbox) : Mailbox :=
  match mb_pending b with
  | [] => b
  | m :: ms =>
      {| mb_handler := mb_handler b; mb_subs := mb_subs b; mb_pending := ms;
         mb_delivered := if mb_handler b then mb_delivered b ++ [m] else mb_delivered b |}
  end.

Definition subscribed (b : Mailbox) (m : Message) : Prop := is_Some (mb_subs b !! m.1).

#[export] Instance subscribed_dec b m : Decision (subscribed b m).
Proof. unfold subscribed. apply _. Defined.

(** Messages reach the broker: those on a subscribed topic are kept for
    the client. *)
Definition arrive (ms : list Message) (b : Mailbox) : Mailbox :=
  {| mb_handler := mb_handler b; mb_subs := mb_subs b;
     mb_pending := mb_pending b ++ filter (subscribed b) ms;
     mb_delivered := mb_delivered b |}.

(** ** The channel along a trace *)

(** What a call of the controller does to the mailbox. *)
Definition mail_event (e : Event) (b : Mailbox) : Mailbox :=
  match e with
  | EvOnMessage => register b
  | EvConnect _ _ _ clean result => if result && clean then forget b else b
  | EvSubscribe topic qos result => if result then subscribe topic qos b else b
  | EvLoop result => if result then deliver b else b
  | _ => b
  end.

Definition mail_after (t : list Event) (b : Mailbox) : Mailbox :=
  foldl (fun b e => mail_event e b) b t.

(** The events the mailbox watches. *)
Definition mail_relevant (e : Event) : bool :=
  match e with
  | EvOnMessage | EvConnect _ _ _ _ _ | EvSubscribe _ _ _ | EvLoop _ => true
  | _ => false
  end.

(** ** A tick, seen from the channel *)

(** One call of [loop]: after an attempt that leaves the session up the two
    topics are subscribed; the pump delivers when the session is up. *)
Definition channel_tick (dev : CloudIoTCoreDevice) (attempted up : bool)
    (b : Mailbox) : Mailbox :=
  let b1 := if attempted && up
            then subscribe (getCommandsTopic dev) 0 (subscribe (getConfigTopic dev) 1 b)
            else b in
  if up then deliver b1 else b1.

(** What the periodic driver finds between two calls: the time that passes,
    whether the session breaks, the messages that arrive. *)
Definition Beat : Type := Z * bool * list Message.

(** The controller ticking in the reference environment, with the channel. *)
Fixpoint mail_ticks (cfg : BackoffConfig) `{RA : RetryArith} (es : list Beat)
    (s : CloudIoTCoreMqtt) (w : RWorld) (b : Mailbox)
    : CloudIoTCoreMqtt * RWorld * Mailbox :=
  match es with
  | [] => (s, w, b)
  | e :: es' =>
      let r := mrun world_env (loop cfg) s (world_between e.1 w) in
      mail_ticks cfg es' (fields_after r) (world_after r)
        (mail_after (trace_after r) (arrive e.2 b))
  end.

(** Everything routed to the client so far, in order of arrival. *)
Definition mail_log (b : Mailbox) : list Message := mb_delivered b ++ mb_pending b.

(** The session is up only with both subscriptions in place. *)
Definition subscriptions_held (s : CloudIoTCoreMqtt) (w : RWorld) (b : Mailbox) : Prop :=
  w_connected w = true ->
  mb_subs b !! getConfigTopic (device s) = Some 1
  /\ mb_subs b !! getCommandsTopic (device s) = Some 0.

(** A schedule without breaks and arrivals. *)
Definition quiet (es : list Beat) : Prop := Forall (fun e => e.1.2 = false /\ e.2 = []) es.

(** ** A run for the examples *)

(** The mailbox after [startMQTT]. *)
Definition started_mailbox : Mailbox := register mailbox_start.

(** The first connect goes through; a message for another device is not
    routed; the session breaks while a second configuration arrives, and
    the connect that follows fails. *)
Definition demo_beats : list Beat :=
  [(5000, false, []);
   (1000, false, [(getConfigTopic demo_device, "cfg-1"); ("/devices/other/config", "x");
                  (getCommandsTopic demo_device, "go")]);
   (1000, true, [(getConfigTopic demo_device, "cfg-2")]);
   (1000, false, []);
   (3000, false, [])].

Definition demo_network : list Outcome := [Accept; Break LWMQTT_NETWORK_TIMEOUT; Accept].

(** ** The fold *)

Lemma mail_after_app t1 t2 b : mail_after (t1 ++ t2) b = mail_after t2 (mail_after t1 b).
Proof. apply foldl_app. Qed.

Lemma mail_after_cons e t b : mail_after (e :: t) b = mail_after t (mail_event e b).
Proof. done. Qed.

Lemma mail_after_silent t b :
  forallb (fun e => negb (mail_relevant e)) t = true -> mail_after t b = b.
Proof.
  revert b. induction t as [|e t IH]; intros b; [done|]. simpl.
  intros [He Ht]%andb_prop. rewrite IH by done. by destruct e.
Qed.

(** The diagnostics and the tests of [loop] do not touch the channel. *)
Lemma logError_mail e1 e2 b : mail_after (logError_trace e1 e2) b = b.
Proof. by apply mail_after_silent. Qed.

Lemma logReturnCode_mail rc1 rc2 b : mail_after (logReturnCode_trace rc1 rc2) b = b.
Proof. by apply mail_after_silent. Qed.

Lemma logConfiguration_mail s b : mail_after (logConfiguration_trace s) b = b.
Proof. by apply mail_after_silent. Qed.

Lemma onConnect_mail s p1 p2 b : mail_after (onConnect_trace s p1 p2) b = b.
Proof. apply mail_after_silent. unfold onConnect_trace. by destruct (logConnect s). Qed.

Lemma startMQTT_registers s t u s' b :
  mruns startMQTT s t u s' -> mail_after t b = register b.
Proof. by intros [-> _]%startMQTT_runs. Qed.

Section Channel.
Context (cfg : BackoffConfig) `{RA : RetryArith}.

Lemma increaseBackoff_mail s r b : mail_after (increaseBackoff_trace cfg s r) b = b.
Proof. by apply mail_after_silent. Qed.

Lemma loop_prefix_mail s a b : mail_after (loop_prefix s a) b = b.
Proof.
  apply mail_after_silent. unfold loop_prefix.
  by destruct (token_expired a), (tick_was_connected a), (tick_connected a), (gate_open _ _ _).
Qed.

(** [mqttConnect] never asks for a clean session; what the channel sees of
    it are the two subscriptions. *)
Lemma mqttConnect_mail s a b :
  mail_after (mqttConnect_trace cfg s a) b
  = mail_after [EvSubscribe (getConfigTopic (device s)) 1 (ans_sub_config a);
                EvSubscribe (getCommandsTopic (device s)) 0 (ans_sub_commands a)] b.
Proof.
  unfold mqttConnect_trace, mint_trace, subscribe_and_notify_trace.
  rewrite mail_after_cons, mail_after_app, !mail_after_cons, mail_after_app, !mail_after_cons.
  rewrite onConnect_mail. cbn [mail_event andb]. rewrite andb_false_r.
  f_equal. f_equal.
  destruct (connect_failed _ _); [|by destruct (decide _)].
  rewrite mail_after_cons, !mail_after_app, logError_mail, logReturnCode_mail,
    logConfiguration_mail, increaseBackoff_mail.
  by destruct (decide _).
Qed.

Lemma loop_mail s a b :
  mail_after (loop_trace cfg s a) b
  = mail_after
      ((if loop_reconnects s a
        then [EvSubscribe (getConfigTopic (device s)) 1 (ans_sub_config (tick_connect a));
              EvSubscribe (getCommandsTopic (device s)) 0 (ans_sub_commands (tick_connect a))]
        else []) ++ [EvLoop (tick_loop a)]) b.
Proof.
  unfold loop_trace. rewrite !mail_after_app, loop_prefix_mail.
  destruct (loop_reconnects s a); [|done]. by rewrite mqttConnect_mail.
Qed.

(** One call of [loop] in the reference environment is one tick of the
    channel. *)
Lemma loop_mail_in_world s a w w' b :
  replays world_env (loop_trace cfg s a) w w' ->
  mail_after (loop_trace cfg s a) b
  = channel_tick (device s) (due (input_of cfg w) (abstraction s w)) (w_connected w') b.
Proof.
  intros H. rewrite loop_mail. unfold loop_trace in H.
  apply replays_app in H as (w1 & Hpre & H). apply replays_app in H as (w2 & H & Hl).
  replay_cbn Hl. destruct Hl as [Hloop ->].
  rewrite <- (loop_due cfg s a w w1 Hpre). unfold channel_tick.
  destruct (loop_reconnects s a).
  - assert (iat (set_iat 0 s) = 0) as Hi by done.
    destruct (mqttConnect_in_world cfg _ _ _ _ Hi H)
      as (_ & _ & _ & _ & _ & Hc & _ & _ & _ & _ & -> & -> & _).
    rewrite <- Hc, <- Hloop. by destruct (w_connected w2).
  - simpl in H. subst w2. rewrite <- Hloop. by destruct (w_connected w1).
Qed.

Lemma loop_mrun_mail s w b :
  let r := mrun world_env (loop cfg) s w in
  mail_after (trace_after r) b
  = channel_tick (device s) (due (input_of cfg w) (abstraction s w))
      (w_connected (world_after r)) b.
Proof.
  executed as [(a & -> & ->)%loop_runs Hrep]. by apply loop_mail_in_world.
Qed.

End Channel.

(** ** The mailbox by itself *)

Lemma deliver_handler b : mb_handler (deliver b) = mb_handler b.
Proof. unfold deliver. by destruct (mb_pending b). Qed.

Lemma deliver_subs b : mb_subs (deliver b) = mb_subs b.
Proof. unfold deliver. by destruct (mb_pending b). Qed.

(** With a handler in place the pump moves the oldest message from the
    queue to the handler. *)
Lemma deliver_moves b :
  mb_handler b = true ->
  mb_delivered (deliver b) = mb_delivered b ++ take 1 (mb_pending b)
  /\ mb_pending (deliver b) = drop 1 (mb_pending b).
Proof.
  unfold deliver. intros Hh. destruct b as [h subs [|m ms] ds]; simpl in *.
  - by rewrite app_nil_r.
  - by rewrite Hh.
Qed.

Lemma deliver_log b : mb_handler b = true -> mail_log (deliver b) = mail_log b.
Proof.
  intros [Hd Hp]%deliver_moves. unfold mail_log. rewrite Hd, Hp, <- app_assoc.
  by rewrite take_drop.
Qed.

Lemma deliver_iter n b :
  mb_handler b = true ->
  mb_handler (Nat.iter n deliver b) = true
  /\ mb_delivered (Nat.iter n deliver b) = mb_delivered b ++ take n (mb_pending b)
  /\ mb_pending (Nat.iter n deliver b) = drop n (mb_pending b).
Proof.
  intros Hh. induction n as [|n (IHh & IHd & IHp)]; simpl.
  { by rewrite app_nil_r. }
  destruct (deliver_moves _ IHh) as [-> ->]. rewrite deliver_handler, IHd, IHp.
  split_and!; [done| |by rewrite drop_drop, Nat.add_1_r].
  rewrite <- app_assoc. f_equal. rewrite <- (take_drop n (take (S n) _)).
  rewrite take_take, Nat.min_l, skipn_firstn_comm by lia. do 2 f_equal. lia.
Qed.

Lemma arrive_log ms b : mail_log (arrive ms b) = mail_log b ++ filter (subscribed b) ms.
Proof. unfold mail_log, arrive. simpl. by rewrite app_assoc. Qed.

Lemma arrive_nil b : arrive [] b = b.
Proof. unfold arrive. destruct b. simpl. by rewrite app_nil_r. Qed.

Section Tick.
Context (dev : CloudIoTCoreDevice) (attempted up : bool).

Lemma channel_tick_handler b : mb_handler (channel_tick dev attempted up b) = mb_handler b.
Proof. unfold channel_tick. destruct attempted, up; by rewrite ?deliver_handler. Qed.

(** A tick loses nothing and reorders nothing. *)
Lemma channel_tick_log b :
  mb_handler b = true -> mail_log (channel_tick dev attempted up b) = mail_log b.
Proof. unfold channel_tick. intros. destruct attempted, up; by rewrite ?deliver_log. Qed.

Lemma channel_tick_delivered b :
  mb_handler b = true ->
  mb_delivered b `prefix_of` mb_delivered (channel_tick dev attempted up b).
Proof.
  unfold channel_tick. intros Hh. destruct attempted, up; simpl; try done.
  all: match goal with |- _ `prefix_of` mb_delivered (deliver ?b1) =>
         destruct (deliver_moves b1 Hh) as [-> _] end.
  all: by apply prefix_app_r.
Qed.

Lemma channel_tick_idle b :
  attempted = false -> up = true -> channel_tick dev attempted up b = deliver b.
Proof. by intros -> ->. Qed.

(** After a tick that leaves the session up, the subscriptions are held
    when they were, or when the tick made an attempt. *)
Lemma channel_tick_subs b :
  getConfigTopic dev <> getCommandsTopic dev ->
  up = true ->
  attempted = true
  \/ (mb_subs b !! getConfigTopic dev = Some 1 /\ mb_subs b !! getCommandsTopic dev = Some 0) ->
  mb_subs (channel_tick dev attempted up b) !! getConfigTopic dev = Some 1
  /\ mb_subs (channel_tick dev attempted up b) !! getCommandsTopic dev = Some 0.
Proof.
  unfold channel_tick. intros Hne -> H. rewrite deliver_subs.
  destruct attempted; simpl; [|by destruct H].
  by rewrite lookup_insert_ne, !lookup_insert_eq.
Qed.

End Tick.

(** ** Schedules *)

Section Schedules.
Context (cfg : BackoffConfig) `{RA : RetryArith}.

(** A tick of the driver, with the channel computed by [channel_tick]. *)
Lemma mail_ticks_cons e es s w b :
  mail_ticks cfg (e :: es) s w b
  = let w0 := world_between e.1 w in
    let r := mrun world_env (loop cfg) s w0 in
    mail_ticks cfg es (fields_after r) (world_after r)
      (channel_tick (device s) (due (input_of cfg w0) (abstraction s w0))
         (w_connected (world_after r)) (arrive e.2 b)).
Proof. simpl. by rewrite loop_mrun_mail. Qed.

(** The channel does not act on the controller: with it or without it the
    fields and the world are the same. *)
Lemma mail_ticks_world es s w b :
  (mail_ticks cfg es s w b).1 = world_ticks cfg es.*1 s w.
Proof. revert s w b. induction es as [|e es IH]; intros s w b; [done|]. apply IH. Qed.

Lemma loop_mrun_device s w : device (fields_after (mrun world_env (loop cfg) s w)) = device s.
Proof.
  executed as [(a & _ & ->)%loop_runs _]. apply loop_state_settings.
Qed.

(** A call of [loop] that finds no reconnect due leaves the fields and the
    session as they are. *)
Lemma loop_mrun_idle s w :
  due (input_of cfg w) (abstraction s w) = false ->
  let r := mrun world_env (loop cfg) s w in
  fields_after r = s /\ w_connected (world_after r) = w_connected w
  /\ w_clock (world_after r) = w_clock w /\ w_exp (world_after r) = w_exp w.
Proof.
  intros Hdue. pose proof (loop_mrun_in_world cfg s w) as Hsys.
  destruct (mrun world_env (loop cfg) s w) as [[[u s'] w'] t] eqn:Hrun.
  apply mrun_replays in Hrun as [(a & -> & ->)%loop_runs Hrep].
  unfold fields_after, world_after in *. cbn [fst snd] in *.
  rewrite (system_tick_idle cfg (system_of s w) Hdue) in Hsys.
  unfold loop_trace in Hrep. apply replays_app in Hrep as (w1 & Hpre & _).
  unfold loop_state. rewrite (loop_due cfg s a w w1 Hpre), Hdue.
  split_and!; [done| |apply (f_equal sys_clock Hsys)|apply (f_equal sys_exp Hsys)].
  apply (f_equal (fun y => a_session (sys_life y))) in Hsys. simpl in Hsys.
  by destruct (w_connected w'), (w_connected w).
Qed.

Lemma world_between_connected e w :
  w_connected (world_between e w) = true -> w_connected w = true.
Proof. by destruct e as [d []]. Qed.

Lemma tick_subscriptions_held e s w b :
  getConfigTopic (device s) <> getCommandsTopic (device s) ->
  subscriptions_held s w b ->
  let r := mail_ticks cfg [e] s w b in subscriptions_held r.1.1 r.1.2 r.2.
Proof.
  intros Hne Hinv. rewrite mail_ticks_cons. cbn zeta. cbn [mail_ticks fst snd].
  intros Hup. rewrite loop_mrun_device. apply channel_tick_subs; [done..|].
  destruct (due _ _) eqn:Hdue; [by left|right].
  destruct (loop_mrun_idle _ _ Hdue) as (_ & Hc & _). rewrite Hup in Hc.
  by apply Hinv, (world_between_connected e.1).
Qed.

Lemma mail_ticks_app es1 es2 s w b :
  mail_ticks cfg (es1 ++ es2) s w b
  = let r := mail_ticks cfg es1 s w b in mail_ticks cfg es2 r.1.1 r.1.2 r.2.
Proof. revert s w b. induction es1 as [|e es1 IH]; intros s w b; [done|]. apply IH. Qed.

Lemma mail_ticks_device es s w b : device (mail_ticks cfg es s w b).1.1 = device s.
Proof.
  revert s w b. induction es as [|e es IH]; intros s w b; [done|].
  simpl. by rewrite IH, loop_mrun_device.
Qed.

(** With the session up and the token in force no reconnect is due,
    whatever the arithmetic of the gate. *)
Lemma due_up s w :
  w_connected w = true -> 0 <= w_clock w <= w_exp w -> w_exp w <= ULONG_MAX ->
  due (input_of cfg w) (abstraction s w) = false.
Proof.
  intros Hc ??. unfold due, input_of, abstraction. simpl. rewrite Hc.
  rewrite !wrap_ulong_id by (unfold in_ulong; lia).
  rewrite !bool_decide_false; [done|by intros ?|lia].
Qed.

Lemma quiet_ticks es s w b :
  w_connected w = true -> quiet es -> forward es.*1 ->
  0 <= w_clock w -> w_clock w + span es.*1 <= w_exp w -> w_exp w <= ULONG_MAX ->
  let r := mail_ticks cfg es s w b in
  r.1.1 = s /\ w_connected r.1.2 = true /\ r.2 = Nat.iter (length es) deliver b.
Proof.
  intros Hc Hq. revert w b Hc.
  induction Hq as [|[[d br] ms] es [Hbr Hms] Hq IH]; intros w b Hc Hf H0 Hsp Hex; [done|].
  simpl in Hbr, Hms. subst br ms. unfold forward in Hf. rewrite fmap_cons in Hf, Hsp.
  apply Forall_cons in Hf as [Hd Hf]. rewrite span_cons in Hsp.
  pose proof (span_nonneg _ Hf). simpl in Hd, Hsp. rewrite mail_ticks_cons. cbn zeta. cbn [fst snd world_between].
  assert (due (input_of cfg (elapse d w)) (abstraction s (elapse d w)) = false) as Hdue
    by (apply due_up; simpl; first [done | lia]).
  destruct (loop_mrun_idle _ _ Hdue) as (-> & Hc' & Hck & Hex').
  rewrite Hdue, Hc'. simpl (w_connected _). rewrite Hc, arrive_nil, channel_tick_idle by done.
  simpl (length _). rewrite Nat.iter_succ_r. apply IH; rewrite ?Hc', ?Hck, ?Hex'; simpl; first [done | lia].
Qed.

End Schedules.

(** ** The topics of a device *)

Lemma append_inv_head (p x y : string) : p +:+ x = p +:+ y -> x = y.
Proof. induction p as [|c p IH]; simpl; [done|]. intros [= H]. by apply IH. Qed.

(** The two topics [CloudIoTCoreDevice] derives for a device differ. *)
Lemma device_topics_distinct project location registry device_id :
  let dev := CloudIoTCoreDevice_new project location registry device_id in
  getConfigTopic dev <> getCommandsTopic dev.
Proof. simpl. by intros [=]%append_inv_head%append_inv_head. Qed.

(** ** The channel over schedules *)

Section Delivery.
Context (cfg : BackoffConfig) `{RA : RetryArith}.

(** C25. The subscriptions are in place whenever the session is up.  From a
    state in which that holds (in particular from any state with the session
    down), after the calls of [loop] of any schedule, with the session
    breaking and messages arriving at any of them and in any arithmetic of
    the retry gate: if the session is up then the config topic is subscribed
    at QoS 1 and the commands topic at QoS 0, provided the two topics
    differ. *)
Theorem subscribed_while_up es s w b :
  getConfigTopic (device s) <> getCommandsTopic (device s) ->
  subscriptions_held s w b ->
  let r := mail_ticks cfg es s w b in
  w_connected r.1.2 = true ->
  mb_subs r.2 !! getConfigTopic (device s) = Some 1
  /\ mb_subs r.2 !! getCommandsTopic (device s) = Some 0.
Proof.
  intros Hne Hinv. cbn zeta. rewrite <- (mail_ticks_device cfg es s w b).
  revert s w b Hne Hinv. induction es as [|e es IH]; intros s w b Hne Hinv; [done|].
  change (e :: es) with ([e] ++ es). rewrite mail_ticks_app. cbn zeta. apply IH.
  - by rewrite mail_ticks_device.
  - by apply tick_subscriptions_held.
Qed.


(** C26. A session that stays up drains the queue.  With a handler
    registered, the session up and the token in force for the whole
    schedule, the calls of [loop] of a schedule without breaks and arrivals
    leave the fields as they were and the session up, and hand the queued
    messages to the handler oldest first, one at each call, until none is
    left. *)
Theorem inbox_drains es s w b :
  mb_handler b = true -> w_connected w = true -> quiet es -> forward es.*1 ->
  0 <= w_clock w -> w_clock w + span es.*1 <= w_exp w -> w_exp w <= ULONG_MAX ->
  let r := mail_ticks cfg es s w b in
  r.1.1 = s /\ w_connected r.1.2 = true
  /\ mb_delivered r.2 = mb_delivered b ++ take (length es) (mb_pending b)
  /\ mb_pending r.2 = drop (length es) (mb_pending b).
Proof.
  intros Hh Hc Hq Hf H0 Hsp Hex.
  destruct (quiet_ticks cfg es s w b Hc Hq Hf H0 Hsp Hex) as (Hs & Hup & Hb).
  cbn zeta. rewrite Hb. by destruct (deliver_iter (length es) b Hh) as (_ & -> & ->).
Qed.

End Delivery.

(** ** The example run *)

(** The states of the session and of the channel after each call: the
    call that reconnects also pumps. *)
Example demo_run :
  map (fun n =>
         let r := mail_ticks (RA := int_arith) upstream_backoff (take n demo_beats)
                    constructed (world_start demo_network [137]) started_mailbox in
         (w_connected r.1.2, map snd (mb_delivered r.2), map snd (mb_pending r.2)))
      [1; 2; 3; 4; 5]%nat
  = [(true, [], []);
     (true, ["cfg-1"], ["go"]);
     (false, ["cfg-1"], ["go"; "cfg-2"]);
     (false, ["cfg-1"], ["go"; "cfg-2"]);
     (true, ["cfg-1"; "go"], ["cfg-2"])].
Proof. by vm_compute. Qed.

(** Without [startMQTT] no handler is registered and the pump drops what
    it takes from the queue. *)
Example unregistered_handler_drops :
  let r := mail_ticks (RA := int_arith) upstream_backoff demo_beats constructed
             (world_start demo_network [137]) mailbox_start in
  mb_delivered r.2 = [] /\ map snd (mb_pending r.2) = ["cfg-2"].
Proof. by vm_compute. Qed.

(** A connect that asks for a clean session, as [mqttConnectAsync(true)]
    does, discards what is queued; [mqttConnect] never does. *)
Example clean_session_forgets :
  let b := arrive [(getConfigTopic demo_device, "cfg-1")]
             (subscribe (getConfigTopic demo_device) 1 started_mailbox) in
  let channel_after (m : M CloudIoTCoreMqtt unit) :=
    mail_after (trace_after (mrun world_env m constructed (world_start [Accept] []))) b in
  map snd (mb_pending (channel_after (mqttConnectAsync upstream_backoff true))) = []
  /\ map snd (mb_pending (channel_after (mqttConnect upstream_backoff true))) = ["cfg-1"].
Proof. by vm_compute. Qed.

Lemma subscribed_while_up_witness :
  let r := mail_ticks (RA := int_arith) upstream_backoff demo_beats constructed
             (world_start demo_network [137]) started_mailbox in
  mb_subs r.2 !! getConfigTopic demo_device = Some 1
  /\ mb_subs r.2 !! getCommandsTopic demo_device = Some 0.
Proof.
  apply (subscribed_while_up upstream_backoff demo_beats constructed
           (world_start demo_network [137]) started_mailbox).
  - apply device_topics_distinct.
  - intros [=].
  - by vm_compute.
Defined.


Lemma inbox_drains_witness :
  let r0 := mail_ticks (RA := int_arith) upstream_backoff (take 2 demo_beats) constructed
              (world_start demo_network [137]) started_mailbox in
  let r := mail_ticks (RA := int_arith) upstream_backoff [(1000, false, []); (500, false, [])]
             r0.1.1 r0.1.2 r0.2 in
  r.1.1 = r0.1.1 /\ w_connected r.1.2 = true
  /\ mb_delivered r.2 = mb_delivered r0.2 ++ take 2 (mb_pending r0.2)
  /\ mb_pending r.2 = drop 2 (mb_pending r0.2).
Proof.
  set (r0 := mail_ticks (RA := int_arith) upstream_backoff (take 2 demo_beats) constructed
               (world_start demo_network [137]) started_mailbox).
  apply (inbox_drains upstream_backoff [(1000, false, []); (500, false, [])]
           r0.1.1 r0.1.2 r0.2).
  - by vm_compute.
  - by vm_compute.
  - by repeat constructor.
  - repeat constructor; simpl; lia.
  - by vm_compute.
  - by vm_compute.
  - by vm_compute.
Defined.
