(* ===== verification/Outbox.v ===== *)
(** * The outbound channel

    What the broker receives of the controller: the publishes that the
    session accepted.  [onConnect] publishes its two notifications after
    every attempt of [mqttConnect], failed or not, where the specification
    emits them on success.  The session refuses a publish while it is down,
    so the broker hears of the successful connects and of nothing else:
    over any schedule of calls of [loop] in the reference environment, the
    publishes received are the two notifications at each tick at which the
    machine of [Lifecycle] connects ([notifications_follow_connects]). *)

From S2P Require Import Prelude Machine Lwmqtt Backoff Effects State Diagnostics.
From S2P Require Import Controller World Fixtures Connect Tick Lifecycle.

#[local] Open Scope Z_scope.
#[local] Abbreviation St := CloudIoTCoreMqtt.

(** ** What the broker receives *)

(** A publish that the session accepted: the topic and the payload. *)
Definition received_of (e : Event) : option (string * string) :=
  match e with
  | EvPublish topic payload _ _ _ true => Some (topic, payload)
  | _ => None
  end.

Abbreviation received := (observe received_of).

(** The notifications of a connect. *)
Definition notifications (s : St) : list (string * string) :=
  if logConnect s
  then [(getStateTopic (device s), "connected");
        (getEventsTopic (device s) +:+ "/events", getDeviceId (device s) +:+ "-connected")]
  else [].

(** The traces of the calls of [loop] over a schedule. *)
Fixpoint world_traces (cfg : BackoffConfig) `{RA : RetryArith} (es : list (Z * bool))
    (s : St) (w : RWorld) : list (list Event) :=
  match es with
  | [] => []
  | e :: es' =>
      let r := mrun world_env (loop cfg) s (world_between e w) in
      trace_after r :: world_traces cfg es' (fields_after r) (world_after r)
  end.

(** The ticks of the machine at which a connect is made and succeeds. *)
Fixpoint connects_made (cfg : BackoffConfig) `{RA : RetryArith} (es : list (Z * bool))
    (y : System) : list bool :=
  match es with
  | [] => []
  | e :: es' =>
      let y0 := system_between e y in
      (due (system_input cfg y0) (sys_life y0) && connect_result (hd Accept (sys_network y0)))
      :: connects_made cfg es' (system_tick cfg y0)
  end.

Section Outbound.
Context (cfg : BackoffConfig) `{RA : RetryArith}.

Lemma loop_prefix_received s a : received (loop_prefix s a) = [].
Proof. trace_eval. Qed.

(** Of an attempt the broker receives the notifications that the session
    accepted. *)
Lemma mqttConnect_received s a :
  received (mqttConnect_trace cfg s a)
  = received (onConnect_trace s (ans_pub_state a) (ans_pub_events a)).
Proof. trace_eval. Qed.

Lemma onConnect_received s up :
  received (onConnect_trace s up up) = if up then notifications s else [].
Proof. unfold onConnect_trace, notifications. by destruct (logConnect s), up. Qed.

(** One call of [loop] in the reference environment: the broker receives
    the notifications when a connect is made and succeeds, and nothing
    otherwise. *)
Lemma loop_received_in_world s a w w' :
  replays world_env (loop_trace cfg s a) w w' ->
  received (loop_trace cfg s a)
  = if due (input_of cfg w) (abstraction s w) && connect_result (hd Accept (w_network w))
    then notifications s else [].
Proof.
  intros H. unfold loop_trace in H |- *.
  apply replays_app in H as (w1 & Hpre & H). apply replays_app in H as (w2 & H & _).
  rewrite !observe_app, loop_prefix_received, app_nil_r, <- (loop_due cfg s a w w1 Hpre).
  destruct (loop_prefix_in_world _ _ _ _ Hpre) as (_ & _ & _ & _ & Hw1).
  assert (w_network w1 = w_network w) as Hn by (subst w1; by destruct (token_expired a)).
  destruct (loop_reconnects s a); [|done]. cbn [andb].
  assert (iat (set_iat 0 s) = 0) as Hi by done.
  destruct (mqttConnect_in_world cfg _ _ _ _ Hi H)
    as (_ & _ & _ & _ & _ & _ & _ & _ & _ & _ & _ & _ & Hpub).
  rewrite mqttConnect_received, Hn in *. unfold onConnect_trace, notifications in *.
  change (logConnect (set_iat 0 s)) with (logConnect s) in *.
  destruct (logConnect s); [|by destruct (connect_result _)].
  destruct (Hpub eq_refl) as [-> ->]. by destruct (connect_result _).
Qed.

Lemma loop_mrun_received s w :
  let r := mrun world_env (loop cfg) s w in
  received (trace_after r)
  = if due (input_of cfg w) (abstraction s w) && connect_result (hd Accept (w_network w))
    then notifications s else [].
Proof. executed as [(a & -> & ->)%loop_runs Hrep]. by eapply loop_received_in_world. Qed.

Lemma loop_mrun_notifications s w :
  notifications (fields_after (mrun world_env (loop cfg) s w)) = notifications s.
Proof.
  executed as [(a & _ & ->)%loop_runs _]. unfold notifications.
  by destruct (loop_state_settings cfg s a) as (-> & -> & _).
Qed.

(** C18. The broker hears of the connects.  Over the calls of [loop] of any
    schedule in the reference environment, in any arithmetic of the retry
    gate, the publishes that the broker receives in a call are the two
    notifications of [onConnect] (none with [logConnect] cleared) when the
    machine makes a connect at that tick and the connect succeeds, and
    nothing otherwise: the notifications that [mqttConnect] publishes after
    a failed attempt do not reach the broker. *)
Theorem notifications_follow_connects es s w :
  map received (world_traces cfg es s w)
  = map (fun up : bool => if up then notifications s else [])
      (connects_made cfg es (system_of s w)).
Proof.
  revert s w. induction es as [|e es IH]; intros s w; [done|].
  cbn [world_traces connects_made map].
  rewrite IH, loop_mrun_received, loop_mrun_in_world, <- system_of_between.
  f_equal. apply map_ext. intros up. by rewrite loop_mrun_notifications.
Qed.

End Outbound.

(** The first connect breaks, the second is accepted; the session is lost
    and comes back: the broker receives the notifications twice. *)
Example notifications_run :
  let es := [(5000, false); (3000, false); (4000, true); (2000, false)] in
  let w := world_start [Break LWMQTT_NETWORK_TIMEOUT; Accept; Accept] [137] in
  map received (world_traces (RA := int_arith) upstream_backoff es constructed w)
  = [[]; notifications constructed; notifications constructed; []]
  /\ connects_made (RA := int_arith) upstream_backoff es (system_of constructed w)
     = [false; true; true; false].
Proof. by vm_compute. Qed.
