(* ===== verification/Scenarios.v ===== *)
(** * Scenarios

    Runs of the controller against scripted answers, decided by execution:
    the clean reconnect cycle of the specification, and the runs in which
    the code departs from what the specification or its own comments say.
    The script of a scenario lists the answers of the environment in the
    order of the calls; a call whose answer the script does not give at its
    place receives the default answer. *)

From S2P Require Import Prelude Machine Lwmqtt Backoff Effects State Diagnostics.
From S2P Require Import Controller World Fixtures.

#[local] Open Scope Z_scope.

(** ** The scripts *)

(** The first call of [loop] after the constructor: the clock reads five
    seconds, no token has been minted, the broker accepts the connect. *)
Definition first_tick_answers : LoopAnswers :=
  {| tick_now := 5000; tick_exp := 0; tick_was_connected := false;
     tick_disconnect := false; tick_connected := false; tick_now2 := 5001;
     tick_connect :=
       {| ans_token := "eyJ.first"; ans_stamp := 1700000000; ans_now := 5002;
          ans_result := true; ans_connected := true; ans_error := LWMQTT_SUCCESS;
          ans_error1 := LWMQTT_SUCCESS; ans_error2 := LWMQTT_SUCCESS;
          ans_rc1 := LWMQTT_CONNECTION_ACCEPTED; ans_rc2 := LWMQTT_CONNECTION_ACCEPTED;
          ans_jitter := 0; ans_sub_config := true; ans_sub_commands := true;
          ans_pub_state := true; ans_pub_events := true |};
     tick_loop := true |}.

Definition first_tick_script : list Event :=
  Eval vm_compute in
    loop_trace (RA := wide_arith) upstream_backoff constructed first_tick_answers.

(** One millisecond after the rejected attempt of [Fixtures], the delay
    being 2137 ms; the answers are those of a retry that fails again. *)
Definition premature_answers : LoopAnswers :=
  {| tick_now := 70001; tick_exp := 3600000; tick_was_connected := false;
     tick_disconnect := false; tick_connected := false; tick_now2 := 70001;
     tick_connect := retry_connect_answers; tick_loop := false |}.

Definition premature_script : list Event :=
  Eval vm_compute in
    loop_trace (RA := ulong_arith) upstream_backoff after_rejection premature_answers.

(** A connect that returns false while the client reports no error. *)
Definition silent_failure_script : list Event :=
  [EvPrint "Connecting MQTT... "; EvGetJwt "eyJ.fresh" 1700003600; EvMillis 80000;
   EvConnect (getClientId demo_device) "unused" "eyJ.fresh" false false;
   EvConnected false; EvPrintln "not connected"; EvLastError LWMQTT_SUCCESS].

(** The clock reads exactly the expiry of the token; the client is
    connected. *)
Definition expiry_instant_script : list Event :=
  [EvMillis 3600000; EvGetExpMillis 3600000; EvConnected true; EvLoop true].

(** The trace and the fields of a member function run against a script. *)
Definition trace_of {A} (r : A * CloudIoTCoreMqtt * World script_env * list Event)
  : list Event := r.2.
Definition fields_of {A} (r : A * CloudIoTCoreMqtt * World script_env * list Event)
  : CloudIoTCoreMqtt := r.1.1.2.

(** A broker that refuses three connects with [rc], and the numbers [random]
    draws. *)
Definition refusing_world (rc : lwmqtt_return_code_t) : RWorld :=
  world_start [Refuse rc; Refuse rc; Refuse rc] [137; 42; 300].

(** [n] calls of [mqttConnect] in the reference environment. *)
Fixpoint world_connects (cfg : BackoffConfig) (n : nat) (s : CloudIoTCoreMqtt)
    (w : RWorld) : CloudIoTCoreMqtt * RWorld :=
  match n with
  | O => (s, w)
  | S n' =>
      let r := mrun world_env (mqttConnect cfg false) s w in
      world_connects cfg n' (fields_after r) (world_after r)
  end.

(** The tokens minted, the token held and the delay after [n] connects. *)
Definition rejection_report (rc : lwmqtt_return_code_t) (n : nat) : nat * string * Z :=
  let r := world_connects upstream_backoff n constructed (refusing_world rc) in
  (w_minted r.2, jwt r.1, __backoff__ r.1).

(** ** The runs *)

(** The clean reconnect cycle.  From the constructed controller, with no
    token and the client disconnected, one call of [loop] mints a token,
    connects with it, is accepted, leaves the delay at the minimum,
    subscribes to the configuration topic at quality of service 1 and to the
    commands topic at quality of service 0, publishes the two connect
    notifications and runs the message pump. *)
Example clean_reconnect_cycle :
  let r := mrun script_env (loop (RA := wide_arith) upstream_backoff) constructed
             first_tick_script in
  minted (trace_of r) = [("eyJ.first", 1700000000)]
  /\ List.filter is_connect (trace_of r)
     = [EvConnect "projects/my-project/locations/us-central1/registries/my-registry/devices/esp32-1"
          "unused" "eyJ.first" false true]
  /\ mint_precedes_connect (trace_of r) = true
  /\ subscriptions (trace_of r)
     = [("/devices/esp32-1/config", 1); ("/devices/esp32-1/commands/#", 0)]
  /\ publications (trace_of r)
     = [("/devices/esp32-1/state", "connected", None, false, 0);
        ("/devices/esp32-1/events/events", "esp32-1-connected", None, false, 0)]
  /\ last (trace_of r) = Some (EvLoop true)
  /\ __backoff__ (fields_of r) = 1000 /\ __last_retry_at (fields_of r) = 5002
  /\ iat (fields_of r) = 1700000000 /\ jwt (fields_of r) = "eyJ.first".
Proof. by vm_compute. Qed.

(** A premature retry under the unsigned reading of the gate.  One
    millisecond after a rejected attempt, with a delay of 2137 ms, [loop]
    with the retry gate computed at [unsigned long] connects again; with
    the wide reading it does not. *)
Example premature_retry_unsigned :
  count is_connect
    (trace_of (mrun script_env (loop (RA := ulong_arith) upstream_backoff)
                 after_rejection premature_script)) = 1%nat
  /\ count is_connect
       (trace_of (mrun script_env (loop (RA := wide_arith) upstream_backoff)
                    after_rejection premature_script)) = 0%nat.
Proof. by vm_compute. Qed.

(** A refused connect taken for a success.  When [connect] returns false
    and the client is not connected but [lastError()] is [LWMQTT_SUCCESS],
    [mqttConnect] prints "Library connected!", resets the delay to the
    minimum and does not consult the return code of the broker. *)
Example silent_failure_resets_backoff :
  let r := mrun script_env (mqttConnect upstream_backoff false) after_rejection
             silent_failure_script in
  connect_results (trace_of r) = [false]
  /\ answers mqtt_connected (trace_of r) = [false]
  /\ printed (trace_of r) = ["Connecting MQTT... "; "not connected"; "Library connected!"]
  /\ answers mqtt_returnCode (trace_of r) = []
  /\ __backoff__ after_rejection = 2137 /\ __backoff__ (fields_of r) = 1000.
Proof. by vm_compute. Qed.

(** Repeated rejection.  Three consecutive calls of [mqttConnect] that
    the broker refuses as not authorized mint a token each and leave a delay
    that grows to at least twice the one before; when the broker refuses
    them as unavailable, the first token is presented three times and the
    delay grows all the same. *)
Example repeated_rejection :
  map (rejection_report LWMQTT_NOT_AUTHORIZED) [0; 1; 2; 3]%nat
  = [(0%nat, "", 1000); (1%nat, "jwt-1", 2137); (2%nat, "jwt-2", 4316);
     (3%nat, "jwt-3", 8932)]
  /\ map (rejection_report LWMQTT_SERVER_UNAVAILABLE) [0; 1; 2; 3]%nat
     = [(0%nat, "", 1000); (1%nat, "jwt-1", 2137); (1%nat, "jwt-1", 4316);
        (1%nat, "jwt-1", 8932)].
Proof. by vm_compute. Qed.

(** No refresh at the instant of expiry.  When the clock reads exactly the
    expiry time of the token and the client is connected, [loop] neither
    mints a token nor connects: the test of line 36 is strict. *)
Example no_refresh_at_expiry_instant :
  let r := mrun script_env (loop (RA := wide_arith) upstream_backoff) connected
             expiry_instant_script in
  trace_of r = expiry_instant_script /\ fields_of r = connected.
Proof. by vm_compute. Qed.
